(** * finance-agent: the polite-fetch scripts, embedded and verified

  The repository is a set of independent Python scripts.  Each module
  below embeds the functions of one script that the specification talks
  about; the theorems follow after all the definitions.

  Conventions of the embedding.
  - A JSON document decoded by Python is a value of [Py.json]; a Python
    dict is an association list in insertion order.
  - A function that can raise returns [Py.outcome]; a caught exception is
    a [match] on it.
  - The network is a function from the index of a request to what the
    server answers; time is an explicit clock in the state, advanced by
    [time.sleep] and by the duration of a request.
  - Python floats that hold seconds are rationals: rounding is not
    modelled.
  - A text is the string of its UTF-8 bytes.  What Python does with the
    characters beyond ASCII, and what a library of its own does with a
    text ([fromisoformat], [strptime], [float], [pd.to_datetime], [repr]),
    is a parameter of the function that depends on it. *)

From Stdlib Require Import List ZArith QArith Lia Lqa Bool String Ascii.
From Stdlib Require Import DecimalString Qpower Qround.
From Stdlib Require Import Sorting.Sorted Sorting.Permutation.
Import ListNotations.

#[local] Set Warnings "-register-all".
Local Open Scope string_scope.
Local Open Scope Z_scope.

(* ================================================================== *)
(** ** Python values, exceptions and builtins shared by the scripts *)
(* ================================================================== *)

Module Py.

(** What [json.loads] / [response.json()] produce. *)
Inductive json : Type :=
| JNull
| JBool (b : bool)
| JInt (n : Z)
| JFloat (x : Q)
| JStr (s : string)
| JArr (items : list json)
| JObj (fields : list (string * json)).

(** Truth value of an object as used by [if x:], [not x] and [x or y]. *)
Definition truthy (v : json) : bool :=
  match v with
  | JNull => false
  | JBool b => b
  | JInt n => negb (n =? 0)
  | JFloat x => negb (Qeq_bool x 0)
  | JStr s => negb (s =? "")%string
  | JArr items => match items with [] => false | _ => true end
  | JObj fields => match fields with [] => false | _ => true end
  end.

(** [x is None] *)
Definition is_none (v : json) : bool :=
  match v with JNull => true | _ => false end.

(** [x or y] *)
Definition or_ (x y : json) : json := if truthy x then x else y.

(** Lookup in a dict. *)
Fixpoint lookup (key : string) (fields : list (string * json)) : option json :=
  match fields with
  | [] => None
  | (k, v) :: rest => if (k =? key)%string then Some v else lookup key rest
  end.

(** [key in d] *)
Definition has_key (key : string) (fields : list (string * json)) : bool :=
  match lookup key fields with Some _ => true | None => false end.

(** [d.get(key)], with [None] for a missing key. *)
Definition get (key : string) (fields : list (string * json)) : json :=
  match lookup key fields with Some v => v | None => JNull end.

(** [d.get(key, default)] *)
Definition get_default (key : string) (default : json)
    (fields : list (string * json)) : json :=
  match lookup key fields with Some v => v | None => default end.

(** [list(d.keys())] *)
Definition keys (fields : list (string * json)) : list string :=
  map fst fields.

(** The exception classes the scripts raise, catch or let through. *)
Inductive av_reason : Type :=
| NonJsonResponse
| RateMessage (attempts : Z) (note_msg : json)
| ApiError (message : json)
| Exhausted
| MissingKey (key : string) (present : list string).

Inductive exn : Type :=
| RequestException        (* requests: connection errors, timeouts *)
| HTTPError               (* requests / urllib: bad status *)
| URLError
| TimeoutError
| JSONDecodeError
| UnicodeDecodeError
| ValueError
| KeyError
| TypeError
| AttributeError
| OverflowError
| OSError
| ZeroDivisionError
| AssertionError
| RuntimeError (cause : exn)
| AlphaVantageError (why : av_reason)
| OtherException.

Inductive outcome (A : Type) : Type :=
| Return (a : A)
| Raise (e : exn).
Arguments Return {A} a.
Arguments Raise {A} e.

Definition bind {A B : Type} (m : outcome A) (k : A -> outcome B) : outcome B :=
  match m with
  | Return a => k a
  | Raise e => Raise e
  end.

(** Iterating a decoded value, as [for x in v] and [list.extend(v)] do:
    a list yields its items, a dict its keys, a string its characters;
    anything else is not iterable ([TypeError]). *)
Fixpoint chars (s : string) : list json :=
  match s with
  | EmptyString => []
  | String c rest => JStr (String c EmptyString) :: chars rest
  end.

Definition iter (v : json) : outcome (list json) :=
  match v with
  | JArr items => Return items
  | JObj fields => Return (map (fun kv => JStr (fst kv)) fields)
  | JStr s => Return (chars s)
  | _ => Raise TypeError
  end.

(** *** Integer literals: [str.isdigit], [int(str)] and [str(int)]

    A text is held as its UTF-8 bytes.  What [str.isdigit] and [int] do
    with a text of ASCII characters is defined here.  For a text with
    other characters the tables of Unicode decide: superscript two is a
    digit for [isdigit] and none for [int], which in turn reads the
    decimal digits and skips the blanks of every script.  The tables are
    not reproduced; what the two functions answer for such a text is a
    parameter of the embedding, [unicode].

    CPython converts between [int] and [str] up to
    [sys.int_max_str_digits] digits, 4300 unless it is set, and raises
    [ValueError] beyond. *)

Definition is_digit (c : ascii) : bool :=
  let n := nat_of_ascii c in ((48 <=? n) && (n <=? 57))%nat.

Definition digit_value (c : ascii) : Z := Z.of_nat (nat_of_ascii c) - 48.

(** Whitespace removed by [int()] around a literal of ASCII
    characters: tab, line feed, vertical tab, form feed, carriage return
    and space. *)
Definition is_space (c : ascii) : bool :=
  let n := nat_of_ascii c in
  (((9 <=? n) && (n <=? 13)) || (n =? 32))%nat.

Definition is_ascii (c : ascii) : bool := (nat_of_ascii c <? 128)%nat.

Fixpoint all_ascii (s : string) : bool :=
  match s with
  | EmptyString => true
  | String c rest => is_ascii c && all_ascii rest
  end.

(** The number of decimal digits in a text. *)
Fixpoint count_digits (s : string) : Z :=
  match s with
  | EmptyString => 0
  | String c rest => (if is_digit c then 1 else 0) + count_digits rest
  end.

Definition max_str_digits : Z := 4300.

(** What the Unicode tables decide. *)
Record unicode : Type := {
  isdigit_beyond_ascii : string -> bool;
  int_beyond_ascii : string -> option Z
}.

(** [s.isdigit()] on an ASCII string: at least one character, all
    decimal digits. *)
Fixpoint all_digits (s : string) : bool :=
  match s with
  | EmptyString => true
  | String c rest => is_digit c && all_digits rest
  end.

Definition ascii_isdigit (s : string) : bool :=
  match s with
  | EmptyString => false
  | _ => all_digits s
  end.

(** [s.isdigit()] *)
Definition isdigit (u : unicode) (s : string) : bool :=
  if all_ascii s then ascii_isdigit s else isdigit_beyond_ascii u s.

Fixpoint lstrip (s : string) : string :=
  match s with
  | String c rest => if is_space c then lstrip rest else s
  | EmptyString => EmptyString
  end.

Fixpoint rstrip (s : string) : string :=
  match s with
  | EmptyString => EmptyString
  | String c rest =>
      match rstrip rest with
      | EmptyString => if is_space c then EmptyString else String c EmptyString
      | rest' => String c rest'
      end
  end.

Definition strip (s : string) : string := rstrip (lstrip s).

(** Digits with single underscores allowed between two digits;
    [after_digit] tells whether the previous character was a digit. *)
Fixpoint digits (s : string) (acc : Z) (after_digit : bool) : option Z :=
  match s with
  | EmptyString => if after_digit then Some acc else None
  | String c rest =>
      if is_digit c then digits rest (10 * acc + digit_value c) true
      else if (Ascii.eqb c "_" && after_digit)%bool then
        match rest with
        | String d _ => if is_digit d then digits rest acc false else None
        | EmptyString => None
        end
      else None
  end.

(** [int(s)] for an ASCII string in base ten, without the limit. *)
Definition ascii_int (s : string) : option Z :=
  match strip s with
  | String "-" rest => option_map Z.opp (digits rest 0 false)
  | String "+" rest => digits rest 0 false
  | t => digits t 0 false
  end.

(** [int(s)] for a string in base ten; [None] is [ValueError]. *)
Definition int_of_string (u : unicode) (s : string) : option Z :=
  if all_ascii s then
    if count_digits s <=? max_str_digits then ascii_int s else None
  else int_beyond_ascii u s.

(** [str(n)]; [None] is [ValueError]. *)
Definition str_of_int (n : Z) : option string :=
  let text := NilEmpty.string_of_int (Z.to_int n) in
  if count_digits text <=? max_str_digits then Some text else None.

(** *** Sorting: [sorted] and [list.sort] are stable *)

Section Sort.
Context {A : Type} (leb : A -> A -> bool).

Fixpoint insert (x : A) (l : list A) : list A :=
  match l with
  | [] => [x]
  | y :: rest => if leb x y then x :: l else y :: insert x rest
  end.

(** The element that comes first in the input is inserted last, in
    front of the elements it is not greater than: equal keys keep their
    input order. *)
Definition sort (l : list A) : list A := fold_right insert [] l.
End Sort.

Definition sort_by {A K : Type} (leb : K -> K -> bool) (key : A -> K)
    (l : list A) : list A :=
  sort (fun x y => leb (key x) (key y)) l.

(** *** Dicts under construction: insertion order, one entry per key *)

Fixpoint assign {V : Type} (key : Z) (v : V) (d : list (Z * V)) : list (Z * V) :=
  match d with
  | [] => [(key, v)]
  | (k, w) :: rest =>
      if k =? key then (k, v) :: rest else (k, w) :: assign key v rest
  end.

Fixpoint find {V : Type} (key : Z) (d : list (Z * V)) : option V :=
  match d with
  | [] => None
  | (k, w) :: rest => if k =? key then Some w else find key rest
  end.

(** *** Calendar dates

    A [datetime.date] is represented by its day number, counted from
    1970-01-01; dates are ordered as their day numbers are. *)

(** [date(y, m, d)] *)
Definition days_from_civil (y m d : Z) : Z :=
  let y' := if m <=? 2 then y - 1 else y in
  let era := y' / 400 in
  let yoe := y' - era * 400 in
  let mp := (m + 9) mod 12 in
  let doy := (153 * mp + 2) / 5 + d - 1 in
  let doe := yoe * 365 + yoe / 4 - yoe / 100 + doy in
  era * 146097 + doe - 719468.

(** Year, month and day of a day number.  The calendar repeats every
    146097 days (400 years), counted from a first of March:
    [civil_of_doe] places a day within such an era. *)
Definition civil_of_doe (doe : Z) : Z * Z * Z :=
  let yoe := (doe - doe / 1460 + doe / 36524 - doe / 146096) / 365 in
  let doy := doe - (365 * yoe + yoe / 4 - yoe / 100) in
  let mp := (5 * doy + 2) / 153 in
  let d := doy - (153 * mp + 2) / 5 + 1 in
  let m := if mp <? 10 then mp + 3 else mp - 9 in
  (if m <=? 2 then yoe + 1 else yoe, m, d).

Definition civil_from_days (days : Z) : Z * Z * Z :=
  let z := days + 719468 in
  let era := z / 146097 in
  let '(y, m, d) := civil_of_doe (z - era * 146097) in
  (y + era * 400, m, d).

(** The order of dates as triples. *)
Definition triple_lt (a b : Z * Z * Z) : Prop :=
  let '(y1, m1, d1) := a in
  let '(y2, m2, d2) := b in
  y1 < y2 \/ (y1 = y2 /\ (m1 < m2 \/ (m1 = m2 /\ d1 < d2))).

Definition triple_ltb (a b : Z * Z * Z) : bool :=
  let '(y1, m1, d1) := a in
  let '(y2, m2, d2) := b in
  (y1 <? y2) || ((y1 =? y2) && ((m1 <? m2) || ((m1 =? m2) && (d1 <? d2)))).

(** What is checked of each day of an era, given its date and the date
    of the next day: month and day are in their ranges, the year of the
    era is between 0 and 400, with March as the first month of year 0 and
    February as the last of year 400, and the next day of the era has a
    later date. *)
Definition era_day_check (doe : Z) (today next : Z * Z * Z) : bool :=
  let '(y, m, d) := today in
  (1 <=? m) && (m <=? 12) && (1 <=? d) && (d <=? 31)
  && (0 <=? y) && (y <=? 400)
  && ((y <? 400) || (m <=? 2)) && ((0 <? y) || (3 <=? m))
  && ((doe =? 146096) || triple_ltb today next).

Definition era_day_ok (doe : Z) : bool :=
  era_day_check doe (civil_of_doe doe) (civil_of_doe (doe + 1)).

(** The check run over the days [0 .. n-1]: the next day to check, its
    date, and whether all went well so far. *)
Definition era_check_step (st : Z * (Z * Z * Z) * bool) : Z * (Z * Z * Z) * bool :=
  let '(doe, today, ok) := st in
  let next := civil_of_doe (doe + 1) in
  (doe + 1, next, ok && era_day_check doe today next).

Definition era_checked (n : positive) : Z * (Z * Z * Z) * bool :=
  Pos.iter era_check_step (0, civil_of_doe 0, true) n.

Definition digit_char (n : Z) : ascii := ascii_of_nat (48 + Z.to_nat (n mod 10)).

(** ["%02d"] and ["%04d"] of a number that fits. *)
Definition pad2 (n : Z) : string :=
  String (digit_char (n / 10)) (String (digit_char n) EmptyString).

Definition pad4 (n : Z) : string :=
  String (digit_char (n / 1000)) (String (digit_char (n / 100)) (pad2 n)).

(** [date.isoformat()] *)
Definition format_date (t : Z * Z * Z) : string :=
  let '(y, m, d) := t in
  pad4 y ++ "-" ++ pad2 m ++ "-" ++ pad2 d.

Definition isoformat (days : Z) : string := format_date (civil_from_days days).

(** The days [datetime] can hold: 0001-01-01 to 9999-12-31. *)
Definition min_day : Z := -719162.
Definition max_day : Z := 2932896.

(** *** How a process ends *)

Inductive termination : Type :=
| Completed                  (* the module body ran to its end *)
| SystemExit (code : Z)      (* [raise SystemExit(code)] *)
| Uncaught (e : exn).        (* an exception left the module body *)

Definition exit_status (t : termination) : Z :=
  match t with
  | Completed => 0
  | SystemExit code => code
  | Uncaught _ => 1
  end.

End Py.

Import Py.

(* ================================================================== *)
(** ** market/OHLCV/alpha_vantage_OHLCV_fetch.py: the retry helper
       (market/macro/macro_fetch.py carries the same helper)          *)
(* ================================================================== *)

Module OHLCV.

(** What one [requests.get] brings back: it raises, or there is a response
    whose body [response.json()] decodes ([None] when decoding raises
    [ValueError]).  The status code is carried although the helper never
    looks at it. *)
Inductive reply : Type :=
| Unreachable
| Response (status : Z) (body : option json).

(** What the helper does to the outside world, in order. *)
Inductive event : Type :=
| Get
| Sleep (seconds : Z).

(** [payload.get("Note") or payload.get("Information")] *)
Definition note_msg (fields : list (string * json)) : json :=
  or_ (get "Note" fields) (get "Information" fields).

(** The body of the [for attempt in range(1, max_retries + 1)] loop, for
    the [todo] iterations that remain; [k] requests were sent before. *)
Fixpoint attempts (server : nat -> reply) (max_retries : Z)
    (todo k : nat) (backoff_seconds : Z) : outcome json * list event :=
  match todo with
  | O => (Raise (AlphaVantageError Exhausted), [])
  | S todo' =>
      let attempt := Z.of_nat k + 1 in
      match server k with
      | Unreachable => (Raise RequestException, [Get])
      | Response _ None => (Raise (AlphaVantageError NonJsonResponse), [Get])
      | Response _ (Some (JObj fields)) =>
          if truthy (note_msg fields) then
            if attempt =? max_retries then
              (Raise (AlphaVantageError (RateMessage attempt (note_msg fields))),
               [Get])
            else
              let (result, rest) :=
                attempts server max_retries todo' (S k)
                         (Z.min (backoff_seconds * 2) 120) in
              (result, Get :: Sleep backoff_seconds :: rest)
          else if has_key "Error Message" fields then
            (Raise (AlphaVantageError (ApiError (get "Error Message" fields))),
             [Get])
          else (Return (JObj fields), [Get])
      | Response _ (Some _) => (Raise AttributeError, [Get])
      end
  end.

Definition _request_with_retries (server : nat -> reply) (max_retries : Z)
    : outcome json * list event :=
  attempts server max_retries (Z.to_nat max_retries) 0 15.

(** Readings of a run. *)
Definition requests (tr : list event) : nat :=
  List.length (filter (fun e => match e with Get => true | _ => false end) tr).

Fixpoint sleeps (tr : list event) : list Z :=
  match tr with
  | [] => []
  | Sleep s :: rest => s :: sleeps rest
  | Get :: rest => sleeps rest
  end.

(** A reply that carries the throttling signal. *)
Definition throttled (r : reply) : Prop :=
  exists status fields,
    r = Response status (Some (JObj fields)) /\ truthy (note_msg fields) = true.

(** The geometric sequence the specification describes: [base * mult^i]
    for [i = 0 .. n-1], each term cut at [cap]. *)
Definition capped_geometric (base mult cap : Z) (n : nat) : list Z :=
  map (fun i => Z.min (base * mult ^ Z.of_nat i) cap) (seq 0 n).

(** *** The daily series *)

(** [date(2024, 1, 1)] and [date(2025, 10, 31)]. *)
Definition START_DATE : Z := days_from_civil 2024 1 1.
Definition END_DATE : Z := days_from_civil 2025 10 31.

(** One output row of [fetch_stock_daily]. *)
Record bar : Type := {
  date : string;
  symbol : string;
  asset_type : string;
  open : Q;
  high : Q;
  low : Q;
  close : Q;
  volume : Q
}.

(** The least integer [float] refuses: halfway between the largest
    float and [2^1024], since ties go to the even neighbour. *)
Definition float_overflow : Z := 2 ^ 1024 - 2 ^ 970.

(** [row[key]]: only a dict can be indexed by a string. *)
Definition getitem (key : string) (row : json) : outcome json :=
  match row with
  | JObj fields =>
      match lookup key fields with
      | Some v => Return v
      | None => Raise KeyError
      end
  | _ => Raise TypeError
  end.

Section Series.

(** [dt.date.fromisoformat]: the date a text denotes, [None] when it
    raises [ValueError]. *)
Variable fromisoformat : string -> option Z.

(** The entries of a series whose key reads as a date of the window. *)
Definition inside (entry : string * json) : bool :=
  match fromisoformat (fst entry) with
  | Some d => (START_DATE <=? d) && (d <=? END_DATE)
  | None => false
  end.

(** [float] on a string, [None] when it raises [ValueError]. *)
Variable float_of_string : string -> option Q.

Definition _within_range (date_str : string) : outcome bool :=
  match fromisoformat date_str with
  | None => Raise ValueError
  | Some d => Return ((START_DATE <=? d) && (d <=? END_DATE))
  end.

(** [float(x)]; an int that rounds to a float beyond the largest one
    is refused with [OverflowError]. *)
Definition float (x : json) : outcome Q :=
  match x with
  | JStr s =>
      match float_of_string s with
      | Some q => Return q
      | None => Raise ValueError
      end
  | JInt n =>
      if Z.abs n <? float_overflow then Return (inject_Z n)
      else Raise OverflowError
  | JFloat q => Return q
  | JBool b => Return (if b then 1%Q else 0%Q)
  | JNull | JArr _ | JObj _ => Raise TypeError
  end.

(** The dict appended for one entry of the series. *)
Definition stock_bar (sym date_str : string) (row : json) : outcome bar :=
  bind (bind (getitem "1. open" row) float) (fun o =>
  bind (bind (getitem "2. high" row) float) (fun h =>
  bind (bind (getitem "3. low" row) float) (fun l =>
  bind (bind (getitem "4. close" row) float) (fun c =>
  bind (bind (getitem "5. volume" row) float) (fun v =>
  Return {| date := date_str; symbol := sym; asset_type := "equity";
            open := o; high := h; low := l; close := c; volume := v |}))))).

(** [for date_str, row in series.items()] *)
Fixpoint collect (sym : string) (series : list (string * json))
    (records : list bar) : outcome (list bar) :=
  match series with
  | [] => Return records
  | (date_str, row) :: rest =>
      bind (_within_range date_str) (fun inside =>
        if negb inside then collect sym rest records
        else bind (stock_bar sym date_str row) (fun b =>
               collect sym rest (records ++ [b])%list))
  end.

(** What [fetch_stock_daily] does with the payload the helper returned. *)
Definition daily_rows (sym : string) (payload : json) : outcome (list bar) :=
  match payload with
  | JObj fields =>
      match lookup "Time Series (Daily)" fields with
      | None =>
          Raise (AlphaVantageError
                   (MissingKey "Time Series (Daily)" (keys fields)))
      | Some (JObj series) =>
          bind (collect sym series [])
               (fun records => Return (sort_by String.leb date records))
      | Some _ => Raise AttributeError
      end
  | _ => Raise TypeError
  end.

Definition fetch_stock_daily (server : nat -> reply) (sym : string)
    : outcome (list bar) * list event :=
  let (payload, tr) := _request_with_retries server 6 in
  (bind payload (daily_rows sym), tr).

End Series.

End OHLCV.

(* ================================================================== *)
(** ** market/macro/macro_fetch.py                                     *)
(* ================================================================== *)

Module Macro.

(** The script carries its own copy of the retry helper and of the date
    window; both read as the ones of the OHLCV script. *)
Definition _request_with_retries := OHLCV._request_with_retries.
Definition START_DATE : Z := days_from_civil 2024 1 1.
Definition END_DATE : Z := days_from_civil 2025 10 31.

(** One output row of [fetch_indicator]. *)
Record reading : Type := {
  date : json;
  indicator : string;
  value : Q
}.

(** The [date] column as the sort compares it. *)
Definition date_text (r : reading) : string :=
  match date r with JStr s => s | _ => "" end.

Section Indicator.

Variable fromisoformat : string -> option Z.
Variable float_of_string : string -> option Q.

(** [_within_range(date_str)]: the argument comes from the payload and
    need not be a string. *)
Definition _within_range (date_str : json) : outcome bool :=
  match date_str with
  | JStr s =>
      match fromisoformat s with
      | None => Raise ValueError
      | Some d => Return ((START_DATE <=? d) && (d <=? END_DATE))
      end
  | _ => Raise TypeError
  end.

(** [item.get(key)] on an element of the payload. *)
Definition item_get (key : string) (item : json) : outcome json :=
  match item with
  | JObj fields => Return (get key fields)
  | _ => Raise AttributeError
  end.

(** What one iteration of the loop does with its element. *)
Inductive verdict : Type :=
| Skip
| Keep (r : reading)
| Abort (e : exn).

Definition examine (indicator_code : string) (item : json) : verdict :=
  match item_get "date" item, item_get "value" item with
  | Raise e, _ | _, Raise e => Abort e
  | Return date_str, Return value_str =>
      if negb (truthy date_str) || is_none value_str then Skip
      else match _within_range date_str with
           | Raise e => Abort e
           | Return false => Skip
           | Return true =>
               match OHLCV.float float_of_string value_str with
               | Raise TypeError | Raise ValueError => Skip
               | Raise e => Abort e
               | Return v =>
                   Keep {| date := date_str; indicator := indicator_code;
                           value := v |}
               end
           end
  end.

(** [for item in payload["data"]] *)
Fixpoint collect (indicator_code : string) (items : list json)
    (rows : list reading) : outcome (list reading) :=
  match items with
  | [] => Return rows
  | item :: rest =>
      match examine indicator_code item with
      | Skip => collect indicator_code rest rows
      | Keep r => collect indicator_code rest (rows ++ [r])%list
      | Abort e => Raise e
      end
  end.

(** What [fetch_indicator] does with the payload the helper returned. *)
Definition indicator_rows (indicator_code : string) (payload : json)
    : outcome (list reading) :=
  match payload with
  | JObj fields =>
      match lookup "data" fields with
      | None => Raise (AlphaVantageError (MissingKey "data" (keys fields)))
      | Some data =>
          bind (iter data) (fun items =>
          bind (collect indicator_code items [])
               (fun rows => Return (sort_by String.leb date_text rows)))
      end
  | _ => Raise TypeError
  end.

Definition fetch_indicator (server : nat -> OHLCV.reply)
    (indicator_code : string) : outcome (list reading) * list OHLCV.event :=
  let (payload, tr) := _request_with_retries server 6 in
  (bind payload (indicator_rows indicator_code), tr).

End Indicator.

End Macro.

(* ================================================================== *)
(** ** market/fng/fng_fetch.py: the retry helper                       *)
(* ================================================================== *)

Module FngHttp.

(** The body of a response: bytes that are not UTF-8, text that is not
    JSON, or a document. *)
Inductive content : Type :=
| Undecodable
| Malformed
| Document (j : json).

(** [urlopen] raises, or yields a response. *)
Inductive reply : Type :=
| Fails (e : exn)
| Response (status : Z) (body : content).

Inductive event : Type :=
| Urlopen
| Sleep (seconds : Q).

(** [except (HTTPError, URLError, TimeoutError, json.JSONDecodeError)] *)
Definition caught (e : exn) : bool :=
  match e with
  | HTTPError | URLError | TimeoutError | JSONDecodeError => true
  | _ => false
  end.

(** The [try] block of one attempt. *)
Definition request (r : reply) : outcome json :=
  match r with
  | Fails e => Raise e
  | Response status body =>
      if negb (status =? 200) then Raise HTTPError
      else match body with
           | Undecodable => Raise UnicodeDecodeError
           | Malformed => Raise JSONDecodeError
           | Document j => Return j
           end
  end.

(** The code after the loop. *)
Definition after_loop (last_err : option exn) : outcome json :=
  match last_err with
  | None => Raise AssertionError
  | Some e => Raise (RuntimeError e)
  end.

(** [for attempt in range(retries)], [todo] iterations left. *)
Fixpoint attempts (server : nat -> reply) (retries : Z) (backoff : Q)
    (todo attempt : nat) (last_err : option exn) : outcome json * list event :=
  match todo with
  | O => (after_loop last_err, [])
  | S todo' =>
      match request (server attempt) with
      | Return j => (Return j, [Urlopen])
      | Raise e =>
          if caught e then
            if Z.of_nat attempt <? retries - 1 then
              let (result, rest) :=
                attempts server retries backoff todo' (S attempt) (Some e) in
              (result, Urlopen :: Sleep (backoff ^ Z.of_nat attempt)%Q :: rest)
            else (after_loop (Some e), [Urlopen])
          else (Raise e, [Urlopen])
      end
  end.

Definition _http_get_json (server : nat -> reply) (retries : Z) (backoff : Q)
    : outcome json * list event :=
  attempts server retries backoff (Z.to_nat retries) 0 None.

Definition requests (tr : list event) : nat :=
  List.length (filter (fun e => match e with Urlopen => true | _ => false end) tr).

Fixpoint sleeps (tr : list event) : list Q :=
  match tr with
  | [] => []
  | Sleep s :: rest => s :: sleeps rest
  | Urlopen :: rest => sleeps rest
  end.

(** An attempt that ends in one of the caught exceptions. *)
Definition failing (r : reply) : Prop :=
  exists e, request r = Raise e /\ caught e = true.

(** [fetch_all_fng] calls the helper with these arguments. *)
Definition fetch_all_fng_retries : Z := 3.
Definition fetch_all_fng_backoff : Q := 16 # 10.

End FngHttp.

(* ================================================================== *)
(** ** market/fng/fng_fetch.py: filtering and normalising the records  *)
(* ================================================================== *)

Module Fng.

Definition SOURCE_NAME : string := "Alternative.me Fear and Greed Index".
Definition SOURCE_URL : string := "https://api.alternative.me/fng/".

(** One output row. *)
Record row : Type := {
  date : string;
  value : option Z;
  value_classification : option string;
  timestamp : Z;
  source : string;
  source_url : string
}.

(** The day a Unix time falls on. *)
Definition day_of (ts : Z) : Z := ts / 86400.

(** [utcfromtimestamp] raises for a time outside the years 1 to 9999.
    On Linux the class of the exception goes by how far outside it is:
    [OverflowError] when the number does not fit the 64 bits of [time_t],
    [OSError] when [gmtime] cannot hold the year (counted from 1900 in
    32 bits), [ValueError] when only [datetime] cannot hold it. *)
Definition out_of_range (ts : Z) : exn :=
  if (ts <? - 2 ^ 63) || (2 ^ 63 <=? ts) then OverflowError
  else
    let '(y, _, _) := civil_from_days (day_of ts) in
    if (y - 1900 <? - 2 ^ 31) || (2 ^ 31 <=? y - 1900) then OSError
    else ValueError.

(** [_to_utc_date_from_unix_seconds] *)
Definition _to_utc_date_from_unix_seconds (ts : Z) : outcome Z :=
  if (min_day <=? day_of ts) && (day_of ts <=? max_day)
  then Return (day_of ts)
  else Raise (out_of_range ts).

(** What holds of the dict [by_date] while the loop fills it: one entry
    per day, each stored under the day of its timestamp, inside the
    window, with the row made for that timestamp. *)
Definition well_keyed (start_date end_date : Z) (d : list (Z * (Z * row)))
    : Prop :=
  NoDup (map fst d)
  /\ forall day ts r,
       In (day, (ts, r)) d ->
       day = day_of ts /\ timestamp r = ts
       /\ start_date <= day <= end_date /\ date r = isoformat day
       /\ min_day <= day <= max_day.

Section Filter.

(** The text Python prints for a float, a list or a dict; [None] when
    printing raises [ValueError], as it does for a list that holds an
    int of more digits than [str] converts. *)
Variable repr : json -> option string.

(** What [isdigit] and [int] make of a text that is not ASCII. *)
Variable u : unicode.

(** [str(v)] *)
Definition str (v : json) : outcome string :=
  match v with
  | JStr s => Return s
  | JNull => Return "None"
  | JBool true => Return "True"
  | JBool false => Return "False"
  | JInt n =>
      match str_of_int n with
      | Some text => Return text
      | None => Raise ValueError
      end
  | JFloat _ | JArr _ | JObj _ =>
      match repr v with
      | Some text => Return text
      | None => Raise ValueError
      end
  end.

(** [int(value_str)] where it is evaluated: on an int, a bool or a
    string. *)
Definition int (v : json) : outcome Z :=
  match v with
  | JInt n => Return n
  | JBool b => Return (if b then 1 else 0)
  | JStr s =>
      match int_of_string u s with
      | Some n => Return n
      | None => Raise ValueError
      end
  | _ => Raise TypeError
  end.

(** [int(str(ts_raw))] inside its [try]: [None] when [ValueError] is
    caught, the only exception [str] and [int] raise here. *)
Definition read_timestamp (ts_raw : json) : option Z :=
  match str ts_raw with
  | Return text => int_of_string u text
  | Raise _ => None
  end.

(** [isinstance(value_str, (int, str))]; a bool is an int. *)
Definition is_int_or_str (v : json) : bool :=
  match v with
  | JInt _ | JBool _ | JStr _ => true
  | _ => false
  end.

(** [int(value_str) if isinstance(value_str, (int, str)) and
    str(value_str).isdigit() else None] *)
Definition normalized_value (value_str : json) : outcome (option Z) :=
  if is_int_or_str value_str then
    bind (str value_str) (fun text =>
    if isdigit u text
    then bind (int value_str) (fun n => Return (Some n))
    else Return None)
  else Return None.

(** [str(classification) if classification is not None else None] *)
Definition normalized_classification (classification : json)
    : outcome (option string) :=
  match classification with
  | JNull => Return None
  | _ => bind (str classification) (fun text => Return (Some text))
  end.

(** What one iteration of the loop does with its record: it goes on to
    the next one, it lets an exception through, or it reaches the
    assignment guarded by [prev is None or ts >= prev[0]]. *)
Inductive verdict : Type :=
| Skip
| Abort (e : exn)
| Candidate (day ts : Z) (normalized : row).

(** The dict built for a record that is kept: the value is evaluated
    before the classification. *)
Definition normalized (fields : list (string * json)) (day ts : Z)
    : outcome row :=
  bind (normalized_value (get "value" fields)) (fun v =>
  bind (normalized_classification (get "value_classification" fields))
       (fun c =>
  Return {| date := isoformat day;
            value := v;
            value_classification := c;
            timestamp := ts;
            source := SOURCE_NAME;
            source_url := SOURCE_URL |})).

Definition examine (start_date end_date : Z) (rec : json) : verdict :=
  match rec with
  | JObj fields =>
      let ts_raw := get "timestamp" fields in
      if is_none ts_raw then Skip
      else
        match read_timestamp ts_raw with
        | None => Skip
        | Some ts =>
            match _to_utc_date_from_unix_seconds ts with
            | Raise e => Abort e
            | Return day =>
                if (day <? start_date) || (end_date <? day) then Skip
                else
                  match normalized fields day ts with
                  | Raise e => Abort e
                  | Return r => Candidate day ts r
                  end
            end
        end
  | _ => Abort AttributeError
  end.

(** [prev is None or ts >= prev[0]] *)
Definition overwrites (prev : option (Z * row)) (ts : Z) : bool :=
  match prev with
  | None => true
  | Some p => fst p <=? ts
  end.

(** [prev = by_date.get(day)] and the guarded assignment. *)
Definition store (day ts : Z) (normalized : row)
    (by_date : list (Z * (Z * row))) : list (Z * (Z * row)) :=
  if overwrites (find day by_date) ts
  then assign day (ts, normalized) by_date
  else by_date.

(** [for rec in records] *)
Fixpoint fill (start_date end_date : Z) (records : list json)
    (by_date : list (Z * (Z * row))) : outcome (list (Z * (Z * row))) :=
  match records with
  | [] => Return by_date
  | rec :: rest =>
      match examine start_date end_date rec with
      | Skip => fill start_date end_date rest by_date
      | Abort e => Raise e
      | Candidate day ts normalized =>
          fill start_date end_date rest (store day ts normalized by_date)
      end
  end.

(** The two sorts at the end: the stored pairs by the day of their
    timestamp, then the rows by their ["date"] text. *)
Definition emit (by_date : list (Z * (Z * row))) : list row :=
  sort_by String.leb date
    (map snd (sort_by Z.leb (fun x : Z * row => day_of (fst x))
                      (map snd by_date))).

Definition filter_and_normalize_records (records : list json)
    (start_date end_date : Z) : outcome (list row) :=
  bind (fill start_date end_date records []) (fun by_date =>
  Return (emit by_date)).

(** The day of a record, for the records whose timestamp is there and
    reads as an integer. *)
Definition day_of_record (rec : json) : option Z :=
  match rec with
  | JObj fields =>
      let ts_raw := get "timestamp" fields in
      if is_none ts_raw then None
      else option_map day_of (read_timestamp ts_raw)
  | _ => None
  end.

(** The days of the rows. *)
Definition row_day (r : row) : Z := day_of (timestamp r).

(** "The last-written record for a key wins", said of an input and its
    output: the row of a day is the one made for the last record of the
    input that falls on that day. *)
Definition last_record_wins (start_date end_date : Z) (records : list json)
    (rows : list row) : Prop :=
  forall r,
    In r rows ->
    exists pre rec post,
      records = (pre ++ rec :: post)%list
      /\ examine start_date end_date rec
         = Candidate (row_day r) (timestamp r) r
      /\ forall rec', In rec' post -> day_of_record rec' <> Some (row_day r).

(** A record on which the loop body does not raise: a dict; when its
    timestamp reads as an integer, a time [datetime] can hold; and when
    the day of that time lies in the window, a value and a
    classification that can be put into the row. *)
Definition tolerated (start_date end_date : Z) (rec : json) : bool :=
  match rec with
  | JObj fields =>
      let ts_raw := get "timestamp" fields in
      if is_none ts_raw then true
      else
        match read_timestamp ts_raw with
        | None => true
        | Some ts =>
            (min_day <=? day_of ts) && (day_of ts <=? max_day)
            && ((day_of ts <? start_date) || (end_date <? day_of ts)
                || match normalized_value (get "value" fields),
                         normalized_classification
                           (get "value_classification" fields) with
                   | Return _, Return _ => true
                   | _, _ => false
                   end)
        end
  | _ => false
  end.

End Filter.

End Fng.

(* ================================================================== *)
(** ** SEC Fillings/nvda_ko_earnings_call_fetch.py: the rate-limited GET *)
(* ================================================================== *)

Module SeekingAlpha.

(** The module-level configuration constants. *)
Record config : Type := {
  MIN_SECONDS_BETWEEN_REQUESTS : Q;
  MAX_RETRIES : Z;
  BACKOFF_FACTOR : Q
}.

(** Their values in the script. *)
Definition configured : config :=
  {| MIN_SECONDS_BETWEEN_REQUESTS := 2; MAX_RETRIES := 3; BACKOFF_FACTOR := 2 |}.

(** [SESSION.get] raises a [requests.RequestException], or yields a
    response. *)
Inductive reply : Type :=
| ConnectionFailed
| Response (status : Z) (text : string).

(** One request as the server sees it: how long it takes and how it ends. *)
Record exchange : Type := { duration : Q; answer : reply }.

(** Why the process sleeps: to keep the minimum spacing, to back off
    after a failure, or between two downloads. *)
Inductive pause : Type :=
| Spacing
| Backoff
| Politeness.

Inductive event : Type :=
| Slept (why : pause) (seconds : Q)
| Requested (started finished : Q) (ok : bool).

(** The process: the monotonic clock, the module-level marker
    [_LAST_REQUEST_TIME], the number of requests sent so far and what
    happened so far. *)
Record state : Type := {
  clock : Q;
  _LAST_REQUEST_TIME : Q;
  sent : nat;
  history : list event
}.

(** The state of a fresh process whose monotonic clock reads [t0]. *)
Definition boot (t0 : Q) : state :=
  {| clock := t0; _LAST_REQUEST_TIME := 0; sent := 0%nat; history := [] |}.

Definition Qlt_bool (x y : Q) : bool := negb (Qle_bool y x).

(** [time.sleep(seconds)] *)
Definition sleep (why : pause) (seconds : Q) (st : state) : state :=
  {| clock := (clock st + seconds)%Q;
     _LAST_REQUEST_TIME := _LAST_REQUEST_TIME st;
     sent := sent st;
     history := history st ++ [Slept why seconds] |}.

(** [resp.raise_for_status()] raises for 4xx and 5xx. *)
Definition raise_for_status (status : Z) : bool :=
  (400 <=? status) && (status <? 600).

(** The first lines of the loop body: wait out what is left of the
    minimum spacing since the marker. *)
Definition wait_for (cfg : config) (st : state) : Q :=
  (MIN_SECONDS_BETWEEN_REQUESTS cfg - (clock st - _LAST_REQUEST_TIME st))%Q.

Definition enforce_spacing (cfg : config) (st : state) : state :=
  if Qlt_bool 0 (wait_for cfg st) then sleep Spacing (wait_for cfg st) st else st.

(** The [try] block: the request is sent and takes its time; on a good
    status the marker is set to the clock read after it. *)
Definition send (server : nat -> exchange) (st : state)
    : outcome (Z * string) * state :=
  let x := server (sent st) in
  let finished := (clock st + duration x)%Q in
  let ok := match answer x with
            | ConnectionFailed => false
            | Response status _ => negb (raise_for_status status)
            end in
  let st' := {| clock := finished;
                _LAST_REQUEST_TIME :=
                  if ok then finished else _LAST_REQUEST_TIME st;
                sent := S (sent st);
                history := history st ++ [Requested (clock st) finished ok] |} in
  match answer x with
  | ConnectionFailed => (Raise RequestException, st')
  | Response status text =>
      if raise_for_status status then (Raise HTTPError, st')
      else (Return (status, text), st')
  end.

(** [except requests.RequestException]: [HTTPError] is one. *)
Definition is_request_exception (e : exn) : bool :=
  match e with
  | RequestException | HTTPError => true
  | _ => false
  end.

(** [for attempt in range(1, MAX_RETRIES + 1)], [todo] iterations left.
    Falling out of the loop returns [None]. *)
Fixpoint attempts (cfg : config) (server : nat -> exchange)
    (todo : nat) (attempt : Z) (st : state)
    : outcome (option (Z * string)) * state :=
  match todo with
  | O => (Return None, st)
  | S todo' =>
      let st1 := enforce_spacing cfg st in
      match send server st1 with
      | (Return resp, st2) => (Return (Some resp), st2)
      | (Raise e, st2) =>
          if is_request_exception e then
            if attempt =? MAX_RETRIES cfg then (Raise e, st2)
            else
              let backoff_seconds :=
                (BACKOFF_FACTOR cfg * inject_Z (2 ^ (attempt - 1)))%Q in
              attempts cfg server todo' (attempt + 1)
                       (sleep Backoff backoff_seconds st2)
          else (Raise e, st2)
      end
  end.

Definition _rate_limited_get (cfg : config) (server : nat -> exchange)
    (st : state) : outcome (option (Z * string)) * state :=
  attempts cfg server (Z.to_nat (MAX_RETRIES cfg)) 1 st.

(** Readings of a history. *)
Fixpoint request_times (h : list event) : list (Q * Q * bool) :=
  match h with
  | [] => []
  | Requested s f ok :: rest => (s, f, ok) :: request_times rest
  | Slept _ _ :: rest => request_times rest
  end.

(** The back-off delays of a history. *)
Fixpoint backoffs (h : list event) : list Q :=
  match h with
  | [] => []
  | Slept Backoff s :: rest => s :: backoffs rest
  | _ :: rest => backoffs rest
  end.

(** An exchange that ends in a [RequestException]: no response, or a
    response with a 4xx or 5xx status. *)
Definition refused (x : exchange) : bool :=
  match answer x with
  | ConnectionFailed => true
  | Response status _ => raise_for_status status
  end.

(** The time between the end of each request and the start of the next. *)
Fixpoint gaps (rs : list (Q * Q * bool)) : list Q :=
  match rs with
  | (_, f, _) :: (((s, _, _) :: _) as rest) => (s - f)%Q :: gaps rest
  | _ => []
  end.

(** The download loop of [main]: one transcript after the other; a
    failure is reported and the loop goes on, a success is followed by
    one second of sleep. *)
Fixpoint download_all (cfg : config) (server : nat -> exchange)
    (urls : list string) (st : state) : state :=
  match urls with
  | [] => st
  | _ :: rest =>
      match _rate_limited_get cfg server st with
      | (Raise _, st') => download_all cfg server rest st'
      | (Return _, st') => download_all cfg server rest (sleep Politeness 1 st')
      end
  end.

(** *** The listing crawl *)

(** What [pd.to_datetime] yields when it does not raise: the missing
    value [NaT], which it gives for an empty text; a point in time without
    a time zone (seconds since 1970-01-01); or, for a text that names a
    UTC offset, a point in time with its zone ([wall] is what its clock
    shows there, in seconds since 1970-01-01). *)
Inductive stamp : Type :=
| NaT
| At (t : Z)
| Aware (wall : Z).

(** Comparisons between timestamps and datetimes: every comparison with
    [NaT] is false. *)
Definition stamp_lt (a b : stamp) : bool :=
  match a, b with
  | At x, At y => x <? y
  | _, _ => false
  end.

Definition stamp_le (a b : stamp) : bool :=
  match a, b with
  | At x, At y => x <=? y
  | _, _ => false
  end.

(** [datetime(2024, 1, 1)] and [datetime(2025, 10, 31)]. *)
Definition START_DATE : stamp := At (days_from_civil 2024 1 1 * 86400).
Definition END_DATE : stamp := At (days_from_civil 2025 10 31 * 86400).

(** An [<article>] element of a listing page: the stripped text of its
    first [<h3>] if it has one, the [href] of its first [<a>] if there is
    one with that attribute, and the stripped text of its first [<span>]
    (empty without one). *)
Record article : Type := {
  h3 : option string;
  href : option string;
  date_text : string
}.

(** A row of the returned frame. *)
Record transcript : Type := {
  ticker : string;
  title : string;
  url : string;
  date : stamp
}.

(** [needle in text] *)
Definition contains (needle text : string) : bool :=
  match index 0 needle text with Some _ => true | None => false end.

Section Listing.

(** [pd.to_datetime(date_text, ...)]; [None] when it raises. *)
Variable to_datetime : string -> option stamp.

(** The articles the inner loop does not skip, with their dates. *)
Definition dated (tk : string) (art : article) : option transcript :=
  match h3 art with
  | None => None
  | Some text =>
      if negb (contains "Earnings Call Transcript" text) then None
      else match href art with
           | None => None
           | Some link =>
               if (link =? "")%string then None
               else match to_datetime (date_text art) with
                    | None => None
                    | Some d =>
                        Some {| ticker := tk; title := text; url := link; date := d |}
                    end
           end
  end.

(** The per-page variables of the crawl. *)
Record page_vars : Type := {
  found : list transcript;
  page_had_any_in_range : bool;
  oldest_on_page : option stamp
}.

Definition in_range (d : stamp) : bool := stamp_le START_DATE d && stamp_le d END_DATE.

(** An article that is kept and whose date names a UTC offset. *)
Definition has_offset (tk : string) (art : article) : bool :=
  match dated tk art with
  | Some rec => match date rec with Aware _ => true | _ => false end
  | None => false
  end.

(** One iteration of [for art in articles].  A date with a zone cannot
    be compared with [START_DATE], which has none: [START_DATE <= d_py]
    raises [TypeError], if [d_py < oldest_on_page] has not done so
    before.  Neither comparison is inside a [try]. *)
Definition visit (tk : string) (vars : page_vars) (art : article)
    : outcome page_vars :=
  match dated tk art with
  | None => Return vars
  | Some rec =>
      match date rec with
      | Aware _ => Raise TypeError
      | _ =>
          let oldest :=
            match oldest_on_page vars with
            | None => Some (date rec)
            | Some o =>
                if stamp_lt (date rec) o then Some (date rec) else Some o
            end in
          if in_range (date rec) then
            Return {| found := found vars ++ [rec];
                      page_had_any_in_range := true;
                      oldest_on_page := oldest |}
          else
            Return {| found := found vars;
                      page_had_any_in_range := page_had_any_in_range vars;
                      oldest_on_page := oldest |}
      end
  end.

(** [for art in articles], from the variables [vars] on. *)
Fixpoint scan_from (tk : string) (articles : list article) (vars : page_vars)
    : outcome page_vars :=
  match articles with
  | [] => Return vars
  | art :: rest => bind (visit tk vars art) (scan_from tk rest)
  end.

Definition scan (tk : string) (articles : list article) : outcome page_vars :=
  scan_from tk articles
    {| found := []; page_had_any_in_range := false; oldest_on_page := None |}.

(** The test that ends the crawl after a page. *)
Definition stop_signal (vars : page_vars) : bool :=
  match oldest_on_page vars with
  | None => false
  | Some o => stamp_lt o START_DATE && negb (page_had_any_in_range vars)
  end.

(** [for page in range(1, max_pages + 1)], [todo] pages left.  [get_soup n]
    is what fetching and parsing listing page [n] gives: the exception of
    the rate-limited GET, or the page's [<article>] elements.  The second
    component lists the pages that were requested. *)
Fixpoint pages (get_soup : Z -> outcome (list article)) (tk : string)
    (todo : nat) (page : Z) (records : list transcript)
    : outcome (list transcript) * list Z :=
  match todo with
  | O => (Return records, [])
  | S todo' =>
      match get_soup page with
      | Raise e => (Raise e, [page])
      | Return [] => (Return records, [page])
      | Return articles =>
          match scan tk articles with
          | Raise e => (Raise e, [page])
          | Return vars =>
              let records' := (records ++ found vars)%list in
              if stop_signal vars then (Return records', [page])
              else
                let (result, fetched) :=
                  pages get_soup tk todo' (page + 1) records' in
                (result, page :: fetched)
          end
      end
  end.

Definition list_earnings_call_transcripts_for_ticker
    (get_soup : Z -> outcome (list article)) (tk : string) (max_pages : Z)
    : outcome (list transcript) * list Z :=
  pages get_soup tk (Z.to_nat max_pages) 1 [].

End Listing.

End SeekingAlpha.

(* ================================================================== *)
(** ** market/earnings/alpha_vantage_earnings_fetch.py: the batch loop *)
(* ================================================================== *)

Module Earnings.

Definition SYMBOLS : list string := ["NVDA"; "KO"].

(** The four calls of the [try] block, as the outside world decides
    them for a symbol. *)
Record world : Type := {
  fetch_quarterly_earnings : string -> outcome (list json);
  write_csv : string -> list json -> outcome string;
  fetch_estimates : string -> outcome (list json * list json * list json);
  write_estimates_csv :
    string -> list json * list json * list json -> outcome unit
}.

(** The [try] block for one symbol. *)
Definition process (w : world) (sym : string) : outcome unit :=
  bind (fetch_quarterly_earnings w sym) (fun rows =>
  bind (write_csv w sym rows) (fun _ =>
  bind (fetch_estimates w sym) (fun estimates =>
  write_estimates_csv w sym estimates))).

Inductive event : Type :=
| Tried (sym : string)
| Reported (sym : string) (e : exn)     (* the line on stderr *)
| Sleep (seconds : Z).

(** [for idx, symbol in enumerate(SYMBOLS)], carrying [all_ok]. *)
Fixpoint loop (w : world) (symbols : list string) (all_ok : bool)
    : bool * list event :=
  match symbols with
  | [] => (all_ok, [])
  | sym :: rest =>
      let (ok, said) :=
        match process w sym with
        | Return _ => (all_ok, [Tried sym])
        | Raise e => (false, [Tried sym; Reported sym e])
        end in
      let pause := match rest with [] => [] | _ => [Sleep 12] end in
      let (result, later) := loop w rest ok in
      (result, (said ++ pause ++ later)%list)
  end.

(** [main], over the configured list of symbols. *)
Definition main_over (symbols : list string) (w : world) : Z * list event :=
  let (all_ok, tr) := loop w symbols true in
  ((if all_ok then 0 else 1), tr).

Definition main (w : world) : Z * list event := main_over SYMBOLS w.

(** [raise SystemExit(main())] *)
Definition script_over (symbols : list string) (w : world) : termination :=
  SystemExit (fst (main_over symbols w)).

Definition script (w : world) : termination := script_over SYMBOLS w.

Fixpoint tried (tr : list event) : list string :=
  match tr with
  | [] => []
  | Tried sym :: rest => sym :: tried rest
  | _ :: rest => tried rest
  end.

Definition succeeds (w : world) (sym : string) : bool :=
  match process w sym with Return _ => true | Raise _ => false end.

End Earnings.

(* ================================================================== *)
(** ** X/tweets.py                                                     *)
(* ================================================================== *)

Module Tweets.

(** The outside world of the script: the two endpoints and the disk.
    [user_tweets page user_id cursor] is what [get_user_tweets_page]
    gives for the [page]-th request of a crawl; [dump] tells whether
    writing the file goes through. *)
Record world : Type := {
  user_by_screen_name : string -> outcome json;
  user_tweets : Z -> json -> json -> outcome json;
  dump : string -> list json -> bool
}.

(** [v[key]] *)
Definition getitem (key : string) (v : json) : outcome json :=
  match v with
  | JObj fields =>
      match lookup key fields with
      | Some x => Return x
      | None => Raise KeyError
      end
  | _ => Raise TypeError
  end.

(** [get_user_rest_id]: any exception is logged and [None] returned. *)
Definition get_user_rest_id (w : world) (user_name : string) : json :=
  match
    bind (user_by_screen_name w user_name) (fun json_data =>
    bind (getitem "data" json_data) (fun a =>
    bind (getitem "user" a) (fun b =>
    bind (getitem "result" b) (fun c =>
    getitem "rest_id" c))))
  with
  | Return rest_id => rest_id
  | Raise _ => JNull
  end.

(** The [try] block of one page, after the request: the page's tweets
    are appended and the next cursor is read. *)
Definition take_page (response : json) (all_tweets : list json)
    : outcome (list json * json) :=
  match response with
  | JObj fields =>
      bind (iter (get_default "tweets" (JArr []) fields)) (fun tweets =>
      Return ((all_tweets ++ tweets)%list, get "next_cursor_str" fields))
  | _ => Raise AttributeError
  end.

(** The [try] block of one iteration: the request, then the page. *)
Definition try_page (w : world) (user_id : json) (page : Z) (cursor : json)
    (all_tweets : list json) : outcome (list json * json) :=
  bind (user_tweets w page user_id cursor)
       (fun response => take_page response all_tweets).

(** [while page <= max_pages], [todo] iterations left; [except
    Exception] leaves the loop. *)
Fixpoint crawl (w : world) (user_id : json) (todo : nat) (page : Z)
    (cursor : json) (all_tweets : list json) : list json :=
  match todo with
  | O => all_tweets
  | S todo' =>
      match try_page w user_id page cursor all_tweets with
      | Raise _ => all_tweets
      | Return (all_tweets', next_cursor) =>
          if negb (truthy next_cursor) then all_tweets'
          else crawl w user_id todo' (page + 1) next_cursor all_tweets'
      end
  end.

Definition fetch_user_tweets (w : world) (user_id : json) (max_pages : Z)
    : list json :=
  crawl w user_id (Z.to_nat max_pages) 1 JNull [].

(** [save_tweets] catches what writing raises and answers with a bool. *)
Definition save_tweets (w : world) (user_name : string) (tweets : list json)
    : bool :=
  dump w user_name tweets.

Definition process_single_user (w : world) (user_name : string)
    (max_pages : Z) : bool :=
  let user_id := get_user_rest_id w user_name in
  if negb (truthy user_id) then false
  else
    let tweets := fetch_user_tweets w user_id max_pages in
    match tweets with
    | [] => false
    | _ => save_tweets w user_name tweets
    end.

(** The world in which every page request that makes the [try] block
    raise is answered by an empty document instead: a page without
    tweets and without a next cursor, the regular end of a timeline. *)
Definition calm (w : world) : world :=
  {| user_by_screen_name := user_by_screen_name w;
     user_tweets := fun page user_id cursor =>
       match try_page w user_id page cursor [] with
       | Raise _ => Return (JObj [])
       | Return _ => user_tweets w page user_id cursor
       end;
     dump := dump w |}.

(** The two counters printed at the end of a batch. *)
Record report : Type := { success_count : Z; fail_count : Z }.

Fixpoint count (w : world) (user_list : list string) (max_pages : Z)
    (r : report) : report :=
  match user_list with
  | [] => r
  | user :: rest =>
      count w rest max_pages
        (if process_single_user w user max_pages
         then {| success_count := success_count r + 1;
                 fail_count := fail_count r |}
         else {| success_count := success_count r;
                 fail_count := fail_count r + 1 |})
  end.

Definition batch_fetch_tweets_sequential (w : world) (user_list : list string)
    (max_pages : Z) : report :=
  count w user_list max_pages {| success_count := 0; fail_count := 0 |}.

(** The pool hands the results back as the workers finish: [finish]
    gives that order.  [process_single_user] raises nothing, so every
    result is counted in the [try] branch.  The two counters are logged,
    and then the average time per user, a division by [len(user_list)]. *)
Definition batch_fetch_tweets_parallel (w : world) (user_list : list string)
    (max_pages : Z) (finish : list string -> list string)
    : report * outcome unit :=
  (count w (finish user_list) max_pages {| success_count := 0; fail_count := 0 |},
   match user_list with
   | [] => Raise ZeroDivisionError
   | _ => Return tt
   end).

(** [account.lstrip('@')] *)
Fixpoint lstrip_at (account : string) : string :=
  match account with
  | String "@" rest => lstrip_at rest
  | _ => account
  end.

(** [[account.lstrip('@') for account in a_kol_list]]: a cell of the
    sheet that holds no text has no [lstrip]. *)
Fixpoint handles (cells : list json) : outcome (list string) :=
  match cells with
  | [] => Return []
  | JStr account :: rest =>
      bind (handles rest) (fun l => Return (lstrip_at account :: l))
  | _ :: rest => Raise AttributeError
  end.

(** The module body.  [column] is what it gives up to the column of
    handles: the exception of making the log directory, of opening the
    log file, of reading the sheet or of taking its column, or else the
    cells of the column.  Then the handles without their [@], the first
    ten of them, twenty pages each, three workers.  The result is the
    counters when the batch logged them, and how the process ends. *)
Definition script (w : world) (column : outcome (list json))
    (finish : list string -> list string) : option report * termination :=
  match bind column handles with
  | Raise e => (None, Uncaught e)
  | Return a_kol_list =>
      let test_users := firstn 10 a_kol_list in
      match batch_fetch_tweets_parallel w test_users 20 finish with
      | (r, Return _) => (Some r, Completed)
      | (r, Raise e) => (Some r, Uncaught e)
      end
  end.

End Tweets.

(* ================================================================== *)
(** ** Concrete servers and inputs used in the examples               *)
(* ================================================================== *)

Module Scenario.

(** Alpha Vantage answers every request with its rate-limit note. *)
Definition av_throttling : nat -> OHLCV.reply :=
  fun _ => OHLCV.Response 200
             (Some (JObj [("Note", JStr "Thank you for using Alpha Vantage!")])).

(** Alpha Vantage cannot be reached. *)
Definition av_unreachable : nat -> OHLCV.reply := fun _ => OHLCV.Unreachable.

(** Alpha Vantage answers 503 with a JSON body that carries no note. *)
Definition av_unavailable : nat -> OHLCV.reply :=
  fun _ => OHLCV.Response 503 (Some (JObj [("detail", JStr "unavailable")])).

(** alternative.me cannot be reached. *)
Definition fng_down : nat -> FngHttp.reply := fun _ => FngHttp.Fails URLError.

(** Seeking Alpha refuses every request after half a second. *)
Definition sa_refusing : nat -> SeekingAlpha.exchange :=
  fun _ => {| SeekingAlpha.duration := 1 # 2;
              SeekingAlpha.answer := SeekingAlpha.Response 503 "" |}.

(** Seeking Alpha refuses the first three requests and serves the
    following ones; each request takes half a second. *)
Definition sa_recovering : nat -> SeekingAlpha.exchange :=
  fun i =>
    {| SeekingAlpha.duration := 1 # 2;
       SeekingAlpha.answer :=
         if (i <? 3)%nat then SeekingAlpha.ConnectionFailed
         else SeekingAlpha.Response 200 "<p>Operator</p>" |}.

(** Seeking Alpha serves a page whose text is a rate-limit note. *)
Definition sa_noting : nat -> SeekingAlpha.exchange :=
  fun _ => {| SeekingAlpha.duration := 1 # 2;
              SeekingAlpha.answer :=
                SeekingAlpha.Response 200 "Note: too many requests" |}.

(** Alpha Vantage sends its note once and cannot be reached afterwards. *)
Definition av_note_then_down : nat -> OHLCV.reply :=
  fun i =>
    match i with
    | O => OHLCV.Response 200 (Some (JObj [("Information", JStr "slow down")]))
    | _ => OHLCV.Unreachable
    end.

(** Seeking Alpha refuses two requests, then serves the page. *)
Definition sa_third_time_lucky : nat -> SeekingAlpha.exchange :=
  fun i =>
    {| SeekingAlpha.duration := 1 # 2;
       SeekingAlpha.answer :=
         if (i <? 2)%nat then SeekingAlpha.Response 429 ""
         else SeekingAlpha.Response 200 "<p>Operator</p>" |}.

(** A reading of the dates that occur on the listing pages below. *)
Definition sa_to_datetime (date_text : string) : option SeekingAlpha.stamp :=
  if (date_text =? "Nov. 20, 2024")%string
  then Some (SeekingAlpha.At (days_from_civil 2024 11 20 * 86400))
  else if (date_text =? "Aug. 23, 2023")%string
  then Some (SeekingAlpha.At (days_from_civil 2023 8 23 * 86400))
  else if (date_text =? "2024-11-20T21:00:00+00:00")%string
  then Some (SeekingAlpha.Aware (days_from_civil 2024 11 20 * 86400 + 75600))
  else if (date_text =? "")%string then Some SeekingAlpha.NaT
  else None.

Definition sa_article (heading link date_text : string) : SeekingAlpha.article :=
  {| SeekingAlpha.h3 := Some heading;
     SeekingAlpha.href := Some link;
     SeekingAlpha.date_text := date_text |}.

(** A listing: a call of November 2024 on page 1, a call of August 2023
    on page 2, more articles on every later page. *)
Definition sa_listing (page : Z) : outcome (list SeekingAlpha.article) :=
  if page =? 1 then
    Return [sa_article "NVIDIA Q3 2025 Earnings Call Transcript"
                       "/article/4739005" "Nov. 20, 2024"]
  else
    Return [sa_article "NVIDIA Q2 2024 Earnings Call Transcript"
                       "/article/4630813" "Aug. 23, 2023"].

(** A listing whose pages open with an article without a date: its
    [<span>] is missing.  A call of August 2023 follows it. *)
Definition sa_page_undated : list SeekingAlpha.article :=
  [sa_article "NVIDIA Q3 2024 Earnings Call Transcript" "/article/4653531" "";
   sa_article "NVIDIA Q2 2024 Earnings Call Transcript" "/article/4630813"
              "Aug. 23, 2023"].

Definition sa_listing_undated (page : Z) : outcome (list SeekingAlpha.article) :=
  Return sa_page_undated.

(** A listing whose only article carries a date with a UTC offset. *)
Definition sa_listing_with_offset (page : Z)
    : outcome (list SeekingAlpha.article) :=
  Return [sa_article "NVIDIA Q3 2025 Earnings Call Transcript"
                     "/article/4739005" "2024-11-20T21:00:00+00:00"].

(** No text beyond ASCII is a number, and every float, list and dict
    is printed as a question mark: enough for the payloads below, which
    hold ASCII strings and integers only. *)
Definition ascii_only : unicode :=
  {| isdigit_beyond_ascii := fun _ => false;
     int_beyond_ascii := fun _ => None |}.

Definition opaque_repr (v : json) : option string := Some "?".

(** Superscript two, U+00B2, in UTF-8: a digit for [isdigit] that [int]
    refuses. *)
Definition superscript_two : string :=
  String (ascii_of_nat 194) (String (ascii_of_nat 178) EmptyString).

Definition with_superscript : unicode :=
  {| isdigit_beyond_ascii := fun s => (s =? superscript_two)%string;
     int_beyond_ascii := fun _ => None |}.

(** The payload of the date-window scenario: readings for 2023-12-31,
    2024-01-01, 2024-01-02 and 2024-01-04 (midnight UTC each). *)
Definition fng_record (timestamp value classification : string) : json :=
  JObj [("value", JStr value);
        ("value_classification", JStr classification);
        ("timestamp", JStr timestamp)].

Definition fng_payload : list json :=
  [fng_record "1703980800" "65" "Greed";
   fng_record "1704067200" "71" "Greed";
   fng_record "1704153600" "74" "Greed";
   fng_record "1704326400" "68" "Greed"].

Definition fng_row (day : string) (timestamp value : Z) : Fng.row :=
  {| Fng.date := day;
     Fng.value := Some value;
     Fng.value_classification := Some "Greed";
     Fng.timestamp := timestamp;
     Fng.source := Fng.SOURCE_NAME;
     Fng.source_url := Fng.SOURCE_URL |}.

(** Three readings of the same day, the latest of them in the middle,
    and one of the day after. *)
Definition fng_duplicates : list json :=
  [fng_record "1704070800" "70" "Greed";
   fng_record "1704110400" "72" "Greed";
   fng_record "1704067200" "71" "Greed";
   fng_record "1704153600" "74" "Greed"].

(** A reading whose value is not a number. *)
Definition fng_unreadable_value : list json :=
  [fng_record "1704067200" "n/a" "Greed"].

(** A reading whose value is superscript two. *)
Definition fng_superscript_value : list json :=
  [fng_record "1704067200" superscript_two "Greed"].

(** A reading of ISO dates: [YYYY-MM-DD] with a month from 1 to 12 and
    a day that the month has. *)
Definition field (s : string) : option Z :=
  if ascii_isdigit s then ascii_int s else None.

Definition leap (y : Z) : bool :=
  (y mod 4 =? 0) && (negb (y mod 100 =? 0) || (y mod 400 =? 0)).

Definition days_in_month (y m : Z) : Z :=
  if m =? 2 then (if leap y then 29 else 28)
  else if (m =? 4) || (m =? 6) || (m =? 9) || (m =? 11) then 30
  else 31.

Definition iso_date (s : string) : option Z :=
  if ((String.length s =? 10)%nat
      && (substring 4 1 s =? "-")%string
      && (substring 7 1 s =? "-")%string)%bool
  then
    match field (substring 0 4 s), field (substring 5 2 s),
          field (substring 8 2 s) with
    | Some y, Some m, Some d =>
        if ((1 <=? y) && (1 <=? m) && (m <=? 12) && (1 <=? d)
            && (d <=? days_in_month y m))%bool
        then Some (days_from_civil y m d)
        else None
    | _, _, _ => None
    end
  else None.

(** A reading of numbers: digits, with or without a fractional part. *)
Fixpoint split_at_dot (s : string) : string * option string :=
  match s with
  | EmptyString => (EmptyString, None)
  | String "." rest => (EmptyString, Some rest)
  | String c rest =>
      let (whole, frac) := split_at_dot rest in (String c whole, frac)
  end.

Definition decimal (s : string) : option Q :=
  match split_at_dot s with
  | (whole, None) => option_map inject_Z (field whole)
  | (whole, Some frac) =>
      match field whole, field frac with
      | Some w, Some f =>
          Some (inject_Z w
                + inject_Z f / inject_Z (10 ^ Z.of_nat (String.length frac)))%Q
      | _, _ => None
      end
  end.

Definition av_bar (o h l c v : string) : json :=
  JObj [("1. open", JStr o); ("2. high", JStr h); ("3. low", JStr l);
        ("4. close", JStr c); ("5. volume", JStr v)].

(** A daily series as Alpha Vantage sends it, newest day first. *)
Definition av_series : list (string * json) :=
  [("2024-01-03", av_bar "474.85" "481.84" "473.20" "475.69" "32089600");
   ("2024-01-02", av_bar "492.44" "492.95" "475.95" "481.68" "41125400");
   ("2023-12-29", av_bar "498.13" "499.97" "487.51" "495.22" "38869000")].

Definition av_daily_payload : json :=
  JObj [("Meta Data", JObj [("2. Symbol", JStr "NVDA")]);
        ("Time Series (Daily)", JObj av_series)].

(** The same series with a volume that is not a number on one day. *)
Definition av_series_bad_volume : list (string * json) :=
  [("2024-01-03", av_bar "474.85" "481.84" "473.20" "475.69" "32089600");
   ("2024-01-02", av_bar "492.44" "492.95" "475.95" "481.68" "n/a")].

Definition av_bad_volume_payload : json :=
  JObj [("Time Series (Daily)", JObj av_series_bad_volume)].

(** Indicator readings: one value is the dot Alpha Vantage sends for a
    missing number. *)
Definition macro_item (day value : string) : json :=
  JObj [("date", JStr day); ("value", JStr value)].

Definition macro_payload : json :=
  JObj [("name", JStr "Unemployment Rate");
        ("data", JArr [macro_item "2024-03-01" "3.8";
                       macro_item "2024-02-01" ".";
                       macro_item "2024-01-01" "3.7"])].

Definition macro_payload_without_dot : json :=
  JObj [("name", JStr "Unemployment Rate");
        ("data", JArr [macro_item "2024-03-01" "3.8";
                       macro_item "2024-01-01" "3.7"])].

(** Indicator readings with a value sent as an integer beyond the
    floats. *)
Definition macro_payload_huge_value : json :=
  JObj [("data", JArr [macro_item "2024-03-01" "3.8";
                       JObj [("date", JStr "2024-02-01");
                             ("value", JInt (10 ^ 400))]])].

(** Indicator readings with a date that is no date. *)
Definition macro_payload_bad_date : json :=
  JObj [("data", JArr [macro_item "2024-03-01" "3.8";
                       macro_item "2024-02-30x" "3.9"])].

(** The earnings endpoints: everything works except what [broken]
    names, for which the first request fails. *)
Definition earnings_world (broken : list string) : Earnings.world :=
  {| Earnings.fetch_quarterly_earnings := fun sym =>
       if existsb (String.eqb sym) broken then Raise (RuntimeError URLError)
       else Return [];
     Earnings.write_csv := fun sym _ => Return (sym ++ "_earnings.csv");
     Earnings.fetch_estimates := fun _ => Return ([], [], []);
     Earnings.write_estimates_csv := fun _ _ => Return tt |}.

(** The tweets endpoints: the handle [alice] resolves and has one page
    of tweets, every other handle fails to resolve. *)
Definition tweets_world : Tweets.world :=
  {| Tweets.user_by_screen_name := fun user_name =>
       if (user_name =? "alice")%string then
         Return (JObj [("data",
                   JObj [("user",
                     JObj [("result", JObj [("rest_id", JStr "44196397")])])])])
       else Raise OtherException;
     Tweets.user_tweets := fun _ _ _ =>
       Return (JObj [("tweets", JArr [JStr "gm"; JStr "gn"])]);
     Tweets.dump := fun _ _ => true |}.

(** A timeline whose second page cannot be decoded. *)
Definition tweets_world_breaking : Tweets.world :=
  {| Tweets.user_by_screen_name := Tweets.user_by_screen_name tweets_world;
     Tweets.user_tweets := fun page _ _ =>
       if page =? 1 then
         Return (JObj [("tweets", JArr [JStr "gm"; JStr "gn"]);
                       ("next_cursor_str", JStr "DAABCgAB")])
       else Raise JSONDecodeError;
     Tweets.dump := fun _ _ => true |}.

(** Alpha Vantage serves the daily series at the first request. *)
Definition av_serving : nat -> OHLCV.reply :=
  fun _ => OHLCV.Response 200 (Some av_daily_payload).

End Scenario.

From Stdlib Require Import DecimalPos.

(* ================================================================== *)
(** ** SEC Fillings/nvda_ko_earnings_call_fetch.py: what the spacing gives *)
(* ================================================================== *)

Module Spacing.

Import SeekingAlpha.

(** A list of requests is spaced when each of them started at least
    [gap] seconds after the end of every successful request before it. *)
Definition spaced (gap : Q) (rs : list (Q * Q * bool)) : Prop :=
  forall i j s1 f1 s2 f2 ok,
    (i < j)%nat ->
    nth_error rs i = Some (s1, f1, true) ->
    nth_error rs j = Some (s2, f2, ok) ->
    (f1 + gap <= s2)%Q.

(** What holds of the process between two calls of the helper: the
    requests sent so far are spaced, and no successful request ended
    after the marker. *)
Definition settled (cfg : config) (st : state) : Prop :=
  spaced (MIN_SECONDS_BETWEEN_REQUESTS cfg) (request_times (history st))
  /\ forall s f,
       In (s, f, true) (request_times (history st)) ->
       (f <= _LAST_REQUEST_TIME st)%Q.

End Spacing.

(* ================================================================== *)
(** ** market/OHLCV/alpha_vantage_OHLCV_fetch.py: crypto, FX and [main] *)
(* ================================================================== *)

Module Assets.

(** An output row of any of the three fetchers: the dict of
    [fetch_stock_daily] with a volume that may be [None]. *)
Record quote : Type := {
  date : string;
  symbol : string;
  asset_type : string;
  open : Q;
  high : Q;
  low : Q;
  close : Q;
  volume : option Q
}.

(** A row of [fetch_stock_daily] as such a dict. *)
Definition of_bar (b : OHLCV.bar) : quote :=
  {| date := OHLCV.date b; symbol := OHLCV.symbol b;
     asset_type := OHLCV.asset_type b;
     open := OHLCV.open b; high := OHLCV.high b; low := OHLCV.low b;
     close := OHLCV.close b; volume := Some (OHLCV.volume b) |}.

(** [row.get(key, default)]: only a dict has [get]. *)
Definition row_get (key : string) (default : json) (row : json) : outcome json :=
  match row with
  | JObj fields => Return (get_default key default fields)
  | _ => Raise AttributeError
  end.

Section Series.

Variable fromisoformat : string -> option Z.
Variable float_of_string : string -> option Q.

#[local] Abbreviation float := (OHLCV.float float_of_string).
#[local] Abbreviation _within_range := (OHLCV._within_range fromisoformat).

(** The [try] block of the crypto loop: the four USD keys. *)
Definition usd_prices (row : json) : outcome (Q * Q * Q * Q) :=
  bind (bind (OHLCV.getitem "1a. open (USD)" row) float) (fun open_px =>
  bind (bind (OHLCV.getitem "2a. high (USD)" row) float) (fun high_px =>
  bind (bind (OHLCV.getitem "3a. low (USD)" row) float) (fun low_px =>
  bind (bind (OHLCV.getitem "4a. close (USD)" row) float) (fun close_px =>
  Return (open_px, high_px, low_px, close_px))))).

(** [float(row.get(plain, row.get(mirror)))] *)
Definition fallback_price (plain mirror : string) (row : json) : outcome Q :=
  bind (row_get mirror JNull row) (fun default =>
  bind (row_get plain default row) float).

(** The [except KeyError] block. *)
Definition fallback_prices (row : json) : outcome (Q * Q * Q * Q) :=
  bind (fallback_price "1. open" "1b. open (USD)" row) (fun open_px =>
  bind (fallback_price "2. high" "2b. high (USD)" row) (fun high_px =>
  bind (fallback_price "3. low" "3b. low (USD)" row) (fun low_px =>
  bind (fallback_price "4. close" "4b. close (USD)" row) (fun close_px =>
  Return (open_px, high_px, low_px, close_px))))).

Definition crypto_prices (row : json) : outcome (Q * Q * Q * Q) :=
  match usd_prices row with
  | Raise KeyError => fallback_prices row
  | other => other
  end.

(** [float(vol_val) if vol_val is not None else None] *)
Definition crypto_volume (row : json) : outcome (option Q) :=
  bind (row_get "5. volume" JNull row) (fun vol_val =>
  if is_none vol_val then Return None
  else bind (float vol_val) (fun v => Return (Some v))).

(** The dict appended by the crypto loop for one entry of the series. *)
Definition crypto_bar (sym market date_str : string) (row : json)
    : outcome quote :=
  bind (crypto_prices row) (fun px =>
  bind (crypto_volume row) (fun vol =>
  let '(open_px, high_px, low_px, close_px) := px in
  Return {| date := date_str; symbol := sym ++ "-" ++ market;
            asset_type := "crypto";
            open := open_px; high := high_px; low := low_px;
            close := close_px; volume := vol |})).

(** The dict appended by the FX loop. *)
Definition fx_bar (pair_symbol date_str : string) (row : json) : outcome quote :=
  bind (bind (OHLCV.getitem "1. open" row) float) (fun o =>
  bind (bind (OHLCV.getitem "2. high" row) float) (fun h =>
  bind (bind (OHLCV.getitem "3. low" row) float) (fun l =>
  bind (bind (OHLCV.getitem "4. close" row) float) (fun c =>
  Return {| date := date_str; symbol := pair_symbol; asset_type := "fx";
            open := o; high := h; low := l; close := c;
            volume := None |})))).

(** [for date_str, row in series.items()], as both functions have it;
    [build] is the dict they append. *)
Fixpoint collect (build : string -> json -> outcome quote)
    (series : list (string * json)) (records : list quote)
    : outcome (list quote) :=
  match series with
  | [] => Return records
  | (date_str, row) :: rest =>
      bind (_within_range date_str) (fun inside =>
        if negb inside then collect build rest records
        else bind (build date_str row) (fun q =>
               collect build rest (records ++ [q])%list))
  end.

(** What the two functions do with the payload the helper returned:
    the check for the series key, the loop and the sort. *)
Definition series_rows (key : string) (build : string -> json -> outcome quote)
    (payload : json) : outcome (list quote) :=
  match payload with
  | JObj fields =>
      match lookup key fields with
      | None => Raise (AlphaVantageError (MissingKey key (keys fields)))
      | Some (JObj series) =>
          bind (collect build series [])
               (fun records => Return (sort_by String.leb date records))
      | Some _ => Raise AttributeError
      end
  | _ => Raise TypeError
  end.

Definition fetch_crypto_daily (server : nat -> OHLCV.reply)
    (sym market : string) : outcome (list quote) * list OHLCV.event :=
  let (payload, tr) := OHLCV._request_with_retries server 6 in
  (bind payload
     (series_rows "Time Series (Digital Currency Daily)"
                  (crypto_bar sym market)),
   tr).

Definition fetch_fx_daily (server : nat -> OHLCV.reply)
    (from_symbol to_symbol : string) : outcome (list quote) * list OHLCV.event :=
  let (payload, tr) := OHLCV._request_with_retries server 6 in
  (bind payload
     (series_rows "Time Series FX (Daily)"
                  (fx_bar (from_symbol ++ to_symbol))),
   tr).

End Series.

(** *** [main] *)

(** The calls of [main] as the outside world decides them: the three
    fetchers and the disk. *)
Record world : Type := {
  fetch_stock : string -> outcome (list quote);
  fetch_crypto : string -> string -> outcome (list quote);
  fetch_fx : string -> string -> outcome (list quote);
  write_csv : string -> list quote -> outcome unit
}.

Inductive event : Type :=
| Wrote (path : string) (rows : list quote)
| Slept (seconds : Z).

(** The file names, inside the directory of the script. *)
Definition daily (name : string) : string :=
  name ++ "_daily_2024-01-01_2025-10-31.csv".

(** [rows = fetch(...); write_csv(path, rows); all_records.extend(rows)] *)
Definition save (w : world) (fetched : outcome (list quote)) (name : string)
    (all_records : list quote) (tr : list event)
    : outcome (list quote) * list event :=
  match fetched with
  | Raise e => (Raise e, tr)
  | Return rows =>
      match write_csv w (daily name) rows with
      | Raise e => (Raise e, tr)
      | Return _ => (Return (all_records ++ rows)%list,
                     (tr ++ [Wrote (daily name) rows])%list)
      end
  end.

(** The next statements run when the ones before did not raise. *)
Definition and_then {A B : Type} (m : outcome A * list event)
    (k : A -> list event -> outcome B * list event) : outcome B * list event :=
  match m with
  | (Return a, tr) => k a tr
  | (Raise e, tr) => (Raise e, tr)
  end.

(** The [try] block for gold and its [except AlphaVantageError]. *)
Definition gold (w : world) (all_records : list quote) (tr : list event)
    : outcome (list quote) * list event :=
  match save w (fetch_fx w "XAU" "USD") "XAUUSD" all_records tr with
  | (Raise (AlphaVantageError _), tr') =>
      save w (fetch_stock w "GLD") "GLD" all_records (tr' ++ [Slept 15])%list
  | other => other
  end.

Definition main (w : world) : outcome unit * list event :=
  and_then (save w (fetch_stock w "NVDA") "NVDA" [] []) (fun all1 tr1 =>
  and_then (save w (fetch_stock w "KO") "KO" all1 (tr1 ++ [Slept 15])%list)
    (fun all2 tr2 =>
  and_then (save w (fetch_stock w "SPY") "SPY" all2 (tr2 ++ [Slept 15])%list)
    (fun all3 tr3 =>
  and_then (save w (fetch_crypto w "BTC" "USD") "BTC-USD" all3
              (tr3 ++ [Slept 15])%list)
    (fun all4 tr4 =>
  and_then (save w (fetch_crypto w "DOGE" "USD") "DOGE-USD" all4
              (tr4 ++ [Slept 15])%list)
    (fun all5 tr5 =>
  and_then (gold w all5 (tr5 ++ [Slept 15])%list) (fun all_records tr6 =>
  match write_csv w (daily "all_assets") all_records with
  | Raise e => (Raise e, tr6)
  | Return _ => (Return tt, (tr6 ++ [Wrote (daily "all_assets") all_records])%list)
  end)))))).

(** The files of a run, in the order in which they were written. *)
Fixpoint files (tr : list event) : list (string * list quote) :=
  match tr with
  | [] => []
  | Wrote path rows :: rest => (path, rows) :: files rest
  | Slept _ :: rest => files rest
  end.

End Assets.

(* ================================================================== *)
(** ** market/macro/macro_fetch.py: the treasury yield and [main]      *)
(* ================================================================== *)

Module Treasury.

Section Indicator.

Variable fromisoformat : string -> option Z.
Variable float_of_string : string -> option Q.

(** [fetch_treasury_yield] has the check and the loop of
    [fetch_indicator] line for line; the indicator name of its rows is
    built from the maturity. *)
Definition fetch_treasury_yield (server : nat -> OHLCV.reply)
    (maturity : string) : outcome (list Macro.reading) * list OHLCV.event :=
  let (payload, tr) := Macro._request_with_retries server 6 in
  (bind payload
     (Macro.indicator_rows fromisoformat float_of_string
        ("TREASURY_YIELD_" ++ maturity)),
   tr).

(** The rows the loop appends for an element: one or none. *)
Definition kept (indicator_code : string) (item : json) : list Macro.reading :=
  match Macro.examine fromisoformat float_of_string indicator_code item with
  | Macro.Keep r => [r]
  | _ => []
  end.

End Indicator.

(** The calls of [main] as the outside world decides them. *)
Record world : Type := {
  fetch_indicator : string -> string -> outcome (list Macro.reading);
  fetch_yield : string -> outcome (list Macro.reading);
  write_macro_csv : string -> list Macro.reading -> outcome unit
}.

Inductive event : Type :=
| Wrote (path : string) (rows : list Macro.reading)
| Slept (seconds : Z).

Definition daily (name : string) : string :=
  name ++ "_daily_2024-01-01_2025-10-31.csv".

(** [rows = fetch(...); write_macro_csv(path, rows)] *)
Definition save (w : world) (fetched : outcome (list Macro.reading))
    (name : string) (tr : list event) : outcome unit * list event :=
  match fetched with
  | Raise e => (Raise e, tr)
  | Return rows =>
      match write_macro_csv w (daily name) rows with
      | Raise e => (Raise e, tr)
      | Return _ => (Return tt, (tr ++ [Wrote (daily name) rows])%list)
      end
  end.

Definition and_then (m : outcome unit * list event)
    (k : list event -> outcome unit * list event) : outcome unit * list event :=
  match m with
  | (Return _, tr) => k tr
  | (Raise e, tr) => (Raise e, tr)
  end.

Definition main (w : world) : outcome unit * list event :=
  and_then (save w (fetch_indicator w "INFLATION" "INFLATION") "INFLATION" [])
    (fun tr1 =>
  and_then (save w (fetch_indicator w "UNEMPLOYMENT" "UNEMPLOYMENT")
              "UNEMPLOYMENT" (tr1 ++ [Slept 15])%list)
    (fun tr2 =>
  and_then (save w (fetch_indicator w "FEDERAL_FUNDS_RATE" "FEDERAL_FUNDS_RATE")
              "FEDERAL_FUNDS_RATE" (tr2 ++ [Slept 15])%list)
    (fun tr3 =>
  save w (fetch_yield w "10year") "TREASURY_YIELD_10year"
       (tr3 ++ [Slept 15])%list))).

Fixpoint files (tr : list event) : list (string * list Macro.reading) :=
  match tr with
  | [] => []
  | Wrote path rows :: rest => (path, rows) :: files rest
  | Slept _ :: rest => files rest
  end.

(** The files [main] is to write, with the rows the fetchers give. *)
Definition planned (w : world)
    : list (string * outcome (list Macro.reading)) :=
  [(daily "INFLATION", fetch_indicator w "INFLATION" "INFLATION");
   (daily "UNEMPLOYMENT", fetch_indicator w "UNEMPLOYMENT" "UNEMPLOYMENT");
   (daily "FEDERAL_FUNDS_RATE",
    fetch_indicator w "FEDERAL_FUNDS_RATE" "FEDERAL_FUNDS_RATE");
   (daily "TREASURY_YIELD_10year", fetch_yield w "10year")].

End Treasury.

(* ================================================================== *)
(** ** market/fng/fng_fetch.py: [fetch_all_fng] and [main]             *)
(* ================================================================== *)

Module FngScript.

(** [fetch_all_fng]: the helper, then the check of the shape. *)
Definition fetch_all_fng (server : nat -> FngHttp.reply)
    : outcome json * list FngHttp.event :=
  let (data, tr) :=
    FngHttp._http_get_json server FngHttp.fetch_all_fng_retries
                           FngHttp.fetch_all_fng_backoff in
  (bind data (fun data =>
     match data with
     | JObj fields =>
         if has_key "data" fields then Return data else Raise ValueError
     | _ => Raise ValueError
     end),
   tr).

Section Main.

Variable repr : json -> option string.
Variable u : unicode.

(** [_parse_date_yyyy_mm_dd]: the day a text denotes, [None] when
    [strptime] raises [ValueError]. *)
Variable _parse_date_yyyy_mm_dd : string -> option Z.

(** [save_csv], as the disk decides it. *)
Variable save_csv : list Fng.row -> string -> outcome unit.

(** The default of [--out], inside the directory of the script. *)
Definition default_out (start_date end_date : Z) : string :=
  "FNG_daily_" ++ isoformat start_date ++ "_" ++ isoformat end_date ++ ".csv".

(** [data.get("data", [])] and the filter. *)
Definition rows_of (data : json) (start_date end_date : Z)
    : outcome (list Fng.row) :=
  match data with
  | JObj fields =>
      bind (iter (get_default "data" (JArr []) fields)) (fun records =>
      Fng.filter_and_normalize_records repr u records start_date end_date)
  | _ => Raise AttributeError
  end.

(** [main] with the parsed arguments [--start], [--end] and [--out]:
    what it returns or raises, the requests it made, and the file it
    saved. *)
Definition main (server : nat -> FngHttp.reply) (start end_ out : string)
    : outcome Z * list FngHttp.event * option (string * list Fng.row) :=
  match _parse_date_yyyy_mm_dd start with
  | None => (Return 2, [], None)
  | Some start_date =>
      match _parse_date_yyyy_mm_dd end_ with
      | None => (Return 2, [], None)
      | Some end_date =>
          if end_date <? start_date then (Return 2, [], None)
          else
            let out_path :=
              if negb (out =? "")%string then out
              else default_out start_date end_date in
            let (data, tr) := fetch_all_fng server in
            match bind data (fun data => rows_of data start_date end_date) with
            | Raise e => (Raise e, tr, None)
            | Return rows =>
                match save_csv rows out_path with
                | Raise e => (Raise e, tr, None)
                | Return _ => (Return 0, tr, Some (out_path, rows))
                end
            end
      end
  end.

End Main.

End FngScript.

(* ================================================================== *)
(** ** market/earnings/alpha_vantage_earnings_fetch.py: the rows       *)
(* ================================================================== *)

Module EarningsRows.

(** [date(2023, 1, 1)] *)
Definition START_DATE : Z := days_from_civil 2023 1 1.

(** A row is a dict. *)
Definition row : Type := list (string * json).

(** How [fetch_quarterly_earnings] ends once the body is decoded: with
    its rows, with the [RuntimeError] that carries the message of the
    service (or the body when there is none), or with another
    exception. *)
Inductive fetched : Type :=
| Rows (rows : list row)
| UnexpectedResponse (message : json)
| Raised (e : exn).

(** [key in data] for a decoded body: a key of a dict, an item of a
    list, a part of a string; anything else cannot be searched. *)
Definition contains_key (key : string) (data : json) : outcome bool :=
  match data with
  | JObj fields => Return (has_key key fields)
  | JArr items =>
      Return (existsb (fun v => match v with
                                | JStr s => (s =? key)%string
                                | _ => false
                                end) items)
  | JStr s => Return (SeekingAlpha.contains key s)
  | _ => Raise TypeError
  end.

Section Parse.

(** [datetime.strptime(value, "%Y-%m-%d").date()] on a string, [None]
    when it raises [ValueError]. *)
Variable strptime : string -> option Z.

(** [parse_date(value)]: [strptime] wants a string. *)
Definition parse_date (value : json) : outcome Z :=
  match value with
  | JStr s =>
      match strptime s with
      | Some d => Return d
      | None => Raise ValueError
      end
  | _ => Raise TypeError
  end.

(** The dict appended for an element. *)
Definition quarterly_row (symbol : string) (fields : list (string * json))
    : row :=
  [("symbol", JStr symbol);
   ("fiscalDateEnding", get "fiscalDateEnding" fields);
   ("reportedDate", get "reportedDate" fields);
   ("reportedEPS", get "reportedEPS" fields);
   ("estimatedEPS", get "estimatedEPS" fields);
   ("surprise", get "surprise" fields);
   ("surprisePercentage", get "surprisePercentage" fields)].

(** One iteration of the loop: the [try] around
    [parse_date(item["fiscalDateEnding"])] with its [except Exception:
    continue], the test against [START_DATE], the dict. *)
Definition quarterly (symbol : string) (item : json) : option row :=
  match bind (OHLCV.getitem "fiscalDateEnding" item) parse_date with
  | Raise _ => None
  | Return fiscal_date =>
      if fiscal_date <? START_DATE then None
      else match item with
           | JObj fields => Some (quarterly_row symbol fields)
           | _ => None
           end
  end.

(** [for item in data["quarterlyEarnings"]] *)
Fixpoint collect (symbol : string) (items : list json) (rows : list row)
    : list row :=
  match items with
  | [] => rows
  | item :: rest =>
      match quarterly symbol item with
      | None => collect symbol rest rows
      | Some r => collect symbol rest (rows ++ [r])%list
      end
  end.

(** [fetch_quarterly_earnings] from the decoded body on. *)
Definition quarterly_earnings (symbol : string) (data : json) : fetched :=
  match contains_key "quarterlyEarnings" data with
  | Raise e => Raised e
  | Return false =>
      match data with
      | JObj fields =>
          UnexpectedResponse
            (or_ (or_ (get "Note" fields) (get "Information" fields))
                 (get "Error Message" fields))
      | _ => Raised AttributeError
      end
  | Return true =>
      match bind (OHLCV.getitem "quarterlyEarnings" data) iter with
      | Raise e => Raised e
      | Return items => Rows (collect symbol items [])
      end
  end.

(** *** [fetch_estimates] *)

(** [row[k] = v] on a dict that is being built. *)
Fixpoint set_item (k : string) (v : json) (d : row) : row :=
  match d with
  | [] => [(k, v)]
  | (k', w) :: rest =>
      if (k' =? k)%string then (k', v) :: rest else (k', w) :: set_item k v rest
  end.

(** [isinstance(v, (str, int, float)) or v is None]; a bool is an int. *)
Definition primitive (v : json) : bool :=
  match v with
  | JArr _ | JObj _ => false
  | _ => true
  end.

(** [data.get(key, []) or []], iterated. *)
Definition listed (key : string) (fields : list (string * json))
    : outcome (list json) :=
  iter (or_ (get_default key (JArr []) fields) (JArr [])).

(** One iteration of the loops over the quarterly estimates: the [try]
    around [parse_date(item.get("fiscalDateEnding"))], the test against
    [START_DATE], the dict; [out_key] is the column of the estimate and
    [other_key] the second spelling of its key. *)
Definition estimate (out_key other_key symbol : string) (item : json)
    : option row :=
  match bind (Macro.item_get "fiscalDateEnding" item) parse_date with
  | Raise _ => None
  | Return fiscal_date =>
      if fiscal_date <? START_DATE then None
      else match item with
           | JObj fields =>
               Some [("symbol", JStr symbol);
                     ("fiscalDateEnding", get "fiscalDateEnding" fields);
                     (out_key, or_ (get out_key fields) (get other_key fields));
                     ("numberAnalystsEstimated",
                      or_ (or_ (get "numberAnalystsEstimated" fields)
                               (get "numberAnalystEstimated" fields))
                          (get "numberOfAnalysts" fields))]
           | _ => None
           end
  end.

(** A loop that appends the dict of each element that has one. *)
Fixpoint gather (dict_of : json -> option row) (items : list json)
    (rows : list row) : list row :=
  match items with
  | [] => rows
  | item :: rest =>
      match dict_of item with
      | None => gather dict_of rest rows
      | Some r => gather dict_of rest (rows ++ [r])%list
      end
  end.

(** The flag [keep] of the trending loop after its [try]: it starts
    true, and only a date that reads can change it. *)
Definition keep (item : json) : bool :=
  match item with
  | JObj fields =>
      if truthy (get "date" fields) then
        match bind (OHLCV.getitem "date" item) parse_date with
        | Return d => START_DATE <=? d
        | Raise _ => true
        end
      else true
  | _ => true
  end.

(** [row = {"symbol": symbol}; for k, v in item.items(): ...] *)
Definition trending_row (symbol : string) (fields : list (string * json))
    : row :=
  fold_left (fun r kv => if primitive (snd kv)
                         then set_item (fst kv) (snd kv) r else r)
            fields [("symbol", JStr symbol)].

(** [for item in data.get("estimates", []) or []] *)
Fixpoint trending (symbol : string) (items : list json) (rows : list row)
    : outcome (list row) :=
  match items with
  | [] => Return rows
  | item :: rest =>
      if negb (keep item) then trending symbol rest rows
      else match item with
           | JObj fields =>
               trending symbol rest (rows ++ [trending_row symbol fields])%list
           | _ => Raise AttributeError
           end
  end.

(** How [fetch_estimates] ends once the body is decoded. *)
Inductive estimated : Type :=
| Estimates (eps_rows rev_rows trending_rows : list row)
| NoKnownShape (message : json)
| Failed (e : exn).

Definition estimates (symbol : string) (data : json) : estimated :=
  match data with
  | JObj fields =>
      match listed "quarterlyEarningsEstimates" fields with
      | Raise e => Failed e
      | Return eps_items =>
          let eps_rows :=
            gather (estimate "estimatedEPS" "estimated_eps" symbol)
                   eps_items [] in
          match listed "quarterlyRevenueEstimates" fields with
          | Raise e => Failed e
          | Return rev_items =>
              let rev_rows :=
                gather (estimate "revenueEstimate" "revenue_estimate" symbol)
                       rev_items [] in
              match bind (listed "estimates" fields)
                         (fun items => trending symbol items []) with
              | Raise e => Failed e
              | Return trending_rows =>
                  match eps_rows, rev_rows, has_key "estimates" fields with
                  | [], [], false =>
                      NoKnownShape
                        (or_ (or_ (get "Note" fields) (get "Information" fields))
                             (get "Error Message" fields))
                  | _, _, _ => Estimates eps_rows rev_rows trending_rows
                  end
              end
          end
      end
  | _ => Failed AttributeError
  end.

End Parse.

(** *** The header of the trending file *)

(** [keys = {"symbol"}; for r in trending_rows: keys.update(r.keys())]:
    the set, as a list without repetition. *)
Definition union_of_keys (trending_rows : list row) : list string :=
  nodup string_dec ("symbol" :: flat_map (map fst) trending_rows).

(** [for k in ("date", "horizon"): if k in keys and k not in ordered:
    ordered.append(k)] *)
Definition lead (keys ordered : list string) (k : string) : list string :=
  if existsb (String.eqb k) keys && negb (existsb (String.eqb k) ordered)
  then (ordered ++ [k])%list else ordered.

(** [sorted(keys - set(ordered))] *)
Definition others (keys ordered : list string) : list string :=
  sort String.leb
       (filter (fun k => negb (existsb (String.eqb k) ordered)) keys).

(** The [fieldnames] given to the [DictWriter] of the trending file. *)
Definition trending_header (trending_rows : list row) : list string :=
  let keys := union_of_keys trending_rows in
  let ordered := fold_left (lead keys) ["date"; "horizon"] ["symbol"] in
  (ordered ++ others keys ordered)%list.

(** [DictWriter.writerow] raises [ValueError] for a dict with a key that
    is not among the field names. *)
Definition writerow (fieldnames : list string) (r : row) : outcome unit :=
  if forallb (fun k => existsb (String.eqb k) fieldnames) (map fst r)
  then Return tt else Raise ValueError.

End EarningsRows.

(* ================================================================== *)
(** ** X/tweets.py: the requests of a crawl                            *)
(* ================================================================== *)

Module TweetsLog.

Import Tweets.

(** The loop of [fetch_user_tweets] once more, this time with the
    requests it sends: the number of each request and the cursor it
    carries. *)
Fixpoint crawl_log (w : world) (user_id : json) (todo : nat) (page : Z)
    (cursor : json) (all_tweets : list json)
    : list json * list (Z * json) :=
  match todo with
  | O => (all_tweets, [])
  | S todo' =>
      match try_page w user_id page cursor all_tweets with
      | Raise _ => (all_tweets, [(page, cursor)])
      | Return (all_tweets', next_cursor) =>
          if negb (truthy next_cursor) then (all_tweets', [(page, cursor)])
          else
            let (result, sent) :=
              crawl_log w user_id todo' (page + 1) next_cursor all_tweets' in
            (result, (page, cursor) :: sent)
      end
  end.

Definition fetch_user_tweets_log (w : world) (user_id : json) (max_pages : Z)
    : list json * list (Z * json) :=
  crawl_log w user_id (Z.to_nat max_pages) 1 JNull [].

(** The tweets a request brings: those of its page, none when the
    [try] block raises. *)
Definition brought (w : world) (user_id : json) (request : Z * json)
    : list json :=
  match try_page w user_id (fst request) (snd request) [] with
  | Return (tweets, _) => tweets
  | Raise _ => []
  end.

(** The cursor a request hands to the next one. *)
Definition handed_on (w : world) (user_id : json) (request : Z * json)
    : option json :=
  match try_page w user_id (fst request) (snd request) [] with
  | Return (_, next_cursor) =>
      if truthy next_cursor then Some next_cursor else None
  | Raise _ => None
  end.

(** Each request of a list carries the cursor the one before handed on. *)
Fixpoint chained (w : world) (user_id : json) (sent : list (Z * json)) : Prop :=
  match sent with
  | request :: ((next :: _) as rest) =>
      handed_on w user_id request = Some (snd next) /\ chained w user_id rest
  | _ => True
  end.

End TweetsLog.

(* ================================================================== *)
(** ** SEC Fillings/nvda_ko_earnings_call_fetch.py: the download loop
       of [main] and the files it writes                               *)
(* ================================================================== *)

Module Transcripts.

Import SeekingAlpha.

(** The output directory: the text of each file that is there. *)
Definition directory : Type := string -> option string.

(** The directory with one file replaced, or removed. *)
Definition put (name : string) (content : option string) (dir : directory)
    : directory :=
  fun n => if (n =? name)%string then content else dir n.

(** [out_path.write_text(text)] when it goes through. *)
Definition write_text (name text : string) (dir : directory) : directory :=
  put name (Some text) dir.

(** Where the disk can fail: making the output directory, writing the
    metadata file, and writing a transcript, which then raises and leaves
    no file or a file with some text. *)
Record disk : Type := {
  mkdir : outcome unit;
  to_csv : list transcript -> outcome unit;
  write_fails : string -> string -> option (exn * option string)
}.

(** [out_path.exists() and out_path.stat().st_size > 0] *)
Definition present (name : string) (dir : directory) : bool :=
  match dir name with
  | Some text => negb (text =? "")%string
  | None => false
  end.

(** [row["date"].strftime("%Y-%m-%d")]; [NaT] has no [strftime]. *)
Definition date_str (d : stamp) : outcome string :=
  match d with
  | At t | Aware t => Return (isoformat (t / 86400))
  | NaT => Raise ValueError
  end.

(** [f"{ticker}_{date_str}_earnings_call.txt"] *)
Definition fname (row : transcript) : outcome string :=
  bind (date_str (date row)) (fun s =>
  Return (ticker row ++ "_" ++ s ++ "_earnings_call.txt")).

(** [for _, row in df_all.iterrows()]: a file that is there and not
    empty is passed over; a download that raises is reported and passed
    over; a text that came is written, outside the [try].  [fetch] is
    what [fetch_transcript_text] gives for a URL.  The result is what the
    loop returns or raises, the directory it leaves and the URLs that
    were asked for, in order. *)
Fixpoint download (d : disk) (fetch : string -> outcome string)
    (rows : list transcript) (dir : directory)
    : outcome unit * directory * list string :=
  match rows with
  | [] => (Return tt, dir, [])
  | row :: rest =>
      match fname row with
      | Raise e => (Raise e, dir, [])
      | Return name =>
          if present name dir then download d fetch rest dir
          else
            match fetch (url row) with
            | Raise _ =>
                let '(result, dir', asked) := download d fetch rest dir in
                (result, dir', url row :: asked)
            | Return text =>
                match write_fails d name text with
                | Some (e, content) => (Raise e, put name content dir, [url row])
                | None =>
                    let '(result, dir', asked) :=
                      download d fetch rest (write_text name text dir) in
                    (result, dir', url row :: asked)
                end
            end
      end
  end.

(** The rows whose file is missing or empty. *)
Definition missing (dir : directory) (row : transcript) : bool :=
  match fname row with
  | Return name => negb (present name dir)
  | Raise _ => false
  end.

(** [main]: the output directory, the listings of the two tickers, the
    metadata file when there is a row, the download loop.
    [get_soup ticker page] is what fetching a listing page of the ticker
    gives.  The result is what [main] returns or raises, the rows of the
    metadata file when it was written, the directory of the transcripts
    and the URLs asked for. *)
Definition main (to_datetime : string -> option stamp)
    (get_soup : string -> Z -> outcome (list article))
    (d : disk) (fetch : string -> outcome string) (dir : directory)
    : outcome unit * option (list transcript) * directory * list string :=
  match mkdir d with
  | Raise e => (Raise e, None, dir, [])
  | Return _ =>
  match fst (list_earnings_call_transcripts_for_ticker to_datetime
               (get_soup "NVDA") "NVDA" 10) with
  | Raise e => (Raise e, None, dir, [])
  | Return nvda =>
  match fst (list_earnings_call_transcripts_for_ticker to_datetime
               (get_soup "KO") "KO" 10) with
  | Raise e => (Raise e, None, dir, [])
  | Return ko =>
  match (nvda ++ ko)%list with
  | [] => (Return tt, None, dir, [])
  | df_all =>
      match to_csv d df_all with
      | Raise e => (Raise e, None, dir, [])
      | Return _ =>
          let '(result, dir', asked) := download d fetch df_all dir in
          (result, Some df_all, dir', asked)
      end
  end
  end
  end
  end.

End Transcripts.

(* ================================================================== *)
(** ** fred_data/fred_data_fetch.py                                    *)
(* ================================================================== *)

Module Fred.

Definition API_KEY : string := "c1fc7556af1da1e3bedf5089ecb865c6".

(** [SERIES_IDS.items()], in the order of the literal. *)
Definition SERIES_IDS : list (string * string) :=
  [ ("dollar_index", "DTWEXBGS");
    ("overnight_rate", "FEDFUNDS");
    ("market_volatility", "VIXCLS") ].

(** [if realtime_start: params["realtime_start"] = realtime_start] *)
Definition given (key : string) (value : option string)
    : list (string * string) :=
  match value with
  | Some s => if (s =? "")%string then [] else [(key, s)]
  | None => []
  end.

Definition params (series_id start_date end_date : string)
    (realtime_start realtime_end : option string) : list (string * string) :=
  ([ ("series_id", series_id);
     ("api_key", API_KEY);
     ("file_type", "json");
     ("observation_start", start_date);
     ("observation_end", end_date) ]
   ++ given "realtime_start" realtime_start
   ++ given "realtime_end" realtime_end)%list.

(** [requests.get] raises, or yields a response whose body is a JSON
    document or not. *)
Inductive reply : Type :=
| Fails (e : exn)
| Response (status : Z) (body : option json).

(** The outside world: the server and the disk. *)
Record world : Type := {
  requests_get : list (string * string) -> reply;
  json_dump : string -> json -> outcome unit
}.

Definition fetch_series (w : world) (series_id start_date end_date : string)
    (realtime_start realtime_end : option string) : outcome json :=
  match requests_get w
          (params series_id start_date end_date realtime_start realtime_end)
  with
  | Fails e => Raise e
  | Response status body =>
      if SeekingAlpha.raise_for_status status then Raise HTTPError
      else match body with
           | Some data => Return data
           | None => Raise JSONDecodeError
           end
  end.

(** [name.replace(" ", "_")] *)
Fixpoint replace_spaces (s : string) : string :=
  match s with
  | EmptyString => EmptyString
  | String c rest =>
      String (if Ascii.eqb c " " then "_"%char else c) (replace_spaces rest)
  end.

Definition filename (name start end_ : string) : string :=
  replace_spaces name ++ "_" ++ start ++ "_" ++ end_ ++ ".json".

(** [len(data.get('observations', []))] in the line printed after the
    file is closed: only a dict has [get], and only a list, a dict or a
    string has a length. *)
Definition printed_rows (data : json) : outcome unit :=
  match data with
  | JObj fields =>
      match get_default "observations" (JArr []) fields with
      | JArr _ | JObj _ | JStr _ => Return tt
      | _ => Raise TypeError
      end
  | _ => Raise AttributeError
  end.

(** The loop of [main]; [written] are the files closed so far. *)
Fixpoint loop (w : world) (start end_ : string)
    (realtime_start realtime_end : option string)
    (series : list (string * string)) (written : list (string * json))
    : outcome unit * list (string * json) :=
  match series with
  | [] => (Return tt, written)
  | (name, series_id) :: rest =>
      match fetch_series w series_id start end_ realtime_start realtime_end with
      | Raise e => (Raise e, written)
      | Return payload =>
          (* save_dataset *)
          match json_dump w (filename name start end_) payload with
          | Raise e => (Raise e, written)
          | Return _ =>
              let written' :=
                (written ++ [(filename name start end_, payload)])%list in
              match printed_rows payload with
              | Raise e => (Raise e, written')
              | Return _ =>
                  loop w start end_ realtime_start realtime_end rest written'
              end
          end
      end
  end.

(** [main]; the placeholder test ends the run with [SystemExit]. *)
Definition main (w : world) (start end_ : string)
    (realtime_start realtime_end : option string)
    : outcome unit * list (string * json) :=
  if SeekingAlpha.contains "your_api_key_here" API_KEY
  then (Raise OtherException, [])
  else loop w start end_ realtime_start realtime_end SERIES_IDS [].

End Fred.


(* ================================================================== *)
(** ** More concrete inputs used in the examples                       *)
(* ================================================================== *)

Module Examples.

(** A crypto row that has lost its USD close: the three other USD keys
    are there, and so are the four plain keys. *)
Definition crypto_row_without_usd_close : json :=
  JObj [("1a. open (USD)", JStr "42000.50");
        ("2a. high (USD)", JStr "43000");
        ("3a. low (USD)", JStr "41000");
        ("1. open", JStr "38000.25");
        ("2. high", JStr "39000");
        ("3. low", JStr "37000");
        ("4. close", JStr "38500");
        ("5. volume", JStr "1200.5")].

(** Alternative.me serves the four readings of the date-window
    scenario at the first request. *)
Definition fng_serving : nat -> FngHttp.reply :=
  fun _ =>
    FngHttp.Response 200
      (FngHttp.Document
         (JObj [("name", JStr "Fear and Greed Index");
                ("data", JArr Scenario.fng_payload)])).

(** A disk that takes every file. *)
Definition fng_disk : list Fng.row -> string -> outcome unit :=
  fun _ _ => Return tt.

(** A body of the EARNINGS endpoint: a quarter of 2024, a quarter of
    2022, an element without its date, and an element that is no dict. *)
Definition earnings_quarter (fiscal reported eps : string) : json :=
  JObj [("fiscalDateEnding", JStr fiscal); ("reportedDate", JStr reported);
        ("reportedEPS", JStr eps)].

Definition earnings_body : json :=
  JObj [("symbol", JStr "NVDA");
        ("quarterlyEarnings",
         JArr [earnings_quarter "2024-01-31" "2024-02-21" "5.16";
               earnings_quarter "2022-10-31" "2022-11-16" "0.58";
               JObj [("reportedEPS", JStr "1.0")];
               JStr "n/a"])].

(** Two transcripts of the crawl, a site that serves the text of the
    first and fails on the second, and a directory that has the file of
    the first. *)
Definition call (link : string) (y m d : Z) : SeekingAlpha.transcript :=
  {| SeekingAlpha.ticker := "NVDA";
     SeekingAlpha.title := "NVIDIA Earnings Call Transcript";
     SeekingAlpha.url := link;
     SeekingAlpha.date := SeekingAlpha.At (days_from_civil y m d * 86400) |}.

Definition calls : list SeekingAlpha.transcript :=
  [call "/article/4739005" 2024 11 20; call "/article/4715382" 2024 8 28].

Definition site (rel_url : string) : outcome string :=
  if (rel_url =? "/article/4739005")%string then Return "Operator: Good afternoon."
  else Raise HTTPError.

Definition sound_disk : Transcripts.disk :=
  {| Transcripts.mkdir := Return tt;
     Transcripts.to_csv := fun _ => Return tt;
     Transcripts.write_fails := fun _ _ => None |}.

(** A disk that is full: no transcript can be written. *)
Definition full_disk : Transcripts.disk :=
  {| Transcripts.mkdir := Return tt;
     Transcripts.to_csv := fun _ => Return tt;
     Transcripts.write_fails := fun _ _ => Some (OSError, Some "") |}.

Definition directory_with_one_file : Transcripts.directory :=
  Transcripts.write_text "NVDA_2024-11-20_earnings_call.txt"
    "Operator: Good afternoon." (fun _ => None).

(** Elements of the trending list: one of 2022, and one whose date
    does not read, which has a symbol of its own and a field that is a
    list. *)
Definition undated_estimate : json :=
  JObj [("date", JStr "n/a"); ("eps_estimate_average", JStr "1.2");
        ("symbol", JStr "NVDA.X"); ("history", JArr [])].

Definition trending_items : list json :=
  [JObj [("date", JStr "2022-06-30"); ("horizon", JStr "fiscal quarter")];
   undated_estimate].

End Examples.

(* ================================================================== *)
(** * Theorems                                                         *)
(* ================================================================== *)

(** ** Lists produced by a function of the index *)

Module Indexed.

Lemma sorted_map_seq :
  forall (f : nat -> Z) (n k : nat),
    (forall i, f i <= f (S i)) ->
    Sorted Z.le (map f (seq k n)).
Proof.
  intros f n; induction n as [|n IH]; intros k Hf; simpl.
  - constructor.
  - constructor.
    + apply IH; assumption.
    + destruct n; simpl; constructor. apply Hf.
Qed.

Lemma sorted_map_seq_Q :
  forall (f : nat -> Q) (n k : nat),
    (forall i, (f i <= f (S i))%Q) ->
    Sorted Qle (map f (seq k n)).
Proof.
  intros f n; induction n as [|n IH]; intros k Hf; simpl.
  - constructor.
  - constructor.
    + apply IH; assumption.
    + destruct n; simpl; constructor. apply Hf.
Qed.

Lemma pow2_succ : forall k : nat, 2 ^ Z.of_nat (S k) = 2 * 2 ^ Z.of_nat k.
Proof.
  intros k. rewrite Nat2Z.inj_succ. apply Z.pow_succ_r. lia.
Qed.

Lemma pow2_pos : forall k : nat, 0 < 2 ^ Z.of_nat k.
Proof. intros k. apply Z.pow_pos_nonneg; lia. Qed.

End Indexed.

(** ** The retry helpers when every attempt fails *)

Module RetryFacts.

Import Indexed.

(** The Alpha Vantage helper under a permanent throttling signal, from
    any iteration of its loop on. *)
Lemma av_attempts_throttled :
  forall server max_retries todo k,
    (forall i, OHLCV.throttled (server i)) ->
    (0 < todo)%nat ->
    Z.of_nat k + Z.of_nat todo = max_retries ->
    exists note tr,
      OHLCV.attempts server max_retries todo k (Z.min (15 * 2 ^ Z.of_nat k) 120)
      = (Raise (AlphaVantageError (RateMessage max_retries note)), tr)
      /\ OHLCV.requests tr = todo
      /\ OHLCV.sleeps tr
         = map (fun i => Z.min (15 * 2 ^ Z.of_nat i) 120) (seq k (todo - 1)).
Proof.
  intros server max_retries todo; induction todo as [|todo IH];
    intros k Hthr Hpos Hsum; [lia|].
  destruct (Hthr k) as (status & fields & Hk & Hnote).
  cbn [OHLCV.attempts]. rewrite Hk, Hnote.
  destruct todo as [|todo].
  - replace (Z.of_nat k + 1 =? max_retries) with true
      by (symmetry; apply Z.eqb_eq; lia).
    exists (OHLCV.note_msg fields), [OHLCV.Get].
    replace (Z.of_nat k + 1) with max_retries by lia. repeat split.
  - replace (Z.of_nat k + 1 =? max_retries) with false
      by (symmetry; apply Z.eqb_neq; lia).
    assert (Hb : Z.min (Z.min (15 * 2 ^ Z.of_nat k) 120 * 2) 120
                 = Z.min (15 * 2 ^ Z.of_nat (S k)) 120).
    { rewrite pow2_succ. pose proof (pow2_pos k). lia. }
    rewrite Hb.
    destruct (IH (S k) Hthr) as (note & tr & Hrun & Hreq & Hsl); [lia|lia|].
    rewrite Hrun. exists note. eexists. split; [reflexivity|]. split.
    + unfold OHLCV.requests in *. simpl. rewrite Hreq. reflexivity.
    + simpl OHLCV.sleeps. rewrite Hsl.
      replace (S (S todo) - 1)%nat with (S (S todo - 1)) by lia.
      reflexivity.
Qed.

Lemma capped_geometric_sorted :
  forall n, Sorted Z.le (OHLCV.capped_geometric 15 2 120 n).
Proof.
  intros n. unfold OHLCV.capped_geometric. apply sorted_map_seq.
  intros i. rewrite pow2_succ. pose proof (pow2_pos i). lia.
Qed.

Lemma capped_geometric_bounded :
  forall n, Forall (fun d => d <= 120) (OHLCV.capped_geometric 15 2 120 n).
Proof.
  intros n. unfold OHLCV.capped_geometric. apply Forall_forall.
  intros d Hd. apply in_map_iff in Hd. destruct Hd as (i & <- & _). lia.
Qed.

(** The Fear and Greed helper when every attempt ends in an exception
    it catches. *)
Lemma fng_attempts_failing :
  forall server retries backoff todo attempt last_err,
    (forall i, FngHttp.failing (server i)) ->
    (0 < todo)%nat ->
    Z.of_nat attempt + Z.of_nat todo = retries ->
    exists e tr,
      FngHttp.attempts server retries backoff todo attempt last_err
      = (Raise (RuntimeError e), tr)
      /\ FngHttp.requests tr = todo
      /\ FngHttp.sleeps tr
         = map (fun i => (backoff ^ Z.of_nat i)%Q) (seq attempt (todo - 1)).
Proof.
  intros server retries backoff todo; induction todo as [|todo IH];
    intros attempt last_err Hfail Hpos Hsum; [lia|].
  destruct (Hfail attempt) as (e & He & Hc).
  cbn [FngHttp.attempts]. rewrite He, Hc.
  destruct todo as [|todo].
  - replace (Z.of_nat attempt <? retries - 1) with false
      by (symmetry; apply Z.ltb_ge; lia).
    exists e, [FngHttp.Urlopen]. repeat split.
  - replace (Z.of_nat attempt <? retries - 1) with true
      by (symmetry; apply Z.ltb_lt; lia).
    destruct (IH (S attempt) (Some e) Hfail) as (e' & tr & Hrun & Hreq & Hsl);
      [lia|lia|].
    rewrite Hrun. exists e'. eexists. split; [reflexivity|]. split.
    + unfold FngHttp.requests in *. simpl. rewrite Hreq. reflexivity.
    + simpl FngHttp.sleeps. rewrite Hsl.
      replace (S (S todo) - 1)%nat with (S (S todo - 1)) by lia.
      reflexivity.
Qed.

Lemma Qpower_step :
  forall (b : Q) (i : nat), (b ^ Z.of_nat (S i) == b * b ^ Z.of_nat i)%Q.
Proof.
  intros b i. rewrite Nat2Z.inj_succ. unfold Z.succ.
  destruct (Z.eq_dec (Z.of_nat i) 0) as [E|E].
  - rewrite E. simpl. unfold Qpower_positive. simpl. ring.
  - rewrite Qpower_plus' by lia. simpl (b ^ 1)%Q. ring.
Qed.

Lemma geometric_nondecreasing :
  forall (b : Q) (i : nat),
    (1 <= b)%Q -> (b ^ Z.of_nat i <= b ^ Z.of_nat (S i))%Q.
Proof.
  intros b i Hb. apply Qpower_le_compat_l; [lia|assumption].
Qed.

End RetryFacts.

(** ** The rate-limited GET *)

Module GetFacts.

Import SeekingAlpha.

Lemma backoffs_app :
  forall h1 h2, backoffs (h1 ++ h2) = (backoffs h1 ++ backoffs h2)%list.
Proof.
  induction h1 as [|e h1 IH]; intros h2; simpl; [reflexivity|].
  destruct e as [[| |] s|s f ok]; simpl; rewrite IH; reflexivity.
Qed.

Lemma request_times_app :
  forall h1 h2,
    request_times (h1 ++ h2) = (request_times h1 ++ request_times h2)%list.
Proof.
  induction h1 as [|e h1 IH]; intros h2; simpl; [reflexivity|].
  destruct e as [w s|s f ok]; simpl; rewrite IH; reflexivity.
Qed.

(** Waiting for the spacing touches neither the marker nor the count of
    requests, and adds no request and no back-off to the history. *)
Lemma enforce_spacing_frame :
  forall cfg st,
    _LAST_REQUEST_TIME (enforce_spacing cfg st) = _LAST_REQUEST_TIME st
    /\ sent (enforce_spacing cfg st) = sent st
    /\ backoffs (history (enforce_spacing cfg st)) = backoffs (history st)
    /\ request_times (history (enforce_spacing cfg st))
       = request_times (history st).
Proof.
  intros cfg st. unfold enforce_spacing.
  destruct (Qlt_bool 0 (wait_for cfg st)); simpl; repeat split;
    try reflexivity.
  - rewrite backoffs_app. simpl. apply app_nil_r.
  - rewrite request_times_app. simpl. apply app_nil_r.
Qed.

(** A refused request raises a [RequestException] and leaves the marker
    as it was. *)
Lemma send_refused :
  forall server st,
    refused (server (sent st)) = true ->
    exists e st',
      send server st = (Raise e, st')
      /\ is_request_exception e = true
      /\ _LAST_REQUEST_TIME st' = _LAST_REQUEST_TIME st
      /\ sent st' = S (sent st)
      /\ history st'
         = (history st
            ++ [Requested (clock st)
                          (clock st + duration (server (sent st)))%Q false])%list.
Proof.
  intros server st Href. unfold refused in Href. unfold send.
  destruct (answer (server (sent st))) as [|status text].
  - eexists; eexists; split; [reflexivity|]. simpl. repeat split.
  - rewrite Href. eexists; eexists; split; [reflexivity|]. simpl.
    repeat split.
Qed.

(** An accepted request returns the response, whatever its text, and
    sets the marker to the time it finished. *)
Lemma send_accepted :
  forall server st,
    refused (server (sent st)) = false ->
    exists status text st',
      send server st = (Return (status, text), st')
      /\ answer (server (sent st)) = Response status text
      /\ _LAST_REQUEST_TIME st' = clock st'
      /\ clock st' = (clock st + duration (server (sent st)))%Q
      /\ sent st' = S (sent st)
      /\ history st'
         = (history st
            ++ [Requested (clock st)
                          (clock st + duration (server (sent st)))%Q true])%list.
Proof.
  intros server st Href. unfold refused in Href. unfold send.
  destruct (answer (server (sent st))) as [|status text]; [discriminate|].
  rewrite Href. exists status, text. eexists. split; [reflexivity|].
  simpl. repeat split.
Qed.

(** The helper when every request is refused, from any iteration of its
    loop on. *)
Lemma attempts_refused :
  forall cfg server todo k st,
    (forall i, refused (server i) = true) ->
    (0 < todo)%nat ->
    Z.of_nat k + Z.of_nat todo = MAX_RETRIES cfg ->
    exists e st',
      attempts cfg server todo (Z.of_nat k + 1) st = (Raise e, st')
      /\ sent st' = (sent st + todo)%nat
      /\ _LAST_REQUEST_TIME st' = _LAST_REQUEST_TIME st
      /\ backoffs (history st')
         = (backoffs (history st)
            ++ map (fun i => (BACKOFF_FACTOR cfg * inject_Z (2 ^ Z.of_nat i))%Q)
                   (seq k (todo - 1)))%list.
Proof.
  intros cfg server todo; induction todo as [|todo IH];
    intros k st Href Hpos Hsum; [lia|].
  cbn [attempts].
  destruct (enforce_spacing_frame cfg st) as (Hm & Hs & Hb & _).
  destruct (send_refused server (enforce_spacing cfg st) (Href _))
    as (e & st2 & Hsend & He & Hm2 & Hs2 & Hh2).
  rewrite Hsend, He.
  destruct todo as [|todo].
  - replace (Z.of_nat k + 1 =? MAX_RETRIES cfg) with true
      by (symmetry; apply Z.eqb_eq; lia).
    exists e, st2. split; [reflexivity|]. repeat split.
    + rewrite Hs2, Hs. lia.
    + rewrite Hm2, Hm. reflexivity.
    + rewrite Hh2, backoffs_app, Hb. simpl. reflexivity.
  - replace (Z.of_nat k + 1 =? MAX_RETRIES cfg) with false
      by (symmetry; apply Z.eqb_neq; lia).
    replace (Z.of_nat k + 1 + 1) with (Z.of_nat (S k) + 1) by lia.
    replace (Z.of_nat k + 1 - 1) with (Z.of_nat k) by lia.
    destruct (IH (S k)
                (sleep Backoff
                   (BACKOFF_FACTOR cfg * inject_Z (2 ^ Z.of_nat k))%Q st2) Href)
      as (e' & st' & Hrun & Hsent & Hmark & Hback); [lia|lia|].
    rewrite Hrun. exists e', st'. split; [reflexivity|]. repeat split.
    + rewrite Hsent. simpl. rewrite Hs2, Hs. lia.
    + rewrite Hmark. simpl. rewrite Hm2, Hm. reflexivity.
    + rewrite Hback. cbn [sleep history].
      rewrite backoffs_app, Hh2, backoffs_app, Hb.
      cbn [backoffs]. rewrite app_nil_r, <- app_assoc.
      replace (S (S todo) - 1)%nat with (S (S todo - 1)) by lia.
      reflexivity.
Qed.

End GetFacts.

(** ** C1: exhausted retries and their delays *)

Module Exhaustion.

Import Indexed RetryFacts GetFacts.

Lemma bernoulli :
  forall n : nat,
    (1 + (3 # 5) * inject_Z (Z.of_nat n)
     <= FngHttp.fetch_all_fng_backoff ^ Z.of_nat n)%Q.
Proof.
  induction n as [|n IH].
  - vm_compute. discriminate.
  - rewrite Qpower_step. rewrite Nat2Z.inj_succ. unfold Z.succ.
    rewrite inject_Z_plus.
    assert (0 <= inject_Z (Z.of_nat n))%Q
      by (rewrite <- (Zle_Qle 0); lia).
    unfold FngHttp.fetch_all_fng_backoff in *.
    set (p := ((16 # 10) ^ Z.of_nat n)%Q) in *.
    set (x := inject_Z (Z.of_nat n)) in *.
    change (inject_Z 1) with 1%Q. lra.
Qed.

(** C1, as amended.  When every attempt fails in the way the helper
    retries, the helper makes exactly [r] attempts and then raises, and
    it sleeps [r - 1] times in between.  In the Alpha Vantage helper
    (permanent throttling note) the delays are [15 * 2^i] seconds cut at
    120, hence non-decreasing and never above 120.  In the Fear and Greed
    helper (every request raising a caught exception) the delays are
    [backoff^i], and in the Seeking Alpha helper (every request refused)
    [BACKOFF_FACTOR * 2^i]: plain geometric sequences without a maximum,
    non-decreasing when [backoff >= 1], respectively
    [BACKOFF_FACTOR >= 0]. *)
Theorem exhausted_retries_make_r_attempts :
  (forall server r result tr,
      1 <= r ->
      (forall i, OHLCV.throttled (server i)) ->
      OHLCV._request_with_retries server r = (result, tr) ->
      (exists note, result = Raise (AlphaVantageError (RateMessage r note)))
      /\ OHLCV.requests tr = Z.to_nat r
      /\ OHLCV.sleeps tr = OHLCV.capped_geometric 15 2 120 (Z.to_nat r - 1)
      /\ Sorted Z.le (OHLCV.sleeps tr)
      /\ Forall (fun d => d <= 120) (OHLCV.sleeps tr))
  /\
  (forall server r backoff result tr,
      1 <= r ->
      (forall i, FngHttp.failing (server i)) ->
      FngHttp._http_get_json server r backoff = (result, tr) ->
      (exists e, result = Raise (RuntimeError e))
      /\ FngHttp.requests tr = Z.to_nat r
      /\ FngHttp.sleeps tr
         = map (fun i => (backoff ^ Z.of_nat i)%Q) (seq 0 (Z.to_nat r - 1))
      /\ ((1 <= backoff)%Q -> Sorted Qle (FngHttp.sleeps tr)))
  /\
  (forall cfg server st result st',
      1 <= SeekingAlpha.MAX_RETRIES cfg ->
      (forall i, SeekingAlpha.refused (server i) = true) ->
      SeekingAlpha._rate_limited_get cfg server st = (result, st') ->
      let delays :=
        map (fun i => (SeekingAlpha.BACKOFF_FACTOR cfg * inject_Z (2 ^ Z.of_nat i))%Q)
            (seq 0 (Z.to_nat (SeekingAlpha.MAX_RETRIES cfg) - 1)) in
      (exists e, result = Raise e)
      /\ SeekingAlpha.sent st'
         = (SeekingAlpha.sent st + Z.to_nat (SeekingAlpha.MAX_RETRIES cfg))%nat
      /\ SeekingAlpha.backoffs (SeekingAlpha.history st')
         = (SeekingAlpha.backoffs (SeekingAlpha.history st) ++ delays)%list
      /\ ((0 <= SeekingAlpha.BACKOFF_FACTOR cfg)%Q -> Sorted Qle delays)).
Proof.
  split; [|split].
  - intros server r result tr Hr Hthr Hrun.
    unfold OHLCV._request_with_retries in Hrun.
    destruct (av_attempts_throttled server r (Z.to_nat r) 0 Hthr)
      as (note & tr' & Hrun' & Hreq & Hsl); [lia|lia|].
    change (Z.min (15 * 2 ^ Z.of_nat 0) 120) with 15 in Hrun'.
    rewrite Hrun' in Hrun. injection Hrun as <- <-.
    assert (Hgeo : OHLCV.sleeps tr'
                   = OHLCV.capped_geometric 15 2 120 (Z.to_nat r - 1))
      by exact Hsl.
    split; [exists note; reflexivity|]. split; [exact Hreq|].
    split; [exact Hgeo|]. rewrite Hgeo. split.
    + apply capped_geometric_sorted.
    + apply capped_geometric_bounded.
  - intros server r backoff result tr Hr Hfail Hrun.
    unfold FngHttp._http_get_json in Hrun.
    destruct (fng_attempts_failing server r backoff (Z.to_nat r) 0 None Hfail)
      as (e & tr' & Hrun' & Hreq & Hsl); [lia|lia|].
    rewrite Hrun' in Hrun. injection Hrun as <- <-.
    split; [exists e; reflexivity|]. split; [exact Hreq|].
    split; [exact Hsl|]. intros Hb. rewrite Hsl.
    apply sorted_map_seq_Q. intros i. apply geometric_nondecreasing, Hb.
  - intros cfg server st result st' Hr Href Hrun delays.
    unfold SeekingAlpha._rate_limited_get in Hrun.
    destruct (attempts_refused cfg server
                (Z.to_nat (SeekingAlpha.MAX_RETRIES cfg)) 0 st Href)
      as (e & st2 & Hrun' & Hsent & _ & Hback); [lia|lia|].
    change (Z.of_nat 0 + 1) with 1 in Hrun'.
    rewrite Hrun' in Hrun. injection Hrun as <- <-.
    split; [exists e; reflexivity|]. split; [exact Hsent|].
    split; [exact Hback|]. intros Hb. unfold delays.
    apply sorted_map_seq_Q. intros i.
    rewrite pow2_succ, inject_Z_mult.
    assert (0 < inject_Z (2 ^ Z.of_nat i))%Q
      by (rewrite <- (Zlt_Qlt 0); apply pow2_pos).
    set (p := inject_Z (2 ^ Z.of_nat i)) in *.
    set (b := SeekingAlpha.BACKOFF_FACTOR cfg) in *.
    change (inject_Z 2) with 2%Q. nra.
Qed.

Lemma av_throttling_throttled :
  forall i, OHLCV.throttled (Scenario.av_throttling i).
Proof.
  intros i. unfold Scenario.av_throttling. eexists; eexists.
  split; [reflexivity|]. reflexivity.
Qed.

Lemma fng_down_failing : forall i, FngHttp.failing (Scenario.fng_down i).
Proof. intros i. exists URLError. split; reflexivity. Qed.

(** The theorem at work: six attempts against a throttling Alpha
    Vantage, three against an unreachable alternative.me, three against
    a refusing Seeking Alpha. *)
Lemma exhausted_retries_witness :
  OHLCV.requests (snd (OHLCV._request_with_retries Scenario.av_throttling 6))
  = 6%nat
  /\ FngHttp.requests
       (snd (FngHttp._http_get_json Scenario.fng_down 3
               FngHttp.fetch_all_fng_backoff))
     = 3%nat
  /\ SeekingAlpha.sent
       (snd (SeekingAlpha._rate_limited_get SeekingAlpha.configured
               Scenario.sa_refusing (SeekingAlpha.boot 100)))
     = 3%nat.
Proof.
  destruct exhausted_retries_make_r_attempts as (Hav & Hfng & Hsa).
  split; [|split].
  - destruct (OHLCV._request_with_retries Scenario.av_throttling 6)
      as [result tr] eqn:E.
    apply (Hav _ 6 result tr) in E;
      [apply E | lia | exact av_throttling_throttled].
  - destruct (FngHttp._http_get_json Scenario.fng_down 3
                FngHttp.fetch_all_fng_backoff) as [result tr] eqn:E.
    apply (Hfng _ 3 _ result tr) in E;
      [apply E | lia | exact fng_down_failing].
  - destruct (SeekingAlpha._rate_limited_get SeekingAlpha.configured
                Scenario.sa_refusing (SeekingAlpha.boot 100))
      as [result st'] eqn:E.
    apply (Hsa _ _ _ result st') in E;
      [apply E | simpl; lia | intros i; reflexivity].
Defined.

(** C1 as stated fails.  When every request errors, the Alpha Vantage
    helper makes one attempt, not [r = 6]: it retries the throttling note
    only.  And the Fear and Greed helper has no maximum single wait: with
    the multiplier [fetch_all_fng] passes (1.6), every candidate cap is
    exceeded once the retry count is large enough. *)
Lemma not_every_helper_has_r_attempts_and_a_cap :
  OHLCV.requests (snd (OHLCV._request_with_retries Scenario.av_unreachable 6))
  = 1%nat
  /\ ~ exists cap : Q,
        forall r : Z,
          Forall (fun d => (d <= cap)%Q)
            (FngHttp.sleeps
               (snd (FngHttp._http_get_json Scenario.fng_down r
                       FngHttp.fetch_all_fng_backoff))).
Proof.
  split; [reflexivity|].
  intros (cap & Hcap).
  set (n := Z.to_nat (Z.max 0 (2 * Qceiling cap))).
  specialize (Hcap (Z.of_nat n + 2)).
  unfold FngHttp._http_get_json in Hcap.
  destruct (fng_attempts_failing Scenario.fng_down (Z.of_nat n + 2)
              FngHttp.fetch_all_fng_backoff (Z.to_nat (Z.of_nat n + 2)) 0 None
              fng_down_failing) as (e & tr & Hrun & _ & Hsl); [lia|lia|].
  rewrite Hrun in Hcap. simpl snd in Hcap.
  rewrite Hsl in Hcap. rewrite Forall_forall in Hcap.
  assert (Hin : In (FngHttp.fetch_all_fng_backoff ^ Z.of_nat n)%Q
                   (map (fun i => (FngHttp.fetch_all_fng_backoff ^ Z.of_nat i)%Q)
                        (seq 0 (Z.to_nat (Z.of_nat n + 2) - 1)))).
  { apply in_map_iff. exists n. split; [reflexivity|].
    apply in_seq. lia. }
  apply Hcap in Hin. pose proof (bernoulli n) as Hb.
  pose proof (Qle_ceiling cap) as Hc.
  assert (Hn : (inject_Z (2 * Qceiling cap) <= inject_Z (Z.of_nat n))%Q).
  { rewrite <- Zle_Qle. unfold n. lia. }
  rewrite inject_Z_mult in Hn. change (inject_Z 2) with 2%Q in Hn.
  assert (0 <= inject_Z (Z.of_nat n))%Q by (rewrite <- (Zle_Qle 0); lia).
  set (x := inject_Z (Z.of_nat n)) in *.
  set (c := inject_Z (Qceiling cap)) in *.
  set (p := (FngHttp.fetch_all_fng_backoff ^ Z.of_nat n)%Q) in *.
  lra.
Qed.

End Exhaustion.

(** ** C3: which failures are retried *)

Module RetriedFailures.

Import Indexed RetryFacts GetFacts.

(** The Alpha Vantage helper stops at the first reply that carries no
    throttling note, whatever else that reply is. *)
Lemma av_attempts_until :
  forall server max_retries n todo k,
    (forall i, (k <= i < k + n)%nat -> OHLCV.throttled (server i)) ->
    ~ OHLCV.throttled (server (k + n)%nat) ->
    (n < todo)%nat ->
    Z.of_nat k + Z.of_nat todo = max_retries ->
    forall result tr,
      OHLCV.attempts server max_retries todo k (Z.min (15 * 2 ^ Z.of_nat k) 120)
      = (result, tr) ->
      OHLCV.requests tr = S n
      /\ OHLCV.sleeps tr
         = map (fun i => Z.min (15 * 2 ^ Z.of_nat i) 120) (seq k n).
Proof.
  intros server max_retries n; induction n as [|n IH];
    intros todo k Hthr Hnot Hlt Hsum result tr Hrun.
  - destruct todo as [|todo]; [lia|]. cbn [OHLCV.attempts] in Hrun.
    rewrite Nat.add_0_r in Hnot.
    destruct (server k) as [|status [payload|]] eqn:Hk.
    + injection Hrun as <- <-. split; reflexivity.
    + destruct payload as [| | | | |items|fields];
        try (injection Hrun as <- <-; split; reflexivity).
      destruct (truthy (OHLCV.note_msg fields)) eqn:Hnote.
      * exfalso. apply Hnot. exists status, fields. split; [reflexivity|exact Hnote].
      * destruct (has_key "Error Message" fields);
          injection Hrun as <- <-; split; reflexivity.
    + injection Hrun as <- <-. split; reflexivity.
  - destruct todo as [|todo]; [lia|]. cbn [OHLCV.attempts] in Hrun.
    destruct (Hthr k) as (status & fields & Hk & Hnote); [lia|].
    rewrite Hk, Hnote in Hrun.
    replace (Z.of_nat k + 1 =? max_retries) with false in Hrun
      by (symmetry; apply Z.eqb_neq; lia).
    assert (Hb : Z.min (Z.min (15 * 2 ^ Z.of_nat k) 120 * 2) 120
                 = Z.min (15 * 2 ^ Z.of_nat (S k)) 120).
    { rewrite pow2_succ. pose proof (pow2_pos k). lia. }
    rewrite Hb in Hrun.
    destruct (OHLCV.attempts server max_retries todo (S k)
                (Z.min (15 * 2 ^ Z.of_nat (S k)) 120)) as [r' tr'] eqn:Hrec.
    injection Hrun as <- <-.
    destruct (IH todo (S k)) with (result := r') (tr := tr') as (Hreq & Hsl).
    + intros i Hi. apply Hthr. lia.
    + replace (S k + n)%nat with (k + S n)%nat by lia. exact Hnot.
    + lia.
    + lia.
    + exact Hrec.
    + split.
      * unfold OHLCV.requests in *. simpl. rewrite Hreq. reflexivity.
      * simpl OHLCV.sleeps. rewrite Hsl. reflexivity.
Qed.

(** The Seeking Alpha helper stops at the first request that is not
    refused and returns its response. *)
Lemma sa_attempts_until :
  forall cfg server n todo k st,
    (forall i, (i < n)%nat ->
               SeekingAlpha.refused (server (SeekingAlpha.sent st + i)%nat) = true) ->
    SeekingAlpha.refused (server (SeekingAlpha.sent st + n)%nat) = false ->
    (n < todo)%nat ->
    Z.of_nat k + Z.of_nat todo = SeekingAlpha.MAX_RETRIES cfg ->
    exists status text st',
      SeekingAlpha.attempts cfg server todo (Z.of_nat k + 1) st
      = (Return (Some (status, text)), st')
      /\ SeekingAlpha.answer (server (SeekingAlpha.sent st + n)%nat)
         = SeekingAlpha.Response status text
      /\ SeekingAlpha.sent st' = (SeekingAlpha.sent st + S n)%nat
      /\ SeekingAlpha._LAST_REQUEST_TIME st' = SeekingAlpha.clock st'
      /\ SeekingAlpha.backoffs (SeekingAlpha.history st')
         = (SeekingAlpha.backoffs (SeekingAlpha.history st)
            ++ map (fun i => (SeekingAlpha.BACKOFF_FACTOR cfg
                              * inject_Z (2 ^ Z.of_nat i))%Q)
                   (seq k n))%list.
Proof.
  intros cfg server n; induction n as [|n IH];
    intros todo k st Href Hacc Hlt Hsum;
    (destruct todo as [|todo]; [lia|]); cbn [SeekingAlpha.attempts];
    destruct (enforce_spacing_frame cfg st) as (Hm & Hs & Hb & _).
  - rewrite Nat.add_0_r in Hacc. rewrite <- Hs in Hacc.
    destruct (send_accepted server _ Hacc)
      as (status & text & st2 & Hsend & Hans & Hmark & _ & Hsent & Hhist).
    rewrite Hsend. exists status, text, st2. split; [reflexivity|].
    rewrite Hs in Hans. rewrite Nat.add_0_r. repeat split.
    + exact Hans.
    + rewrite Hsent, Hs. lia.
    + exact Hmark.
    + rewrite Hhist, backoffs_app, Hb. simpl. rewrite app_nil_r. reflexivity.
  - assert (Hr0 : SeekingAlpha.refused
                    (server (SeekingAlpha.sent (SeekingAlpha.enforce_spacing cfg st)))
                  = true).
    { rewrite Hs. rewrite <- (Nat.add_0_r (SeekingAlpha.sent st)).
      apply Href. lia. }
    destruct (send_refused server _ Hr0)
      as (e & st2 & Hsend & He & Hm2 & Hs2 & Hh2).
    rewrite Hsend, He.
    replace (Z.of_nat k + 1 =? SeekingAlpha.MAX_RETRIES cfg) with false
      by (symmetry; apply Z.eqb_neq; lia).
    replace (Z.of_nat k + 1 + 1) with (Z.of_nat (S k) + 1) by lia.
    replace (Z.of_nat k + 1 - 1) with (Z.of_nat k) by lia.
    set (st3 := SeekingAlpha.sleep SeekingAlpha.Backoff
                  (SeekingAlpha.BACKOFF_FACTOR cfg * inject_Z (2 ^ Z.of_nat k))%Q
                  st2).
    assert (Hs3 : SeekingAlpha.sent st3 = S (SeekingAlpha.sent st))
      by (unfold st3; simpl; rewrite Hs2, Hs; reflexivity).
    destruct (IH todo (S k) st3)
      as (status & text & st' & Hrun & Hans & Hsent & Hmark & Hback).
    + intros i Hi. rewrite Hs3.
      replace (S (SeekingAlpha.sent st) + i)%nat
        with (SeekingAlpha.sent st + S i)%nat by lia.
      apply Href. lia.
    + rewrite Hs3.
      replace (S (SeekingAlpha.sent st) + n)%nat
        with (SeekingAlpha.sent st + S n)%nat by lia.
      exact Hacc.
    + lia.
    + lia.
    + rewrite Hrun. exists status, text, st'. split; [reflexivity|].
      repeat split.
      * rewrite <- Hans, Hs3. f_equal. f_equal. lia.
      * rewrite Hsent, Hs3. lia.
      * exact Hmark.
      * rewrite Hback. unfold st3. cbn [SeekingAlpha.sleep SeekingAlpha.history].
        rewrite backoffs_app, Hh2, backoffs_app, Hb.
        cbn [SeekingAlpha.backoffs]. rewrite app_nil_r, <- app_assoc.
        reflexivity.
Qed.

(** C3, as amended.  Each helper retries one kind of failure only.
    The Alpha Vantage helper goes on to the next attempt exactly after a
    reply that carries a throttling note ([Note] or [Information] with a
    true value): the first reply without one ends the call after that
    attempt, be it a network error, a body that is not JSON, or a
    document under any HTTP status.  The Seeking Alpha helper goes on
    exactly after a refused request (no response, or a 4xx/5xx status):
    the first response with another status is returned, whatever its
    text says.  In both, the delays slept before that point are the
    back-off sequence of C1. *)
Theorem retries_follow_one_failure_kind :
  (forall server r n result tr,
      (n < Z.to_nat r)%nat ->
      (forall i, (i < n)%nat -> OHLCV.throttled (server i)) ->
      ~ OHLCV.throttled (server n) ->
      OHLCV._request_with_retries server r = (result, tr) ->
      OHLCV.requests tr = S n
      /\ OHLCV.sleeps tr = OHLCV.capped_geometric 15 2 120 n)
  /\
  (forall cfg server st n,
      (n < Z.to_nat (SeekingAlpha.MAX_RETRIES cfg))%nat ->
      (forall i, (i < n)%nat ->
                 SeekingAlpha.refused (server (SeekingAlpha.sent st + i)%nat) = true) ->
      SeekingAlpha.refused (server (SeekingAlpha.sent st + n)%nat) = false ->
      exists status text st',
        SeekingAlpha._rate_limited_get cfg server st
        = (Return (Some (status, text)), st')
        /\ SeekingAlpha.answer (server (SeekingAlpha.sent st + n)%nat)
           = SeekingAlpha.Response status text
        /\ SeekingAlpha.sent st' = (SeekingAlpha.sent st + S n)%nat
        /\ SeekingAlpha.backoffs (SeekingAlpha.history st')
           = (SeekingAlpha.backoffs (SeekingAlpha.history st)
              ++ map (fun i => (SeekingAlpha.BACKOFF_FACTOR cfg
                                * inject_Z (2 ^ Z.of_nat i))%Q)
                     (seq 0 n))%list).
Proof.
  split.
  - intros server r n result tr Hn Hthr Hnot Hrun.
    unfold OHLCV._request_with_retries in Hrun.
    change 15 with (Z.min (15 * 2 ^ Z.of_nat 0) 120) in Hrun.
    apply (av_attempts_until server r n (Z.to_nat r) 0%nat) with (result := result).
    + intros i Hi. apply Hthr. lia.
    + exact Hnot.
    + exact Hn.
    + lia.
    + exact Hrun.
  - intros cfg server st n Hn Href Hacc.
    unfold SeekingAlpha._rate_limited_get.
    destruct (sa_attempts_until cfg server n
                (Z.to_nat (SeekingAlpha.MAX_RETRIES cfg)) 0 st Href Hacc Hn)
      as (status & text & st' & Hrun & Hans & Hsent & _ & Hback); [lia|].
    exists status, text, st'. repeat split; assumption.
Qed.

(** The theorem at work: a note followed by a network error ends the
    Alpha Vantage call after two requests; two refusals followed by a
    page end the Seeking Alpha call after three. *)
Lemma retries_follow_one_failure_kind_witness :
  OHLCV.requests (snd (OHLCV._request_with_retries Scenario.av_note_then_down 6))
  = 2%nat
  /\ exists status text st',
       SeekingAlpha._rate_limited_get SeekingAlpha.configured
         Scenario.sa_third_time_lucky (SeekingAlpha.boot 100)
       = (Return (Some (status, text)), st')
       /\ SeekingAlpha.sent st' = 3%nat.
Proof.
  destruct retries_follow_one_failure_kind as (Hav & Hsa).
  split.
  - destruct (OHLCV._request_with_retries Scenario.av_note_then_down 6)
      as [result tr] eqn:E.
    apply (Hav _ 6 1%nat result tr) in E.
    + apply E.
    + simpl. lia.
    + intros i Hi. replace i with 0%nat by lia.
      eexists; eexists; split; reflexivity.
    + intros (status & fields & Hk & _). discriminate Hk.
  - destruct (Hsa SeekingAlpha.configured Scenario.sa_third_time_lucky
                (SeekingAlpha.boot 100) 2%nat)
      as (status & text & st' & Hrun & _ & Hsent & _).
    + simpl. lia.
    + intros i Hi. destruct i as [|[|i]]; [reflexivity|reflexivity|lia].
    + reflexivity.
    + exists status, text, st'. split; assumption.
Defined.

(** C3 as stated fails: no helper retries all three kinds.  A network
    error ends the Alpha Vantage call at once, a 503 with a JSON body is
    returned by it as a success, and a page whose text is a rate note is
    returned by the Seeking Alpha helper as a success; each after a
    single request although more attempts were allowed. *)
Lemma not_every_failure_is_retried :
  OHLCV._request_with_retries Scenario.av_unreachable 6
  = (Raise RequestException, [OHLCV.Get])
  /\ OHLCV._request_with_retries Scenario.av_unavailable 6
     = (Return (JObj [("detail", JStr "unavailable")]), [OHLCV.Get])
  /\ fst (SeekingAlpha._rate_limited_get SeekingAlpha.configured
            Scenario.sa_noting (SeekingAlpha.boot 100))
     = Return (Some (200, "Note: too many requests"))
  /\ SeekingAlpha.sent
       (snd (SeekingAlpha._rate_limited_get SeekingAlpha.configured
               Scenario.sa_noting (SeekingAlpha.boot 100)))
     = 1%nat.
Proof. repeat split. Qed.

End RetriedFailures.

(** ** C4 and C2: the marker and the spacing it gives *)

Module Marker.

Import GetFacts SeekingAlpha.

(** The marker after a run of the loop: the time the request that
    succeeded finished, or what it was before. *)
Lemma attempts_marker :
  forall cfg server todo attempt st result st',
    attempts cfg server todo attempt st = (result, st') ->
    match result with
    | Return (Some _) => _LAST_REQUEST_TIME st' = clock st'
    | _ => _LAST_REQUEST_TIME st' = _LAST_REQUEST_TIME st
    end.
Proof.
  intros cfg server todo; induction todo as [|todo IH];
    intros attempt st result st' Hrun; cbn [attempts] in Hrun.
  - injection Hrun as <- <-. reflexivity.
  - destruct (enforce_spacing_frame cfg st) as (Hm & _).
    destruct (refused (server (sent (enforce_spacing cfg st)))) eqn:Href.
    + destruct (send_refused server _ Href)
        as (e & st2 & Hsend & He & Hm2 & _).
      rewrite Hsend, He in Hrun.
      destruct (attempt =? MAX_RETRIES cfg).
      * injection Hrun as <- <-. rewrite Hm2, Hm. reflexivity.
      * apply IH in Hrun. destruct result as [[resp|]|e'];
          [exact Hrun | |]; rewrite Hrun; simpl; rewrite Hm2, Hm; reflexivity.
    + destruct (send_accepted server _ Href)
        as (status & text & st2 & Hsend & _ & Hmark & _).
      rewrite Hsend in Hrun. injection Hrun as <- <-. exact Hmark.
Qed.

(** C4.  A failed attempt leaves [_LAST_REQUEST_TIME] as it was: the
    waiting for the spacing, the failed request and the back-off sleep
    that follows do not write it.  Over a whole call the marker is the
    time at which the successful request finished when the call returns
    a response, and is unchanged when the call raises; so the wait before
    the next request is still counted from the last success. *)
Theorem marker_moves_only_on_success :
  forall cfg server st,
    (forall e st' seconds,
        send server (enforce_spacing cfg st) = (Raise e, st') ->
        _LAST_REQUEST_TIME st' = _LAST_REQUEST_TIME st
        /\ _LAST_REQUEST_TIME (sleep Backoff seconds st') = _LAST_REQUEST_TIME st
        /\ wait_for cfg (sleep Backoff seconds st')
           = (MIN_SECONDS_BETWEEN_REQUESTS cfg
              - (clock (sleep Backoff seconds st') - _LAST_REQUEST_TIME st))%Q)
    /\ (forall result st',
           _rate_limited_get cfg server st = (result, st') ->
           match result with
           | Return (Some _) => _LAST_REQUEST_TIME st' = clock st'
           | _ => _LAST_REQUEST_TIME st' = _LAST_REQUEST_TIME st
           end).
Proof.
  intros cfg server st. split.
  - intros e st' seconds Hsend.
    destruct (enforce_spacing_frame cfg st) as (Hm & _).
    assert (Hst' : _LAST_REQUEST_TIME st' = _LAST_REQUEST_TIME st).
    { destruct (refused (server (sent (enforce_spacing cfg st)))) eqn:Href.
      - destruct (send_refused server _ Href)
          as (e2 & st2 & Hsend2 & _ & Hm2 & _).
        rewrite Hsend2 in Hsend. injection Hsend as _ <-.
        rewrite Hm2, Hm. reflexivity.
      - destruct (send_accepted server _ Href)
          as (status & text & st2 & Hsend2 & _).
        rewrite Hsend2 in Hsend. discriminate Hsend. }
    split; [exact Hst'|]. split.
    + simpl. exact Hst'.
    + unfold wait_for. simpl. rewrite Hst'. reflexivity.
  - intros result st' Hrun. unfold _rate_limited_get in Hrun.
    apply attempts_marker in Hrun. exact Hrun.
Qed.

(** Every request is sent at least the minimum spacing after the
    marker, that is, after the end of the last request that succeeded. *)
Lemma request_waits_for_last_success :
  forall cfg st,
    (MIN_SECONDS_BETWEEN_REQUESTS cfg
     <= clock (enforce_spacing cfg st) - _LAST_REQUEST_TIME st)%Q.
Proof.
  intros cfg st. unfold enforce_spacing, Qlt_bool.
  destruct (Qle_bool (wait_for cfg st) 0) eqn:Hw; simpl.
  - apply Qle_bool_iff in Hw. unfold wait_for in Hw. lra.
  - unfold wait_for. lra.
Qed.

(** C2 at the failing input.  With the constants of the script, a
    server that refuses the three attempts for the first transcript and
    serves the second one: the gaps between the four requests are 2, 4
    and 0 seconds; the request for the second transcript starts at the
    very moment the last failed request ended, less than
    [MIN_SECONDS_BETWEEN_REQUESTS] after it. *)
Theorem spacing_lost_after_exhausted_retries :
  let h := history (download_all configured Scenario.sa_recovering
                      ["/article/1"; "/article/2"] (boot 100)) in
  Forall2 Qeq (gaps (request_times h)) [2; 4; 0]%Q
  /\ exists s3 f3 s4 f4,
       nth_error (request_times h) 2 = Some (s3, f3, false)
       /\ nth_error (request_times h) 3 = Some (s4, f4, true)
       /\ (s4 - f3 == 0)%Q
       /\ (s4 - f3 < MIN_SECONDS_BETWEEN_REQUESTS configured)%Q.
Proof.
  split.
  - vm_compute. repeat constructor.
  - vm_compute. do 4 eexists. split; [reflexivity|]. split; [reflexivity|].
    split; reflexivity.
Qed.

(** C4 at work: a refused request under the constants of the script. *)
Lemma marker_moves_only_on_success_witness :
  _LAST_REQUEST_TIME
    (snd (send Scenario.sa_refusing (enforce_spacing configured (boot 100))))
  = _LAST_REQUEST_TIME (boot 100).
Proof.
  destruct (send Scenario.sa_refusing (enforce_spacing configured (boot 100)))
    as [result st'] eqn:E.
  assert (Hr : fst (send Scenario.sa_refusing
                      (enforce_spacing configured (boot 100)))
               = Raise HTTPError) by reflexivity.
  rewrite E in Hr. simpl in Hr. subst result.
  destruct (marker_moves_only_on_success configured Scenario.sa_refusing
              (boot 100)) as (Hone & _).
  apply (Hone HTTPError st' 0%Q E).
Defined.

End Marker.

(** ** Integer literals *)

Module Literals.

Lemma digit_not_space :
  forall c, is_digit c = true -> is_space c = false.
Proof.
  intros c. unfold is_digit, is_space.
  destruct (48 <=? nat_of_ascii c)%nat eqn:H1; [|discriminate].
  destruct (nat_of_ascii c <=? 57)%nat eqn:H2; [|discriminate].
  intros _. apply Nat.leb_le in H1, H2.
  apply orb_false_iff. split.
  - apply andb_false_iff. right. apply Nat.leb_gt. lia.
  - apply Nat.eqb_neq. lia.
Qed.

Lemma rstrip_digits :
  forall s, all_digits s = true -> rstrip s = s.
Proof.
  induction s as [|c s IH]; intros H; [reflexivity|].
  simpl in H. apply andb_true_iff in H. destruct H as (Hc & Hs).
  simpl. rewrite (IH Hs). destruct s; [|reflexivity].
  rewrite (digit_not_space c Hc). reflexivity.
Qed.

Lemma digits_of_digits :
  forall s acc after,
    all_digits s = true -> (s <> "" \/ after = true) ->
    exists n, digits s acc after = Some n.
Proof.
  induction s as [|c s IH]; intros acc after H Hne.
  - destruct Hne as [Hne| ->]; [contradiction|]. simpl. eauto.
  - simpl in H. apply andb_true_iff in H. destruct H as (Hc & Hs).
    simpl. rewrite Hc. apply IH; [exact Hs|right; reflexivity].
Qed.

(** A string of digits is an integer literal. *)
Lemma int_of_digit_string :
  forall s, ascii_isdigit s = true -> exists n, ascii_int s = Some n.
Proof.
  intros s H. destruct s as [|c s]; [discriminate H|].
  unfold ascii_isdigit in H. pose proof H as Hall.
  simpl in H. apply andb_true_iff in H. destruct H as (Hc & Hs).
  unfold ascii_int, strip.
  assert (Hl : lstrip (String c s) = String c s).
  { simpl. rewrite (digit_not_space c Hc). reflexivity. }
  rewrite Hl, (rstrip_digits _ Hall).
  assert (Hgo : exists n, digits (String c s) 0 false = Some n).
  { apply digits_of_digits; [exact Hall|left; discriminate]. }
  destruct c as [[] [] [] [] [] [] [] []]; try discriminate Hc; exact Hgo.
Qed.

End Literals.

(** ** Sorting and dicts *)

Module Containers.

Section Sorting.

Context {A : Type} (leb : A -> A -> bool).
Hypothesis leb_total : forall x y, leb x y = true \/ leb y x = true.

Lemma insert_perm :
  forall x l, Permutation (Py.insert leb x l) (x :: l).
Proof.
  intros x l; induction l as [|y l IH]; simpl.
  - apply Permutation_refl.
  - destruct (leb x y).
    + apply Permutation_refl.
    + eapply perm_trans; [apply perm_skip, IH|apply perm_swap].
Qed.

Lemma sort_perm : forall l, Permutation (Py.sort leb l) l.
Proof.
  induction l as [|x l IH]; simpl.
  - apply perm_nil.
  - eapply perm_trans; [apply insert_perm|apply perm_skip, IH].
Qed.

Lemma insert_sorted :
  forall x l,
    Sorted (fun a b => leb a b = true) l ->
    Sorted (fun a b => leb a b = true) (Py.insert leb x l).
Proof.
  intros x l; induction l as [|y l IH]; intros Hs; simpl.
  - repeat constructor.
  - destruct (leb x y) eqn:Hxy.
    + constructor; [exact Hs|]. constructor. exact Hxy.
    + inversion Hs as [|? ? Hs' Hhd]; subst.
      constructor; [apply IH, Hs'|].
      destruct l as [|z l]; simpl.
      * constructor. destruct (leb_total x y) as [H|H]; congruence.
      * destruct (leb x z).
        -- constructor. destruct (leb_total x y) as [H|H]; congruence.
        -- constructor. inversion Hhd; assumption.
Qed.

Lemma sort_sorted :
  forall l, Sorted (fun a b => leb a b = true) (Py.sort leb l).
Proof.
  induction l as [|x l IH]; simpl.
  - constructor.
  - apply insert_sorted, IH.
Qed.

End Sorting.

Lemma sort_by_perm :
  forall {A K : Type} (leb : K -> K -> bool) (key : A -> K) (l : list A),
    Permutation (Py.sort_by leb key l) l.
Proof. intros. apply sort_perm. Qed.

Lemma sort_by_sorted :
  forall {A K : Type} (leb : K -> K -> bool) (key : A -> K) (l : list A),
    (forall x y, leb x y = true \/ leb y x = true) ->
    Sorted (fun a b => leb (key a) (key b) = true) (Py.sort_by leb key l).
Proof.
  intros A K leb key l Htot. unfold Py.sort_by.
  apply (sort_sorted (fun x y => leb (key x) (key y))).
  intros x y. apply Htot.
Qed.

(** *** Dicts *)

Section Dict.

Context {V : Type}.

Lemma find_assign_same :
  forall (k : Z) (v : V) d, Py.find k (Py.assign k v d) = Some v.
Proof.
  intros k v d; induction d as [|[k' w] d IH]; simpl.
  - rewrite Z.eqb_refl. reflexivity.
  - destruct (k' =? k) eqn:E; simpl; rewrite E; [reflexivity|exact IH].
Qed.

Lemma find_assign_other :
  forall (k k' : Z) (v : V) d,
    k' <> k -> Py.find k' (Py.assign k v d) = Py.find k' d.
Proof.
  intros k k' v d Hne; induction d as [|[k0 w] d IH]; simpl.
  - replace (k =? k') with false by (symmetry; apply Z.eqb_neq; lia).
    reflexivity.
  - destruct (k0 =? k) eqn:E; simpl.
    + apply Z.eqb_eq in E. subst k0.
      replace (k =? k') with false by (symmetry; apply Z.eqb_neq; lia).
      reflexivity.
    + destruct (k0 =? k'); [reflexivity|exact IH].
Qed.

Lemma assign_keys :
  forall (k : Z) (v : V) d x,
    In x (map fst (Py.assign k v d)) <-> x = k \/ In x (map fst d).
Proof.
  intros k v d x; induction d as [|[k' w] d IH]; simpl.
  - intuition.
  - destruct (k' =? k) eqn:E; simpl.
    + apply Z.eqb_eq in E. subst k'. intuition.
    + rewrite IH. intuition.
Qed.

Lemma assign_nodup :
  forall (k : Z) (v : V) d,
    NoDup (map fst d) -> NoDup (map fst (Py.assign k v d)).
Proof.
  intros k v d; induction d as [|[k' w] d IH]; intros Hnd; simpl.
  - constructor; [intros []|constructor].
  - inversion Hnd as [|? ? Hnot Hnd']; subst.
    destruct (k' =? k) eqn:E; simpl.
    + constructor; assumption.
    + constructor; [|apply IH, Hnd'].
      rewrite assign_keys. intros [->|Hin]; [|contradiction].
      rewrite Z.eqb_refl in E. discriminate E.
Qed.

Lemma find_in :
  forall (k : Z) (v : V) d,
    NoDup (map fst d) -> (Py.find k d = Some v <-> In (k, v) d).
Proof.
  intros k v d; induction d as [|[k' w] d IH]; intros Hnd; simpl.
  - split; [discriminate|intros []].
  - inversion Hnd as [|? ? Hnot Hnd']; subst.
    destruct (k' =? k) eqn:E.
    + apply Z.eqb_eq in E. subst k'. split.
      * intros [= ->]. left. reflexivity.
      * intros [[= ->]|Hin]; [reflexivity|].
        exfalso. apply Hnot. apply (in_map fst) in Hin. exact Hin.
    + rewrite (IH Hnd'). split; [auto|].
      intros [[= -> ->]|Hin]; [|exact Hin].
      rewrite Z.eqb_refl in E. discriminate E.
Qed.

Lemma in_assign :
  forall (k : Z) (v : V) d e,
    In e (Py.assign k v d) -> e = (k, v) \/ In e d.
Proof.
  intros k v d e; induction d as [|[k' w] d IH]; simpl.
  - intros [<-|[]]. left. reflexivity.
  - destruct (k' =? k) eqn:E; simpl.
    + apply Z.eqb_eq in E. subst k'. intros [<-|Hin]; auto.
    + intros [<-|Hin]; auto. destruct (IH Hin); auto.
Qed.

(** Last write wins: after a sequence of assignments the dict holds,
    under each key, the value of the last assignment to that key. *)
Lemma find_after_writes :
  forall (log : list (Z * V)) d k,
    Py.find k (fold_left (fun d w => Py.assign (fst w) (snd w) d) log d)
    = match Py.find k (rev log) with
      | Some v => Some v
      | None => Py.find k d
      end.
Proof.
  intros log; induction log as [|[k0 v0] log IH] using rev_ind; intros d k.
  - reflexivity.
  - rewrite fold_left_app, rev_app_distr. simpl.
    destruct (k0 =? k) eqn:E.
    + apply Z.eqb_eq in E. subst k0. apply find_assign_same.
    + rewrite find_assign_other by (intros ->; rewrite Z.eqb_refl in E; discriminate).
      apply IH.
Qed.

End Dict.

End Containers.

(** ** The calendar: ISO texts order dates as the dates are ordered *)

Module Calendar.

(** The check of the 146097 days of an era, carried out. *)
Lemma era_table : snd (era_checked 146097) = true.
Proof. vm_cast_no_check (@eq_refl bool true). Qed.

Lemma era_checked_sound :
  forall n,
    snd (era_checked n) = true ->
    forall j, 0 <= j < Z.pos n -> era_day_ok j = true.
Proof.
  intros n Hok.
  assert (Inv :
    forall p,
      let st := era_checked p in
      fst (fst st) = Z.pos p
      /\ snd (fst st) = civil_of_doe (fst (fst st))
      /\ (snd st = true ->
          forall j, 0 <= j < fst (fst st) -> era_day_ok j = true)).
  { intros p. unfold era_checked.
    apply (Pos.iter_ind _ era_check_step (0, civil_of_doe 0, true)
             (fun p st =>
                fst (fst st) = Z.pos p
                /\ snd (fst st) = civil_of_doe (fst (fst st))
                /\ (snd st = true ->
                    forall j, 0 <= j < fst (fst st) -> era_day_ok j = true))).
    - cbn [era_check_step fst snd]. split; [reflexivity|].
      split; [reflexivity|]. intros H j Hj.
      assert (j = 0) as -> by lia. exact H.
    - intros q [[doe today] ok] (Hdoe & Htoday & Hall).
      cbn [era_check_step fst snd] in *. split; [lia|].
      split; [reflexivity|]. intros H j Hj.
      apply andb_true_iff in H. destruct H as (H1 & H2).
      destruct (Z.eq_dec j doe) as [->|Hne].
      + unfold era_day_ok. rewrite <- Htoday. exact H2.
      + apply Hall; [exact H1|lia]. }
  destruct (Inv n) as (Hfst & _ & Hall). rewrite Hfst in Hall.
  exact (Hall Hok).
Qed.

Lemma era_day_ok_all :
  forall doe, 0 <= doe < 146097 -> era_day_ok doe = true.
Proof. exact (era_checked_sound 146097 era_table). Qed.

Lemma triple_ltb_lt :
  forall a b, triple_ltb a b = true -> triple_lt a b.
Proof.
  intros [[y1 m1] d1] [[y2 m2] d2]. unfold triple_ltb, triple_lt.
  rewrite !orb_true_iff, !andb_true_iff, !orb_true_iff, !andb_true_iff.
  rewrite !Z.ltb_lt, !Z.eqb_eq. tauto.
Qed.

Lemma triple_lt_trans :
  forall a b c, triple_lt a b -> triple_lt b c -> triple_lt a c.
Proof.
  intros [[y1 m1] d1] [[y2 m2] d2] [[y3 m3] d3]. unfold triple_lt. lia.
Qed.

(** What the check says of one day of an era. *)
Lemma era_day :
  forall doe,
    0 <= doe < 146097 ->
    (let '(y, m, d) := civil_of_doe doe in
     1 <= m <= 12 /\ 1 <= d <= 31 /\ 0 <= y <= 400
     /\ (y < 400 \/ m <= 2) /\ (0 < y \/ 3 <= m))
    /\ (doe < 146096 -> triple_lt (civil_of_doe doe) (civil_of_doe (doe + 1))).
Proof.
  intros doe Hdoe. pose proof (era_day_ok_all doe Hdoe) as H.
  unfold era_day_ok, era_day_check in H.
  destruct (civil_of_doe doe) as [[y m] d].
  rewrite !andb_true_iff, !orb_true_iff in H.
  rewrite !Z.leb_le, !Z.ltb_lt, Z.eqb_eq in H.
  destruct H as ((((((((H1 & H2) & H3) & H4) & H5) & H6) & H7) & H8) & H9).
  split; [lia|]. intros Hlast. destruct H9 as [H9|H9]; [lia|].
  apply triple_ltb_lt, H9.
Qed.

Lemma era_monotone :
  forall (n : nat) a,
    0 <= a -> a + 1 + Z.of_nat n <= 146096 ->
    triple_lt (civil_of_doe a) (civil_of_doe (a + 1 + Z.of_nat n)).
Proof.
  induction n as [|n IH]; intros a Ha Hb.
  - rewrite Z.add_0_r. apply era_day; lia.
  - apply triple_lt_trans with (civil_of_doe (a + 1 + Z.of_nat n)).
    + apply IH; lia.
    + replace (a + 1 + Z.of_nat (S n)) with (a + 1 + Z.of_nat n + 1) by lia.
      apply era_day; lia.
Qed.

(** Later days have later dates. *)
Lemma civil_monotone :
  forall a b, a < b -> triple_lt (civil_from_days a) (civil_from_days b).
Proof.
  intros a b Hab. unfold civil_from_days.
  set (z1 := a + 719468). set (z2 := b + 719468).
  pose proof (Z.div_mod z1 146097 ltac:(lia)) as E1.
  pose proof (Z.mod_pos_bound z1 146097 ltac:(lia)) as B1.
  pose proof (Z.div_mod z2 146097 ltac:(lia)) as E2.
  pose proof (Z.mod_pos_bound z2 146097 ltac:(lia)) as B2.
  set (q1 := z1 / 146097) in *. set (q2 := z2 / 146097) in *.
  assert (R1 : z1 - q1 * 146097 = z1 mod 146097) by lia.
  assert (R2 : z2 - q2 * 146097 = z2 mod 146097) by lia.
  rewrite R1, R2.
  set (r1 := z1 mod 146097) in *. set (r2 := z2 mod 146097) in *.
  assert (Hz : z1 < z2) by (unfold z1, z2; lia).
  destruct (era_day r1 B1) as (D1 & _). destruct (era_day r2 B2) as (D2 & _).
  destruct (Z.eq_dec q1 q2) as [Hq|Hq].
  - assert (Hr : r1 < r2) by lia.
    pose proof (era_monotone (Z.to_nat (r2 - r1 - 1)) r1 ltac:(lia)) as Hm.
    replace (r1 + 1 + Z.of_nat (Z.to_nat (r2 - r1 - 1))) with r2 in Hm by lia.
    specialize (Hm ltac:(lia)).
    destruct (civil_of_doe r1) as [[y1 m1] d1].
    destruct (civil_of_doe r2) as [[y2 m2] d2].
    unfold triple_lt in *. lia.
  - assert (Hlt : q1 < q2) by lia.
    destruct (civil_of_doe r1) as [[y1 m1] d1].
    destruct (civil_of_doe r2) as [[y2 m2] d2].
    unfold triple_lt. lia.
Qed.

(** The dates [datetime] can hold have four-digit years. *)
Lemma civil_range :
  forall days,
    min_day <= days <= max_day ->
    let '(y, m, d) := civil_from_days days in
    1 <= y <= 9999 /\ 1 <= m <= 12 /\ 1 <= d <= 31.
Proof.
  intros days Hd.
  assert (Hlo : days = min_day \/ triple_lt (1, 1, 1) (civil_from_days days)).
  { destruct (Z.eq_dec days min_day) as [->|Hne]; [left; reflexivity|].
    right. change (1, 1, 1) with (civil_from_days min_day).
    apply civil_monotone. lia. }
  assert (Hhi : days = max_day \/ triple_lt (civil_from_days days) (9999, 12, 31)).
  { destruct (Z.eq_dec days max_day) as [->|Hne]; [left; reflexivity|].
    right. change (9999, 12, 31) with (civil_from_days max_day).
    apply civil_monotone. lia. }
  destruct Hlo as [->|Hlo]; [vm_compute; repeat split; discriminate|].
  destruct Hhi as [->|Hhi]; [vm_compute; repeat split; discriminate|].
  unfold civil_from_days in *.
  set (z := days + 719468) in *.
  pose proof (Z.mod_pos_bound z 146097 ltac:(lia)) as B.
  pose proof (Z.div_mod z 146097 ltac:(lia)) as E.
  assert (R : z - z / 146097 * 146097 = z mod 146097) by lia.
  rewrite R in *. destruct (era_day _ B) as (D & _).
  destruct (civil_of_doe (z mod 146097)) as [[y m] d].
  unfold triple_lt in *. lia.
Qed.

(** *** Digits *)

Lemma digit_char_compare :
  forall a b,
    Ascii.compare (digit_char a) (digit_char b) = (a mod 10 ?= b mod 10).
Proof.
  intros a b. unfold Ascii.compare, digit_char, ascii_of_nat.
  pose proof (Z.mod_pos_bound a 10 ltac:(lia)) as Ha.
  pose proof (Z.mod_pos_bound b 10 ltac:(lia)) as Hb.
  rewrite !N_ascii_embedding by lia.
  rewrite <- N2Z.inj_compare, !nat_N_Z, !Nat2Z.inj_add, !Z2Nat.id by lia.
  apply Z.add_compare_mono_l.
Qed.

(** Dates with years of at most four digits are ordered as their ISO
    texts are. *)
Lemma format_date_lt :
  forall t1 t2,
    (let '(y, m, d) := t1 in 0 <= y <= 9999 /\ 0 <= m <= 99 /\ 0 <= d <= 99) ->
    (let '(y, m, d) := t2 in 0 <= y <= 9999 /\ 0 <= m <= 99 /\ 0 <= d <= 99) ->
    triple_lt t1 t2 ->
    String.compare (format_date t1) (format_date t2) = Lt.
Proof.
  intros [[y1 m1] d1] [[y2 m2] d2] R1 R2 Hlt.
  unfold format_date, pad4, pad2, triple_lt in *.
  cbn [append String.compare].
  rewrite !digit_char_compare.
  change (Ascii.compare "-" "-") with Eq. cbv iota.
  repeat match goal with
         | |- match (?a ?= ?b) with _ => _ end = Lt =>
             destruct (Z.compare_spec a b);
             [ | reflexivity | exfalso; Z.div_mod_to_equations; lia ]
         end.
  exfalso. Z.div_mod_to_equations. lia.
Qed.

(** [isoformat] is strictly increasing on the days [datetime] holds. *)
Lemma isoformat_increasing :
  forall a b,
    min_day <= a -> a < b -> b <= max_day ->
    String.compare (isoformat a) (isoformat b) = Lt.
Proof.
  intros a b Ha Hab Hb. unfold isoformat.
  pose proof (civil_range a ltac:(lia)) as Ra.
  pose proof (civil_range b ltac:(lia)) as Rb.
  pose proof (civil_monotone a b Hab) as Hlt.
  destruct (civil_from_days a) as [[y1 m1] d1].
  destruct (civil_from_days b) as [[y2 m2] d2].
  apply format_date_lt; [lia|lia|exact Hlt].
Qed.

Lemma string_compare_refl : forall s, String.compare s s = Eq.
Proof.
  induction s as [|c s IH]; [reflexivity|]. simpl.
  unfold Ascii.compare. rewrite N.compare_refl. exact IH.
Qed.

Lemma isoformat_leb :
  forall a b,
    min_day <= a <= max_day -> min_day <= b <= max_day ->
    (String.leb (isoformat a) (isoformat b) = true <-> a <= b).
Proof.
  intros a b Ha Hb. unfold String.leb.
  destruct (Z.lt_trichotomy a b) as [Hlt|[->|Hgt]].
  - rewrite (isoformat_increasing a b) by lia. split; [lia|reflexivity].
  - rewrite string_compare_refl. split; [lia|reflexivity].
  - rewrite String.compare_antisym, (isoformat_increasing b a) by lia.
    simpl. split; [discriminate|lia].
Qed.

Lemma isoformat_injective :
  forall a b,
    min_day <= a <= max_day -> min_day <= b <= max_day ->
    isoformat a = isoformat b -> a = b.
Proof.
  intros a b Ha Hb Heq.
  destruct (Z.lt_trichotomy a b) as [Hlt|[->|Hgt]]; [|reflexivity|].
  - pose proof (isoformat_increasing a b ltac:(lia) Hlt ltac:(lia)) as H.
    rewrite Heq, string_compare_refl in H. discriminate H.
  - pose proof (isoformat_increasing b a ltac:(lia) Hgt ltac:(lia)) as H.
    rewrite Heq, string_compare_refl in H. discriminate H.
Qed.

End Calendar.

(** ** The Fear and Greed filter *)

Module FngFacts.

Import Containers Fng.

Section WithRepr.

Variable repr : json -> option string.
Variable u : unicode.
Variables start_date end_date : Z.

#[local] Abbreviation examine := (Fng.examine repr u start_date end_date).
#[local] Abbreviation fill := (Fng.fill repr u start_date end_date).
#[local] Abbreviation well_keyed := (Fng.well_keyed start_date end_date).

(** The row built for a record. *)
Lemma normalized_row :
  forall fields day ts r,
    normalized repr u fields day ts = Return r ->
    date r = isoformat day /\ timestamp r = ts
    /\ source r = SOURCE_NAME /\ source_url r = SOURCE_URL
    /\ normalized_value repr u (get "value" fields) = Return (value r)
    /\ normalized_classification repr (get "value_classification" fields)
       = Return (value_classification r).
Proof.
  intros fields day ts r H. unfold normalized in H.
  destruct (normalized_value repr u (get "value" fields)) as [v|e];
    [|discriminate H].
  destruct (normalized_classification repr (get "value_classification" fields))
    as [c|e]; [|discriminate H].
  injection H as <-. repeat split.
Qed.

(** What a record that reaches the assignment is known to satisfy. *)
Lemma examine_candidate :
  forall rec day ts r,
    examine rec = Candidate day ts r ->
    day = day_of ts
    /\ start_date <= day <= end_date
    /\ timestamp r = ts
    /\ date r = isoformat day
    /\ day_of_record repr u rec = Some day
    /\ min_day <= day <= max_day.
Proof.
  intros rec day ts r H. unfold Fng.examine in H.
  destruct rec as [| | | | | |fields]; try discriminate H.
  unfold day_of_record. cbv zeta in *.
  destruct (is_none (get "timestamp" fields)); [discriminate H|].
  destruct (read_timestamp repr u (get "timestamp" fields)) as [ts0|];
    [|discriminate H].
  unfold _to_utc_date_from_unix_seconds in H.
  destruct ((min_day <=? day_of ts0) && (day_of ts0 <=? max_day)) eqn:Hrange;
    [|discriminate H].
  destruct ((day_of ts0 <? start_date) || (end_date <? day_of ts0)) eqn:Hwin;
    [discriminate H|].
  destruct (normalized repr u fields (day_of ts0) ts0) as [r0|e] eqn:Hrow;
    [|discriminate H].
  injection H as <- <- <-. apply orb_false_iff in Hwin.
  destruct Hwin as (H1 & H2). apply Z.ltb_ge in H1, H2.
  apply andb_true_iff in Hrange. destruct Hrange as (H3 & H4).
  apply Z.leb_le in H3, H4.
  destruct (normalized_row _ _ _ _ Hrow) as (Hdate & Hts & _).
  cbn [option_map]. repeat split; auto; lia.
Qed.

(** A record with a readable timestamp inside the window reaches the
    assignment unless the loop body raises on it. *)
Lemma examine_inside :
  forall rec day,
    day_of_record repr u rec = Some day ->
    start_date <= day <= end_date ->
    (forall e, examine rec <> Abort e) ->
    exists ts r, examine rec = Candidate day ts r.
Proof.
  intros rec day Hday Hwin Hno. unfold day_of_record in Hday.
  destruct rec as [| | | | | |fields]; try discriminate Hday.
  unfold Fng.examine in *. cbv zeta in *.
  destruct (is_none (get "timestamp" fields)); [discriminate Hday|].
  destruct (read_timestamp repr u (get "timestamp" fields)) as [ts0|];
    [|discriminate Hday].
  cbn [option_map] in Hday. injection Hday as Hd.
  unfold _to_utc_date_from_unix_seconds in *.
  destruct ((min_day <=? day_of ts0) && (day_of ts0 <=? max_day)).
  - rewrite Hd in *.
    replace ((day <? start_date) || (end_date <? day)) with false in *
      by (symmetry; apply orb_false_iff; split; apply Z.ltb_ge; lia).
    destruct (normalized repr u fields day ts0) as [r|e].
    + eauto.
    + exfalso. apply (Hno e). reflexivity.
  - exfalso. apply (Hno (out_of_range ts0)). reflexivity.
Qed.


Lemma store_well_keyed :
  forall rec day ts r d,
    examine rec = Candidate day ts r ->
    well_keyed d -> well_keyed (store day ts r d).
Proof.
  intros rec day ts r d Hc (Hnd & Hent). unfold store.
  destruct (overwrites (Py.find day d) ts); [|split; assumption].
  split; [apply assign_nodup, Hnd|].
  intros day' ts' r' Hin. apply in_assign in Hin.
  destruct Hin as [[= -> -> ->]|Hin]; [|exact (Hent _ _ _ Hin)].
  destruct (examine_candidate _ _ _ _ Hc) as (H1 & H2 & H3 & H4 & _ & H6).
  auto.
Qed.

Lemma fill_well_keyed :
  forall records d0 d1,
    well_keyed d0 -> fill records d0 = Return d1 -> well_keyed d1.
Proof.
  induction records as [|rec records IH]; intros d0 d1 Hwk Hrun;
    cbn [Fng.fill] in Hrun.
  - injection Hrun as <-. exact Hwk.
  - destruct (examine rec) as [|e|day ts r] eqn:Hex.
    + exact (IH _ _ Hwk Hrun).
    + discriminate Hrun.
    + exact (IH _ _ (store_well_keyed _ _ _ _ _ Hex Hwk) Hrun).
Qed.

(** The loop returns only if no record made its body raise. *)
Lemma fill_no_abort :
  forall records d0 d1,
    fill records d0 = Return d1 ->
    forall rec e, In rec records -> examine rec <> Abort e.
Proof.
  induction records as [|rec0 records IH]; intros d0 d1 Hrun rec e Hin;
    [destruct Hin|]. cbn [Fng.fill] in Hrun.
  destruct Hin as [<-|Hin].
  - intros Hab. rewrite Hab in Hrun. discriminate Hrun.
  - destruct (examine rec0); [|discriminate Hrun|]; eapply IH; eauto.
Qed.

(** And it returns whenever none does. *)
Lemma fill_returns :
  forall records d0,
    (forall rec e, In rec records -> examine rec <> Abort e) ->
    exists d1, fill records d0 = Return d1.
Proof.
  induction records as [|rec records IH]; intros d0 Hno; cbn [Fng.fill].
  - eauto.
  - destruct (examine rec) as [|e|day ts r] eqn:Hex.
    + apply IH. intros r0 e0 Hin. apply Hno. right. exact Hin.
    + exfalso. apply (Hno rec e); [left; reflexivity|exact Hex].
    + apply IH. intros r0 e0 Hin. apply Hno. right. exact Hin.
Qed.

(** The timestamp stored under a day never goes down, and every record
    that reached the assignment finds its day stored with a timestamp at
    least its own. *)
Lemma store_covers :
  forall day ts r d,
    (forall day' p, Py.find day' d = Some p ->
                    exists p', Py.find day' (store day ts r d) = Some p'
                               /\ fst p <= fst p')
    /\ exists p', Py.find day (store day ts r d) = Some p' /\ ts <= fst p'.
Proof.
  intros day ts r d. unfold store.
  destruct (Py.find day d) as [p0|] eqn:Hf; simpl.
  - destruct (fst p0 <=? ts) eqn:Hg.
    + apply Z.leb_le in Hg. split.
      * intros day' p Hp. destruct (Z.eq_dec day' day) as [->|Hne].
        -- rewrite find_assign_same. rewrite Hf in Hp. injection Hp as <-.
           eexists; split; [reflexivity|exact Hg].
        -- rewrite find_assign_other by exact Hne.
           eexists; split; [exact Hp|lia].
      * rewrite find_assign_same. eexists; split; [reflexivity|simpl; lia].
    + apply Z.leb_gt in Hg. split.
      * intros day' p Hp. eexists; split; [exact Hp|lia].
      * rewrite Hf. eexists; split; [reflexivity|lia].
  - split.
    + intros day' p Hp. destruct (Z.eq_dec day' day) as [->|Hne].
      * rewrite Hf in Hp. discriminate Hp.
      * rewrite find_assign_other by exact Hne.
        eexists; split; [exact Hp|lia].
    + rewrite find_assign_same. eexists; split; [reflexivity|simpl; lia].
Qed.

Lemma fill_covers :
  forall records d0 d1,
    fill records d0 = Return d1 ->
    (forall day p, Py.find day d0 = Some p ->
                   exists p', Py.find day d1 = Some p' /\ fst p <= fst p')
    /\ (forall rec day ts r,
           In rec records -> examine rec = Candidate day ts r ->
           exists p', Py.find day d1 = Some p' /\ ts <= fst p').
Proof.
  induction records as [|rec0 records IH]; intros d0 d1 Hrun;
    cbn [Fng.fill] in Hrun.
  - injection Hrun as <-. split.
    + intros day p Hp. eexists; split; [exact Hp|lia].
    + intros rec day ts r [].
  - destruct (examine rec0) as [|e|day0 ts0 r0] eqn:Hex.
    + destruct (IH _ _ Hrun) as (Hold & Hnew). split; [exact Hold|].
      intros rec day ts r [<-|Hin] Hc; [congruence|eauto].
    + discriminate Hrun.
    + destruct (IH _ _ Hrun) as (Hold & Hnew).
      destruct (store_covers day0 ts0 r0 d0) as (Hmono & Hself).
      split.
      * intros day p Hp. destruct (Hmono _ _ Hp) as (p1 & Hp1 & Hle1).
        destruct (Hold _ _ Hp1) as (p2 & Hp2 & Hle2).
        exists p2. split; [exact Hp2|lia].
      * intros rec day ts r [<-|Hin] Hc; [|eauto].
        rewrite Hex in Hc. injection Hc as <- <- <-.
        destruct Hself as (p1 & Hp1 & Hle1).
        destruct (Hold _ _ Hp1) as (p2 & Hp2 & Hle2).
        exists p2. split; [exact Hp2|lia].
Qed.

(** Every stored pair was there at the start or was assigned for one of
    the records. *)
Lemma fill_provenance :
  forall records d0 d1,
    fill records d0 = Return d1 ->
    forall day ts r,
      In (day, (ts, r)) d1 ->
      In (day, (ts, r)) d0
      \/ exists rec, In rec records /\ examine rec = Candidate day ts r.
Proof.
  induction records as [|rec0 records IH]; intros d0 d1 Hrun day ts r Hin;
    cbn [Fng.fill] in Hrun.
  - injection Hrun as <-. left. exact Hin.
  - destruct (examine rec0) as [|e|day0 ts0 r0] eqn:Hex.
    + destruct (IH _ _ Hrun _ _ _ Hin) as [H|(rec & Hr & Hc)]; [auto|].
      right. exists rec. split; [right; exact Hr|exact Hc].
    + discriminate Hrun.
    + destruct (IH _ _ Hrun _ _ _ Hin) as [H|(rec & Hr & Hc)].
      * unfold store in H.
        destruct (overwrites (Py.find day0 d0) ts0); [|auto].
        apply in_assign in H. destruct H as [[= -> -> ->]|H]; [|auto].
        right. exists rec0. split; [left; reflexivity|exact Hex].
      * right. exists rec. split; [right; exact Hr|exact Hc].
Qed.

(** The rows returned are the stored rows, in another order. *)
Lemma emit_perm :
  forall d, Permutation (emit d) (map (fun e => snd (snd e)) d).
Proof.
  intros d. unfold emit.
  eapply perm_trans; [apply sort_by_perm|].
  rewrite <- (map_map snd snd).
  apply Permutation_map, sort_by_perm.
Qed.

Lemma emit_sorted :
  forall d, Sorted (fun a b => String.leb (date a) (date b) = true) (emit d).
Proof.
  intros d. unfold emit. apply sort_by_sorted. apply String.leb_total.
Qed.

Lemma in_emit :
  forall d r,
    well_keyed d ->
    (In r (emit d) <-> Py.find (row_day r) d = Some (timestamp r, r)).
Proof.
  intros d r (Hnd & Hent). rewrite (find_in _ _ _ Hnd). split.
  - intros Hin. apply (Permutation_in _ (emit_perm d)) in Hin.
    apply in_map_iff in Hin. destruct Hin as ([day [ts r']] & Heq & Hin).
    simpl in Heq. subst r'.
    destruct (Hent _ _ _ Hin) as (Hday & Hts & _).
    unfold row_day. rewrite Hts, <- Hday. exact Hin.
  - intros Hin. apply (Permutation_in _ (Permutation_sym (emit_perm d))).
    apply in_map_iff. eexists. split; [|exact Hin]. reflexivity.
Qed.

Lemma emit_one_row_per_day :
  forall d, well_keyed d -> NoDup (map row_day (emit d)).
Proof.
  intros d (Hnd & Hent).
  apply (Permutation_NoDup (l := map fst d)); [|exact Hnd].
  apply Permutation_sym.
  eapply perm_trans; [apply Permutation_map, emit_perm|].
  rewrite map_map. apply Permutation_refl'.
  apply map_ext_in. intros [day [ts r]] Hin. simpl.
  destruct (Hent _ _ _ Hin) as (Hday & Hts & _).
  unfold row_day. rewrite Hts. symmetry. exact Hday.
Qed.

(** The rows come out in the order of their days, and their dates
    differ. *)
Lemma emit_row :
  forall d r,
    well_keyed d -> In r (emit d) ->
    date r = isoformat (row_day r) /\ min_day <= row_day r <= max_day.
Proof.
  intros d r Hwk Hin. apply (in_emit d r Hwk) in Hin.
  destruct Hwk as (Hnd & Hent). apply (find_in _ _ _ Hnd) in Hin.
  destruct (Hent _ _ _ Hin) as (_ & _ & _ & Hiso & Hrange). auto.
Qed.

Lemma sorted_by_text_is_chronological :
  forall rows,
    Sorted (fun a b => String.leb (date a) (date b) = true) rows ->
    NoDup (map row_day rows) ->
    (forall r, In r rows ->
               date r = isoformat (row_day r)
               /\ min_day <= row_day r <= max_day) ->
    StronglySorted (fun a b => row_day a < row_day b) rows.
Proof.
  intros rows Hs Hnd Hrows. apply Sorted_StronglySorted.
  { intros a b c. lia. }
  induction Hs as [|a l Hs IH Hhd]; [constructor|].
  inversion Hnd as [|? ? Hnot Hnd']; subst.
  constructor.
  - apply IH; [exact Hnd'|]. intros r Hr. apply Hrows. right. exact Hr.
  - destruct Hhd as [|b l Hab]; constructor.
    destruct (Hrows a (or_introl eq_refl)) as (Ha & Ra).
    destruct (Hrows b (or_intror (or_introl eq_refl))) as (Hb & Rb).
    rewrite Ha, Hb in Hab.
    apply (Calendar.isoformat_leb _ _ Ra Rb) in Hab.
    assert (row_day a <> row_day b).
    { intros E. apply Hnot. rewrite E. left. reflexivity. }
    lia.
Qed.

Lemma emit_chronological :
  forall d,
    well_keyed d ->
    StronglySorted (fun a b => row_day a < row_day b) (emit d).
Proof.
  intros d Hwk. apply sorted_by_text_is_chronological.
  - apply emit_sorted.
  - apply emit_one_row_per_day, Hwk.
  - intros r Hr. exact (emit_row d r Hwk Hr).
Qed.

Lemma emit_dates_differ :
  forall d, well_keyed d -> NoDup (map date (emit d)).
Proof.
  intros d Hwk.
  pose proof (emit_one_row_per_day d Hwk) as Hnd.
  pose proof (fun r => emit_row d r Hwk) as Hrows.
  induction (emit d) as [|a l IH]; [constructor|].
  inversion Hnd as [|? ? Hnot Hnd']; subst. simpl. constructor.
  - intros Hin. apply in_map_iff in Hin. destruct Hin as (b & Heq & Hb).
    destruct (Hrows a (or_introl eq_refl)) as (Ha & Ra).
    destruct (Hrows b (or_intror Hb)) as (Hb' & Rb).
    rewrite Ha, Hb' in Heq.
    apply Calendar.isoformat_injective in Heq; [|exact Rb|exact Ra].
    apply Hnot. rewrite <- Heq. apply in_map. exact Hb.
  - apply IH; [exact Hnd'|]. intros r Hr. apply Hrows. right. exact Hr.
Qed.

Lemma empty_well_keyed : well_keyed [].
Proof. split; [constructor|intros day ts r []]. Qed.

(** The records on which the loop body does not raise. *)
Lemma tolerated_no_abort :
  forall rec,
    tolerated repr u start_date end_date rec = true
    <-> forall e, examine rec <> Abort e.
Proof.
  intros rec. unfold tolerated, Fng.examine.
  destruct rec as [| | | | | |fields];
    try (split; [discriminate|intros H; exfalso; apply (H AttributeError);
                              reflexivity]).
  cbv zeta.
  destruct (is_none (get "timestamp" fields));
    [split; [discriminate|reflexivity]|].
  destruct (read_timestamp repr u (get "timestamp" fields)) as [ts|];
    [|split; [discriminate|reflexivity]].
  unfold _to_utc_date_from_unix_seconds.
  destruct ((min_day <=? day_of ts) && (day_of ts <=? max_day)); cbn [andb].
  2:{ split; [discriminate|]. intros H. exfalso.
      apply (H (out_of_range ts)). reflexivity. }
  destruct ((day_of ts <? start_date) || (end_date <? day_of ts)); cbn [orb].
  { split; [discriminate|reflexivity]. }
  unfold normalized.
  destruct (normalized_value repr u (get "value" fields)) as [v|e1];
    cbn [bind].
  2:{ split; [discriminate|]. intros H. exfalso. apply (H e1). reflexivity. }
  destruct (normalized_classification repr (get "value_classification" fields))
    as [c|e2]; cbn [bind].
  - split; [discriminate|reflexivity].
  - split; [discriminate|]. intros H. exfalso. apply (H e2). reflexivity.
Qed.

(** Whose row is stored under a day: that of the record with the
    greatest timestamp among the records of the day that reach the
    assignment, the last of them in the input when several carry it;
    unless what was stored at the start has a timestamp above them all. *)
Lemma fill_latest :
  forall records d0 d1,
    fill records d0 = Return d1 ->
    forall day ts r,
      Py.find day d1 = Some (ts, r) ->
      (Py.find day d0 = Some (ts, r)
       /\ forall rec ts' r',
            In rec records -> examine rec = Candidate day ts' r' -> ts' < ts)
      \/ exists pre rec post,
           records = (pre ++ rec :: post)%list
           /\ examine rec = Candidate day ts r
           /\ (forall p, Py.find day d0 = Some p -> fst p <= ts)
           /\ (forall rec' ts' r',
                  In rec' pre -> examine rec' = Candidate day ts' r' ->
                  ts' <= ts)
           /\ (forall rec' ts' r',
                  In rec' post -> examine rec' = Candidate day ts' r' ->
                  ts' < ts).
Proof.
  induction records as [|rec0 records IH]; intros d0 d1 Hrun day ts r Hfind;
    cbn [Fng.fill] in Hrun.
  - injection Hrun as <-. left. split; [exact Hfind|]. intros rec ts' r' [].
  - destruct (examine rec0) as [|e|day0 ts0 r0] eqn:Hex; [|discriminate Hrun|].
    + destruct (IH _ _ Hrun _ _ _ Hfind)
        as [(Hd0 & Hlow)|(pre & rec & post & -> & Hc & Hprev & Hpre & Hpost)].
      * left. split; [exact Hd0|].
        intros rec ts' r' [<-|Hin] Hc; [congruence|eauto].
      * right. exists (rec0 :: pre), rec, post.
        split; [reflexivity|]. split; [exact Hc|]. split; [exact Hprev|].
        split; [|exact Hpost].
        intros rec' ts' r' [<-|Hin] Hc'; [congruence|eauto].
    + destruct (store_covers day0 ts0 r0 d0) as (Hmono & Hself).
      destruct (IH _ _ Hrun _ _ _ Hfind)
        as [(Hd0 & Hlow)|(pre & rec & post & -> & Hc & Hprev & Hpre & Hpost)].
      * destruct (Z.eq_dec day day0) as [->|Hne].
        -- unfold store in Hd0.
           destruct (overwrites (Py.find day0 d0) ts0) eqn:Hover.
           ++ rewrite find_assign_same in Hd0. injection Hd0 as <- <-.
              right. exists [], rec0, records.
              split; [reflexivity|]. split; [exact Hex|]. split; [|split].
              ** intros p Hp. rewrite Hp in Hover. cbn in Hover.
                 apply Z.leb_le. exact Hover.
              ** intros rec' ts' r' [].
              ** exact Hlow.
           ++ left. split; [exact Hd0|].
              intros rec ts' r' [<-|Hin] Hc; [|eauto].
              rewrite Hex in Hc. injection Hc as <- <-.
              rewrite Hd0 in Hover. cbn in Hover. apply Z.leb_gt. exact Hover.
        -- left. split.
           ++ unfold store in Hd0.
              destruct (overwrites (Py.find day0 d0) ts0); [|exact Hd0].
              rewrite find_assign_other in Hd0 by exact Hne. exact Hd0.
           ++ intros rec ts' r' [<-|Hin] Hc; [|eauto].
              rewrite Hex in Hc. injection Hc as E _ _. congruence.
      * right. exists (rec0 :: pre), rec, post.
        split; [reflexivity|]. split; [exact Hc|]. split; [|split].
        -- intros p Hp. destruct (Hmono _ _ Hp) as (p' & Hp' & Hle).
           specialize (Hprev _ Hp'). lia.
        -- intros rec' ts' r' [<-|Hin] Hc'; [|eauto].
           rewrite Hex in Hc'. injection Hc' as -> <- <-.
           destruct Hself as (p' & Hp' & Hle).
           specialize (Hprev _ Hp'). lia.
        -- exact Hpost.
Qed.

End WithRepr.

(** The classes of the exception at the edges of their ranges: the
    first second of the year 10000 and the last of the year 0, the last
    second of a year [gmtime] can hold and the first it cannot, the
    first number [time_t] cannot hold. *)
Example out_of_range_classes :
  map out_of_range
      [253402300800; -62135596801; 67768036191676799; 67768036191676800;
       -67768040609740800; -67768040609740801; 2 ^ 63 - 1; 2 ^ 63;
       - 2 ^ 63; - 2 ^ 63 - 1]
  = [ValueError; ValueError; ValueError; OSError;
     ValueError; OSError; OSError; OverflowError;
     OSError; OverflowError]
  /\ _to_utc_date_from_unix_seconds 253402300799 = Return max_day
  /\ _to_utc_date_from_unix_seconds (-62135596800) = Return min_day.
Proof. vm_compute. repeat split. Qed.

End FngFacts.
(** ** C5: the listing crawl and its termination signal *)

Module Crawl.

Import SeekingAlpha.

Section WithParser.

Variable to_datetime : string -> option stamp.

#[local] Abbreviation scan := (SeekingAlpha.scan to_datetime).
#[local] Abbreviation scan_from := (SeekingAlpha.scan_from to_datetime).
#[local] Abbreviation visit := (SeekingAlpha.visit to_datetime).
#[local] Abbreviation dated := (SeekingAlpha.dated to_datetime).
#[local] Abbreviation has_offset := (SeekingAlpha.has_offset to_datetime).
#[local] Abbreviation pages := (SeekingAlpha.pages to_datetime).

(** The inner loop raises on the articles with an offset and on no
    other. *)
Lemma visit_outcome :
  forall tk vars art,
    if has_offset tk art then visit tk vars art = Raise TypeError
    else exists vars', visit tk vars art = Return vars'.
Proof.
  intros tk vars art. unfold SeekingAlpha.has_offset, SeekingAlpha.visit.
  destruct (dated tk art) as [rec|]; [|eauto].
  destruct (date rec); [| |reflexivity];
    destruct (in_range _); eauto.
Qed.

Lemma scan_from_outcome :
  forall tk articles vars,
    if existsb (has_offset tk) articles
    then scan_from tk articles vars = Raise TypeError
    else exists vars', scan_from tk articles vars = Return vars'.
Proof.
  intros tk articles; induction articles as [|art articles IH]; intros vars;
    cbn [existsb SeekingAlpha.scan_from]; [eauto|].
  pose proof (visit_outcome tk vars art) as Hv.
  destruct (has_offset tk art); cbn [orb].
  - rewrite Hv. reflexivity.
  - destruct Hv as (vars' & ->). cbn [bind]. apply IH.
Qed.

Lemma scan_from_app :
  forall tk l1 l2 vars,
    scan_from tk (l1 ++ l2) vars
    = bind (scan_from tk l1 vars) (scan_from tk l2).
Proof.
  intros tk l1; induction l1 as [|a l1 IH]; intros l2 vars;
    cbn [app SeekingAlpha.scan_from bind]; [reflexivity|].
  destruct (visit tk vars a) as [vars'|e]; cbn [bind]; [apply IH|reflexivity].
Qed.

Lemma scan_snoc :
  forall tk articles art,
    scan tk (articles ++ [art])
    = bind (scan tk articles) (fun vars => visit tk vars art).
Proof.
  intros tk articles art. unfold SeekingAlpha.scan. rewrite scan_from_app.
  destruct (scan_from tk articles _) as [vars|e]; cbn [bind]; [|reflexivity].
  cbn [SeekingAlpha.scan_from]. destruct (visit tk vars art); reflexivity.
Qed.

(** The rows a page adds are the dated articles in range, each of them
    and nothing else. *)
Lemma scan_from_found :
  forall tk articles vars vars' rec,
    scan_from tk articles vars = Return vars' ->
    (In rec (found vars')
     <-> In rec (found vars)
         \/ exists art, In art articles /\ dated tk art = Some rec
                        /\ in_range (date rec) = true).
Proof.
  intros tk articles; induction articles as [|a articles IH];
    intros vars vars' rec Hrun; cbn [SeekingAlpha.scan_from] in Hrun.
  - injection Hrun as <-. split; [intros H; left; exact H|].
    intros [H|(art & [] & _)]. exact H.
  - destruct (visit tk vars a) as [vars1|e] eqn:Hv; [|discriminate Hrun].
    cbn [bind] in Hrun. rewrite (IH _ _ rec Hrun).
    unfold SeekingAlpha.visit in Hv.
    destruct (dated tk a) as [r|] eqn:Hd.
    + assert (Hbody :
        found vars1
        = if in_range (date r) then (found vars ++ [r])%list else found vars).
      { destruct (date r); [| |discriminate Hv];
          destruct (in_range _); injection Hv as <-; reflexivity. }
      rewrite Hbody. clear Hbody Hv.
      destruct (in_range (date r)) eqn:Hr.
      * rewrite in_app_iff. cbn [In]. split.
        -- intros [[H|[<-|[]]]|(art & Hin & Ha)].
           ++ left; exact H.
           ++ right. exists a. repeat split; auto.
           ++ right. exists art. split; [right; exact Hin|exact Ha].
        -- intros [H|(art & [<-|Hin] & Ha & Hrange)].
           ++ left; left; exact H.
           ++ left; right; left. rewrite Hd in Ha. injection Ha as ->.
              reflexivity.
           ++ right. exists art. repeat split; assumption.
      * split.
        -- intros [H|(art & Hin & Ha)]; [left; exact H|].
           right. exists art. split; [right; exact Hin|exact Ha].
        -- intros [H|(art & [<-|Hin] & Ha & Hrange)]; [left; exact H| |].
           ++ rewrite Hd in Ha. injection Ha as ->. rewrite Hr in Hrange.
              discriminate Hrange.
           ++ right. exists art. repeat split; assumption.
    + injection Hv as <-. split.
      * intros [H|(art & Hin & Ha)]; [left; exact H|].
        right. exists art. split; [right; exact Hin|exact Ha].
      * intros [H|(art & [<-|Hin] & Ha & Hrange)]; [left; exact H| |].
        -- rewrite Hd in Ha. discriminate Ha.
        -- right. exists art. repeat split; assumption.
Qed.

Lemma scan_found :
  forall tk articles vars rec,
    scan tk articles = Return vars ->
    (In rec (found vars)
     <-> exists art, In art articles /\ dated tk art = Some rec
                     /\ in_range (date rec) = true).
Proof.
  intros tk articles vars rec Hrun. unfold SeekingAlpha.scan in Hrun.
  rewrite (scan_from_found _ _ _ _ rec Hrun). cbn [found In].
  split; [intros [[]|H]; exact H|intros H; right; exact H].
Qed.

(** A page without a dated record in the window leaves
    [page_had_any_in_range] false. *)
Lemma scan_nothing_in_range :
  forall tk articles vars,
    scan tk articles = Return vars ->
    (forall art rec, In art articles -> dated tk art = Some rec ->
                     in_range (date rec) = false) ->
    page_had_any_in_range vars = false.
Proof.
  intros tk articles; induction articles as [|art articles IH] using rev_ind;
    intros vars Hrun Hout.
  - injection Hrun as <-. reflexivity.
  - rewrite scan_snoc in Hrun.
    destruct (scan tk articles) as [vars0|e]; [|discriminate Hrun].
    cbn [bind] in Hrun.
    assert (H0 : page_had_any_in_range vars0 = false).
    { apply IH; [reflexivity|]. intros a r Ha. apply Hout, in_or_app; auto. }
    unfold SeekingAlpha.visit in Hrun.
    destruct (dated tk art) as [rec|] eqn:Hd.
    + rewrite (Hout art rec) in Hrun by (try apply in_or_app; simpl; auto).
      destruct (date rec); try discriminate Hrun;
        injection Hrun as <-; exact H0.
    + injection Hrun as <-. exact H0.
Qed.

(** When every dated record of a page carries a point in time, the
    variable [oldest_on_page] ends at or below each of them. *)
Lemma oldest_below_every_date :
  forall tk articles,
    (forall art rec, In art articles -> dated tk art = Some rec ->
                     exists t, date rec = At t) ->
    exists vars,
      scan tk articles = Return vars
      /\ (forall o, oldest_on_page vars = Some o -> exists m, o = At m)
      /\ (forall art rec t,
             In art articles -> dated tk art = Some rec -> date rec = At t ->
             exists m, oldest_on_page vars = Some (At m) /\ m <= t).
Proof.
  intros tk articles; induction articles as [|art articles IH] using rev_ind;
    intros Htimes.
  - eexists. split; [reflexivity|].
    split; [intros o Ho; discriminate Ho | intros a r t []].
  - destruct IH as (vars0 & Hscan & IHshape & IHlow).
    { intros a r Ha. apply Htimes, in_or_app; auto. }
    rewrite scan_snoc, Hscan. cbn [bind]. unfold SeekingAlpha.visit.
    destruct (dated tk art) as [rec|] eqn:Hd.
    + destruct (Htimes art rec) as (t0 & Ht0);
        [apply in_or_app; simpl; auto | exact Hd |].
      rewrite Ht0.
      assert (Hnew :
        forall vars' : page_vars,
          oldest_on_page vars'
          = match oldest_on_page vars0 with
            | None => Some (At t0)
            | Some o => if stamp_lt (At t0) o then Some (At t0) else Some o
            end ->
          (forall o, oldest_on_page vars' = Some o -> exists m, o = At m)
          /\ (forall a r t,
                 In a (articles ++ [art]) -> dated tk a = Some r ->
                 date r = At t ->
                 exists m, oldest_on_page vars' = Some (At m) /\ m <= t)).
      { intros vars' Hold. rewrite Hold.
        destruct (oldest_on_page vars0) as [o|] eqn:Ho.
        - destruct (IHshape o eq_refl) as (m0 & ->). simpl.
          destruct (t0 <? m0) eqn:Hlt.
          + apply Z.ltb_lt in Hlt. split.
            * intros o [= <-]. eauto.
            * intros a r t Ha Hda Hdate. apply in_app_or in Ha.
              destruct Ha as [Ha|[<-|[]]].
              -- destruct (IHlow a r t Ha Hda Hdate) as (m & [= <-] & Hm).
                 exists t0. split; [reflexivity|lia].
              -- rewrite Hd in Hda. injection Hda as <-.
                 rewrite Ht0 in Hdate. injection Hdate as <-.
                 exists t0. split; [reflexivity|lia].
          + apply Z.ltb_ge in Hlt. split.
            * intros o [= <-]. eauto.
            * intros a r t Ha Hda Hdate. apply in_app_or in Ha.
              destruct Ha as [Ha|[<-|[]]].
              -- destruct (IHlow a r t Ha Hda Hdate) as (m & [= <-] & Hm).
                 exists m0. split; [reflexivity|lia].
              -- rewrite Hd in Hda. injection Hda as <-.
                 rewrite Ht0 in Hdate. injection Hdate as <-.
                 exists m0. split; [reflexivity|lia].
        - split.
          + intros o [= <-]. eauto.
          + intros a r t Ha Hda Hdate. apply in_app_or in Ha.
            destruct Ha as [Ha|[<-|[]]].
            * destruct (IHlow a r t Ha Hda Hdate) as (m & Hm & _).
              discriminate Hm.
            * rewrite Hd in Hda. injection Hda as <-.
              rewrite Ht0 in Hdate. injection Hdate as <-.
              exists t0. split; [reflexivity|lia]. }
      destruct (in_range (At t0)); eexists; (split; [reflexivity|]);
        apply Hnew; reflexivity.
    + exists vars0. split; [reflexivity|]. split; [exact IHshape|].
      intros a r t Ha Hda Hdate. apply in_app_or in Ha.
      destruct Ha as [Ha|[<-|[]]].
      * exact (IHlow a r t Ha Hda Hdate).
      * rewrite Hd in Hda. discriminate Hda.
Qed.

(** The crawl from page [page] on, when page [N] carries the signal:
    it requests consecutive pages and none after [N]. *)
Lemma pages_stop :
  forall get_soup tk N articles vars,
    get_soup N = Return articles ->
    articles <> [] ->
    scan tk articles = Return vars ->
    stop_signal vars = true ->
    forall todo page records result fetched,
      page <= N < page + Z.of_nat todo ->
      pages get_soup tk todo page records = (result, fetched) ->
      (forall p, In p fetched -> page <= p <= N)
      /\ ((forall p, page <= p < N ->
                     exists arts vs,
                       get_soup p = Return arts /\ arts <> []
                       /\ scan tk arts = Return vs
                       /\ stop_signal vs = false) ->
          fetched = map (fun i => page + Z.of_nat i)
                        (seq 0 (Z.to_nat (N - page + 1)))
          /\ exists rows, result = Return rows).
Proof.
  intros get_soup tk N articles vars HN Hne Hscan Hstop todo;
    induction todo as [|todo IH];
    intros page records result fetched Hrange Hrun; [lia|].
  cbn [SeekingAlpha.pages] in Hrun.
  assert (Hone : (forall p, In p [page] -> page <= p <= N)
                 /\ (page = N ->
                     [page] = map (fun i => page + Z.of_nat i)
                                  (seq 0 (Z.to_nat (N - page + 1))))).
  { split.
    - intros p [<-|[]]. lia.
    - intros ->. replace (N - N + 1) with 1 by lia. simpl.
      rewrite Z.add_0_r. reflexivity. }
  destruct (Z.eq_dec page N) as [->|Hneq].
  - rewrite HN in Hrun. destruct articles as [|a l]; [contradiction|].
    rewrite Hscan, Hstop in Hrun. injection Hrun as <- <-.
    split; [apply Hone|].
    intros _. split; [apply Hone; reflexivity|eauto].
  - destruct (get_soup page) as [arts|e] eqn:Hpage.
    + destruct arts as [|a l].
      * injection Hrun as <- <-. split; [apply Hone|].
        intros Hgo. destruct (Hgo page) as (arts & vs & Hp & Hnn & _); [lia|].
        rewrite Hpage in Hp. injection Hp as <-. contradiction.
      * destruct (scan tk (a :: l)) as [vs|e] eqn:Hsc.
        2:{ injection Hrun as <- <-. split; [apply Hone|].
            intros Hgo.
            destruct (Hgo page) as (arts & vs & Hp & _ & Hs & _); [lia|].
            rewrite Hpage in Hp. injection Hp as <-.
            rewrite Hsc in Hs. discriminate Hs. }
        destruct (stop_signal vs) eqn:Hs.
        -- injection Hrun as <- <-. split; [apply Hone|].
           intros Hgo.
           destruct (Hgo page) as (arts & vs' & Hp & _ & Hs' & Hns); [lia|].
           rewrite Hpage in Hp. injection Hp as <-.
           rewrite Hsc in Hs'. injection Hs' as <-.
           rewrite Hs in Hns. discriminate Hns.
        -- destruct (pages get_soup tk todo (page + 1) (records ++ found vs))
             as [r' f'] eqn:Hrec.
           injection Hrun as <- <-.
           assert (Hnext : page + 1 <= N < page + 1 + Z.of_nat todo) by lia.
           destruct (IH _ _ _ _ Hnext Hrec) as (Hin & Hexact).
           split.
           ++ intros p [<-|Hp]; [lia|]. apply Hin in Hp. lia.
           ++ intros Hgo. destruct Hexact as (Hf & Hr).
              { intros p Hp. apply Hgo. lia. }
              split; [|exact Hr]. rewrite Hf.
              replace (Z.to_nat (N - page + 1))
                with (S (Z.to_nat (N - (page + 1) + 1))) by lia.
              simpl. rewrite Z.add_0_r. f_equal.
              rewrite <- seq_shift, map_map. apply map_ext.
              intros i. lia.
    + injection Hrun as <- <-. split; [apply Hone|].
      intros Hgo. destruct (Hgo page) as (arts & vs & Hp & _); [lia|].
      rewrite Hpage in Hp. discriminate Hp.
Qed.

(** What the crawl does do.  Let page [N <= max_pages] have no dated
    record inside the window, let every dated record of the page carry a
    point in time without a zone, and let one of them lie before
    [START_DATE].  Then every page the crawl requests is one of
    [1 .. N], whatever [max_pages] is; and if the pages before [N] let
    the crawl go on, it requests exactly the pages [1 .. N] and
    returns. *)
Lemma stops_after_a_page_of_old_dates :
  forall get_soup tk max_pages N articles art rec t result fetched,
    1 <= N <= max_pages ->
    get_soup N = Return articles ->
    (forall a r, In a articles -> dated tk a = Some r ->
                 exists s, date r = At s) ->
    (forall a r, In a articles -> dated tk a = Some r ->
                 in_range (date r) = false) ->
    In art articles -> dated tk art = Some rec -> date rec = At t ->
    stamp_lt (At t) START_DATE = true ->
    list_earnings_call_transcripts_for_ticker to_datetime get_soup tk max_pages
    = (result, fetched) ->
    (forall p, In p fetched -> 1 <= p <= N)
    /\ ~ In (N + 1) fetched
    /\ ((forall p, 1 <= p < N ->
                   exists arts vs,
                     get_soup p = Return arts /\ arts <> []
                     /\ scan tk arts = Return vs
                     /\ stop_signal vs = false) ->
        fetched = map (fun i => 1 + Z.of_nat i) (seq 0 (Z.to_nat N))
        /\ exists rows, result = Return rows).
Proof.
  intros get_soup tk max_pages N articles art rec t result fetched HN Hpage
         Htimes Hout Hin Hd Hdate Hlt Hrun.
  destruct (oldest_below_every_date tk articles Htimes)
    as (vars & Hscan & _ & Hlow).
  destruct (Hlow art rec t Hin Hd Hdate) as (m & Hm & Hle).
  assert (Hne : articles <> []) by (intros ->; destruct Hin).
  assert (Hstop : stop_signal vars = true).
  { unfold stop_signal. rewrite Hm.
    rewrite (scan_nothing_in_range tk articles vars Hscan Hout).
    unfold START_DATE in *. cbn [stamp_lt negb andb] in *.
    rewrite andb_true_r. apply Z.ltb_lt in Hlt. apply Z.ltb_lt. lia. }
  unfold list_earnings_call_transcripts_for_ticker in Hrun.
  assert (Hrange : 1 <= N < 1 + Z.of_nat (Z.to_nat max_pages)) by lia.
  destruct (pages_stop get_soup tk N articles vars Hpage Hne Hscan Hstop
              (Z.to_nat max_pages) 1 [] result fetched Hrange Hrun)
    as (Hfetched & Hexact).
  split; [exact Hfetched|]. split.
  - intros Hnext. apply Hfetched in Hnext. lia.
  - intros Hgo. replace (Z.to_nat N) with (Z.to_nat (N - 1 + 1)) by lia.
    apply Hexact, Hgo.
Qed.

End WithParser.

(** C5 at the failing input.  Every page of the listing opens with a
    transcript whose [<span>] is missing, so that its date is [NaT],
    followed by the call of 23 August 2023.  No dated record of page 1
    lies in the window and the oldest of its dates precedes
    [START_DATE]: the page carries the termination signal.  But
    [oldest_on_page] is [NaT] from the first article on, no comparison
    with it holds, and the crawl requests page 2 and every page up to the
    ceiling. *)
Theorem crawl_goes_on_behind_an_undated_article :
  let dated := SeekingAlpha.dated Scenario.sa_to_datetime "NVDA" in
  Scenario.sa_listing_undated 1 = Return Scenario.sa_page_undated
  /\ (forall art rec,
         In art Scenario.sa_page_undated -> dated art = Some rec ->
         in_range (date rec) = false)
  /\ (exists art rec t,
         In art Scenario.sa_page_undated /\ dated art = Some rec
         /\ date rec = At t /\ stamp_lt (At t) START_DATE = true)
  /\ (exists vars,
         SeekingAlpha.scan Scenario.sa_to_datetime "NVDA"
           Scenario.sa_page_undated = Return vars
         /\ oldest_on_page vars = Some NaT
         /\ stop_signal vars = false)
  /\ list_earnings_call_transcripts_for_ticker Scenario.sa_to_datetime
       Scenario.sa_listing_undated "NVDA" 10
     = (Return [], [1; 2; 3; 4; 5; 6; 7; 8; 9; 10]).
Proof.
  cbv zeta. split; [reflexivity|]. split; [|split; [|split]].
  - intros art rec [<-|[<-|[]]] Hd; vm_compute in Hd; injection Hd as <-;
      reflexivity.
  - eexists _, _, _. split; [right; left; reflexivity|].
    split; [vm_compute; reflexivity|]. split; reflexivity.
  - eexists. split; [vm_compute; reflexivity|]. split; reflexivity.
  - vm_compute. reflexivity.
Qed.

End Crawl.

(** ** The Alpha Vantage series loops *)

Module SeriesFacts.

Import Containers.

Section WithParsers.

Variable fromisoformat : string -> option Z.
Variable float_of_string : string -> option Q.

#[local] Abbreviation stock_bar := (OHLCV.stock_bar float_of_string).
#[local] Abbreviation collect := (OHLCV.collect fromisoformat float_of_string).
#[local] Abbreviation inside := (OHLCV.inside fromisoformat).

Lemma stock_bar_date :
  forall sym date_str row b,
    stock_bar sym date_str row = Return b -> OHLCV.date b = date_str.
Proof.
  intros sym date_str row b H. unfold OHLCV.stock_bar in H.
  repeat match type of H with
         | bind ?m _ = Return _ => destruct m; simpl in H; [|discriminate H]
         end.
  injection H as <-. reflexivity.
Qed.

(** The loop appends one bar per entry inside the window, in order. *)
Lemma collect_spec :
  forall sym series records out,
    collect sym series records = Return out ->
    exists bars,
      out = (records ++ bars)%list
      /\ Forall2 (fun b entry => stock_bar sym (fst entry) (snd entry) = Return b)
                 bars (filter inside series).
Proof.
  intros sym series; induction series as [|[date_str row] series IH];
    intros records out H; cbn [OHLCV.collect] in H.
  - injection H as <-. exists []. split; [symmetry; apply app_nil_r|constructor].
  - unfold OHLCV._within_range in H. cbn [filter]. unfold OHLCV.inside at 1.
    cbn [fst].
    destruct (fromisoformat date_str) as [d|]; [|discriminate H].
    cbn [bind] in H.
    destruct ((OHLCV.START_DATE <=? d) && (d <=? OHLCV.END_DATE)); cbn [negb] in H.
    + destruct (stock_bar sym date_str row) as [b|e] eqn:Hb; [|discriminate H].
      cbn [bind] in H. destruct (IH _ _ H) as (bars & -> & Hall).
      exists (b :: bars). split; [rewrite <- app_assoc; reflexivity|].
      constructor; [exact Hb|exact Hall].
    + exact (IH _ _ H).
Qed.

(** It returns when every key reads as a date and every entry inside
    the window has its five numbers. *)
Lemma collect_returns :
  forall sym series records,
    (forall entry, In entry series -> fromisoformat (fst entry) <> None) ->
    (forall entry, In entry series -> inside entry = true ->
                   exists b, stock_bar sym (fst entry) (snd entry) = Return b) ->
    exists out, collect sym series records = Return out.
Proof.
  intros sym series; induction series as [|[date_str row] series IH];
    intros records Hkeys Hbars; cbn [OHLCV.collect].
  - eauto.
  - unfold OHLCV._within_range.
    pose proof (Hkeys (date_str, row) (or_introl eq_refl)) as Hk.
    pose proof (Hbars (date_str, row) (or_introl eq_refl)) as Hb.
    unfold OHLCV.inside in Hb. cbn [fst snd] in Hk, Hb.
    destruct (fromisoformat date_str) as [d|]; [|contradiction].
    cbn [bind].
    destruct ((OHLCV.START_DATE <=? d) && (d <=? OHLCV.END_DATE)); cbn [negb].
    + destruct (Hb eq_refl) as (b & ->). cbn [bind].
      apply IH; intros entry Hin; [apply Hkeys|apply Hbars]; right; exact Hin.
    + apply IH; intros entry Hin; [apply Hkeys|apply Hbars]; right; exact Hin.
Qed.

(** The indicator loop treats a list with an element it skips as the
    list without it. *)
Lemma macro_collect_skip :
  forall code pre item post rows,
    Macro.examine fromisoformat float_of_string code item = Macro.Skip ->
    Macro.collect fromisoformat float_of_string code (pre ++ item :: post) rows
    = Macro.collect fromisoformat float_of_string code (pre ++ post) rows.
Proof.
  intros code pre; induction pre as [|x pre IH]; intros item post rows Hskip;
    cbn [app Macro.collect].
  - rewrite Hskip. reflexivity.
  - destruct (Macro.examine fromisoformat float_of_string code x);
      [apply IH|apply IH|reflexivity]; exact Hskip.
Qed.

End WithParsers.

(** The Fear and Greed loop treats a list with a record it skips as the
    list without it. *)
Lemma fng_fill_skip :
  forall repr u start_date end_date pre rec post by_date,
    Fng.examine repr u start_date end_date rec = Fng.Skip ->
    Fng.fill repr u start_date end_date (pre ++ rec :: post) by_date
    = Fng.fill repr u start_date end_date (pre ++ post) by_date.
Proof.
  intros repr u start_date end_date pre; induction pre as [|x pre IH];
    intros rec post by_date Hskip; cbn [app Fng.fill].
  - rewrite Hskip. reflexivity.
  - destruct (Fng.examine repr u start_date end_date x);
      [apply IH|reflexivity|apply IH]; exact Hskip.
Qed.

End SeriesFacts.

(** ** C6: the date window *)

Module DateWindow.

Import Containers FngFacts SeriesFacts.

Lemma dates_of_bars :
  forall float_of_string sym (bars : list OHLCV.bar) (entries : list (string * json)),
    Forall2 (fun b entry =>
               OHLCV.stock_bar float_of_string sym (fst entry) (snd entry)
               = Return b) bars entries ->
    map OHLCV.date bars = map fst entries.
Proof.
  intros float_of_string sym bars entries H; induction H as [|b e bars entries Hb _ IH].
  - reflexivity.
  - simpl. rewrite IH, (stock_bar_date _ _ _ _ _ Hb). reflexivity.
Qed.

(** C6.  [fetch_stock_daily] turns the payload into exactly one row per
    entry of the series whose date lies in [START_DATE, END_DATE], and
    returns the rows sorted ascending by their date; it returns whenever
    the keys read as dates and the entries inside the window have their
    numbers.  [filter_and_normalize_records] returns a row for a day
    exactly when the day lies in [start_date, end_date] and some record
    with a readable timestamp falls on it, every row is the normalised
    form of such a record, and the rows are sorted ascending by their
    date; it returns exactly when the loop body raises on no record.  For
    the window 2024-01-01 to 2024-01-03 and readings of 2023-12-31,
    2024-01-01, 2024-01-02 and 2024-01-04 the output is the two rows of
    2024-01-01 and 2024-01-02, in that order. *)
Theorem window_keeps_the_days_inside_sorted :
  forall (fromisoformat : string -> option Z)
         (float_of_string : string -> option Q)
         (repr : json -> option string) (u : unicode),
    (forall server sym rows tr,
        OHLCV.fetch_stock_daily fromisoformat float_of_string server sym
        = (Return rows, tr) ->
        exists fields series,
          fst (OHLCV._request_with_retries server 6) = Return (JObj fields)
          /\ lookup "Time Series (Daily)" fields = Some (JObj series)
          /\ (exists bars,
                 Permutation rows bars
                 /\ Forall2 (fun b entry =>
                               OHLCV.stock_bar float_of_string sym
                                 (fst entry) (snd entry) = Return b)
                            bars (filter (OHLCV.inside fromisoformat) series))
          /\ Permutation (map OHLCV.date rows)
                         (map fst (filter (OHLCV.inside fromisoformat) series))
          /\ Sorted (fun a b => String.leb (OHLCV.date a) (OHLCV.date b) = true)
                    rows)
    /\ (forall server sym fields series,
           fst (OHLCV._request_with_retries server 6) = Return (JObj fields) ->
           lookup "Time Series (Daily)" fields = Some (JObj series) ->
           (forall entry, In entry series -> fromisoformat (fst entry) <> None) ->
           (forall entry,
               In entry series -> OHLCV.inside fromisoformat entry = true ->
               exists b, OHLCV.stock_bar float_of_string sym
                           (fst entry) (snd entry) = Return b) ->
           exists rows,
             fst (OHLCV.fetch_stock_daily fromisoformat float_of_string
                    server sym)
             = Return rows)
    /\ (forall records start_date end_date rows,
           Fng.filter_and_normalize_records repr u records start_date end_date
           = Return rows ->
           (forall day,
               (exists r, In r rows /\ Fng.row_day r = day
                          /\ Fng.date r = isoformat day)
               <-> (start_date <= day <= end_date
                    /\ exists rec, In rec records
                                   /\ Fng.day_of_record repr u rec = Some day))
           /\ (forall r,
                  In r rows ->
                  exists rec day ts,
                    In rec records
                    /\ Fng.examine repr u start_date end_date rec
                       = Fng.Candidate day ts r)
           /\ Sorted (fun a b => String.leb (Fng.date a) (Fng.date b) = true)
                     rows
           /\ StronglySorted (fun a b => Fng.row_day a < Fng.row_day b) rows)
    /\ (forall records start_date end_date,
           (exists rows,
               Fng.filter_and_normalize_records repr u records
                 start_date end_date
               = Return rows)
           <-> forall rec,
                 In rec records ->
                 Fng.tolerated repr u start_date end_date rec = true)
    /\ Fng.filter_and_normalize_records repr u Scenario.fng_payload
         (days_from_civil 2024 1 1) (days_from_civil 2024 1 3)
       = Return [Scenario.fng_row "2024-01-01" 1704067200 71;
                 Scenario.fng_row "2024-01-02" 1704153600 74].
Proof.
  intros fromisoformat float_of_string repr u.
  split; [|split; [|split; [|split]]].
  - intros server sym rows tr Hrun. unfold OHLCV.fetch_stock_daily in Hrun.
    destruct (OHLCV._request_with_retries server 6) as [payload tr'].
    injection Hrun as Hrun _.
    destruct payload as [payload|e]; [|discriminate Hrun]. cbn [bind] in Hrun.
    unfold OHLCV.daily_rows in Hrun.
    destruct payload as [| | | | | |fields]; try discriminate Hrun.
    destruct (lookup "Time Series (Daily)" fields) as [series|] eqn:Hseries;
      [|discriminate Hrun].
    destruct series as [| | | | | |series]; try discriminate Hrun.
    destruct (OHLCV.collect fromisoformat float_of_string sym series [])
      as [records|e] eqn:Hcol; [|discriminate Hrun].
    cbn [bind] in Hrun. injection Hrun as <-.
    destruct (collect_spec _ _ _ _ _ _ Hcol) as (bars & -> & Hall).
    cbn [app]. exists fields, series.
    split; [reflexivity|]. split; [exact Hseries|]. split; [|split].
    + exists bars. split; [apply sort_by_perm|exact Hall].
    + rewrite <- (dates_of_bars _ _ _ _ Hall).
      apply Permutation_map, sort_by_perm.
    + apply sort_by_sorted, String.leb_total.
  - intros server sym fields series Hpayload Hseries Hkeys Hbars.
    unfold OHLCV.fetch_stock_daily.
    destruct (OHLCV._request_with_retries server 6) as [payload tr].
    cbn [fst] in *. subst payload. cbn [bind].
    unfold OHLCV.daily_rows. rewrite Hseries.
    destruct (collect_returns fromisoformat float_of_string sym series []
                Hkeys Hbars) as (out & ->).
    cbn [bind]. eauto.
  - intros records start_date end_date rows Hrun.
    unfold Fng.filter_and_normalize_records in Hrun.
    destruct (Fng.fill repr u start_date end_date records []) as [d|e] eqn:Hfill;
      [|discriminate Hrun].
    cbn [bind] in Hrun. injection Hrun as <-.
    pose proof (fill_well_keyed repr u _ _ _ _ _
                  (empty_well_keyed start_date end_date) Hfill) as Hwk.
    split; [|split; [|split]].
    + intros day. split.
      * intros (r & Hin & Hday & _).
        apply (in_emit start_date end_date d r Hwk) in Hin.
        destruct Hwk as (Hnd & Hent).
        apply (find_in _ _ _ Hnd) in Hin.
        destruct (Hent _ _ _ Hin) as (_ & _ & Hwin & _).
        rewrite Hday in Hwin. split; [exact Hwin|].
        destruct (fill_provenance repr u _ _ _ _ _ Hfill _ _ _ Hin)
          as [[]|(rec & Hrec & Hc)].
        exists rec. split; [exact Hrec|].
        destruct (examine_candidate repr u _ _ _ _ _ _ Hc)
          as (_ & _ & _ & _ & Hd & _).
        rewrite Hd, Hday. reflexivity.
      * intros (Hwin & rec & Hrec & Hday).
        destruct (examine_inside repr u start_date end_date rec day Hday Hwin)
          as (ts & r0 & Hc).
        { intros e. exact (fill_no_abort repr u _ _ _ _ _ Hfill rec e Hrec). }
        destruct (fill_covers repr u _ _ _ _ _ Hfill) as (_ & Hnew).
        destruct (Hnew rec day ts r0 Hrec Hc) as ([ts' r] & Hfind & _).
        pose proof Hwk as (Hnd & Hent).
        pose proof (proj1 (find_in _ _ _ Hnd) Hfind) as Hin.
        destruct (Hent _ _ _ Hin) as (Hd & Hts & _ & Hiso & _).
        exists r. split; [|split].
        -- apply (in_emit start_date end_date d r Hwk).
           unfold Fng.row_day. rewrite Hts, <- Hd. exact Hfind.
        -- unfold Fng.row_day. rewrite Hts. symmetry. exact Hd.
        -- exact Hiso.
    + intros r Hin. apply (in_emit start_date end_date d r Hwk) in Hin.
      destruct Hwk as (Hnd & Hent). apply (find_in _ _ _ Hnd) in Hin.
      destruct (fill_provenance repr u _ _ _ _ _ Hfill _ _ _ Hin)
        as [[]|(rec & Hrec & Hc)].
      exists rec, (Fng.row_day r), (Fng.timestamp r). split; assumption.
    + apply emit_sorted.
    + apply (emit_chronological start_date end_date), Hwk.
  - intros records start_date end_date.
    unfold Fng.filter_and_normalize_records. split.
    + intros (rows & Hrun) rec Hin.
      destruct (Fng.fill repr u start_date end_date records []) as [d|e] eqn:Hfill;
        [|discriminate Hrun].
      apply tolerated_no_abort. intros e.
      exact (fill_no_abort repr u _ _ _ _ _ Hfill rec e Hin).
    + intros Htol.
      destruct (fill_returns repr u start_date end_date records []) as (d & ->).
      * intros rec e Hin. apply tolerated_no_abort, Htol, Hin.
      * cbn [bind]. eauto.
  - vm_compute. reflexivity.
Qed.

(** C6 at work on a daily series of NVDA and on the scenario. *)
Lemma window_keeps_the_days_inside_sorted_witness :
  (exists rows tr,
      OHLCV.fetch_stock_daily Scenario.iso_date Scenario.decimal
        Scenario.av_serving "NVDA" = (Return rows, tr)
      /\ map OHLCV.date rows = ["2024-01-02"; "2024-01-03"]
      /\ exists dates,
           Permutation (map OHLCV.date rows) dates
           /\ dates = map fst (filter (OHLCV.inside Scenario.iso_date)
                                      Scenario.av_series))
  /\ (exists rows,
         Fng.filter_and_normalize_records Scenario.opaque_repr Scenario.ascii_only
           Scenario.fng_payload
           (days_from_civil 2024 1 1) (days_from_civil 2024 1 3) = Return rows
         /\ map Fng.date rows = ["2024-01-01"; "2024-01-02"]
         /\ Sorted (fun a b => String.leb (Fng.date a) (Fng.date b) = true)
                   rows).
Proof.
  destruct (window_keeps_the_days_inside_sorted
              Scenario.iso_date Scenario.decimal Scenario.opaque_repr
              Scenario.ascii_only)
    as (Hav & _ & Hfng & _ & Hscenario).
  split.
  - destruct (OHLCV.fetch_stock_daily Scenario.iso_date Scenario.decimal
                Scenario.av_serving "NVDA") as [[rows|e] tr] eqn:E;
      [|vm_compute in E; discriminate E].
    exists rows, tr. split; [reflexivity|]. split.
    + vm_compute in E. injection E as <- _. reflexivity.
    + destruct (Hav _ _ _ _ E)
        as (fields & series & Hpayload & Hseries & _ & Hperm & _).
      vm_compute in Hpayload. injection Hpayload as <-.
      vm_compute in Hseries. injection Hseries as <-.
      eexists. split; [exact Hperm|reflexivity].
  - eexists. split; [exact Hscenario|]. split; [reflexivity|].
    eapply Hfng. exact Hscenario.
Defined.

End DateWindow.

(** ** C7: records with a field that does not parse *)

Module SoftFailure.

Import Containers FngFacts SeriesFacts.

(** C7, as amended.  In [fetch_indicator] an element whose value
    [float] refuses with [TypeError] or [ValueError] is dropped alone:
    the rows are those of the payload without that element.  In
    [filter_and_normalize_records] a record whose timestamp does not read
    as an integer is dropped alone in the same sense, while a record
    whose value is not an int or a string, or not a text of digits only,
    is not dropped: it is kept with a null value. *)
Theorem unreadable_field_costs_one_record :
  forall (fromisoformat : string -> option Z)
         (float_of_string : string -> option Q)
         (repr : json -> option string) (u : unicode),
    (forall code item_fields inside_window e fields fields' pre post,
        Macro._within_range fromisoformat (get "date" item_fields)
        = Return inside_window ->
        OHLCV.float float_of_string (get "value" item_fields) = Raise e ->
        e = TypeError \/ e = ValueError ->
        lookup "data" fields = Some (JArr (pre ++ JObj item_fields :: post)) ->
        lookup "data" fields' = Some (JArr (pre ++ post)) ->
        Macro.indicator_rows fromisoformat float_of_string code (JObj fields)
        = Macro.indicator_rows fromisoformat float_of_string code (JObj fields'))
    /\ (forall rec_fields pre post start_date end_date,
           Fng.read_timestamp repr u (get "timestamp" rec_fields) = None ->
           Fng.filter_and_normalize_records repr u
             (pre ++ JObj rec_fields :: post) start_date end_date
           = Fng.filter_and_normalize_records repr u
               (pre ++ post) start_date end_date)
    /\ (forall rec_fields ts c start_date end_date,
           is_none (get "timestamp" rec_fields) = false ->
           Fng.read_timestamp repr u (get "timestamp" rec_fields) = Some ts ->
           min_day <= Fng.day_of ts <= max_day ->
           start_date <= Fng.day_of ts <= end_date ->
           Fng.is_int_or_str (get "value" rec_fields) = false
           \/ (exists text,
                  Fng.str repr (get "value" rec_fields) = Return text
                  /\ isdigit u text = false) ->
           Fng.normalized_classification repr
             (get "value_classification" rec_fields) = Return c ->
           Fng.examine repr u start_date end_date (JObj rec_fields)
           = Fng.Candidate (Fng.day_of ts) ts
               {| Fng.date := isoformat (Fng.day_of ts);
                  Fng.value := None;
                  Fng.value_classification := c;
                  Fng.timestamp := ts;
                  Fng.source := Fng.SOURCE_NAME;
                  Fng.source_url := Fng.SOURCE_URL |}).
Proof.
  intros fromisoformat float_of_string repr u. split; [|split].
  - intros code item_fields inside_window e fields fields' pre post
           Hdate Hvalue He Hdata Hdata'.
    unfold Macro.indicator_rows. rewrite Hdata, Hdata'. cbn [iter bind].
    rewrite (macro_collect_skip fromisoformat float_of_string code pre
               (JObj item_fields) post []); [reflexivity|].
    unfold Macro.examine. cbn [Macro.item_get]. rewrite Hdate, Hvalue.
    destruct (negb (truthy (get "date" item_fields))
              || is_none (get "value" item_fields)); [reflexivity|].
    destruct inside_window; [|reflexivity].
    destruct He as [-> | ->]; reflexivity.
  - intros rec_fields pre post start_date end_date Hts.
    unfold Fng.filter_and_normalize_records.
    rewrite (fng_fill_skip repr u start_date end_date pre (JObj rec_fields)
               post []); [reflexivity|].
    unfold Fng.examine. cbv zeta. rewrite Hts.
    destruct (is_none (get "timestamp" rec_fields)); reflexivity.
  - intros rec_fields ts c start_date end_date Hnone Hts Hrange Hwin Hvalue Hc.
    unfold Fng.examine. cbv zeta. rewrite Hnone, Hts.
    unfold Fng._to_utc_date_from_unix_seconds.
    replace ((min_day <=? Fng.day_of ts) && (Fng.day_of ts <=? max_day))
      with true
      by (symmetry; apply andb_true_iff; split; apply Z.leb_le; lia).
    replace ((Fng.day_of ts <? start_date) || (end_date <? Fng.day_of ts))
      with false
      by (symmetry; apply orb_false_iff; split; apply Z.ltb_ge; lia).
    unfold Fng.normalized, Fng.normalized_value. rewrite Hc.
    destruct Hvalue as [-> |(text & Hstr & Hdigit)]; [reflexivity|].
    rewrite Hstr. cbn [bind]. rewrite Hdigit.
    destruct (Fng.is_int_or_str (get "value" rec_fields)); reflexivity.
Qed.

(** C7 at work: the indicator payload with a dot for a value gives the
    rows of the payload without that element. *)
Lemma unreadable_field_costs_one_record_witness :
  Macro.indicator_rows Scenario.iso_date Scenario.decimal "UNEMPLOYMENT"
    Scenario.macro_payload
  = Macro.indicator_rows Scenario.iso_date Scenario.decimal "UNEMPLOYMENT"
      Scenario.macro_payload_without_dot.
Proof.
  destruct (unreadable_field_costs_one_record
              Scenario.iso_date Scenario.decimal Scenario.opaque_repr
              Scenario.ascii_only) as (Hmacro & _).
  apply (Hmacro "UNEMPLOYMENT"
           [("date", JStr "2024-02-01"); ("value", JStr ".")] true ValueError
           _ _ [Scenario.macro_item "2024-03-01" "3.8"]
           [Scenario.macro_item "2024-01-01" "3.7"]);
    try reflexivity.
  right. reflexivity.
Defined.

(** C7 as stated fails.  A Fear and Greed reading whose value does not
    parse is not dropped but returned with a null value; a bar of the
    daily series with a volume that does not parse, and an indicator
    element with a date that does not parse, end the whole fetch with
    the exception instead of being dropped.  So does an indicator value
    sent as an integer beyond the floats, and a Fear and Greed value
    that is superscript two, a digit for [isdigit] that [int] refuses. *)
Lemma unreadable_field_is_not_always_dropped :
  Fng.filter_and_normalize_records Scenario.opaque_repr Scenario.ascii_only
    Scenario.fng_unreadable_value
    (days_from_civil 2024 1 1) (days_from_civil 2024 1 3)
  = Return [{| Fng.date := "2024-01-01";
               Fng.value := None;
               Fng.value_classification := Some "Greed";
               Fng.timestamp := 1704067200;
               Fng.source := Fng.SOURCE_NAME;
               Fng.source_url := Fng.SOURCE_URL |}]
  /\ OHLCV.daily_rows Scenario.iso_date Scenario.decimal "NVDA"
       Scenario.av_bad_volume_payload
     = Raise ValueError
  /\ Macro.indicator_rows Scenario.iso_date Scenario.decimal "UNEMPLOYMENT"
       Scenario.macro_payload_bad_date
     = Raise ValueError
  /\ Macro.indicator_rows Scenario.iso_date Scenario.decimal "UNEMPLOYMENT"
       Scenario.macro_payload_huge_value
     = Raise OverflowError
  /\ Fng.filter_and_normalize_records Scenario.opaque_repr
       Scenario.with_superscript Scenario.fng_superscript_value
       (days_from_civil 2024 1 1) (days_from_civil 2024 1 3)
     = Raise ValueError.
Proof. repeat split; vm_compute; reflexivity. Qed.

End SoftFailure.

(** ** C8: one row per day *)

Module OneRowPerDay.

Import Containers FngFacts.

(** C8, as amended.  The rows [filter_and_normalize_records] returns
    fall on pairwise different days, the date of each being the ISO text
    of its day.  The row of a day is the one made for the record with the
    latest timestamp among the records of that day that reach the
    assignment, and for the last of them in the input when several carry
    that timestamp: no record before it has a later timestamp, and every
    record after it has an earlier one. *)
Theorem one_row_per_day_latest_timestamp_wins :
  forall repr u records start_date end_date rows,
    Fng.filter_and_normalize_records repr u records start_date end_date
    = Return rows ->
    NoDup (map Fng.date rows)
    /\ NoDup (map Fng.row_day rows)
    /\ (forall r, In r rows -> Fng.date r = isoformat (Fng.row_day r))
    /\ (forall r,
           In r rows ->
           exists pre rec post,
             records = (pre ++ rec :: post)%list
             /\ Fng.examine repr u start_date end_date rec
                = Fng.Candidate (Fng.row_day r) (Fng.timestamp r) r
             /\ (forall rec' ts' r',
                    In rec' pre ->
                    Fng.examine repr u start_date end_date rec'
                    = Fng.Candidate (Fng.row_day r) ts' r' ->
                    ts' <= Fng.timestamp r)
             /\ (forall rec' ts' r',
                    In rec' post ->
                    Fng.examine repr u start_date end_date rec'
                    = Fng.Candidate (Fng.row_day r) ts' r' ->
                    ts' < Fng.timestamp r)).
Proof.
  intros repr u records start_date end_date rows Hrun.
  unfold Fng.filter_and_normalize_records in Hrun.
  destruct (Fng.fill repr u start_date end_date records []) as [d|e] eqn:Hfill;
    [|discriminate Hrun].
  cbn [bind] in Hrun. injection Hrun as <-.
  pose proof (fill_well_keyed repr u _ _ _ _ _
                (empty_well_keyed start_date end_date) Hfill) as Hwk.
  split; [|split; [|split]].
  - apply (emit_dates_differ start_date end_date), Hwk.
  - apply (emit_one_row_per_day start_date end_date), Hwk.
  - intros r Hin. apply (in_emit start_date end_date d r Hwk) in Hin.
    destruct Hwk as (Hnd & Hent). apply (find_in _ _ _ Hnd) in Hin.
    destruct (Hent _ _ _ Hin) as (_ & _ & _ & Hiso & _). exact Hiso.
  - intros r Hin. apply (in_emit start_date end_date d r Hwk) in Hin.
    destruct (fill_latest repr u _ _ _ _ _ Hfill _ _ _ Hin)
      as [(Hempty & _)|(pre & rec & post & Hsplit & Hc & _ & Hpre & Hpost)].
    + discriminate Hempty.
    + exists pre, rec, post. repeat split; assumption.
Qed.

(** C8 at work: three readings of 2024-01-01 and one of 2024-01-02 give
    two rows; the reading of noon is the one kept for 2024-01-01. *)
Lemma one_row_per_day_latest_timestamp_wins_witness :
  exists rows,
    Fng.filter_and_normalize_records Scenario.opaque_repr Scenario.ascii_only
      Scenario.fng_duplicates
      (days_from_civil 2024 1 1) (days_from_civil 2024 1 3) = Return rows
    /\ map Fng.timestamp rows = [1704110400; 1704153600]
    /\ NoDup (map Fng.date rows).
Proof.
  destruct (Fng.filter_and_normalize_records Scenario.opaque_repr
              Scenario.ascii_only Scenario.fng_duplicates
              (days_from_civil 2024 1 1) (days_from_civil 2024 1 3))
    as [rows|e] eqn:E; [|vm_compute in E; discriminate E].
  exists rows. split; [reflexivity|]. split.
  - vm_compute in E. injection E as <-. reflexivity.
  - apply (one_row_per_day_latest_timestamp_wins _ _ _ _ _ _ E).
Defined.

(** C8 as stated fails.  Of the three readings of 2024-01-01 the one
    written last in the input is that of midnight, with the value 71; the
    row returned for the day is that of noon, with the value 72, which
    stands before it in the input. *)
Lemma last_record_does_not_win :
  Fng.filter_and_normalize_records Scenario.opaque_repr Scenario.ascii_only
    Scenario.fng_duplicates
    (days_from_civil 2024 1 1) (days_from_civil 2024 1 3)
  = Return [Scenario.fng_row "2024-01-01" 1704110400 72;
            Scenario.fng_row "2024-01-02" 1704153600 74]
  /\ ~ Fng.last_record_wins Scenario.opaque_repr Scenario.ascii_only
         (days_from_civil 2024 1 1) (days_from_civil 2024 1 3)
         Scenario.fng_duplicates
         [Scenario.fng_row "2024-01-01" 1704110400 72;
          Scenario.fng_row "2024-01-02" 1704153600 74].
Proof.
  split; [vm_compute; reflexivity|].
  intros Hlast.
  destruct (Hlast (Scenario.fng_row "2024-01-01" 1704110400 72)
                  (or_introl eq_refl))
    as (pre & rec & post & Hsplit & Hc & Hpost).
  assert (Hthird : In (Scenario.fng_record "1704067200" "71" "Greed") post).
  { unfold Scenario.fng_duplicates in Hsplit.
    destruct pre as [|x0 [|x1 [|x2 [|x3 pre]]]]; cbn [app] in Hsplit.
    - injection Hsplit as <- <-. vm_compute in Hc. discriminate Hc.
    - injection Hsplit as _ <- <-. left. reflexivity.
    - injection Hsplit as _ _ <- <-. vm_compute in Hc. discriminate Hc.
    - injection Hsplit as _ _ _ <- <-. vm_compute in Hc. discriminate Hc.
    - injection Hsplit as _ _ _ _ Hnil. destruct pre; discriminate Hnil. }
  apply (Hpost _ Hthird). vm_compute. reflexivity.
Qed.

End OneRowPerDay.

(** ** C9: batches *)

Module Batch.

(** The earnings loop tries every symbol, and its flag ends true
    exactly when it started true and every symbol went through. *)
Lemma earnings_loop :
  forall w symbols all_ok,
    fst (Earnings.loop w symbols all_ok)
    = all_ok && forallb (Earnings.succeeds w) symbols
    /\ Earnings.tried (snd (Earnings.loop w symbols all_ok)) = symbols.
Proof.
  intros w symbols; induction symbols as [|sym symbols IH]; intros all_ok.
  - simpl. rewrite andb_true_r. split; reflexivity.
  - cbn [Earnings.loop forallb]. unfold Earnings.succeeds at 1.
    destruct (Earnings.process w sym) as [u|e].
    + destruct (IH all_ok) as (Hflag & Htried).
      destruct (Earnings.loop w symbols all_ok) as [result later].
      simpl in *. split; [exact Hflag|].
      destruct symbols; simpl; rewrite Htried; reflexivity.
    + destruct (IH false) as (Hflag & Htried).
      destruct (Earnings.loop w symbols false) as [result later].
      simpl in *. split; [rewrite Hflag, andb_false_r; reflexivity|].
      destruct symbols; simpl; rewrite Htried; reflexivity.
Qed.

(** The counters of the tweets batch. *)
Lemma tweets_count :
  forall w user_list max_pages r,
    Tweets.success_count (Tweets.count w user_list max_pages r)
    = Tweets.success_count r
      + Z.of_nat (List.length
                    (filter (fun user => Tweets.process_single_user w user max_pages)
                            user_list))
    /\ Tweets.fail_count (Tweets.count w user_list max_pages r)
       = Tweets.fail_count r
         + Z.of_nat (List.length
                       (filter (fun user =>
                                  negb (Tweets.process_single_user w user max_pages))
                               user_list)).
Proof.
  intros w user_list max_pages; induction user_list as [|user user_list IH];
    intros r.
  - simpl. split; lia.
  - cbn [Tweets.count filter].
    destruct (Tweets.process_single_user w user max_pages) eqn:Hok; cbn [negb].
    + destruct (IH {| Tweets.success_count := Tweets.success_count r + 1;
                      Tweets.fail_count := Tweets.fail_count r |}) as (Hs & Hf).
      rewrite Hs, Hf. cbn [List.length Tweets.success_count Tweets.fail_count].
      split; lia.
    + destruct (IH {| Tweets.success_count := Tweets.success_count r;
                      Tweets.fail_count := Tweets.fail_count r + 1 |}) as (Hs & Hf).
      rewrite Hs, Hf. cbn [List.length Tweets.success_count Tweets.fail_count].
      split; lia.
Qed.

(** The handles of a sheet whose cells are all texts. *)
Lemma handles_of_texts :
  forall cells,
    (forall cell, In cell cells -> exists account, cell = JStr account) ->
    exists users,
      Tweets.handles cells = Return users
      /\ List.length users = List.length cells.
Proof.
  induction cells as [|cell cells IH]; intros Htexts; cbn [Tweets.handles].
  - exists []. split; reflexivity.
  - destruct (Htexts cell (or_introl eq_refl)) as (account & ->).
    destruct IH as (users & -> & Hlen).
    { intros c Hc. apply Htexts. right. exact Hc. }
    cbn [bind]. eexists. split; [reflexivity|]. cbn [List.length]. lia.
Qed.

(** C9, as amended.  The earnings batch catches the failure of a symbol
    in its loop and goes on: every symbol of the list is tried, in order,
    and the exit code of the process is 0 when every symbol went through
    and 1 when one failed; it keeps a flag, not a count.  The tweets batch
    handles every user of the list and ends with two counters, successes
    and failures, which add up to the number of users; when the log
    and the sheet can be opened and the sheet holds at least one handle,
    and texts only, the tweets process logs its counters and ends with
    exit status 0 whatever they are. *)
Theorem batch_goes_on_after_a_failure :
  (forall symbols w,
      Earnings.tried (snd (Earnings.main_over symbols w)) = symbols
      /\ (fst (Earnings.main_over symbols w) = 0
          <-> forall sym, In sym symbols -> Earnings.succeeds w sym = true)
      /\ (fst (Earnings.main_over symbols w) = 1
          <-> exists sym, In sym symbols /\ Earnings.succeeds w sym = false)
      /\ exit_status (Earnings.script_over symbols w)
         = fst (Earnings.main_over symbols w))
  /\ (forall w user_list max_pages,
         let ok := fun user => Tweets.process_single_user w user max_pages in
         let r := Tweets.batch_fetch_tweets_sequential w user_list max_pages in
         Tweets.success_count r = Z.of_nat (List.length (filter ok user_list))
         /\ Tweets.fail_count r
            = Z.of_nat (List.length (filter (fun user => negb (ok user)) user_list))
         /\ Tweets.success_count r + Tweets.fail_count r
            = Z.of_nat (List.length user_list))
  /\ (forall w cells finish,
         cells <> [] ->
         (forall cell, In cell cells -> exists account, cell = JStr account) ->
         (exists r, Tweets.script w (Return cells) finish = (Some r, Completed))
         /\ exit_status (snd (Tweets.script w (Return cells) finish)) = 0).
Proof.
  split; [|split].
  - intros symbols w. unfold Earnings.script_over, Earnings.main_over.
    destruct (earnings_loop w symbols true) as (Hflag & Htried).
    destruct (Earnings.loop w symbols true) as [all_ok tr].
    cbn [fst snd] in *. rewrite andb_true_l in Hflag. subst all_ok.
    split; [exact Htried|]. split; [|split; [|reflexivity]].
    + destruct (forallb (Earnings.succeeds w) symbols) eqn:Hall.
      * rewrite forallb_forall in Hall. split; [intros _; exact Hall|reflexivity].
      * split; [discriminate|]. intros H. apply forallb_forall in H. congruence.
    + destruct (forallb (Earnings.succeeds w) symbols) eqn:Hall.
      * rewrite forallb_forall in Hall. split; [discriminate|].
        intros (sym & Hin & Hf). rewrite (Hall sym Hin) in Hf. discriminate Hf.
      * split; [|reflexivity]. intros _.
        assert (Hex : existsb (fun sym => negb (Earnings.succeeds w sym)) symbols
                      = true).
        { clear Htried. induction symbols as [|s l IH]; [discriminate Hall|].
          simpl in *. destruct (Earnings.succeeds w s); simpl; auto. }
        apply existsb_exists in Hex. destruct Hex as (sym & Hin & Hn).
        exists sym. split; [exact Hin|]. apply negb_true_iff. exact Hn.
  - intros w user_list max_pages ok r.
    destruct (tweets_count w user_list max_pages
                {| Tweets.success_count := 0; Tweets.fail_count := 0 |})
      as (Hs & Hf).
    unfold r, Tweets.batch_fetch_tweets_sequential.
    rewrite Hs, Hf. cbn [Tweets.success_count Tweets.fail_count].
    rewrite !Z.add_0_l. split; [reflexivity|]. split; [reflexivity|].
    rewrite <- Nat2Z.inj_add. f_equal. clear Hs Hf r. subst ok.
    induction user_list as [|u l IH]; [reflexivity|].
    simpl. destruct (Tweets.process_single_user w u max_pages); simpl; lia.
  - intros w cells finish Hne Htexts.
    destruct (handles_of_texts cells Htexts) as (users & Hh & Hlen).
    unfold Tweets.script. cbn [bind]. rewrite Hh.
    unfold Tweets.batch_fetch_tweets_parallel.
    destruct users as [|user users].
    + destruct cells; [contradiction|discriminate Hlen].
    + cbn [firstn]. split; [eexists|]; reflexivity.
Qed.

(** C9 at work: with KO failing, both symbols are tried and the exit
    code is 1. *)
Lemma batch_goes_on_after_a_failure_witness :
  Earnings.tried (snd (Earnings.main (Scenario.earnings_world ["NVDA"])))
  = ["NVDA"; "KO"]
  /\ fst (Earnings.main (Scenario.earnings_world ["NVDA"])) = 1.
Proof.
  destruct batch_goes_on_after_a_failure as (Hmain & _).
  destruct (Hmain Earnings.SYMBOLS (Scenario.earnings_world ["NVDA"]))
    as (Htried & _ & Hone & _).
  split; [exact Htried|]. apply Hone.
  exists "NVDA". split; [left; reflexivity|reflexivity].
Defined.

(** C9 as stated fails for each batch.  The tweets process counts one
    failed user and still ends with exit status 0; the earnings process
    ends with the same exit code for one failed symbol as for two, and
    surfaces no count. *)
Lemma no_batch_has_both_count_and_exit_code :
  (let run := Tweets.script Scenario.tweets_world
                (Return [JStr "@alice"; JStr "@bob"]) (fun users => users) in
   fst run = Some {| Tweets.success_count := 1; Tweets.fail_count := 1 |}
   /\ exit_status (snd run) = 0)
  /\ Earnings.script (Scenario.earnings_world ["KO"]) = SystemExit 1
  /\ Earnings.script (Scenario.earnings_world ["NVDA"; "KO"]) = SystemExit 1.
Proof. repeat split. Qed.

End Batch.

(** ** C10: the tweet crawl swallows page errors *)

Module PageErrors.

Import Tweets.

(** Whether the [try] block raises does not depend on the tweets
    gathered so far, and what it returns extends them. *)
Lemma try_page_shape :
  forall w user_id page cursor all_tweets,
    match try_page w user_id page cursor [] with
    | Raise e => try_page w user_id page cursor all_tweets = Raise e
    | Return (tweets, next_cursor) =>
        try_page w user_id page cursor all_tweets
        = Return ((all_tweets ++ tweets)%list, next_cursor)
    end.
Proof.
  intros w user_id page cursor all_tweets. unfold try_page.
  destruct (user_tweets w page user_id cursor) as [response|e];
    [|reflexivity].
  cbn [bind]. unfold take_page.
  destruct response as [| | | | | |fields]; try reflexivity.
  destruct (iter (get_default "tweets" (JArr []) fields)) as [tweets|e];
    reflexivity.
Qed.

(** The crawl never loses what it has gathered. *)
Lemma crawl_extends :
  forall w user_id todo page cursor all_tweets,
    exists more,
      crawl w user_id todo page cursor all_tweets = (all_tweets ++ more)%list.
Proof.
  intros w user_id todo; induction todo as [|todo IH];
    intros page cursor all_tweets; cbn [crawl].
  - exists []. symmetry. apply app_nil_r.
  - pose proof (try_page_shape w user_id page cursor all_tweets) as Hshape.
    destruct (try_page w user_id page cursor []) as [[tweets next]|e].
    + rewrite Hshape. destruct (negb (truthy next)).
      * exists tweets. reflexivity.
      * destruct (IH (page + 1) next (all_tweets ++ tweets)%list) as (more & ->).
        exists (tweets ++ more)%list. rewrite app_assoc. reflexivity.
    + rewrite Hshape. exists []. symmetry. apply app_nil_r.
Qed.

(** In the calm world no page request makes the [try] block raise. *)
Lemma calm_never_raises :
  forall w user_id page cursor all_tweets e,
    try_page (calm w) user_id page cursor all_tweets <> Raise e.
Proof.
  intros w user_id page cursor all_tweets e.
  pose proof (try_page_shape w user_id page cursor all_tweets) as Hshape.
  unfold try_page at 1. cbn [calm user_tweets].
  destruct (try_page w user_id page cursor []) as [[tweets next]|e'].
  - fold (try_page w user_id page cursor all_tweets). rewrite Hshape.
    discriminate.
  - cbn [bind take_page get_default lookup iter]. discriminate.
Qed.

Lemma calm_same_crawl :
  forall w user_id todo page cursor all_tweets,
    crawl (calm w) user_id todo page cursor all_tweets
    = crawl w user_id todo page cursor all_tweets.
Proof.
  intros w user_id todo; induction todo as [|todo IH];
    intros page cursor all_tweets; cbn [crawl]; [reflexivity|].
  pose proof (try_page_shape w user_id page cursor all_tweets) as Hshape.
  unfold try_page at 1. cbn [calm user_tweets].
  destruct (try_page w user_id page cursor []) as [[tweets next]|e'].
  - fold (try_page w user_id page cursor all_tweets). rewrite Hshape.
    destruct (negb (truthy next)); [reflexivity|apply IH].
  - rewrite Hshape.
    cbn [bind take_page get_default lookup iter get truthy negb].
    rewrite app_nil_r. reflexivity.
Qed.

(** C10.  [fetch_user_tweets] returns a list whatever the page requests
    do.  A page whose request or decoding raises ends the crawl, and the
    tweets gathered from the pages before it are what is returned; the
    empty list if it is the first page.  The value returned is also the
    value of a crawl in which nothing raises: the one in which that page
    is an empty last page. *)
Theorem page_error_ends_crawl_quietly :
  forall w user_id,
    (forall todo page cursor all_tweets e,
        try_page w user_id page cursor all_tweets = Raise e ->
        crawl w user_id (S todo) page cursor all_tweets = all_tweets)
    /\ (forall max_pages e,
           try_page w user_id 1 JNull [] = Raise e ->
           fetch_user_tweets w user_id max_pages = [])
    /\ (forall todo page cursor all_tweets,
           exists more,
             crawl w user_id todo page cursor all_tweets
             = (all_tweets ++ more)%list)
    /\ (forall max_pages,
           fetch_user_tweets (calm w) user_id max_pages
           = fetch_user_tweets w user_id max_pages
           /\ forall page cursor all_tweets e,
                try_page (calm w) user_id page cursor all_tweets <> Raise e).
Proof.
  intros w user_id. split; [|split; [|split]].
  - intros todo page cursor all_tweets e Hraise. cbn [crawl].
    rewrite Hraise. reflexivity.
  - intros max_pages e Hraise. unfold fetch_user_tweets.
    destruct (Z.to_nat max_pages); cbn [crawl]; [reflexivity|].
    rewrite Hraise. reflexivity.
  - apply crawl_extends.
  - intros max_pages. split.
    + apply calm_same_crawl.
    + intros page cursor all_tweets e. apply calm_never_raises.
Qed.

(** C10 at work: the second page of the timeline cannot be decoded and
    the crawl returns the two tweets of the first. *)
Lemma page_error_ends_crawl_quietly_witness :
  fetch_user_tweets Scenario.tweets_world_breaking (JStr "44196397") 20
  = [JStr "gm"; JStr "gn"].
Proof.
  destruct (page_error_ends_crawl_quietly Scenario.tweets_world_breaking
              (JStr "44196397")) as (Hstop & _).
  unfold fetch_user_tweets.
  change (Z.to_nat 20) with 20%nat. cbn [crawl].
  change (try_page Scenario.tweets_world_breaking (JStr "44196397") 1 JNull [])
    with (Return ([JStr "gm"; JStr "gn"], JStr "DAABCgAB")
          : outcome (list json * json)).
  cbn [truthy negb String.eqb]. 
  apply (Hstop 18%nat 2 (JStr "DAABCgAB") [JStr "gm"; JStr "gn"] JSONDecodeError).
  reflexivity.
Defined.

End PageErrors.
(** ** The retry helpers against any server *)

Module HelperBounds.

Import Indexed RetryFacts.

(** The Alpha Vantage loop from any of its iterations, whatever the
    server answers. *)
Lemma av_attempts_any :
  forall server max_retries todo k result tr,
    Z.of_nat k + Z.of_nat todo = max_retries ->
    OHLCV.attempts server max_retries todo k (Z.min (15 * 2 ^ Z.of_nat k) 120)
    = (result, tr) ->
    (OHLCV.requests tr <= todo)%nat
    /\ OHLCV.sleeps tr
       = map (fun i => Z.min (15 * 2 ^ Z.of_nat i) 120)
             (seq k (OHLCV.requests tr - 1))
    /\ ((0 < todo)%nat ->
        (1 <= OHLCV.requests tr)%nat
        /\ result <> Raise (AlphaVantageError Exhausted)).
Proof.
  intros server max_retries todo; induction todo as [|todo IH];
    intros k result tr Hsum Hrun; cbn [OHLCV.attempts] in Hrun.
  - injection Hrun as <- <-. repeat split; try reflexivity; lia.
  - assert (Hone : forall e,
               e <> AlphaVantageError Exhausted ->
               (result, tr) = (Raise e, [OHLCV.Get]) ->
               (OHLCV.requests tr <= S todo)%nat
               /\ OHLCV.sleeps tr
                  = map (fun i => Z.min (15 * 2 ^ Z.of_nat i) 120)
                        (seq k (OHLCV.requests tr - 1))
               /\ ((0 < S todo)%nat ->
                   (1 <= OHLCV.requests tr)%nat
                   /\ result <> Raise (AlphaVantageError Exhausted))).
    { intros e He Heq. injection Heq as -> ->. cbn. repeat split; try lia.
      intros Hx. injection Hx as Hx'. exact (He Hx'). }
    destruct (server k) as [|status [body|]].
    + apply (Hone RequestException); [discriminate|symmetry; exact Hrun].
    + destruct body as [| | | | | |fields];
        try (apply (Hone AttributeError); [discriminate|symmetry; exact Hrun]).
      destruct (truthy (OHLCV.note_msg fields)).
      * destruct (Z.of_nat k + 1 =? max_retries) eqn:Hlast.
        -- eapply Hone; [|symmetry; exact Hrun]. discriminate.
        -- apply Z.eqb_neq in Hlast.
           assert (Hb : Z.min (Z.min (15 * 2 ^ Z.of_nat k) 120 * 2) 120
                        = Z.min (15 * 2 ^ Z.of_nat (S k)) 120).
           { rewrite pow2_succ. pose proof (pow2_pos k). lia. }
           rewrite Hb in Hrun.
           destruct (OHLCV.attempts server max_retries todo (S k)
                       (Z.min (15 * 2 ^ Z.of_nat (S k)) 120))
             as [result' rest] eqn:Hrest.
           injection Hrun as <- <-.
           destruct (IH (S k) result' rest) as (Hreq & Hsl & Hpos);
             [lia|exact Hrest|].
           destruct Hpos as (Hge & Hne); [lia|].
           unfold OHLCV.requests in *. cbn [filter List.length OHLCV.sleeps].
           repeat split; try lia; [|exact Hne].
           rewrite Hsl.
           replace (S (List.length
                         (filter (fun e => match e with
                                           | OHLCV.Get => true
                                           | _ => false
                                           end) rest)) - 1)%nat
             with (S (List.length
                        (filter (fun e => match e with
                                          | OHLCV.Get => true
                                          | _ => false
                                          end) rest) - 1)) by lia.
           reflexivity.
      * destruct (has_key "Error Message" fields).
        -- eapply Hone; [|symmetry; exact Hrun]. discriminate.
        -- injection Hrun as <- <-. cbn. repeat split; try lia. discriminate.
    + eapply Hone; [|symmetry; exact Hrun]. discriminate.
Qed.

Lemma capped_geometric_range :
  forall n, Forall (fun s => 15 <= s <= 120) (OHLCV.capped_geometric 15 2 120 n).
Proof.
  intros n. unfold OHLCV.capped_geometric. apply Forall_forall.
  intros d Hd. apply in_map_iff in Hd. destruct Hd as (i & <- & _).
  pose proof (pow2_pos i). lia.
Qed.

(** X1.  [_request_with_retries] against any server: it sends at most
    [max_retries] requests; the sleeps between them are the first terms
    of 15, 30, 60, 120, 120, ... (each between 15 and 120 seconds), one
    less than the requests; and the closing [raise
    AlphaVantageError("Exhausted retries without success.")] is reached
    exactly when [max_retries] is not positive, in which case no request
    is sent at all. *)
Theorem av_helper_bounded_for_any_server :
  forall server max_retries,
    let run := OHLCV._request_with_retries server max_retries in
    (OHLCV.requests (snd run) <= Z.to_nat max_retries)%nat
    /\ OHLCV.sleeps (snd run)
       = OHLCV.capped_geometric 15 2 120 (OHLCV.requests (snd run) - 1)
    /\ Forall (fun s => 15 <= s <= 120) (OHLCV.sleeps (snd run))
    /\ (max_retries <= 0 <-> fst run = Raise (AlphaVantageError Exhausted))
    /\ (max_retries <= 0 <-> snd run = []).
Proof.
  intros server max_retries run. subst run. unfold OHLCV._request_with_retries.
  destruct (Z_le_gt_dec max_retries 0) as [Hle|Hgt].
  - replace (Z.to_nat max_retries) with 0%nat by lia. cbn.
    repeat split; auto; try lia.
  - destruct (OHLCV.attempts server max_retries (Z.to_nat max_retries) 0 15)
      as [result tr] eqn:Hrun.
    change 15 with (Z.min (15 * 2 ^ Z.of_nat 0) 120) in Hrun.
    apply av_attempts_any in Hrun; [|lia].
    destruct Hrun as (Hreq & Hsl & Hpos). destruct Hpos as (Hge & Hne); [lia|].
    cbn [fst snd].
    assert (Hs : OHLCV.sleeps tr
                 = OHLCV.capped_geometric 15 2 120 (OHLCV.requests tr - 1))
      by exact Hsl.
    split; [exact Hreq|]. split; [exact Hs|]. split.
    + rewrite Hs. apply capped_geometric_range.
    + split; split; intros H; try lia; try contradiction.
      subst tr. cbn in Hge. lia.
Qed.

(** The Fear and Greed loop from any of its iterations. *)
Lemma fng_attempts_any :
  forall server retries backoff todo attempt last_err result tr,
    (0 < todo)%nat ->
    Z.of_nat attempt + Z.of_nat todo = retries ->
    FngHttp.attempts server retries backoff todo attempt last_err
    = (result, tr) ->
    (1 <= FngHttp.requests tr <= todo)%nat
    /\ FngHttp.sleeps tr
       = map (fun i => (backoff ^ Z.of_nat i)%Q)
             (seq attempt (FngHttp.requests tr - 1))
    /\ (forall i, (attempt <= i < attempt + FngHttp.requests tr - 1)%nat ->
                  FngHttp.failing (server i))
    /\ match FngHttp.request (server (attempt + FngHttp.requests tr - 1)%nat) with
       | Return j => result = Return j
       | Raise e =>
           if FngHttp.caught e
           then result = Raise (RuntimeError e) /\ FngHttp.requests tr = todo
           else result = Raise e
       end.
Proof.
  intros server retries backoff todo; induction todo as [|todo IH];
    intros attempt last_err result tr Hpos Hsum Hrun; [lia|].
  cbn [FngHttp.attempts] in Hrun.
  destruct (FngHttp.request (server attempt)) as [j|e] eqn:Hreq.
  - injection Hrun as <- <-. cbn.
    replace (attempt + 1 - 1)%nat with attempt by lia. rewrite Hreq.
    repeat split; try lia; try (intros; lia).
  - destruct (FngHttp.caught e) eqn:Hc.
    + destruct (Z.of_nat attempt <? retries - 1) eqn:Hlt.
      * apply Z.ltb_lt in Hlt.
        destruct (FngHttp.attempts server retries backoff todo (S attempt)
                    (Some e)) as [result' rest] eqn:Hrest.
        injection Hrun as <- <-.
        destruct (IH (S attempt) (Some e) result' rest)
          as ((Hge & Hle) & Hsl & Hfail & Hlast); [lia|lia|exact Hrest|].
        unfold FngHttp.requests in *.
        cbn [filter List.length FngHttp.sleeps].
        set (n := List.length
                    (filter (fun e0 => match e0 with
                                       | FngHttp.Urlopen => true
                                       | _ => false
                                       end) rest)) in *.
        replace (attempt + S n - 1)%nat with (S attempt + n - 1)%nat by lia.
        replace (S n - 1)%nat with (S (n - 1)) by lia.
        split; [lia|]. split; [rewrite Hsl; reflexivity|]. split.
        -- intros i Hi. destruct (Nat.eq_dec i attempt) as [->|Hne].
           ++ exists e. split; assumption.
           ++ apply Hfail. lia.
        -- destruct (FngHttp.request (server (S attempt + n - 1)%nat)) as [j|e'];
             [exact Hlast|].
           destruct (FngHttp.caught e'); [|exact Hlast].
           destruct Hlast as (-> & Hn). split; [reflexivity|lia].
      * apply Z.ltb_ge in Hlt. injection Hrun as <- <-. cbn.
        replace (attempt + 1 - 1)%nat with attempt by lia. rewrite Hreq, Hc.
        repeat split; try lia; try (intros; lia).
    + injection Hrun as <- <-. cbn.
      replace (attempt + 1 - 1)%nat with attempt by lia. rewrite Hreq, Hc.
      repeat split; try lia; try (intros; lia).
Qed.

(** X2.  [_http_get_json] against any server: it opens the URL at most
    [retries] times; every request but the last one ended in one of the
    four exceptions the helper catches, and was followed by a sleep of
    [backoff ** attempt] seconds; the last request decides the outcome:
    its document is returned, an exception the helper catches is wrapped
    in [RuntimeError] (and then all [retries] requests were made), any
    other exception leaves the helper as it is, at once.  With
    [retries <= 0] nothing is requested and the [assert] fails. *)
Theorem fng_helper_outcome_for_any_server :
  forall server retries backoff,
    let run := FngHttp._http_get_json server retries backoff in
    let n := FngHttp.requests (snd run) in
    (n <= Z.to_nat retries)%nat
    /\ FngHttp.sleeps (snd run)
       = map (fun i => (backoff ^ Z.of_nat i)%Q) (seq 0 (n - 1))
    /\ (forall i, (i < n - 1)%nat -> FngHttp.failing (server i))
    /\ (retries <= 0 <-> run = (Raise AssertionError, []))
    /\ (0 < retries ->
        match FngHttp.request (server (n - 1)%nat) with
        | Return j => fst run = Return j
        | Raise e =>
            if FngHttp.caught e
            then fst run = Raise (RuntimeError e) /\ n = Z.to_nat retries
            else fst run = Raise e
        end).
Proof.
  intros server retries backoff run n. subst n run.
  unfold FngHttp._http_get_json.
  destruct (Z_le_gt_dec retries 0) as [Hle|Hgt].
  - replace (Z.to_nat retries) with 0%nat by lia. cbn.
    repeat split; auto; try lia.
  - destruct (FngHttp.attempts server retries backoff (Z.to_nat retries) 0 None)
      as [result tr] eqn:Hrun.
    apply fng_attempts_any in Hrun; [|lia|lia].
    destruct Hrun as ((Hge & Hle) & Hsl & Hfail & Hlast). cbn [fst snd].
    split; [exact Hle|]. split; [exact Hsl|]. split; [|split].
    + intros i Hi. apply Hfail. lia.
    + split; intros H; [lia|]. injection H as _ ->. cbn in Hge. lia.
    + intros _. exact Hlast.
Qed.

(** The Alpha Vantage loop ends at the first reply that is not a
    throttling note, or at its last iteration. *)
Lemma av_attempts_outcome :
  forall server max_retries todo k result tr,
    (0 < todo)%nat ->
    Z.of_nat k + Z.of_nat todo = max_retries ->
    OHLCV.attempts server max_retries todo k (Z.min (15 * 2 ^ Z.of_nat k) 120)
    = (result, tr) ->
    (1 <= OHLCV.requests tr)%nat
    /\ (forall i, (k <= i < k + OHLCV.requests tr - 1)%nat ->
                  OHLCV.throttled (server i))
    /\ match server (k + OHLCV.requests tr - 1)%nat with
       | OHLCV.Unreachable => result = Raise RequestException
       | OHLCV.Response _ None =>
           result = Raise (AlphaVantageError NonJsonResponse)
       | OHLCV.Response _ (Some (JObj fields)) =>
           if truthy (OHLCV.note_msg fields)
           then result
                = Raise (AlphaVantageError
                           (RateMessage max_retries (OHLCV.note_msg fields)))
                /\ OHLCV.requests tr = todo
           else if has_key "Error Message" fields
                then result
                     = Raise (AlphaVantageError
                                (ApiError (get "Error Message" fields)))
                else result = Return (JObj fields)
       | OHLCV.Response _ (Some _) => result = Raise AttributeError
       end.
Proof.
  intros server max_retries todo; induction todo as [|todo IH];
    intros k result tr Hpos Hsum Hrun; [lia|].
  cbn [OHLCV.attempts] in Hrun.
  assert (Hsame : (k + 1 - 1)%nat = k) by lia.
  destruct (server k) as [|status [body|]] eqn:Hk.
  - injection Hrun as <- <-. unfold OHLCV.requests. cbn [filter List.length].
    rewrite Hsame, Hk. split; [lia|]. split; [intros i Hi; lia|reflexivity].
  - destruct body as [| | | | | |fields];
      try (injection Hrun as <- <-; unfold OHLCV.requests;
           cbn [filter List.length]; rewrite Hsame, Hk;
           split; [lia|]; split; [intros i Hi; lia|reflexivity]).
    destruct (truthy (OHLCV.note_msg fields)) eqn:Hnote.
    + destruct (Z.of_nat k + 1 =? max_retries) eqn:Hlast.
      * apply Z.eqb_eq in Hlast. injection Hrun as <- <-.
        unfold OHLCV.requests. cbn [filter List.length].
        rewrite Hsame, Hk, Hnote. split; [lia|]. split; [intros i Hi; lia|].
        split; [rewrite Hlast; reflexivity|lia].
      * apply Z.eqb_neq in Hlast.
        assert (Hb : Z.min (Z.min (15 * 2 ^ Z.of_nat k) 120 * 2) 120
                     = Z.min (15 * 2 ^ Z.of_nat (S k)) 120).
        { rewrite pow2_succ. pose proof (pow2_pos k). lia. }
        rewrite Hb in Hrun.
        destruct (OHLCV.attempts server max_retries todo (S k)
                    (Z.min (15 * 2 ^ Z.of_nat (S k)) 120))
          as [result' rest] eqn:Hrest.
        injection Hrun as <- <-.
        destruct (IH (S k) result' rest) as (Hge & Hthr & Hout);
          [lia|lia|exact Hrest|].
        unfold OHLCV.requests in *. cbn [filter List.length].
        set (n := List.length
                    (filter (fun e => match e with
                                      | OHLCV.Get => true
                                      | _ => false
                                      end) rest)) in *.
        replace (k + S n - 1)%nat with (S k + n - 1)%nat by lia.
        split; [lia|]. split.
        -- intros i Hi. destruct (Nat.eq_dec i k) as [->|Hne].
           ++ exists status, fields. split; [exact Hk|exact Hnote].
           ++ apply Hthr. lia.
        -- destruct (server (S k + n - 1)%nat) as [|status' [body'|]];
             try exact Hout.
           destruct body' as [| | | | | |fields']; try exact Hout.
           destruct (truthy (OHLCV.note_msg fields')); [|exact Hout].
           destruct Hout as (-> & Hn). split; [reflexivity|lia].
    + destruct (has_key "Error Message" fields) eqn:Herr;
        injection Hrun as <- <-; unfold OHLCV.requests;
        cbn [filter List.length]; rewrite Hsame, Hk, Hnote, Herr;
        (split; [lia|]); (split; [intros i Hi; lia|reflexivity]).
  - injection Hrun as <- <-. unfold OHLCV.requests. cbn [filter List.length].
    rewrite Hsame, Hk. split; [lia|]. split; [intros i Hi; lia|reflexivity].
Qed.

(** X19.  The last reply decides what [_request_with_retries] does.
    With a positive [max_retries], every reply but the last one carried
    a throttling note ([Note] or [Information]), and the last one is the
    first that does not, or the reply to request number [max_retries]:
    no answer lets the [RequestException] through, a body that is not
    JSON and an ["Error Message"] raise [AlphaVantageError] at once, a
    note on the last permitted request raises the rate-limit error, and
    any other dict is returned.  So what the helper returns never carries
    a note or an error message. *)
Theorem av_helper_outcome_is_decided_by_the_last_reply :
  forall server max_retries,
    0 < max_retries ->
    let run := OHLCV._request_with_retries server max_retries in
    let n := OHLCV.requests (snd run) in
    (1 <= n)%nat
    /\ (forall i, (i < n - 1)%nat -> OHLCV.throttled (server i))
    /\ match server (n - 1)%nat with
       | OHLCV.Unreachable => fst run = Raise RequestException
       | OHLCV.Response _ None =>
           fst run = Raise (AlphaVantageError NonJsonResponse)
       | OHLCV.Response _ (Some (JObj fields)) =>
           if truthy (OHLCV.note_msg fields)
           then fst run
                = Raise (AlphaVantageError
                           (RateMessage max_retries (OHLCV.note_msg fields)))
                /\ n = Z.to_nat max_retries
           else if has_key "Error Message" fields
                then fst run
                     = Raise (AlphaVantageError
                                (ApiError (get "Error Message" fields)))
                else fst run = Return (JObj fields)
       | OHLCV.Response _ (Some _) => fst run = Raise AttributeError
       end
    /\ (forall payload,
           fst run = Return payload ->
           exists fields,
             payload = JObj fields
             /\ truthy (OHLCV.note_msg fields) = false
             /\ has_key "Error Message" fields = false).
Proof.
  intros server max_retries Hpos run n. subst n run.
  unfold OHLCV._request_with_retries.
  destruct (OHLCV.attempts server max_retries (Z.to_nat max_retries) 0 15)
    as [result tr] eqn:Hrun.
  change 15 with (Z.min (15 * 2 ^ Z.of_nat 0) 120) in Hrun.
  apply av_attempts_outcome in Hrun; [|lia|lia].
  destruct Hrun as (Hge & Hthr & Hout). cbn [fst snd]. cbn [Nat.add] in Hout.
  split; [exact Hge|]. split; [intros i Hi; apply Hthr; lia|].
  split; [exact Hout|].
  intros payload Hret. subst result.
  destruct (server (OHLCV.requests tr - 1)%nat) as [|status [body|]];
    try discriminate Hout.
  destruct body as [| | | | | |fields]; try discriminate Hout.
  destruct (truthy (OHLCV.note_msg fields)) eqn:Hnote;
    [destruct Hout as (Hx & _); discriminate Hx|].
  destruct (has_key "Error Message" fields) eqn:Herr; [discriminate Hout|].
  injection Hout as ->. exists fields. repeat split; assumption.
Qed.

(** X19 at work: the service that serves the daily series at once. *)
Lemma av_helper_outcome_is_decided_by_the_last_reply_witness :
  exists fields,
    Scenario.av_daily_payload = JObj fields
    /\ truthy (OHLCV.note_msg fields) = false
    /\ has_key "Error Message" fields = false.
Proof.
  destruct (av_helper_outcome_is_decided_by_the_last_reply
              Scenario.av_serving 6) as (_ & _ & _ & Hclean); [lia|].
  apply Hclean. vm_compute. reflexivity.
Defined.

End HelperBounds.

(** ** The rate-limited GET against any server *)

Module SpacingFacts.

Import GetFacts SeekingAlpha Spacing.

Lemma spaced_snoc :
  forall gap rs s2 f2 ok,
    spaced gap rs ->
    (forall s f, In (s, f, true) rs -> (f + gap <= s2)%Q) ->
    spaced gap (rs ++ [(s2, f2, ok)]).
Proof.
  intros gap rs s2 f2 ok Hsp Hnew i j s1 f1 s2' f2' ok' Hij Hi Hj.
  assert (Hjlen : (j < List.length (rs ++ [(s2, f2, ok)]))%nat)
    by (apply nth_error_Some; rewrite Hj; discriminate).
  rewrite length_app in Hjlen. cbn in Hjlen.
  rewrite nth_error_app1 in Hi by lia.
  destruct (Nat.eq_dec j (List.length rs)) as [->|Hne].
  - rewrite nth_error_app2 in Hj by lia. rewrite Nat.sub_diag in Hj.
    cbn in Hj. injection Hj as <- <- <-.
    apply (Hnew s1). eapply nth_error_In. exact Hi.
  - rewrite nth_error_app1 in Hj by lia. exact (Hsp _ _ _ _ _ _ _ Hij Hi Hj).
Qed.

(** Sleeping changes neither the requests nor the marker. *)
Lemma settled_sleep :
  forall cfg why seconds st, settled cfg st -> settled cfg (sleep why seconds st).
Proof.
  intros cfg why seconds st (Hsp & Hmark). unfold settled, sleep.
  cbn [history _LAST_REQUEST_TIME]. rewrite request_times_app. cbn.
  rewrite app_nil_r. split; assumption.
Qed.

Section AnyServer.

Variable cfg : config.
Variable server : nat -> exchange.
Hypothesis gap_nonneg : (0 <= MIN_SECONDS_BETWEEN_REQUESTS cfg)%Q.
Hypothesis takes_time : forall i, (0 <= duration (server i))%Q.

(** One request, sent after the wait for the spacing. *)
Lemma settled_send :
  forall st,
    settled cfg st ->
    settled cfg (snd (send server (enforce_spacing cfg st))).
Proof.
  intros st (Hsp & Hmark).
  destruct (enforce_spacing_frame cfg st) as (Hm & _ & _ & Hrt).
  pose proof (Marker.request_waits_for_last_success cfg st) as Hwait.
  set (st1 := enforce_spacing cfg st) in *.
  assert (Hnew : forall s f,
             In (s, f, true) (request_times (history st)) ->
             (f + MIN_SECONDS_BETWEEN_REQUESTS cfg <= clock st1)%Q).
  { intros s f Hin. specialize (Hmark s f Hin). lra. }
  pose proof (takes_time (sent st1)) as Hdur.
  destruct (refused (server (sent st1))) eqn:Href.
  - destruct (send_refused server st1 Href)
      as (e & st2 & Hsend & _ & Hm2 & _ & Hh).
    rewrite Hsend. cbn [snd]. unfold settled.
    rewrite Hh, request_times_app, Hrt. cbn [request_times].
    split.
    + apply spaced_snoc; assumption.
    + intros s f Hin. apply in_app_or in Hin. destruct Hin as [Hin|[Hin|[]]].
      * rewrite Hm2, Hm. exact (Hmark s f Hin).
      * discriminate Hin.
  - destruct (send_accepted server st1 Href)
      as (status & text & st2 & Hsend & _ & Hm2 & Hc2 & _ & Hh).
    rewrite Hsend. cbn [snd]. unfold settled.
    rewrite Hh, request_times_app, Hrt. cbn [request_times].
    split.
    + apply spaced_snoc; assumption.
    + intros s f Hin. apply in_app_or in Hin. destruct Hin as [Hin|[Hin|[]]].
      * rewrite Hm2, Hc2. specialize (Hnew s f Hin). lra.
      * injection Hin as <- <-. rewrite Hm2, Hc2. lra.
Qed.

Lemma settled_attempts :
  forall todo attempt st,
    settled cfg st -> settled cfg (snd (attempts cfg server todo attempt st)).
Proof.
  induction todo as [|todo IH]; intros attempt st Hst; cbn [attempts].
  - exact Hst.
  - pose proof (settled_send st Hst) as Hsent.
    destruct (send server (enforce_spacing cfg st)) as [[resp|e] st2];
      cbn [snd] in Hsent.
    + exact Hsent.
    + destruct (is_request_exception e); [|exact Hsent].
      destruct (attempt =? MAX_RETRIES cfg); [exact Hsent|].
      apply IH. apply settled_sleep. exact Hsent.
Qed.

Lemma settled_download_all :
  forall urls st, settled cfg st -> settled cfg (download_all cfg server urls st).
Proof.
  induction urls as [|url urls IH]; intros st Hst; cbn [download_all].
  - exact Hst.
  - pose proof (settled_attempts (Z.to_nat (MAX_RETRIES cfg)) 1 st Hst) as Hget.
    fold (_rate_limited_get cfg server st) in Hget.
    destruct (_rate_limited_get cfg server st) as [[resp|e] st']; cbn [snd] in Hget.
    + apply IH. apply settled_sleep. exact Hget.
    + apply IH. exact Hget.
Qed.

End AnyServer.

Lemma settled_boot : forall cfg t0, settled cfg (boot t0).
Proof.
  intros cfg t0. split.
  - intros i j s1 f1 s2 f2 ok _ Hi. destruct i; discriminate Hi.
  - intros s f [].
Qed.

(** X3.  The spacing that the helper does give.  When the minimum
    spacing is not negative and a request takes no negative time, a call
    of [_rate_limited_get] keeps the process settled, whatever the
    server does; and over the download loop of [main], started in a
    fresh process, every request starts at least
    [MIN_SECONDS_BETWEEN_REQUESTS] after the end of every successful
    request before it. *)
Theorem requests_wait_out_every_success :
  forall cfg server,
    (0 <= MIN_SECONDS_BETWEEN_REQUESTS cfg)%Q ->
    (forall i, (0 <= duration (server i))%Q) ->
    (forall st,
        settled cfg st -> settled cfg (snd (_rate_limited_get cfg server st)))
    /\ (forall urls t0,
           spaced (MIN_SECONDS_BETWEEN_REQUESTS cfg)
             (request_times (history (download_all cfg server urls (boot t0))))).
Proof.
  intros cfg server Hgap Hdur. split.
  - intros st Hst. apply settled_attempts; assumption.
  - intros urls t0.
    apply (settled_download_all cfg server Hgap Hdur urls (boot t0)).
    apply settled_boot.
Qed.

(** X3 at work: the server that refuses two requests and serves the
    following ones; the request for the second transcript starts two
    seconds after the one for the first transcript ended. *)
Lemma requests_wait_out_every_success_witness :
  ((860 # 8) + MIN_SECONDS_BETWEEN_REQUESTS configured <= 56064 # 512)%Q.
Proof.
  destruct (requests_wait_out_every_success configured
              Scenario.sa_third_time_lucky) as (_ & H).
  - vm_compute. discriminate.
  - intros i. vm_compute. discriminate.
  - apply (H ["/article/1"; "/article/2"] 100%Q 2%nat 3%nat
             (428 # 4) (860 # 8) (56064 # 512) (112640 # 1024) true);
      [lia|vm_compute; reflexivity|vm_compute; reflexivity].
Defined.

(** The loop of the helper from any of its iterations. *)
Lemma sa_attempts_any :
  forall cfg server todo k st result st',
    (0 < todo)%nat ->
    Z.of_nat k + Z.of_nat todo = MAX_RETRIES cfg ->
    attempts cfg server todo (Z.of_nat k + 1) st = (result, st') ->
    exists n,
      (1 <= n <= todo)%nat
      /\ sent st' = (sent st + n)%nat
      /\ (forall i, (sent st <= i < sent st + n - 1)%nat ->
                    refused (server i) = true)
      /\ backoffs (history st')
         = (backoffs (history st)
            ++ map (fun i => (BACKOFF_FACTOR cfg * inject_Z (2 ^ Z.of_nat i))%Q)
                   (seq k (n - 1)))%list
      /\ match answer (server (sent st + n - 1)%nat) with
         | ConnectionFailed => result = Raise RequestException /\ n = todo
         | Response status text =>
             if raise_for_status status
             then result = Raise HTTPError /\ n = todo
             else result = Return (Some (status, text))
         end.
Proof.
  intros cfg server todo; induction todo as [|todo IH];
    intros k st result st' Hpos Hsum Hrun; [lia|].
  cbn [attempts] in Hrun.
  destruct (enforce_spacing_frame cfg st) as (_ & Hsent & Hbk & _).
  set (st1 := enforce_spacing cfg st) in *.
  assert (Hlast :
            forall e st2,
              send server st1 = (Raise e, st2) ->
              is_request_exception e = true ->
              sent st2 = S (sent st1) ->
              backoffs (history st2) = backoffs (history st1) ->
              (if Z.of_nat k + 1 =? MAX_RETRIES cfg
               then (Raise e, st2)
               else attempts cfg server todo (Z.of_nat k + 1 + 1)
                      (sleep Backoff
                         (BACKOFF_FACTOR cfg
                          * inject_Z (2 ^ (Z.of_nat k + 1 - 1)))%Q st2))
              = (result, st') ->
              refused (server (sent st1)) = true ->
              exists n,
                (1 <= n <= S todo)%nat
                /\ sent st' = (sent st + n)%nat
                /\ (forall i, (sent st <= i < sent st + n - 1)%nat ->
                              refused (server i) = true)
                /\ backoffs (history st')
                   = (backoffs (history st)
                      ++ map (fun i => (BACKOFF_FACTOR cfg
                                        * inject_Z (2 ^ Z.of_nat i))%Q)
                             (seq k (n - 1)))%list
                /\ (n = 1%nat -> result = Raise e /\ n = S todo)
                /\ ((1 < n)%nat ->
                    match answer (server (sent st + n - 1)%nat) with
                    | ConnectionFailed =>
                        result = Raise RequestException /\ n = S todo
                    | Response status text =>
                        if raise_for_status status
                        then result = Raise HTTPError /\ n = S todo
                        else result = Return (Some (status, text))
                    end)).
  { intros e st2 Hsend He Hs2 Hb2 Hnext Href.
    destruct (Z.of_nat k + 1 =? MAX_RETRIES cfg) eqn:Hend.
    - apply Z.eqb_eq in Hend. injection Hnext as <- <-. exists 1%nat.
      split; [lia|]. split; [lia|]. split; [intros i Hi; lia|]. split.
      + cbn. rewrite app_nil_r, Hb2, Hbk. reflexivity.
      + split; [intros _; split; [reflexivity|lia]|intros Hn; lia].
    - apply Z.eqb_neq in Hend.
      replace (Z.of_nat k + 1 + 1) with (Z.of_nat (S k) + 1) in Hnext by lia.
      apply IH in Hnext; [|lia|lia].
      destruct Hnext as (n & Hn & Hs & Hall & Hb & Hans).
      cbn [sleep sent history] in Hs, Hall, Hb, Hans.
      rewrite backoffs_app in Hb. cbn [backoffs] in Hb.
      exists (S n). split; [lia|]. split; [lia|]. split; [|split; [|split]].
      + intros i Hi. destruct (Nat.eq_dec i (sent st)) as [->|Hne].
        * rewrite <- Hsent. exact Href.
        * apply Hall. lia.
      + rewrite Hb, Hb2, Hbk, <- app_assoc.
        replace (S n - 1)%nat with (S (n - 1)) by lia. cbn [seq map app].
        replace (Z.of_nat k + 1 - 1) with (Z.of_nat k) by lia. reflexivity.
      + intros Hn1. lia.
      + intros _.
        replace (sent st + S n - 1)%nat with (sent st2 + n - 1)%nat by lia.
        destruct (answer (server (sent st2 + n - 1)%nat)) as [|status text].
        * destruct Hans as (-> & ->). split; reflexivity.
        * destruct (raise_for_status status); [|exact Hans].
          destruct Hans as (-> & ->). split; reflexivity. }
  unfold send in Hrun, Hlast.
  destruct (answer (server (sent st1))) as [|status text] eqn:Hans.
  - cbn [is_request_exception] in Hrun.
    edestruct Hlast as (n & Hn & Hs & Hall & Hb & H1 & Hmore);
      [reflexivity|reflexivity|reflexivity| |exact Hrun| |].
    + cbn [history]. rewrite backoffs_app. cbn. apply app_nil_r.
    + unfold refused. rewrite Hans. reflexivity.
    + exists n. repeat (split; [assumption|]).
      destruct (Nat.eq_dec n 1) as [->|Hne].
      * replace (sent st + 1 - 1)%nat with (sent st1) by lia. rewrite Hans.
        destruct (H1 eq_refl) as (-> & <-). split; reflexivity.
      * apply Hmore. lia.
  - destruct (raise_for_status status) eqn:Hst.
    + cbn [is_request_exception] in Hrun.
      edestruct Hlast as (n & Hn & Hs & Hall & Hb & H1 & Hmore);
        [reflexivity|reflexivity|reflexivity| |exact Hrun| |].
      * cbn [history]. rewrite backoffs_app. cbn. apply app_nil_r.
      * unfold refused. rewrite Hans. exact Hst.
      * exists n. repeat (split; [assumption|]).
        destruct (Nat.eq_dec n 1) as [->|Hne].
        -- replace (sent st + 1 - 1)%nat with (sent st1) by lia.
           rewrite Hans, Hst.
           destruct (H1 eq_refl) as (-> & <-). split; reflexivity.
        -- apply Hmore. lia.
    + injection Hrun as <- <-. exists 1%nat. cbn [sent history].
      split; [lia|]. split; [lia|]. split; [intros i Hi; lia|]. split.
      * rewrite backoffs_app. cbn. rewrite !app_nil_r. exact Hbk.
      * replace (sent st + 1 - 1)%nat with (sent st1) by lia.
        rewrite Hans, Hst. reflexivity.
Qed.

(** X4.  [_rate_limited_get] against any server: it sends between one
    and [MAX_RETRIES] requests when [MAX_RETRIES] is positive; every
    request but the last one was refused (no response, or a 4xx or 5xx
    status) and was followed by a back-off of [BACKOFF_FACTOR * 2 **
    (attempt - 1)]; the last request decides the outcome: its response is
    returned when the status is good, and otherwise its exception is
    re-raised, after exactly [MAX_RETRIES] requests.  The [None] that
    falls out of the loop is returned exactly when [MAX_RETRIES] is not
    positive, and then nothing is sent. *)
Theorem rate_limited_get_outcome_for_any_server :
  forall cfg server st,
    let run := _rate_limited_get cfg server st in
    let n := (sent (snd run) - sent st)%nat in
    sent (snd run) = (sent st + n)%nat
    /\ (n <= Z.to_nat (MAX_RETRIES cfg))%nat
    /\ (forall i, (sent st <= i < sent st + n - 1)%nat ->
                  refused (server i) = true)
    /\ backoffs (history (snd run))
       = (backoffs (history st)
          ++ map (fun i => (BACKOFF_FACTOR cfg * inject_Z (2 ^ Z.of_nat i))%Q)
                 (seq 0 (n - 1)))%list
    /\ (MAX_RETRIES cfg <= 0 <-> fst run = Return None)
    /\ (MAX_RETRIES cfg <= 0 -> snd run = st)
    /\ (0 < MAX_RETRIES cfg ->
        (1 <= n)%nat
        /\ match answer (server (sent st + n - 1)%nat) with
           | ConnectionFailed =>
               fst run = Raise RequestException
               /\ n = Z.to_nat (MAX_RETRIES cfg)
           | Response status text =>
               if raise_for_status status
               then fst run = Raise HTTPError
                    /\ n = Z.to_nat (MAX_RETRIES cfg)
               else fst run = Return (Some (status, text))
           end).
Proof.
  intros cfg server st run n. subst n run. unfold _rate_limited_get.
  destruct (Z_le_gt_dec (MAX_RETRIES cfg) 0) as [Hle|Hgt].
  - replace (Z.to_nat (MAX_RETRIES cfg)) with 0%nat by lia. cbn [attempts fst snd].
    rewrite Nat.sub_diag. cbn. rewrite app_nil_r.
    repeat split; auto; try lia.
  - destruct (attempts cfg server (Z.to_nat (MAX_RETRIES cfg)) 1 st)
      as [result st'] eqn:Hrun.
    change 1 with (Z.of_nat 0 + 1) in Hrun.
    apply sa_attempts_any in Hrun; [|lia|lia].
    destruct Hrun as (n & Hn & Hs & Hall & Hb & Hans). cbn [fst snd].
    replace (sent st' - sent st)%nat with n by lia.
    split; [exact Hs|]. split; [lia|]. split; [exact Hall|].
    split; [exact Hb|]. split; [|split].
    + split; intros H; [lia|]. subst result.
      destruct (answer (server (sent st + n - 1)%nat)) as [|status text].
      * destruct Hans as (Hx & _). discriminate Hx.
      * destruct (raise_for_status status);
          [destruct Hans as (Hx & _)|]; discriminate.
    + intros H. lia.
    + intros _. split; [lia|]. exact Hans.
Qed.

End SpacingFacts.
(** ** The listing crawl against any site *)

Module CrawlFacts.

Import SeekingAlpha.

Section WithReader.

Variable to_datetime : string -> option stamp.

#[local] Abbreviation scan := (SeekingAlpha.scan to_datetime).
#[local] Abbreviation dated := (SeekingAlpha.dated to_datetime).
#[local] Abbreviation has_offset := (SeekingAlpha.has_offset to_datetime).
#[local] Abbreviation pages := (SeekingAlpha.pages to_datetime).

(** What the inner loop keeps of an article. *)
Lemma dated_shape :
  forall tk art rec,
    dated tk art = Some rec ->
    ticker rec = tk
    /\ contains "Earnings Call Transcript" (title rec) = true
    /\ url rec <> "".
Proof.
  intros tk art rec H. unfold SeekingAlpha.dated in H.
  destruct (h3 art) as [text|]; [|discriminate H].
  destruct (contains "Earnings Call Transcript" text) eqn:Hc;
    cbn [negb] in H; [|discriminate H].
  destruct (href art) as [link|]; [|discriminate H].
  destruct (link =? "")%string eqn:Hl; [discriminate H|].
  destruct (to_datetime (date_text art)) as [d|]; [|discriminate H].
  injection H as <-. cbn. repeat split; [exact Hc|].
  apply String.eqb_neq. exact Hl.
Qed.

(** What a page does to the crawl: it makes it raise [TypeError] when
    one of its transcripts has a date with an offset, and is scanned
    otherwise. *)
Lemma scan_outcome :
  forall tk articles,
    if existsb (has_offset tk) articles
    then scan tk articles = Raise TypeError
    else exists vars, scan tk articles = Return vars.
Proof.
  intros tk articles. apply Crawl.scan_from_outcome.
Qed.

(** The page loop from any page on. *)
Lemma pages_any :
  forall get_soup tk todo page records result fetched,
    pages get_soup tk todo page records = (result, fetched) ->
    fetched = map (fun i => page + Z.of_nat i) (seq 0 (List.length fetched))
    /\ (List.length fetched <= todo)%nat
    /\ (forall rows,
           result = Return rows ->
           forall rec,
             In rec rows
             <-> In rec records
                 \/ exists p arts art,
                      In p fetched /\ get_soup p = Return arts
                      /\ In art arts /\ dated tk art = Some rec
                      /\ in_range (date rec) = true)
    /\ (forall e,
           result = Raise e
           <-> exists p,
                 In p fetched
                 /\ (get_soup p = Raise e
                     \/ e = TypeError
                        /\ exists arts,
                             get_soup p = Return arts
                             /\ existsb (has_offset tk) arts = true)).
Proof.
  intros get_soup tk todo; induction todo as [|todo IH];
    intros page records result fetched Hrun; cbn [SeekingAlpha.pages] in Hrun.
  - injection Hrun as <- <-. cbn [List.length seq map].
    split; [reflexivity|]. split; [lia|]. split.
    + intros rows Hrows rec. injection Hrows as <-.
      split; [intros H; left; exact H|].
      intros [H|(p & _ & _ & [] & _)]. exact H.
    + intros e. split; [discriminate|]. intros (p & [] & _).
  - destruct (get_soup page) as [articles|e0] eqn:Hpage.
    + destruct articles as [|a articles].
      * injection Hrun as <- <-. cbn [List.length seq map]. rewrite Z.add_0_r.
        split; [reflexivity|]. split; [lia|]. split.
        -- intros rows Hrows rec. injection Hrows as <-.
           split; [intros H; left; exact H|].
           intros [H|(p & arts & art & [<-|[]] & Hp & Hin & _)]; [exact H|].
           rewrite Hpage in Hp. injection Hp as <-. destruct Hin.
        -- intros e. split; [discriminate|].
           intros (p & [<-|[]] & [Hp|(_ & arts & Hp & Hoff)]);
             rewrite Hpage in Hp; [discriminate Hp|].
           injection Hp as <-. discriminate Hoff.
      * set (arts := a :: articles) in *.
        pose proof (scan_outcome tk arts) as Hout.
        destruct (existsb (has_offset tk) arts) eqn:Hoff.
        { rewrite Hout in Hrun. injection Hrun as <- <-.
          cbn [List.length seq map]. rewrite Z.add_0_r.
          split; [reflexivity|]. split; [lia|]. split.
          - intros rows Hrows. discriminate Hrows.
          - intros e. split.
            + intros He. injection He as <-. exists page.
              split; [left; reflexivity|]. right. split; [reflexivity|].
              exists arts. split; [exact Hpage|exact Hoff].
            + intros (p & [<-|[]] & [Hp|(-> & _)]); [|reflexivity].
              rewrite Hpage in Hp. discriminate Hp. }
        destruct Hout as (vars & Hscan). rewrite Hscan in Hrun.
        pose proof (fun rec => Crawl.scan_found to_datetime tk arts vars rec Hscan)
          as Hfound.
        destruct (stop_signal vars).
        -- injection Hrun as <- <-. cbn [List.length seq map]. rewrite Z.add_0_r.
           split; [reflexivity|]. split; [lia|]. split.
           ++ intros rows Hrows rec. injection Hrows as <-.
              rewrite in_app_iff, Hfound. split.
              ** intros [H|(art & Hin & Hd & Hr)]; [left; exact H|].
                 right. exists page, arts, art.
                 split; [left; reflexivity|]. repeat split; assumption.
              ** intros [H|(p & arts' & art & [<-|[]] & Hp & Hin & Hd & Hr)];
                   [left; exact H|].
                 rewrite Hpage in Hp. injection Hp as <-.
                 right. exists art. repeat split; assumption.
           ++ intros e. split; [discriminate|].
              intros (p & [<-|[]] & [Hp|(_ & arts' & Hp & Hoff')]);
                rewrite Hpage in Hp; [discriminate Hp|].
              injection Hp as <-. rewrite Hoff in Hoff'. discriminate Hoff'.
        -- destruct (pages get_soup tk todo (page + 1)
                       (records ++ found vars)%list)
             as [result' rest] eqn:Hrest.
           injection Hrun as <- <-.
           destruct (IH _ _ _ _ Hrest) as (Hseq & Hlen & Hrows & Hraise).
           cbn [List.length seq map]. split; [|split; [lia|split]].
           ++ rewrite Z.add_0_r. f_equal. rewrite <- seq_shift, map_map.
              rewrite Hseq at 1. apply map_ext. intros i. lia.
           ++ intros rows Hret rec. rewrite (Hrows rows Hret rec).
              rewrite in_app_iff, Hfound. cbn [In]. split.
              ** intros [[H|(art & Hin & Hd & Hr)]
                        |(p & arts' & art & Hin & Hrest')].
                 --- left; exact H.
                 --- right. exists page, arts, art.
                     split; [left; reflexivity|]. repeat split; assumption.
                 --- right. exists p, arts', art. split; [right; exact Hin|].
                     exact Hrest'.
              ** intros [H|(p & arts' & art & [<-|Hin] & Hp & Hrest')].
                 --- left; left; exact H.
                 --- rewrite Hpage in Hp. injection Hp as <-.
                     left; right. exists art. exact Hrest'.
                 --- right. exists p, arts', art. repeat split; tauto.
           ++ intros e. rewrite (Hraise e). cbn [In]. split.
              ** intros (p & Hin & Hp). exists p. split; [right; exact Hin|exact Hp].
              ** intros (p & [<-|Hin] & Hp).
                 --- exfalso. destruct Hp as [Hp|(_ & arts' & Hp & Hoff')];
                       rewrite Hpage in Hp; [discriminate Hp|].
                     injection Hp as <-. rewrite Hoff in Hoff'.
                     discriminate Hoff'.
                 --- exists p. split; assumption.
    + injection Hrun as <- <-. cbn [List.length seq map]. rewrite Z.add_0_r.
      split; [reflexivity|]. split; [lia|]. split.
      * intros rows Hrows. discriminate Hrows.
      * intros e. split.
        -- intros He. injection He as <-. exists page.
           split; [left; reflexivity|left; exact Hpage].
        -- intros (p & [<-|[]] & [Hp|(_ & arts & Hp & _)]);
             rewrite Hpage in Hp; [|discriminate Hp].
           injection Hp as <-. reflexivity.
Qed.

End WithReader.

(** X5.  [list_earnings_call_transcripts_for_ticker] against any site.
    The pages it requests are 1, 2, ..., without a gap, and never more
    than [max_pages] of them.  When it returns, the rows are exactly the
    articles of the requested pages that have a title with "Earnings Call
    Transcript", a link, a date that reads and lies between [START_DATE]
    and [END_DATE]; every row carries the ticker asked for.  It raises
    exactly when one of the requested pages could not be fetched, with the
    exception of that page, or holds a transcript whose date names a UTC
    offset, with the [TypeError] of comparing it with [START_DATE]: the
    rows of the pages before are then lost. *)
Theorem crawl_returns_the_transcripts_in_range :
  forall to_datetime get_soup tk max_pages,
    let run :=
      list_earnings_call_transcripts_for_ticker to_datetime get_soup tk
        max_pages in
    snd run = map (fun i => 1 + Z.of_nat i) (seq 0 (List.length (snd run)))
    /\ (List.length (snd run) <= Z.to_nat max_pages)%nat
    /\ (forall rows,
           fst run = Return rows ->
           (forall rec,
               In rec rows
               <-> exists p arts art,
                     In p (snd run) /\ get_soup p = Return arts
                     /\ In art arts /\ dated to_datetime tk art = Some rec
                     /\ in_range (date rec) = true)
           /\ Forall (fun rec =>
                        ticker rec = tk
                        /\ contains "Earnings Call Transcript" (title rec) = true
                        /\ url rec <> ""
                        /\ in_range (date rec) = true) rows)
    /\ (forall e,
           fst run = Raise e
           <-> exists p,
                 In p (snd run)
                 /\ (get_soup p = Raise e
                     \/ e = TypeError
                        /\ exists arts,
                             get_soup p = Return arts
                             /\ existsb (has_offset to_datetime tk) arts = true)).
Proof.
  intros to_datetime get_soup tk max_pages run. subst run.
  unfold list_earnings_call_transcripts_for_ticker.
  destruct (SeekingAlpha.pages to_datetime get_soup tk (Z.to_nat max_pages) 1 [])
    as [result fetched] eqn:Hrun.
  destruct (pages_any to_datetime _ _ _ _ _ _ _ Hrun)
    as (Hseq & Hlen & Hrows & Hraise).
  cbn [fst snd]. split; [exact Hseq|]. split; [exact Hlen|].
  split; [|exact Hraise].
  intros rows Hret.
  assert (Hin : forall rec,
             In rec rows
             <-> exists p arts art,
                   In p fetched /\ get_soup p = Return arts
                   /\ In art arts /\ dated to_datetime tk art = Some rec
                   /\ in_range (date rec) = true).
  { intros rec. rewrite (Hrows rows Hret rec). cbn [In].
    split; [intros [[]|H]; exact H|intros H; right; exact H]. }
  split; [exact Hin|].
  apply Forall_forall. intros rec Hrec. apply Hin in Hrec.
  destruct Hrec as (p & arts & art & _ & _ & _ & Hd & Hr).
  destruct (dated_shape to_datetime tk art rec Hd) as (Ht & Hc & Hu).
  repeat split; assumption.
Qed.

(** A listing whose transcript carries "2024-11-20T21:00:00+00:00" for a
    date: the first page is fetched and the crawl raises. *)
Example offset_date_ends_the_crawl :
  list_earnings_call_transcripts_for_ticker Scenario.sa_to_datetime
    Scenario.sa_listing_with_offset "NVDA" 10
  = (Raise TypeError, [1]).
Proof. vm_compute. reflexivity. Qed.

End CrawlFacts.

(** ** Crypto, FX and the combined file *)

Module AssetFacts.

Import Containers Assets.

(** [float] raises [ValueError], [TypeError] or [OverflowError]: no
    [KeyError]. *)
Lemma float_raises :
  forall float_of_string x e,
    OHLCV.float float_of_string x = Raise e -> e <> KeyError.
Proof.
  intros float_of_string x e H. unfold OHLCV.float in H.
  destruct x as [|b|n|q|s|items|fields];
    try (injection H as <-; discriminate); try discriminate H.
  - destruct (Z.abs n <? OHLCV.float_overflow); [discriminate H|].
    injection H as <-. discriminate.
  - destruct (float_of_string s); [discriminate H|].
    injection H as <-. discriminate.
Qed.

(** [float(row[key])] when it goes through, and when it ends in
    [KeyError]. *)
Lemma price_returns :
  forall float_of_string key row q,
    bind (OHLCV.getitem key row) (OHLCV.float float_of_string) = Return q ->
    exists fields v,
      row = JObj fields /\ lookup key fields = Some v
      /\ OHLCV.float float_of_string v = Return q.
Proof.
  intros float_of_string key row q H.
  destruct row as [| | | | | |fields]; try discriminate H. cbn in H.
  destruct (lookup key fields) as [v|] eqn:Hl; [|discriminate H].
  exists fields, v. repeat split; assumption.
Qed.

Lemma price_key_error :
  forall float_of_string key row,
    bind (OHLCV.getitem key row) (OHLCV.float float_of_string) = Raise KeyError ->
    exists fields, row = JObj fields /\ lookup key fields = None.
Proof.
  intros float_of_string key row H.
  destruct row as [| | | | | |fields]; try discriminate H. cbn in H.
  destruct (lookup key fields) as [v|] eqn:Hl.
  - cbn [bind] in H. apply float_raises in H. contradiction H; reflexivity.
  - exists fields. split; [reflexivity|exact Hl].
Qed.

(** X6.  The prices of a crypto row never mix the two families of keys.
    When the loop of [fetch_crypto_daily] gets the four prices of a row,
    either the row has the four keys ["1a. open (USD)"] to
    ["4a. close (USD)"] and the prices are their values, or one of those
    keys is missing and all four prices are read from the plain keys
    ["1. open"] to ["4. close"] (from the ["b"] keys where a plain key is
    missing): the USD values that are there are not used. *)
Theorem crypto_prices_come_from_one_key_family :
  forall float_of_string row o h l c,
    crypto_prices float_of_string row = Return (o, h, l, c) ->
    exists fields,
      row = JObj fields
      /\ ((exists vo vh vl vc,
              lookup "1a. open (USD)" fields = Some vo
              /\ lookup "2a. high (USD)" fields = Some vh
              /\ lookup "3a. low (USD)" fields = Some vl
              /\ lookup "4a. close (USD)" fields = Some vc
              /\ OHLCV.float float_of_string vo = Return o
              /\ OHLCV.float float_of_string vh = Return h
              /\ OHLCV.float float_of_string vl = Return l
              /\ OHLCV.float float_of_string vc = Return c)
          \/ ((lookup "1a. open (USD)" fields = None
               \/ lookup "2a. high (USD)" fields = None
               \/ lookup "3a. low (USD)" fields = None
               \/ lookup "4a. close (USD)" fields = None)
              /\ OHLCV.float float_of_string
                   (get_default "1. open" (get "1b. open (USD)" fields) fields)
                 = Return o
              /\ OHLCV.float float_of_string
                   (get_default "2. high" (get "2b. high (USD)" fields) fields)
                 = Return h
              /\ OHLCV.float float_of_string
                   (get_default "3. low" (get "3b. low (USD)" fields) fields)
                 = Return l
              /\ OHLCV.float float_of_string
                   (get_default "4. close" (get "4b. close (USD)" fields) fields)
                 = Return c)).
Proof.
  intros float_of_string row o h l c H. unfold crypto_prices in H.
  destruct (usd_prices float_of_string row) as [px|e] eqn:Husd.
  - injection H as ->. unfold usd_prices in Husd.
    destruct (bind (OHLCV.getitem "1a. open (USD)" row)
                   (OHLCV.float float_of_string)) as [o'|] eqn:Ho;
      [|discriminate Husd].
    destruct (bind (OHLCV.getitem "2a. high (USD)" row)
                   (OHLCV.float float_of_string)) as [h'|] eqn:Hh;
      [|discriminate Husd].
    destruct (bind (OHLCV.getitem "3a. low (USD)" row)
                   (OHLCV.float float_of_string)) as [l'|] eqn:Hl;
      [|discriminate Husd].
    destruct (bind (OHLCV.getitem "4a. close (USD)" row)
                   (OHLCV.float float_of_string)) as [c'|] eqn:Hc;
      [|discriminate Husd].
    cbn [bind] in Husd. injection Husd as -> -> -> ->.
    apply price_returns in Ho, Hh, Hl, Hc.
    destruct Ho as (fields & vo & -> & Hlo & Hfo).
    destruct Hh as (fields2 & vh & E2 & Hlh & Hfh). injection E2 as <-.
    destruct Hl as (fields3 & vl & E3 & Hll & Hfl). injection E3 as <-.
    destruct Hc as (fields4 & vc & E4 & Hlc & Hfc). injection E4 as <-.
    exists fields. split; [reflexivity|]. left.
    exists vo, vh, vl, vc. repeat split; assumption.
  - assert (Hmiss : exists fields,
               row = JObj fields
               /\ (lookup "1a. open (USD)" fields = None
                   \/ lookup "2a. high (USD)" fields = None
                   \/ lookup "3a. low (USD)" fields = None
                   \/ lookup "4a. close (USD)" fields = None)
               /\ e = KeyError).
    { destruct e; try discriminate H. unfold usd_prices in Husd.
      destruct (bind (OHLCV.getitem "1a. open (USD)" row)
                     (OHLCV.float float_of_string)) as [o'|] eqn:Ho.
      2:{ cbn [bind] in Husd. injection Husd as ->.
          apply price_key_error in Ho. destruct Ho as (fields & -> & Ho).
          exists fields. repeat split; tauto. }
      destruct (bind (OHLCV.getitem "2a. high (USD)" row)
                     (OHLCV.float float_of_string)) as [h'|] eqn:Hh.
      2:{ cbn [bind] in Husd. injection Husd as ->.
          apply price_key_error in Hh. destruct Hh as (fields & -> & Hh).
          exists fields. repeat split; tauto. }
      destruct (bind (OHLCV.getitem "3a. low (USD)" row)
                     (OHLCV.float float_of_string)) as [l'|] eqn:Hl.
      2:{ cbn [bind] in Husd. injection Husd as ->.
          apply price_key_error in Hl. destruct Hl as (fields & -> & Hl).
          exists fields. repeat split; tauto. }
      destruct (bind (OHLCV.getitem "4a. close (USD)" row)
                     (OHLCV.float float_of_string)) as [c'|] eqn:Hc.
      2:{ cbn [bind] in Husd. injection Husd as ->.
          apply price_key_error in Hc. destruct Hc as (fields & -> & Hc).
          exists fields. repeat split; tauto. }
      discriminate Husd. }
    destruct Hmiss as (fields & -> & Hnone & ->).
    exists fields. split; [reflexivity|]. right. split; [exact Hnone|].
    unfold fallback_prices, fallback_price in H. cbn [row_get bind] in H.
    repeat match type of H with
           | bind ?m _ = Return _ =>
               destruct m eqn:?; cbn [bind] in H; [|discriminate H]
           end.
    injection H as -> -> -> ->. repeat split; assumption.
Qed.

(** X6 at work: the row without its USD close gets the four plain
    prices. *)
Lemma crypto_prices_come_from_one_key_family_witness :
  crypto_prices Scenario.decimal Examples.crypto_row_without_usd_close
  = Return ((3800025 # 100)%Q, 39000%Q, 37000%Q, 38500%Q)
  /\ exists fields,
       Examples.crypto_row_without_usd_close = JObj fields
       /\ lookup "4a. close (USD)" fields = None.
Proof.
  split; [vm_compute; reflexivity|].
  destruct (crypto_prices_come_from_one_key_family Scenario.decimal
              Examples.crypto_row_without_usd_close
              (3800025 # 100)%Q 39000%Q 37000%Q 38500%Q)
    as (fields & Hrow & _); [vm_compute; reflexivity|].
  exists fields. split; [exact Hrow|].
  injection Hrow as <-. reflexivity.
Defined.

Section WithParsers.

Variable fromisoformat : string -> option Z.
Variable float_of_string : string -> option Q.

#[local] Abbreviation inside := (OHLCV.inside fromisoformat).

(** The loop appends one row per entry inside the window, in order. *)
Lemma collect_quotes :
  forall build series records out,
    collect fromisoformat build series records = Return out ->
    exists bars,
      out = (records ++ bars)%list
      /\ Forall2 (fun q entry => build (fst entry) (snd entry) = Return q)
                 bars (filter inside series).
Proof.
  intros build series; induction series as [|[date_str row] series IH];
    intros records out H; cbn [collect] in H.
  - injection H as <-. exists []. split; [symmetry; apply app_nil_r|constructor].
  - unfold OHLCV._within_range in H. cbn [filter]. unfold OHLCV.inside at 1.
    cbn [fst].
    destruct (fromisoformat date_str) as [d|]; [|discriminate H].
    cbn [bind] in H.
    destruct ((OHLCV.START_DATE <=? d) && (d <=? OHLCV.END_DATE)); cbn [negb] in H.
    + destruct (build date_str row) as [b|e] eqn:Hb; [|discriminate H].
      cbn [bind] in H. destruct (IH _ _ H) as (bars & -> & Hall).
      exists (b :: bars). split; [rewrite <- app_assoc; reflexivity|].
      constructor; [exact Hb|exact Hall].
    + exact (IH _ _ H).
Qed.

(** What a returned list of rows tells about the payload. *)
Lemma series_rows_returns :
  forall key build payload rows,
    series_rows fromisoformat key build payload = Return rows ->
    exists fields series bars,
      payload = JObj fields
      /\ lookup key fields = Some (JObj series)
      /\ Permutation rows bars
      /\ Forall2 (fun q entry => build (fst entry) (snd entry) = Return q)
                 bars (filter inside series)
      /\ Sorted (fun a b => String.leb (date a) (date b) = true) rows.
Proof.
  intros key build payload rows H. unfold series_rows in H.
  destruct payload as [| | | | | |fields]; try discriminate H.
  destruct (lookup key fields) as [series|] eqn:Hseries; [|discriminate H].
  destruct series as [| | | | | |series]; try discriminate H.
  destruct (collect fromisoformat build series []) as [records|e] eqn:Hcol;
    [|discriminate H].
  cbn [bind] in H. injection H as <-.
  destruct (collect_quotes _ _ _ _ Hcol) as (bars & -> & Hall). cbn [app].
  exists fields, series, bars. split; [reflexivity|]. split; [exact Hseries|].
  split; [apply sort_by_perm|]. split; [exact Hall|].
  apply sort_by_sorted, String.leb_total.
Qed.

Lemma crypto_bar_shape :
  forall sym market date_str row q,
    crypto_bar float_of_string sym market date_str row = Return q ->
    date q = date_str
    /\ symbol q = sym ++ "-" ++ market
    /\ asset_type q = "crypto"
    /\ crypto_prices float_of_string row
       = Return (open q, high q, low q, close q)
    /\ crypto_volume float_of_string row = Return (volume q).
Proof.
  intros sym market date_str row q H. unfold crypto_bar in H.
  destruct (crypto_prices float_of_string row) as [[[[o h] l] c]|];
    [|discriminate H].
  cbn [bind] in H.
  destruct (crypto_volume float_of_string row) as [vol|]; [|discriminate H].
  cbn [bind] in H. injection H as <-. cbn. repeat split; reflexivity.
Qed.

Lemma fx_bar_shape :
  forall pair date_str row q,
    fx_bar float_of_string pair date_str row = Return q ->
    date q = date_str
    /\ symbol q = pair
    /\ asset_type q = "fx"
    /\ volume q = None
    /\ exists fields, row = JObj fields.
Proof.
  intros pair date_str row q H. unfold fx_bar in H.
  destruct (bind (OHLCV.getitem "1. open" row) (OHLCV.float float_of_string))
    as [o|] eqn:Ho; [|discriminate H].
  apply price_returns in Ho. destruct Ho as (fields & _ & -> & _).
  repeat match type of H with
         | bind ?m _ = Return _ => destruct m; cbn [bind] in H; [|discriminate H]
         end.
  injection H as <-. cbn. repeat split; try reflexivity. exists fields. reflexivity.
Qed.

(** The dates of the rows are the keys of the entries they were made
    from. *)
Lemma dates_of_quotes :
  forall (build : string -> json -> outcome quote) bars (entries : list (string * json)),
    (forall date_str row q, build date_str row = Return q -> date q = date_str) ->
    Forall2 (fun q entry => build (fst entry) (snd entry) = Return q)
            bars entries ->
    map date bars = map fst entries.
Proof.
  intros build bars entries Hdate H; induction H as [|q e bars entries Hq _ IH].
  - reflexivity.
  - cbn. rewrite IH, (Hdate _ _ _ Hq). reflexivity.
Qed.

(** Every row was made from an entry inside the window. *)
Lemma quotes_have_entries :
  forall (build : string -> json -> outcome quote) bars (entries : list (string * json)) q,
    Forall2 (fun q entry => build (fst entry) (snd entry) = Return q)
            bars entries ->
    In q bars ->
    exists entry, In entry entries /\ build (fst entry) (snd entry) = Return q.
Proof.
  intros build bars entries q H; induction H as [|q' e bars entries Hq _ IH];
    intros Hin; [destruct Hin|].
  destruct Hin as [<-|Hin].
  - exists e. split; [left; reflexivity|exact Hq].
  - destruct (IH Hin) as (entry & He & Hb).
    exists entry. split; [right; exact He|exact Hb].
Qed.

End WithParsers.

(** X7.  [fetch_crypto_daily] and [fetch_fx_daily] return one row per
    entry of the series whose key is a date in [START_DATE, END_DATE],
    sorted ascending by date.  A crypto row carries the symbol
    [SYMBOL-MARKET], the asset type [crypto], the prices and the volume
    read from its entry; an FX row carries the pair as its symbol, the
    asset type [fx] and no volume.  A payload without the series key
    makes either function raise [AlphaVantageError] with the keys that
    are there. *)
Theorem crypto_and_fx_rows_are_the_window_sorted :
  forall (fromisoformat : string -> option Z)
         (float_of_string : string -> option Q),
    (forall server sym market rows tr,
        fetch_crypto_daily fromisoformat float_of_string server sym market
        = (Return rows, tr) ->
        exists fields series,
          fst (OHLCV._request_with_retries server 6) = Return (JObj fields)
          /\ lookup "Time Series (Digital Currency Daily)" fields
             = Some (JObj series)
          /\ Permutation (map date rows)
                         (map fst (filter (OHLCV.inside fromisoformat) series))
          /\ Sorted (fun a b => String.leb (date a) (date b) = true) rows
          /\ Forall (fun q =>
                       symbol q = sym ++ "-" ++ market
                       /\ asset_type q = "crypto"
                       /\ exists row,
                            In (date q, row) series
                            /\ OHLCV.inside fromisoformat (date q, row) = true
                            /\ crypto_prices float_of_string row
                               = Return (open q, high q, low q, close q)
                            /\ crypto_volume float_of_string row
                               = Return (volume q)) rows)
    /\ (forall server from_symbol to_symbol rows tr,
           fetch_fx_daily fromisoformat float_of_string server
             from_symbol to_symbol
           = (Return rows, tr) ->
           exists fields series,
             fst (OHLCV._request_with_retries server 6) = Return (JObj fields)
             /\ lookup "Time Series FX (Daily)" fields = Some (JObj series)
             /\ Permutation (map date rows)
                            (map fst (filter (OHLCV.inside fromisoformat) series))
             /\ Sorted (fun a b => String.leb (date a) (date b) = true) rows
             /\ Forall (fun q =>
                          symbol q = from_symbol ++ to_symbol
                          /\ asset_type q = "fx"
                          /\ volume q = None) rows)
    /\ (forall server fields,
           fst (OHLCV._request_with_retries server 6) = Return (JObj fields) ->
           (lookup "Time Series (Digital Currency Daily)" fields = None ->
            forall sym market,
              fst (fetch_crypto_daily fromisoformat float_of_string server
                     sym market)
              = Raise (AlphaVantageError
                         (MissingKey "Time Series (Digital Currency Daily)"
                                     (keys fields))))
           /\ (lookup "Time Series FX (Daily)" fields = None ->
               forall from_symbol to_symbol,
                 fst (fetch_fx_daily fromisoformat float_of_string server
                        from_symbol to_symbol)
                 = Raise (AlphaVantageError
                            (MissingKey "Time Series FX (Daily)"
                                        (keys fields))))).
Proof.
  intros fromisoformat float_of_string. split; [|split].
  - intros server sym market rows tr Hrun. unfold fetch_crypto_daily in Hrun.
    destruct (OHLCV._request_with_retries server 6) as [payload tr'].
    injection Hrun as Hrun _.
    destruct payload as [payload|e]; [|discriminate Hrun]. cbn [bind] in Hrun.
    apply series_rows_returns in Hrun.
    destruct Hrun as (fields & series & bars & -> & Hseries & Hperm & Hall & Hsorted).
    exists fields, series. split; [reflexivity|]. split; [exact Hseries|].
    split; [|split; [exact Hsorted|]].
    + rewrite <- (dates_of_quotes _ _ _
                    (fun d r q H => proj1 (crypto_bar_shape _ _ _ d r q H)) Hall).
      apply Permutation_map, Hperm.
    + apply Forall_forall. intros q Hq.
      apply (Permutation_in _ Hperm) in Hq.
      destruct (quotes_have_entries _ _ _ _ Hall Hq) as ([date_str row] & Hin & Hb).
      cbn [fst snd] in Hb.
      destruct (crypto_bar_shape _ _ _ _ _ _ Hb) as (Hd & Hs & Ha & Hp & Hv).
      split; [exact Hs|]. split; [exact Ha|]. exists row. rewrite Hd.
      apply filter_In in Hin. destruct Hin as (Hin & Hins).
      repeat split; assumption.
  - intros server from_symbol to_symbol rows tr Hrun. unfold fetch_fx_daily in Hrun.
    destruct (OHLCV._request_with_retries server 6) as [payload tr'].
    injection Hrun as Hrun _.
    destruct payload as [payload|e]; [|discriminate Hrun]. cbn [bind] in Hrun.
    apply series_rows_returns in Hrun.
    destruct Hrun as (fields & series & bars & -> & Hseries & Hperm & Hall & Hsorted).
    exists fields, series. split; [reflexivity|]. split; [exact Hseries|].
    split; [|split; [exact Hsorted|]].
    + rewrite <- (dates_of_quotes _ _ _
                    (fun d r q H => proj1 (fx_bar_shape _ _ d r q H)) Hall).
      apply Permutation_map, Hperm.
    + apply Forall_forall. intros q Hq.
      apply (Permutation_in _ Hperm) in Hq.
      destruct (quotes_have_entries _ _ _ _ Hall Hq) as ([date_str row] & Hin & Hb).
      cbn [fst snd] in Hb.
      destruct (fx_bar_shape _ _ _ _ _ Hb) as (_ & Hs & Ha & Hv & _).
      repeat split; assumption.
  - intros server fields Hpayload. split; intros Hnone; intros;
      unfold fetch_crypto_daily, fetch_fx_daily;
      destruct (OHLCV._request_with_retries server 6) as [payload tr];
      cbn [fst] in *; subst payload; cbn [bind series_rows];
      rewrite Hnone; reflexivity.
Qed.

(** *** [main] *)

Lemma files_app :
  forall tr1 tr2, files (tr1 ++ tr2) = (files tr1 ++ files tr2)%list.
Proof.
  intros tr1 tr2; induction tr1 as [|[path rows|s] tr1 IH]; cbn [app files].
  - reflexivity.
  - rewrite IH. reflexivity.
  - exact IH.
Qed.

Lemma save_returns :
  forall w fetched name all_records tr all_records' tr',
    save w fetched name all_records tr = (Return all_records', tr') ->
    exists rows,
      fetched = Return rows
      /\ all_records' = (all_records ++ rows)%list
      /\ tr' = (tr ++ [Wrote (daily name) rows])%list.
Proof.
  intros w fetched name all_records tr all_records' tr' H. unfold save in H.
  destruct fetched as [rows|e]; [|discriminate H].
  destruct (write_csv w (daily name) rows); [|discriminate H].
  injection H as <- <-. exists rows. repeat split.
Qed.

Lemma save_raises :
  forall w fetched name all_records tr e tr',
    save w fetched name all_records tr = (Raise e, tr') ->
    tr' = tr
    /\ fst (save w fetched name [] []) = Raise e.
Proof.
  intros w fetched name all_records tr e tr' H. unfold save in *.
  destruct fetched as [rows|e0].
  - destruct (write_csv w (daily name) rows); [discriminate H|].
    injection H as <- <-. split; reflexivity.
  - injection H as <- <-. split; reflexivity.
Qed.

Lemma and_then_returns :
  forall {A B : Type} (m : outcome A * list event) k (b : B) tr,
    and_then m k = (Return b, tr) ->
    exists a tr0, m = (Return a, tr0) /\ k a tr0 = (Return b, tr).
Proof.
  intros A B [[a|e] tr0] k b tr H; cbn [and_then] in H; [|discriminate H].
  exists a, tr0. split; [reflexivity|exact H].
Qed.

Lemma gold_returns :
  forall w all_records tr all_records' tr',
    gold w all_records tr = (Return all_records', tr') ->
    exists name rows,
      all_records' = (all_records ++ rows)%list
      /\ files tr' = (files tr ++ [(daily name, rows)])%list
      /\ ((name = "XAUUSD" /\ fetch_fx w "XAU" "USD" = Return rows)
          \/ (name = "GLD"
              /\ fetch_stock w "GLD" = Return rows
              /\ exists why,
                   fst (save w (fetch_fx w "XAU" "USD") "XAUUSD" [] [])
                   = Raise (AlphaVantageError why))).
Proof.
  intros w all_records tr all_records' tr' H. unfold gold in H.
  destruct (save w (fetch_fx w "XAU" "USD") "XAUUSD" all_records tr)
    as [[all1|e] tr1] eqn:Hfx.
  - injection H as <- <-. apply save_returns in Hfx.
    destruct Hfx as (rows & Hrows & -> & ->).
    exists "XAUUSD", rows. split; [reflexivity|]. split.
    + rewrite files_app. reflexivity.
    + left. split; [reflexivity|exact Hrows].
  - apply save_raises in Hfx. destruct Hfx as (-> & Hwhy).
    destruct e; try discriminate H.
    apply save_returns in H. destruct H as (rows & Hrows & -> & ->).
    exists "GLD", rows. split; [reflexivity|]. split.
    + rewrite !files_app. cbn. rewrite app_nil_r. reflexivity.
    + right. split; [reflexivity|]. split; [exact Hrows|].
      exists why. exact Hwhy.
Qed.

(** No file of a given name among the files written. *)
Lemma none_so_far : forall target rows, ~ In (daily target, rows) (files []).
Proof. intros target rows []. Qed.

Lemma none_after_sleep :
  forall target tr s,
    (forall rows, ~ In (daily target, rows) (files tr)) ->
    forall rows, ~ In (daily target, rows) (files (tr ++ [Slept s])).
Proof.
  intros target tr s H rows. rewrite files_app. cbn. rewrite app_nil_r.
  apply H.
Qed.

Lemma none_after_save :
  forall w fetched name all_records tr target,
    (daily name =? daily target)%string = false ->
    (forall rows, ~ In (daily target, rows) (files tr)) ->
    forall rows,
      ~ In (daily target, rows)
           (files (snd (save w fetched name all_records tr))).
Proof.
  intros w fetched name all_records tr target Hne H rows. unfold save.
  destruct fetched as [rows'|e]; [|apply H].
  destruct (write_csv w (daily name) rows'); [|apply H].
  cbn [snd]. rewrite files_app. cbn. intros Hin.
  apply in_app_or in Hin. destruct Hin as [Hin|[Hin|[]]]; [exact (H _ Hin)|].
  injection Hin as Hin _. apply String.eqb_neq in Hne. exact (Hne Hin).
Qed.

Lemma none_after_and_then :
  forall {A B : Type} (m : outcome A * list event)
         (k : A -> list event -> outcome B * list event) target,
    (forall rows, ~ In (daily target, rows) (files (snd m))) ->
    (forall a tr,
        (forall rows, ~ In (daily target, rows) (files tr)) ->
        forall rows, ~ In (daily target, rows) (files (snd (k a tr)))) ->
    forall rows, ~ In (daily target, rows) (files (snd (and_then m k))).
Proof.
  intros A B [[a|e] tr] k target Hm Hk; cbn [and_then snd] in *.
  - apply Hk. exact Hm.
  - exact Hm.
Qed.

(** The same, for the runs that raise. *)
Lemma none_when_raising :
  forall {A B : Type} (m : outcome A * list event)
         (k : A -> list event -> outcome B * list event) target,
    (forall rows, ~ In (daily target, rows) (files (snd m))) ->
    (forall a tr,
        (forall rows, ~ In (daily target, rows) (files tr)) ->
        forall e, fst (k a tr) = Raise e ->
        forall rows, ~ In (daily target, rows) (files (snd (k a tr)))) ->
    forall e, fst (and_then m k) = Raise e ->
    forall rows, ~ In (daily target, rows) (files (snd (and_then m k))).
Proof.
  intros A B [[a|e0] tr] k target Hm Hk e; cbn [and_then fst snd] in *.
  - apply Hk. exact Hm.
  - intros _. exact Hm.
Qed.

Lemma none_after_gold :
  forall w all_records tr target,
    (daily "XAUUSD" =? daily target)%string = false ->
    (daily "GLD" =? daily target)%string = false ->
    (forall rows, ~ In (daily target, rows) (files tr)) ->
    forall rows, ~ In (daily target, rows) (files (snd (gold w all_records tr))).
Proof.
  intros w all_records tr target Hx Hg H. unfold gold.
  pose proof (none_after_save w (fetch_fx w "XAU" "USD") "XAUUSD" all_records
                tr target Hx H) as Hfx.
  destruct (save w (fetch_fx w "XAU" "USD") "XAUUSD" all_records tr)
    as [[all1|e] tr1]; cbn [snd] in Hfx; [exact Hfx|].
  destruct e; try exact Hfx.
  apply none_after_save; [exact Hg|]. apply none_after_sleep. exact Hfx.
Qed.

(** X8.  [main] of the OHLCV script.  When it returns, it has written
    the six files of NVDA, KO, SPY, BTC-USD, DOGE-USD and gold, each with
    the rows its fetcher returned, and then the combined file, whose rows
    are the rows of the six files one after the other.  The gold file is
    the one of GLD exactly when the XAU/USD block ended in an
    [AlphaVantageError]; any other exception there, a connection error
    for one, ends [main] without a file for GLD.  When [main] raises, no
    combined file is written. *)
Theorem main_combines_what_it_wrote :
  forall w,
    (fst (main w) = Return tt ->
     exists nvda ko spy btc doge gold_name gold_rows,
       fetch_stock w "NVDA" = Return nvda
       /\ fetch_stock w "KO" = Return ko
       /\ fetch_stock w "SPY" = Return spy
       /\ fetch_crypto w "BTC" "USD" = Return btc
       /\ fetch_crypto w "DOGE" "USD" = Return doge
       /\ ((gold_name = "XAUUSD" /\ fetch_fx w "XAU" "USD" = Return gold_rows)
           \/ (gold_name = "GLD"
               /\ fetch_stock w "GLD" = Return gold_rows
               /\ exists why,
                    fst (save w (fetch_fx w "XAU" "USD") "XAUUSD" [] [])
                    = Raise (AlphaVantageError why)))
       /\ files (snd (main w))
          = [(daily "NVDA", nvda); (daily "KO", ko); (daily "SPY", spy);
             (daily "BTC-USD", btc); (daily "DOGE-USD", doge);
             (daily gold_name, gold_rows);
             (daily "all_assets",
              (nvda ++ ko ++ spy ++ btc ++ doge ++ gold_rows)%list)])
    /\ (forall e,
           fst (main w) = Raise e ->
           forall rows, ~ In (daily "all_assets", rows) (files (snd (main w))))
    /\ (forall e,
           fetch_fx w "XAU" "USD" = Raise e ->
           (forall why, e <> AlphaVantageError why) ->
           fst (main w) <> Return tt
           /\ forall rows, ~ In (daily "GLD", rows) (files (snd (main w)))).
Proof.
  intros w.
  assert (Hsuccess :
            fst (main w) = Return tt ->
            exists nvda ko spy btc doge gold_name gold_rows,
              fetch_stock w "NVDA" = Return nvda
              /\ fetch_stock w "KO" = Return ko
              /\ fetch_stock w "SPY" = Return spy
              /\ fetch_crypto w "BTC" "USD" = Return btc
              /\ fetch_crypto w "DOGE" "USD" = Return doge
              /\ ((gold_name = "XAUUSD"
                   /\ fetch_fx w "XAU" "USD" = Return gold_rows)
                  \/ (gold_name = "GLD"
                      /\ fetch_stock w "GLD" = Return gold_rows
                      /\ exists why,
                           fst (save w (fetch_fx w "XAU" "USD") "XAUUSD" [] [])
                           = Raise (AlphaVantageError why)))
              /\ files (snd (main w))
                 = [(daily "NVDA", nvda); (daily "KO", ko); (daily "SPY", spy);
                    (daily "BTC-USD", btc); (daily "DOGE-USD", doge);
                    (daily gold_name, gold_rows);
                    (daily "all_assets",
                     (nvda ++ ko ++ spy ++ btc ++ doge ++ gold_rows)%list)]).
  { intros Hret. destruct (main w) as [result tr] eqn:Hmain.
    cbn [fst snd] in *. subst result. unfold main in Hmain.
    apply and_then_returns in Hmain. destruct Hmain as (all1 & tr1 & H1 & Hmain).
    apply and_then_returns in Hmain. destruct Hmain as (all2 & tr2 & H2 & Hmain).
    apply and_then_returns in Hmain. destruct Hmain as (all3 & tr3 & H3 & Hmain).
    apply and_then_returns in Hmain. destruct Hmain as (all4 & tr4 & H4 & Hmain).
    apply and_then_returns in Hmain. destruct Hmain as (all5 & tr5 & H5 & Hmain).
    apply and_then_returns in Hmain. destruct Hmain as (all6 & tr6 & H6 & Hmain).
    apply save_returns in H1. destruct H1 as (nvda & Hnvda & -> & ->).
    apply save_returns in H2. destruct H2 as (ko & Hko & -> & ->).
    apply save_returns in H3. destruct H3 as (spy & Hspy & -> & ->).
    apply save_returns in H4. destruct H4 as (btc & Hbtc & -> & ->).
    apply save_returns in H5. destruct H5 as (doge & Hdoge & -> & ->).
    apply gold_returns in H6.
    destruct H6 as (gold_name & gold_rows & -> & Hfiles & Hgold).
    destruct (write_csv w (daily "all_assets") _); [|discriminate Hmain].
    injection Hmain as <-.
    exists nvda, ko, spy, btc, doge, gold_name, gold_rows.
    do 5 (split; [assumption|]). split; [exact Hgold|].
    rewrite files_app, Hfiles, !files_app. cbn [files app].
    rewrite <- !app_assoc. reflexivity. }
  split; [exact Hsuccess|]. split.
  - unfold main.
    repeat (apply none_when_raising;
            [first [ apply none_after_save;
                     [vm_compute; reflexivity
                     |first [apply none_so_far|apply none_after_sleep; assumption]]
                   | apply none_after_gold;
                     [vm_compute; reflexivity|vm_compute; reflexivity
                     |apply none_after_sleep; assumption] ]
            |intros ? ? ?]).
    intros e He.
    destruct (write_csv w (daily "all_assets") a4); [discriminate He|].
    cbn [snd]. assumption.
  - intros e Hfx Hnot. split.
    + intros Hret. destruct (Hsuccess Hret)
        as (_ & _ & _ & _ & _ & gold_name & gold_rows & _ & _ & _ & _ & _
            & Hgold & _).
      destruct Hgold as [(_ & Hrows)|(_ & _ & why & Hwhy)].
      * rewrite Hfx in Hrows. discriminate Hrows.
      * rewrite Hfx in Hwhy. cbn in Hwhy. injection Hwhy as ->.
        exact (Hnot why eq_refl).
    + unfold main.
      repeat (apply none_after_and_then;
              [first [ apply none_after_save;
                       [vm_compute; reflexivity
                       |first [apply none_so_far
                              |apply none_after_sleep; assumption]] ]
              |intros ? ? ?]).
      apply none_after_and_then.
      * unfold gold, save. rewrite Hfx. cbn [snd].
        destruct e; try (apply none_after_sleep; assumption).
        exfalso. exact (Hnot why eq_refl).
      * intros all6 tr6 H6.
        destruct (write_csv w (daily "all_assets") all6); cbn [snd];
          [|exact H6].
        intros rows Hin. rewrite files_app in Hin. cbn [files] in Hin.
        apply in_app_or in Hin. destruct Hin as [Hin|[Hin|[]]];
          [exact (H6 _ Hin)|].
        assert (Hne : daily "all_assets" <> daily "GLD")
          by (apply String.eqb_neq; vm_compute; reflexivity).
        apply (f_equal fst) in Hin. exact (Hne Hin).
Qed.

End AssetFacts.

(** ** The macro indicators *)

Module MacroFacts.

Import Containers.

Section WithParsers.

Variable fromisoformat : string -> option Z.
Variable float_of_string : string -> option Q.

#[local] Abbreviation examine := (Macro.examine fromisoformat float_of_string).
#[local] Abbreviation collect := (Macro.collect fromisoformat float_of_string).
#[local] Abbreviation kept := (Treasury.kept fromisoformat float_of_string).

(** The loop appends the rows of the elements it keeps, in order, and
    returns exactly when it raises on no element. *)
Lemma collect_kept :
  forall code items rows out,
    collect code items rows = Return out ->
    out = (rows ++ flat_map (kept code) items)%list
    /\ forall item e, In item items -> examine code item <> Macro.Abort e.
Proof.
  intros code items; induction items as [|item items IH]; intros rows out H;
    cbn [Macro.collect] in H.
  - injection H as <-. split; [symmetry; apply app_nil_r|intros item e []].
  - cbn [flat_map]. unfold Treasury.kept at 1.
    destruct (examine code item) as [|r|e0] eqn:Hex; [| |discriminate H].
    + destruct (IH _ _ H) as (-> & Hno). split; [reflexivity|].
      intros item' e [<-|Hin]; [rewrite Hex; discriminate|exact (Hno _ _ Hin)].
    + destruct (IH _ _ H) as (-> & Hno).
      split; [rewrite <- app_assoc; reflexivity|].
      intros item' e [<-|Hin]; [rewrite Hex; discriminate|exact (Hno _ _ Hin)].
Qed.

Lemma collect_goes_through :
  forall code items rows,
    (forall item e, In item items -> examine code item <> Macro.Abort e) ->
    exists out, collect code items rows = Return out.
Proof.
  intros code items; induction items as [|item items IH]; intros rows Hno;
    cbn [Macro.collect].
  - eauto.
  - pose proof (Hno item) as Hitem.
    destruct (examine code item) as [|r|e0].
    + apply IH. intros i e Hin. apply Hno. right. exact Hin.
    + apply IH. intros i e Hin. apply Hno. right. exact Hin.
    + exfalso. apply (Hitem e0); [left|]; reflexivity.
Qed.

(** What the loop keeps of an element. *)
Lemma examine_keep :
  forall code item r,
    examine code item = Macro.Keep r ->
    Macro.indicator r = code
    /\ exists fields s d,
         item = JObj fields
         /\ Macro.date r = JStr s /\ get "date" fields = JStr s
         /\ fromisoformat s = Some d
         /\ Macro.START_DATE <= d <= Macro.END_DATE
         /\ OHLCV.float float_of_string (get "value" fields)
            = Return (Macro.value r).
Proof.
  intros code item r H. unfold Macro.examine in H.
  destruct item as [| | | | | |fields]; try discriminate H.
  cbn [Macro.item_get] in H.
  destruct (negb (truthy (get "date" fields)) || is_none (get "value" fields));
    [discriminate H|].
  unfold Macro._within_range in H.
  destruct (get "date" fields) as [| | | |s| |] eqn:Hdate; try discriminate H.
  destruct (fromisoformat s) as [d|] eqn:Hd; [|discriminate H].
  destruct ((Macro.START_DATE <=? d) && (d <=? Macro.END_DATE)) eqn:Hin;
    [|discriminate H].
  destruct (OHLCV.float float_of_string (get "value" fields)) as [v|e] eqn:Hv.
  - injection H as <-. cbn. split; [reflexivity|].
    exists fields, s, d. apply andb_true_iff in Hin. destruct Hin as (H1 & H2).
    apply Z.leb_le in H1, H2. repeat split; auto.
  - destruct e; discriminate H.
Qed.

(** What a returned list of rows tells about the payload. *)
Lemma indicator_rows_returns :
  forall code payload rows,
    Macro.indicator_rows fromisoformat float_of_string code payload = Return rows ->
    exists fields data items,
      payload = JObj fields
      /\ lookup "data" fields = Some data
      /\ iter data = Return items
      /\ Permutation rows (flat_map (kept code) items)
      /\ Sorted (fun a b => String.leb (Macro.date_text a) (Macro.date_text b)
                            = true) rows
      /\ forall item e, In item items -> examine code item <> Macro.Abort e.
Proof.
  intros code payload rows H. unfold Macro.indicator_rows in H.
  destruct payload as [| | | | | |fields]; try discriminate H.
  destruct (lookup "data" fields) as [data|] eqn:Hdata; [|discriminate H].
  destruct (iter data) as [items|] eqn:Hiter; [|discriminate H].
  cbn [bind] in H.
  destruct (collect code items []) as [out|] eqn:Hcol; [|discriminate H].
  cbn [bind] in H. injection H as <-.
  destruct (collect_kept _ _ _ _ Hcol) as (-> & Hno). cbn [app].
  exists fields, data, items. repeat split; auto.
  - apply sort_by_perm.
  - apply sort_by_sorted, String.leb_total.
Qed.

Lemma in_kept :
  forall code items r,
    In r (flat_map (kept code) items)
    <-> exists item, In item items /\ examine code item = Macro.Keep r.
Proof.
  intros code items r. rewrite in_flat_map. unfold Treasury.kept. split.
  - intros (item & Hin & Hr). exists item. split; [exact Hin|].
    destruct (examine code item) as [|r'|e]; cbn in Hr;
      [destruct Hr|destruct Hr as [<-|[]]; reflexivity|destruct Hr].
  - intros (item & Hin & Hr). exists item. split; [exact Hin|].
    rewrite Hr. left; reflexivity.
Qed.

End WithParsers.


(** One step of [main] after the other. *)
Ltac macro_step :=
  match goal with
  | |- context [match Treasury.fetch_indicator ?w ?a ?b with _ => _ end] =>
      let rows := fresh "rows" in
      let e := fresh "e" in
      destruct (Treasury.fetch_indicator w a b) as [rows|e] eqn:?
  | |- context [match Treasury.fetch_yield ?w ?a with _ => _ end] =>
      let rows := fresh "rows" in
      let e := fresh "e" in
      destruct (Treasury.fetch_yield w a) as [rows|e] eqn:?
  | |- context [match Treasury.write_macro_csv ?w ?p ?r with _ => _ end] =>
      let e := fresh "e" in
      destruct (Treasury.write_macro_csv w p r) as [[]|e] eqn:?
  end.

(** X10.  [main] of the macro script stops at the first failure.  The
    files it writes are the first [n] of the four it is to write
    (inflation, unemployment, federal funds rate, 10-year yield), in that
    order and each with the rows its fetcher returned; it returns exactly
    when it has written all four; and when it raises, the exception is
    the one of the fetch or of the write of the next file, which is not
    written, nor is any later one. *)
Theorem macro_main_stops_at_the_first_failure :
  forall w,
    exists n,
      (n <= 4)%nat
      /\ map (fun f => (fst f, Return (snd f))) (Treasury.files (snd (Treasury.main w)))
         = firstn n (Treasury.planned w)
      /\ (fst (Treasury.main w) = Return tt <-> n = 4%nat)
      /\ (forall e,
             fst (Treasury.main w) = Raise e ->
             match nth_error (Treasury.planned w) n with
             | Some (path, Return rows) =>
                 Treasury.write_macro_csv w path rows = Raise e
             | Some (_, Raise e') => e' = e
             | None => False
             end).
Proof.
  intros w.
  unfold Treasury.main, Treasury.planned, Treasury.and_then, Treasury.save.
  repeat macro_step; cbn [fst snd];
    match goal with
    | |- context [Treasury.files ?tr] =>
        let k := eval cbn in (List.length (Treasury.files tr)) in exists k
    end;
    (split; [lia|]); (split; [reflexivity|]);
    (split; [split; intros H; (discriminate H || reflexivity)|]);
    intros e' He'; try discriminate He'; cbn [nth_error];
    try (injection He' as <-); first [assumption|reflexivity].
Qed.

(** X11.  What a call of any of the five Alpha Vantage fetchers can
    cost: at most six requests and at most 345 seconds of sleeping
    (15 + 30 + 60 + 120 + 120), whatever the server answers. *)
Theorem every_fetch_costs_at_most_six_requests :
  forall (fromisoformat : string -> option Z)
         (float_of_string : string -> option Q) (server : nat -> OHLCV.reply),
    let budget := fun tr : list OHLCV.event =>
      (OHLCV.requests tr <= 6)%nat
      /\ fold_right Z.add 0 (OHLCV.sleeps tr) <= 345 in
    (forall sym,
        budget (snd (OHLCV.fetch_stock_daily fromisoformat float_of_string
                       server sym)))
    /\ (forall sym market,
           budget (snd (Assets.fetch_crypto_daily fromisoformat float_of_string
                          server sym market)))
    /\ (forall from_symbol to_symbol,
           budget (snd (Assets.fetch_fx_daily fromisoformat float_of_string
                          server from_symbol to_symbol)))
    /\ (forall code,
           budget (snd (Macro.fetch_indicator fromisoformat float_of_string
                          server code)))
    /\ (forall maturity,
           budget (snd (Treasury.fetch_treasury_yield fromisoformat
                          float_of_string server maturity))).
Proof.
  intros fromisoformat float_of_string server budget.
  assert (Hrun : budget (snd (OHLCV._request_with_retries server 6))).
  { unfold OHLCV._request_with_retries.
    destruct (OHLCV.attempts server 6 (Z.to_nat 6) 0 15) as [result tr] eqn:Hrun.
    change 15 with (Z.min (15 * 2 ^ Z.of_nat 0) 120) in Hrun.
    apply HelperBounds.av_attempts_any in Hrun; [|reflexivity].
    destruct Hrun as (Hreq & Hsl & _). cbn [snd]. split; [exact Hreq|].
    rewrite Hsl. change (Z.to_nat 6) with 6%nat in Hreq.
    destruct (OHLCV.requests tr) as [|[|[|[|[|[|[|n]]]]]]];
      [vm_compute; discriminate ..|lia]. }
  unfold OHLCV.fetch_stock_daily, Assets.fetch_crypto_daily,
    Assets.fetch_fx_daily, Macro.fetch_indicator,
    Treasury.fetch_treasury_yield, Macro._request_with_retries.
  destruct (OHLCV._request_with_retries server 6) as [payload tr].
  cbn [snd] in *. repeat split; intros; apply Hrun.
Qed.

End MacroFacts.

(** ** The Fear and Greed script *)

Module FngScriptFacts.

Import Containers FngFacts Fng.

(** Distinct days inside a window are at most as many as the window has
    days. *)
Lemma days_in_window_bounded :
  forall (l : list Z) lo hi,
    NoDup l ->
    (forall x, In x l -> lo <= x <= hi) ->
    (List.length l <= Z.to_nat (hi - lo + 1))%nat.
Proof.
  intros l lo hi Hnd Hin.
  assert (Hincl : incl l (map (fun i => lo + Z.of_nat i)
                              (seq 0 (Z.to_nat (hi - lo + 1))))).
  { intros x Hx. specialize (Hin x Hx). apply in_map_iff.
    exists (Z.to_nat (x - lo)). split; [lia|]. apply in_seq. lia. }
  apply (NoDup_incl_length Hnd) in Hincl.
  rewrite length_map, length_seq in Hincl. exact Hincl.
Qed.

Lemma assign_length :
  forall {V : Type} (k : Z) (v : V) d,
    (List.length (Py.assign k v d) <= S (List.length d))%nat.
Proof.
  intros V k v d; induction d as [|[k' w] d IH]; cbn; [lia|].
  destruct (k' =? k); cbn; lia.
Qed.

Section WithRepr.

Variable repr : json -> option string.
Variable u : unicode.
Variables start_date end_date : Z.

(** Every row made by the loop carries the attribution. *)
Lemma candidate_attribution :
  forall rec day ts r,
    Fng.examine repr u start_date end_date rec = Candidate day ts r ->
    source r = SOURCE_NAME /\ source_url r = SOURCE_URL.
Proof.
  intros rec day ts r H. unfold Fng.examine in H.
  destruct rec as [| | | | | |fields]; try discriminate H.
  destruct (is_none (get "timestamp" fields)); [discriminate H|].
  destruct (read_timestamp repr u (get "timestamp" fields)) as [ts'|];
    [|discriminate H].
  destruct (_to_utc_date_from_unix_seconds ts') as [day'|]; [|discriminate H].
  destruct ((day' <? start_date) || (end_date <? day')); [discriminate H|].
  destruct (normalized repr u fields day' ts') as [r0|] eqn:Hrow;
    [|discriminate H].
  injection H as _ _ <-.
  destruct (normalized_row repr u _ _ _ _ Hrow) as (_ & _ & Hs & Hu & _).
  split; assumption.
Qed.

(** The dict holds at most one entry more per record. *)
Lemma fill_length :
  forall records d0 d1,
    Fng.fill repr u start_date end_date records d0 = Return d1 ->
    (List.length d1 <= List.length d0 + List.length records)%nat.
Proof.
  intros records; induction records as [|rec records IH]; intros d0 d1 H;
    cbn [Fng.fill] in H.
  - injection H as <-. cbn. lia.
  - cbn [List.length].
    destruct (Fng.examine repr u start_date end_date rec) as [|e|day ts r];
      [|discriminate H|].
    + apply IH in H. lia.
    + apply IH in H. unfold store in H.
      destruct (overwrites (Py.find day d0) ts); [|lia].
      pose proof (assign_length day (ts, r) d0). lia.
Qed.

(** What is known of the rows the filter returns. *)
Lemma filter_rows :
  forall records rows,
    filter_and_normalize_records repr u records start_date end_date
    = Return rows ->
    NoDup (map row_day rows)
    /\ (List.length rows <= List.length records)%nat
    /\ forall r,
         In r rows ->
         start_date <= row_day r <= end_date
         /\ exists rec,
              In rec records
              /\ Fng.examine repr u start_date end_date rec
                 = Candidate (row_day r) (timestamp r) r.
Proof.
  intros records rows Hrun. unfold filter_and_normalize_records in Hrun.
  destruct (Fng.fill repr u start_date end_date records []) as [d|e] eqn:Hfill;
    [|discriminate Hrun].
  cbn [bind] in Hrun. injection Hrun as <-.
  pose proof (fill_well_keyed repr u _ _ _ _ _
                (empty_well_keyed start_date end_date) Hfill) as Hwk.
  split; [apply (emit_one_row_per_day start_date end_date), Hwk|]. split.
  - rewrite (Permutation_length (emit_perm d)), length_map.
    apply fill_length in Hfill. cbn in Hfill. exact Hfill.
  - intros r Hin. apply (in_emit start_date end_date d r Hwk) in Hin.
    destruct Hwk as (Hnd & Hent). apply (find_in _ _ _ Hnd) in Hin.
    destruct (Hent _ _ _ Hin) as (_ & _ & Hrange & _).
    split; [exact Hrange|].
    destruct (fill_provenance repr u _ _ _ _ _ Hfill _ _ _ Hin) as [[]|Hrec].
    exact Hrec.
Qed.

End WithRepr.

(** X12.  What [filter_and_normalize_records] returns is bounded by the
    window: every row lies on a day of [start_date, end_date], there is
    at most one row for each day of the window, so at most
    [end_date - start_date + 1] rows (none when the window is empty), and
    never more rows than records; and every row carries the attribution,
    the source name and the source URL. *)
Theorem filter_output_is_bounded_by_the_window :
  forall repr u records start_date end_date rows,
    filter_and_normalize_records repr u records start_date end_date
    = Return rows ->
    (List.length rows <= Z.to_nat (end_date - start_date + 1))%nat
    /\ (List.length rows <= List.length records)%nat
    /\ (end_date < start_date -> rows = [])
    /\ Forall (fun r =>
                 start_date <= row_day r <= end_date
                 /\ source r = SOURCE_NAME
                 /\ source_url r = SOURCE_URL) rows.
Proof.
  intros repr u records start_date end_date rows Hrun.
  destruct (filter_rows repr u _ _ _ _ Hrun) as (Hnd & Hlen & Hrows).
  assert (Hbound : (List.length rows <= Z.to_nat (end_date - start_date + 1))%nat).
  { rewrite <- (length_map row_day).
    apply days_in_window_bounded; [exact Hnd|].
    intros x Hx. apply in_map_iff in Hx. destruct Hx as (r & <- & Hr).
    apply (Hrows r Hr). }
  split; [exact Hbound|]. split; [exact Hlen|]. split.
  - intros Hempty. destruct rows; [reflexivity|]. cbn in Hbound. lia.
  - apply Forall_forall. intros r Hr.
    destruct (Hrows r Hr) as (Hrange & rec & _ & Hex).
    split; [exact Hrange|].
    exact (candidate_attribution repr u _ _ _ _ _ _ Hex).
Qed.

(** X12 at work: four readings, a window of three days, two rows. *)
Lemma filter_output_is_bounded_by_the_window_witness :
  (2 <= Z.to_nat (days_from_civil 2024 1 3 - days_from_civil 2024 1 1 + 1))%nat
  /\ Forall (fun r => source r = SOURCE_NAME)
            [Scenario.fng_row "2024-01-01" 1704067200 71;
             Scenario.fng_row "2024-01-02" 1704153600 74].
Proof.
  destruct (filter_output_is_bounded_by_the_window Scenario.opaque_repr
              Scenario.ascii_only Scenario.fng_payload
              (days_from_civil 2024 1 1) (days_from_civil 2024 1 3)
              [Scenario.fng_row "2024-01-01" 1704067200 71;
               Scenario.fng_row "2024-01-02" 1704153600 74])
    as (Hbound & _ & _ & Hall); [vm_compute; reflexivity|].
  split; [exact Hbound|].
  eapply Forall_impl; [|exact Hall]. intros r (_ & Hs & _). exact Hs.
Defined.

(** Two lists in strictly ascending order of a key that have the same
    elements are the same list. *)
Lemma ascending_lists_with_the_same_elements :
  forall {A : Type} (key : A -> Z) (l l' : list A),
    StronglySorted (fun a b => key a < key b) l ->
    StronglySorted (fun a b => key a < key b) l' ->
    (forall x, In x l <-> In x l') ->
    l = l'.
Proof.
  intros A key l; induction l as [|a l IH]; intros l' Hs Hs' Hsame.
  - destruct l' as [|b l']; [reflexivity|].
    destruct (proj2 (Hsame b) (or_introl eq_refl)).
  - destruct l' as [|b l'].
    { destruct (proj1 (Hsame a) (or_introl eq_refl)). }
    inversion Hs as [|? ? Hs1 Ha]; subst.
    inversion Hs' as [|? ? Hs1' Hb]; subst.
    rewrite Forall_forall in Ha, Hb.
    assert (Hab : a = b).
    { destruct (proj1 (Hsame a) (or_introl eq_refl)) as [E|Hin]; [exact (eq_sym E)|].
      destruct (proj2 (Hsame b) (or_introl eq_refl)) as [E|Hin']; [exact E|].
      specialize (Ha _ Hin'). specialize (Hb _ Hin). lia. }
    subst b. f_equal. apply IH; [exact Hs1|exact Hs1'|].
    intros x. split; intros Hx.
    + destruct (proj1 (Hsame x) (or_intror Hx)) as [E|Hin]; [|exact Hin].
      subst x. specialize (Ha _ Hx). lia.
    + destruct (proj2 (Hsame x) (or_intror Hx)) as [E|Hin]; [|exact Hin].
      subst x. specialize (Hb _ Hx). lia.
Qed.

Section Order.

Variable repr : json -> option string.
Variable u : unicode.
Variables start_date end_date : Z.

#[local] Abbreviation examine := (Fng.examine repr u start_date end_date).

(** The rows returned, told from the records alone: the rows of the
    records that no record of the same day has a later timestamp than,
    when records with the same timestamp give the same row. *)
Lemma filter_membership :
  forall records rows,
    (forall rec1 rec2 day ts r1 r2,
        In rec1 records -> In rec2 records ->
        examine rec1 = Candidate day ts r1 ->
        examine rec2 = Candidate day ts r2 ->
        r1 = r2) ->
    filter_and_normalize_records repr u records start_date end_date
    = Return rows ->
    forall r,
      In r rows
      <-> (exists rec, In rec records
                       /\ examine rec = Candidate (row_day r) (timestamp r) r)
          /\ (forall rec ts r',
                 In rec records ->
                 examine rec = Candidate (row_day r) ts r' ->
                 ts <= timestamp r).
Proof.
  intros records rows Hties Hrun r.
  unfold filter_and_normalize_records in Hrun.
  destruct (Fng.fill repr u start_date end_date records []) as [d|e] eqn:Hfill;
    [|discriminate Hrun].
  cbn [bind] in Hrun. injection Hrun as <-.
  pose proof (fill_well_keyed repr u _ _ _ _ _
                (empty_well_keyed start_date end_date) Hfill) as Hwk.
  destruct (fill_covers repr u _ _ _ _ _ Hfill) as (_ & Hcov).
  rewrite (in_emit start_date end_date d r Hwk).
  destruct Hwk as (Hnd & Hent). split.
  - intros Hfind. split.
    + apply (find_in _ _ _ Hnd) in Hfind.
      destruct (fill_provenance repr u _ _ _ _ _ Hfill _ _ _ Hfind) as [[]|Hrec].
      exact Hrec.
    + intros rec ts r' Hin Hex.
      destruct (Hcov _ _ _ _ Hin Hex) as (p' & Hp' & Hle).
      rewrite Hfind in Hp'. injection Hp' as <-. exact Hle.
  - intros ((rec & Hin & Hex) & Hmax).
    destruct (Hcov _ _ _ _ Hin Hex) as ([ts' r'] & Hp' & Hle).
    cbn [fst] in Hle.
    pose proof Hp' as Hin'. apply (find_in _ _ _ Hnd) in Hin'.
    destruct (fill_provenance repr u _ _ _ _ _ Hfill _ _ _ Hin')
      as [[]|(rec' & Hrec' & Hex')].
    pose proof (Hmax _ _ _ Hrec' Hex') as Hge.
    assert (ts' = timestamp r) by lia. subst ts'.
    rewrite <- (Hties _ _ _ _ _ _ Hin Hrec' Hex Hex') in Hp'. exact Hp'.
Qed.

End Order.

(** X13.  The output of [filter_and_normalize_records] does not depend
    on the order of the records, as long as two records with the same
    timestamp give the same row (as they do when no timestamp occurs
    twice): the records in any other order give the same rows in the same
    order. *)
Theorem filter_ignores_the_order_of_the_records :
  forall repr u records records' start_date end_date rows,
    Permutation records records' ->
    (forall rec1 rec2 day ts r1 r2,
        In rec1 records -> In rec2 records ->
        Fng.examine repr u start_date end_date rec1 = Candidate day ts r1 ->
        Fng.examine repr u start_date end_date rec2 = Candidate day ts r2 ->
        r1 = r2) ->
    filter_and_normalize_records repr u records start_date end_date
    = Return rows ->
    filter_and_normalize_records repr u records' start_date end_date
    = Return rows.
Proof.
  intros repr u records records' start_date end_date rows Hperm Hties Hrun.
  assert (Hties' : forall rec1 rec2 day ts r1 r2,
             In rec1 records' -> In rec2 records' ->
             Fng.examine repr u start_date end_date rec1 = Candidate day ts r1 ->
             Fng.examine repr u start_date end_date rec2 = Candidate day ts r2 ->
             r1 = r2).
  { intros rec1 rec2 day ts r1 r2 H1 H2.
    apply (Permutation_in _ (Permutation_sym Hperm)) in H1, H2.
    exact (Hties rec1 rec2 day ts r1 r2 H1 H2). }
  assert (Hrun' : exists rows',
             filter_and_normalize_records repr u records' start_date end_date
             = Return rows').
  { unfold filter_and_normalize_records in *.
    destruct (Fng.fill repr u start_date end_date records []) as [d|e] eqn:Hfill;
      [|discriminate Hrun].
    destruct (fill_returns repr u start_date end_date records' []) as (d' & ->).
    - intros rec e Hin. apply (Permutation_in _ (Permutation_sym Hperm)) in Hin.
      exact (fill_no_abort repr u _ _ _ _ _ Hfill rec e Hin).
    - cbn [bind]. eauto. }
  destruct Hrun' as (rows' & Hrun'). rewrite Hrun'. f_equal.
  assert (Hsorted : forall recs out,
             filter_and_normalize_records repr u recs start_date end_date
             = Return out ->
             StronglySorted (fun a b => row_day a < row_day b) out).
  { intros recs out H. unfold filter_and_normalize_records in H.
    destruct (Fng.fill repr u start_date end_date recs []) as [d|e] eqn:Hfill;
      [|discriminate H].
    cbn [bind] in H. injection H as <-.
    apply (emit_chronological start_date end_date).
    exact (fill_well_keyed repr u _ _ _ _ _
             (empty_well_keyed start_date end_date) Hfill). }
  apply (ascending_lists_with_the_same_elements row_day);
    [exact (Hsorted _ _ Hrun')|exact (Hsorted _ _ Hrun)|].
  intros r.
  rewrite (filter_membership repr u _ _ _ _ Hties' Hrun' r).
  rewrite (filter_membership repr u _ _ _ _ Hties Hrun r).
  split; intros ((rec & Hin & Hex) & Hmax); split.
  - exists rec. split; [|exact Hex].
    exact (Permutation_in _ (Permutation_sym Hperm) Hin).
  - intros rec' ts r' Hin'. apply Hmax. exact (Permutation_in _ Hperm Hin').
  - exists rec. split; [|exact Hex]. exact (Permutation_in _ Hperm Hin).
  - intros rec' ts r' Hin'. apply Hmax.
    exact (Permutation_in _ (Permutation_sym Hperm) Hin').
Qed.

(** X13 at work: the readings of the duplicates scenario, last one
    first. *)
Lemma filter_ignores_the_order_of_the_records_witness :
  filter_and_normalize_records Scenario.opaque_repr Scenario.ascii_only
    (rev Scenario.fng_duplicates)
    (days_from_civil 2024 1 1) (days_from_civil 2024 1 3)
  = Return [Scenario.fng_row "2024-01-01" 1704110400 72;
            Scenario.fng_row "2024-01-02" 1704153600 74].
Proof.
  apply (filter_ignores_the_order_of_the_records Scenario.opaque_repr
           Scenario.ascii_only Scenario.fng_duplicates).
  - apply Permutation_rev.
  - intros rec1 rec2 day ts r1 r2 H1 H2 E1 E2. cbn in H1, H2.
    repeat (destruct H1 as [<-|H1]); try contradiction;
      repeat (destruct H2 as [<-|H2]); try contradiction;
      vm_compute in E1, E2; congruence.
  - vm_compute. reflexivity.
Defined.

(** The runs of [main] that end before the file is saved. *)
Ltac early_return Husage :=
  cbn [fst snd];
  split; [split; [intros _; reflexivity|intros _; exact Husage]|];
  split; [intros _; reflexivity|];
  split; [intros n Hn; injection Hn as <-; right; reflexivity|];
  split; [cbn; lia|];
  split; [split; [discriminate|intros (file & Hf); discriminate Hf]|];
  intros path rows Hf; discriminate Hf.

Ltac failed_run Hno Hreq :=
  cbn [fst snd];
  split; [split; [intros Hu; destruct (Hno Hu)|discriminate]|];
  split; [intros Hu; destruct (Hno Hu)|];
  split; [discriminate|];
  split; [exact Hreq|];
  split; [split; [discriminate|intros (file & Hf); discriminate Hf]|];
  intros path rows' Hf; discriminate Hf.

(** X14.  [main] of the Fear and Greed script.  It returns 2, without
    a request and without a file, exactly when one of the two dates does
    not read or the end lies before the start; it returns nothing but 0
    and 2; it never makes more than three requests; and a file is saved
    exactly when it returns 0: under the name given by [--out], or the
    default made of the two dates, with the rows the filter returned,
    which lie in the window and are at most as many as its days. *)
Theorem fng_main_exit_codes :
  forall repr u parse save_csv server start end_ out,
    let run := FngScript.main repr u parse save_csv server start end_ out in
    let usage_error :=
      parse start = None \/ parse end_ = None
      \/ exists s e, parse start = Some s /\ parse end_ = Some e /\ e < s in
    (usage_error <-> fst (fst run) = Return 2)
    /\ (usage_error -> run = (Return 2, [], None))
    /\ (forall n, fst (fst run) = Return n -> n = 0 \/ n = 2)
    /\ (FngHttp.requests (snd (fst run)) <= 3)%nat
    /\ (fst (fst run) = Return 0 <-> exists file, snd run = Some file)
    /\ (forall path rows,
           snd run = Some (path, rows) ->
           exists s e data,
             parse start = Some s /\ parse end_ = Some e /\ s <= e
             /\ path = (if (out =? "")%string then FngScript.default_out s e
                        else out)
             /\ fst (FngScript.fetch_all_fng server) = Return data
             /\ FngScript.rows_of repr u data s e = Return rows
             /\ save_csv rows path = Return tt
             /\ (List.length rows <= Z.to_nat (e - s + 1))%nat
             /\ Forall (fun r => s <= row_day r <= e) rows).
Proof.
  intros repr u parse save_csv server start end_ out run usage_error.
  subst run usage_error. unfold FngScript.main.
  destruct (parse start) as [s|] eqn:Hs.
  2:{ assert (Husage : @None Z = None \/ parse end_ = None
                       \/ exists s e, @None Z = Some s /\ parse end_ = Some e
                                      /\ e < s)
        by (left; reflexivity).
      early_return Husage. }
  destruct (parse end_) as [e|] eqn:He.
  2:{ assert (Husage : Some s = None \/ @None Z = None
                       \/ exists s0 e, Some s = Some s0 /\ @None Z = Some e
                                       /\ e < s0)
        by (right; left; reflexivity).
      early_return Husage. }
  destruct (e <? s) eqn:Hlt.
  { apply Z.ltb_lt in Hlt.
    assert (Husage : Some s = None \/ Some e = None
                     \/ exists s0 e0, Some s = Some s0 /\ Some e = Some e0
                                      /\ e0 < s0)
      by (right; right; exists s, e; auto).
    early_return Husage. }
  apply Z.ltb_ge in Hlt.
  assert (Hno : ~ (Some s = @None Z \/ Some e = @None Z
                   \/ exists s0 e0, Some s = Some s0 /\ Some e = Some e0
                                    /\ e0 < s0)).
  { intros [H|[H|(s0 & e0 & H1 & H2 & H3)]]; try discriminate H.
    injection H1 as <-. injection H2 as <-. lia. }
  assert (Hreq : (FngHttp.requests (snd (FngScript.fetch_all_fng server)) <= 3)%nat).
  { unfold FngScript.fetch_all_fng, FngHttp._http_get_json,
      FngHttp.fetch_all_fng_retries.
    destruct (FngHttp.attempts server 3 FngHttp.fetch_all_fng_backoff
                (Z.to_nat 3) 0 None) as [result tr] eqn:Hrun.
    apply HelperBounds.fng_attempts_any in Hrun; [|cbn; lia|reflexivity].
    destruct Hrun as ((_ & Hle) & _). cbn [snd]. exact Hle. }
  destruct (FngScript.fetch_all_fng server) as [data tr] eqn:Hfetch.
  cbn [fst snd] in Hreq.
  destruct data as [data|e0]; cbn [bind]; [|failed_run Hno Hreq].
  destruct (FngScript.rows_of repr u data s e) as [rows|e0] eqn:Hrows;
    [|failed_run Hno Hreq].
  destruct (save_csv rows
              (if negb (out =? "")%string then out
               else FngScript.default_out s e)) as [[]|e0] eqn:Hsave;
    [|failed_run Hno Hreq].
  cbn [fst snd].
  split; [split; [intros Hu; destruct (Hno Hu)|discriminate]|].
  split; [intros Hu; destruct (Hno Hu)|].
  split; [intros n H; injection H as <-; left; reflexivity|].
  split; [exact Hreq|]. split.
  - split; [intros _; eexists; reflexivity|reflexivity].
  - intros path rows' H. injection H as <- <-.
    exists s, e, data.
    assert (Hpath : (if negb (out =? "")%string then out
                     else FngScript.default_out s e)
                    = (if (out =? "")%string then FngScript.default_out s e
                       else out))
      by (destruct (out =? "")%string; reflexivity).
    rewrite <- Hpath.
    split; [reflexivity|]. split; [reflexivity|]. split; [exact Hlt|].
    split; [reflexivity|]. split; [reflexivity|]. split; [exact Hrows|].
    split; [exact Hsave|].
    unfold FngScript.rows_of in Hrows.
    destruct data as [| | | | | |fields]; try discriminate Hrows.
    destruct (iter (get_default "data" (JArr []) fields)) as [records|];
      [|discriminate Hrows].
    cbn [bind] in Hrows.
    destruct (filter_rows repr u _ _ _ _ Hrows) as (Hnd & _ & Hin).
    split.
    + rewrite <- (length_map row_day).
      apply days_in_window_bounded; [exact Hnd|].
      intros x Hx. apply in_map_iff in Hx. destruct Hx as (r & <- & Hr).
      apply (Hin r Hr).
    + apply Forall_forall. intros r Hr. apply (Hin r Hr).
Qed.

(** X14 at work: the service answers at once, the window has three
    days, two rows are saved under the default name. *)
Lemma fng_main_exit_codes_witness :
  FngScript.main Scenario.opaque_repr Scenario.ascii_only Scenario.iso_date
    Examples.fng_disk Examples.fng_serving "2024-01-01" "2024-01-03" ""
  = (Return 0, [FngHttp.Urlopen],
     Some ("FNG_daily_2024-01-01_2024-01-03.csv",
           [Scenario.fng_row "2024-01-01" 1704067200 71;
            Scenario.fng_row "2024-01-02" 1704153600 74]))
  /\ (2 <= Z.to_nat (days_from_civil 2024 1 3 - days_from_civil 2024 1 1 + 1))%nat.
Proof.
  assert (Hrun :
            FngScript.main Scenario.opaque_repr Scenario.ascii_only
              Scenario.iso_date Examples.fng_disk
              Examples.fng_serving "2024-01-01" "2024-01-03" ""
            = (Return 0, [FngHttp.Urlopen],
               Some ("FNG_daily_2024-01-01_2024-01-03.csv",
                     [Scenario.fng_row "2024-01-01" 1704067200 71;
                      Scenario.fng_row "2024-01-02" 1704153600 74])))
    by (vm_compute; reflexivity).
  split; [exact Hrun|].
  destruct (fng_main_exit_codes Scenario.opaque_repr Scenario.ascii_only
              Scenario.iso_date Examples.fng_disk Examples.fng_serving
              "2024-01-01" "2024-01-03" "")
    as (_ & _ & _ & _ & _ & Hfile).
  destruct (Hfile "FNG_daily_2024-01-01_2024-01-03.csv"
              [Scenario.fng_row "2024-01-01" 1704067200 71;
               Scenario.fng_row "2024-01-02" 1704153600 74])
    as (s & e & data & Hs & He & _ & _ & _ & _ & _ & Hlen & _).
  - rewrite Hrun. reflexivity.
  - vm_compute in Hs, He. injection Hs as <-. injection He as <-. exact Hlen.
Defined.

End FngScriptFacts.

(** ** The earnings rows and the header of the trending file *)

Module EarningsFacts.

Import Containers EarningsRows.

(** [k in l] for a list of strings. *)
Lemma mem_spec :
  forall k l, existsb (String.eqb k) l = true <-> In k l.
Proof.
  intros k l. rewrite existsb_exists. split.
  - intros (x & Hin & Heq). apply String.eqb_eq in Heq. subst x. exact Hin.
  - intros Hin. exists k. split; [exact Hin|apply String.eqb_refl].
Qed.

Section WithParser.

Variable strptime : string -> option Z.

(** The loop appends the rows of the elements it keeps, in order. *)
Lemma collect_quarterly :
  forall symbol items rows,
    collect strptime symbol items rows
    = (rows ++ flat_map (fun item =>
                           match quarterly strptime symbol item with
                           | Some r => [r]
                           | None => []
                           end) items)%list.
Proof.
  intros symbol items; induction items as [|item items IH]; intros rows;
    cbn [collect flat_map].
  - symmetry. apply app_nil_r.
  - destruct (quarterly strptime symbol item) as [r|].
    + rewrite IH, <- app_assoc. reflexivity.
    + apply IH.
Qed.

(** What the loop keeps of an element. *)
Lemma quarterly_keeps :
  forall symbol item r,
    quarterly strptime symbol item = Some r ->
    exists fields s d,
      item = JObj fields
      /\ r = quarterly_row symbol fields
      /\ lookup "fiscalDateEnding" fields = Some (JStr s)
      /\ strptime s = Some d
      /\ START_DATE <= d.
Proof.
  intros symbol item r H. unfold quarterly in H.
  destruct item as [| | | | | |fields]; try discriminate H.
  cbn [OHLCV.getitem] in H.
  destruct (lookup "fiscalDateEnding" fields) as [v|] eqn:Hl; [|discriminate H].
  cbn [bind] in H. unfold parse_date in H.
  destruct v as [| | | |s| |]; try discriminate H.
  destruct (strptime s) as [d|] eqn:Hd; [|discriminate H].
  destruct (d <? START_DATE) eqn:Hlt; [discriminate H|].
  injection H as <-. apply Z.ltb_ge in Hlt.
  exists fields, s, d. repeat split; assumption.
Qed.

End WithParser.

(** X15.  The loop of [fetch_quarterly_earnings] cannot fail on an
    element.  When the body is a dict whose ["quarterlyEarnings"] can be
    iterated, the function returns: one row, in the order of the body, for
    each element that is a dict whose ["fiscalDateEnding"] is a string
    that reads as a date on or after 2023-01-01, and nothing for any
    other element, whatever it is.  Every row carries the symbol asked
    for and the fields of its element.  A body without the key ends in
    the [RuntimeError] with the message of the service. *)
Theorem quarterly_loop_skips_what_it_cannot_date :
  forall strptime symbol fields,
    (forall v items,
        lookup "quarterlyEarnings" fields = Some v ->
        iter v = Return items ->
        exists rows,
          quarterly_earnings strptime symbol (JObj fields) = Rows rows
          /\ rows = flat_map (fun item =>
                                match quarterly strptime symbol item with
                                | Some r => [r]
                                | None => []
                                end) items
          /\ (List.length rows <= List.length items)%nat
          /\ Forall (fun r =>
                       exists item_fields s d,
                         In (JObj item_fields) items
                         /\ r = quarterly_row symbol item_fields
                         /\ get "symbol" r = JStr symbol
                         /\ get "fiscalDateEnding" r = JStr s
                         /\ strptime s = Some d
                         /\ START_DATE <= d) rows)
    /\ (lookup "quarterlyEarnings" fields = None ->
        quarterly_earnings strptime symbol (JObj fields)
        = UnexpectedResponse
            (or_ (or_ (get "Note" fields) (get "Information" fields))
                 (get "Error Message" fields))).
Proof.
  intros strptime symbol fields. split.
  - intros v items Hv Hiter.
    assert (Hrun : quarterly_earnings strptime symbol (JObj fields)
                   = Rows (collect strptime symbol items [])).
    { unfold quarterly_earnings. cbn [contains_key OHLCV.getitem].
      unfold has_key. rewrite Hv. cbn [bind]. rewrite Hiter. reflexivity. }
    rewrite collect_quarterly in Hrun. cbn [app] in Hrun.
    eexists. split; [exact Hrun|]. split; [reflexivity|]. split.
    + clear. induction items as [|item items IH]; cbn [flat_map List.length];
        [lia|].
      rewrite length_app.
      destruct (quarterly strptime symbol item); cbn [List.length]; lia.
    + apply Forall_forall. intros r Hr. apply in_flat_map in Hr.
      destruct Hr as (item & Hin & Hr).
      destruct (quarterly strptime symbol item) as [r'|] eqn:Hq;
        [|destruct Hr].
      destruct Hr as [<-|[]].
      destruct (quarterly_keeps _ _ _ _ Hq)
        as (item_fields & s & d & -> & -> & Hl & Hs & Hd).
      exists item_fields, s, d. split; [exact Hin|]. split; [reflexivity|].
      split; [reflexivity|]. split; [|split; assumption].
      cbn. unfold get. rewrite Hl. reflexivity.
  - intros Hnone. unfold quarterly_earnings. cbn [contains_key].
    unfold has_key. rewrite Hnone. reflexivity.
Qed.

(** X15 at work: of the four elements of the body, the quarter of 2024
    is the one that is kept. *)
Lemma quarterly_loop_skips_what_it_cannot_date_witness :
  quarterly_earnings Scenario.iso_date "NVDA" Examples.earnings_body
  = Rows [[("symbol", JStr "NVDA");
           ("fiscalDateEnding", JStr "2024-01-31");
           ("reportedDate", JStr "2024-02-21");
           ("reportedEPS", JStr "5.16");
           ("estimatedEPS", JNull);
           ("surprise", JNull);
           ("surprisePercentage", JNull)]].
Proof.
  destruct (quarterly_loop_skips_what_it_cannot_date Scenario.iso_date "NVDA"
              [("symbol", JStr "NVDA");
               ("quarterlyEarnings",
                JArr [Examples.earnings_quarter "2024-01-31" "2024-02-21" "5.16";
                      Examples.earnings_quarter "2022-10-31" "2022-11-16" "0.58";
                      JObj [("reportedEPS", JStr "1.0")];
                      JStr "n/a"])]) as (Hrows & _).
  destruct (Hrows _ _ eq_refl eq_refl) as (rows & Hrun & -> & _).
  exact Hrun.
Defined.

(** The header. *)
Lemma union_of_keys_spec :
  forall trending_rows k,
    In k (union_of_keys trending_rows)
    <-> k = "symbol" \/ exists r, In r trending_rows /\ In k (map fst r).
Proof.
  intros trending_rows k. unfold union_of_keys. rewrite nodup_In. cbn [In].
  rewrite in_flat_map. split; intros [H|H]; auto.
Qed.

Lemma others_spec :
  forall keys ordered k,
    In k (others keys ordered) <-> In k keys /\ ~ In k ordered.
Proof.
  intros keys ordered k. unfold others. split.
  - intros H. apply (Permutation_in _ (sort_perm _ _)) in H.
    apply filter_In in H. destruct H as (Hk & Hn). split; [exact Hk|].
    intros Hin. apply mem_spec in Hin. rewrite Hin in Hn. discriminate Hn.
  - intros (Hk & Hn). apply (Permutation_in _ (Permutation_sym (sort_perm _ _))).
    apply filter_In. split; [exact Hk|].
    destruct (existsb (String.eqb k) ordered) eqn:E; [|reflexivity].
    apply mem_spec in E. contradiction.
Qed.

Lemma others_nodup :
  forall keys ordered, NoDup keys -> NoDup (others keys ordered).
Proof.
  intros keys ordered Hnd. unfold others.
  apply (Permutation_NoDup (Permutation_sym (sort_perm _ _))).
  apply NoDup_filter. exact Hnd.
Qed.

(** X16.  The header that [write_estimates_csv] builds for the trending
    file takes every row: each key of each row is one of the field names,
    so no [writerow] raises.  The header starts with [symbol], goes on
    with [date] and [horizon] where some row has them, and ends with the
    other keys in ascending order; no name occurs twice, and every name
    but [symbol] is a key of some row. *)
Theorem trending_header_takes_every_row :
  forall trending_rows,
    let header := trending_header trending_rows in
    let keys := union_of_keys trending_rows in
    NoDup header
    /\ (forall r, In r trending_rows -> writerow header r = Return tt)
    /\ (forall k,
           In k header
           <-> k = "symbol"
               \/ exists r, In r trending_rows /\ In k (map fst r))
    /\ exists rest,
         header
         = ("symbol"
            :: filter (fun k => existsb (String.eqb k) keys) ["date"; "horizon"]
            ++ rest)%list
         /\ Sorted (fun a b => String.leb a b = true) rest
         /\ forall k, In k rest -> k <> "symbol" /\ k <> "date" /\ k <> "horizon".
Proof.
  intros trending_rows header keys. subst header. unfold trending_header.
  fold keys.
  set (ordered := fold_left (lead keys) ["date"; "horizon"] ["symbol"]).
  assert (Hordered :
            ordered
            = "symbol"
              :: filter (fun k => existsb (String.eqb k) keys) ["date"; "horizon"]).
  { subst ordered. cbn [fold_left filter]. unfold lead.
    destruct (existsb (String.eqb "date") keys);
      destruct (existsb (String.eqb "horizon") keys); reflexivity. }
  assert (Hsub : forall k, In k ordered -> In k keys).
  { intros k Hk. rewrite Hordered in Hk. destruct Hk as [<-|Hk].
    - apply union_of_keys_spec. left; reflexivity.
    - apply filter_In in Hk. destruct Hk as (_ & Hk). apply mem_spec. exact Hk. }
  assert (Hnd_ordered : NoDup ordered).
  { rewrite Hordered. cbn [filter].
    destruct (existsb (String.eqb "date") keys);
      destruct (existsb (String.eqb "horizon") keys);
      repeat constructor; cbn; intuition discriminate. }
  assert (Hin : forall k, In k (ordered ++ others keys ordered) <-> In k keys).
  { intros k. rewrite in_app_iff, others_spec. split.
    - intros [H|(H & _)]; [apply Hsub; exact H|exact H].
    - intros H. destruct (in_dec string_dec k ordered) as [Ho|Ho]; auto. }
  split; [|split; [|split]].
  - apply NoDup_app; [exact Hnd_ordered| |].
    + apply others_nodup. apply NoDup_nodup.
    + intros k Hk Hk'. apply others_spec in Hk'. destruct Hk' as (_ & Hn).
      exact (Hn Hk).
  - intros r Hr. unfold writerow.
    replace (forallb _ (map fst r)) with true; [reflexivity|].
    symmetry. apply forallb_forall. intros k Hk. apply mem_spec, Hin.
    apply union_of_keys_spec. right. exists r. split; assumption.
  - intros k. rewrite Hin. apply union_of_keys_spec.
  - exists (others keys ordered). split; [rewrite Hordered at 1; reflexivity|].
    split.
    + unfold others. apply sort_sorted. apply String.leb_total.
    + intros k Hk. apply others_spec in Hk. destruct Hk as (Hk & Hn).
      rewrite Hordered in Hn. cbn [filter In] in Hn.
      assert (Hd : k = "date" -> In k (filter (fun k0 => existsb (String.eqb k0) keys)
                                               ["date"; "horizon"])).
      { intros ->. apply filter_In. split; [left; reflexivity|].
        apply mem_spec. exact Hk. }
      assert (Hh : k = "horizon" -> In k (filter (fun k0 => existsb (String.eqb k0) keys)
                                                  ["date"; "horizon"])).
      { intros ->. apply filter_In. split; [right; left; reflexivity|].
        apply mem_spec. exact Hk. }
      repeat split; intros E; apply Hn; [left; symmetry; exact E|right; auto ..].
Qed.

(** *** [fetch_estimates] *)

Lemma lookup_set_item_same :
  forall k v d, lookup k (set_item k v d) = Some v.
Proof.
  intros k v d; induction d as [|[k' w] d IH]; cbn [set_item lookup].
  - rewrite String.eqb_refl. reflexivity.
  - destruct (k' =? k)%string eqn:E; cbn [lookup]; rewrite E;
      [reflexivity|exact IH].
Qed.

Lemma lookup_set_item_other :
  forall k k' v d, k' <> k -> lookup k' (set_item k v d) = lookup k' d.
Proof.
  intros k k' v d Hne; induction d as [|[k0 w] d IH]; cbn [set_item lookup].
  - destruct (k =? k')%string eqn:E; [|reflexivity].
    apply String.eqb_eq in E. congruence.
  - destruct (k0 =? k)%string eqn:E; cbn [lookup].
    + apply String.eqb_eq in E. subst k0.
      destruct (k =? k')%string eqn:E'; [|reflexivity].
      apply String.eqb_eq in E'. congruence.
    + destruct (k0 =? k')%string; [reflexivity|exact IH].
Qed.

Lemma set_item_keys :
  forall k v d,
    map fst (set_item k v d)
    = if existsb (String.eqb k) (map fst d) then map fst d
      else (map fst d ++ [k])%list.
Proof.
  intros k v d; induction d as [|[k' w] d IH]; cbn [set_item map fst existsb app].
  - reflexivity.
  - rewrite (String.eqb_sym k k').
    destruct (k' =? k)%string; cbn [map fst orb]; [reflexivity|].
    rewrite IH. destruct (existsb (String.eqb k) (map fst d)); reflexivity.
Qed.

Lemma set_item_nodup :
  forall k v d, NoDup (map fst d) -> NoDup (map fst (set_item k v d)).
Proof.
  intros k v d Hnd. rewrite set_item_keys.
  destruct (existsb (String.eqb k) (map fst d)) eqn:E; [exact Hnd|].
  apply NoDup_app; [exact Hnd|repeat constructor; intros []|].
  intros x Hx [<-|[]]. apply mem_spec in Hx. rewrite Hx in E. discriminate E.
Qed.

Lemma set_item_head :
  forall k v d k0 v0 rest,
    d = (k0, v0) :: rest ->
    exists v' rest', set_item k v d = (k0, v') :: rest'.
Proof.
  intros k v d k0 v0 rest ->. cbn [set_item].
  destruct (k0 =? k)%string; eauto.
Qed.

Lemma set_item_primitive :
  forall k v d,
    primitive v = true ->
    Forall (fun kv => primitive (snd kv) = true) d ->
    Forall (fun kv => primitive (snd kv) = true) (set_item k v d).
Proof.
  intros k v d Hv Hd; induction Hd as [|[k' w] d Hw Hd IH]; cbn [set_item].
  - repeat constructor. exact Hv.
  - destruct (k' =? k)%string; constructor; auto.
Qed.

Section Estimates.

Variable strptime : string -> option Z.

(** The dict built for an element of the trending list. *)
Lemma trending_row_spec :
  forall symbol fields,
    NoDup (map fst fields) ->
    let r := trending_row symbol fields in
    (exists v rest, r = ("symbol", v) :: rest)
    /\ NoDup (map fst r)
    /\ Forall (fun kv => primitive (snd kv) = true) r
    /\ forall k,
         lookup k r
         = match lookup k fields with
           | Some v =>
               if primitive v then Some v
               else if (k =? "symbol")%string then Some (JStr symbol) else None
           | None =>
               if (k =? "symbol")%string then Some (JStr symbol) else None
           end.
Proof.
  intros symbol fields Hnd r. subst r. unfold trending_row.
  assert (Hgen :
            forall fields r0,
              NoDup (map fst fields) ->
              (exists v rest, r0 = ("symbol", v) :: rest) ->
              NoDup (map fst r0) ->
              Forall (fun kv => primitive (snd kv) = true) r0 ->
              let r := fold_left
                         (fun r kv => if primitive (snd kv)
                                      then set_item (fst kv) (snd kv) r else r)
                         fields r0 in
              (exists v rest, r = ("symbol", v) :: rest)
              /\ NoDup (map fst r)
              /\ Forall (fun kv => primitive (snd kv) = true) r
              /\ forall k,
                   lookup k r
                   = match lookup k fields with
                     | Some v => if primitive v then Some v else lookup k r0
                     | None => lookup k r0
                     end).
  { clear. intros fields; induction fields as [|[k0 v0] fields IH];
      intros r0 Hnd Hhead Hnd0 Hprim r; subst r; cbn [fold_left].
    - repeat split; auto.
    - inversion Hnd as [|? ? Hnot Hnd']; subst. cbn [fst snd].
      destruct (primitive v0) eqn:Hp.
      + destruct Hhead as (v & rest & Hr0).
        destruct (IH (set_item k0 v0 r0) Hnd'
                     (set_item_head k0 v0 r0 _ _ _ Hr0)
                     (set_item_nodup k0 v0 r0 Hnd0)
                     (set_item_primitive k0 v0 r0 Hp Hprim))
          as (Hh & Hn & Hf & Hl).
        split; [exact Hh|]. split; [exact Hn|]. split; [exact Hf|].
        intros k. rewrite Hl. cbn [lookup].
        destruct (k0 =? k)%string eqn:E.
        * apply String.eqb_eq in E. subst k0.
          assert (Hnone : lookup k fields = None).
          { destruct (lookup k fields) eqn:El; [|reflexivity].
            exfalso. apply Hnot. clear - El.
            induction fields as [|[k' w] fields IH]; [discriminate El|].
            cbn [lookup] in El. destruct (k' =? k)%string eqn:E.
            - apply String.eqb_eq in E. left. exact E.
            - right. exact (IH El). }
          rewrite Hnone, Hp. apply lookup_set_item_same.
        * apply String.eqb_neq in E.
          rewrite (lookup_set_item_other k0 k v0 r0) by congruence.
          reflexivity.
      + destruct (IH r0 Hnd' Hhead Hnd0 Hprim) as (Hh & Hn & Hf & Hl).
        split; [exact Hh|]. split; [exact Hn|]. split; [exact Hf|].
        intros k. rewrite Hl. cbn [lookup].
        destruct (k0 =? k)%string eqn:E; [|reflexivity].
        apply String.eqb_eq in E. subst k0.
        assert (Hnone : lookup k fields = None).
        { destruct (lookup k fields) eqn:El; [|reflexivity].
          exfalso. apply Hnot. clear - El.
          induction fields as [|[k' w] fields IH]; [discriminate El|].
          cbn [lookup] in El. destruct (k' =? k)%string eqn:E.
          - apply String.eqb_eq in E. left. exact E.
          - right. exact (IH El). }
        rewrite Hnone, Hp. reflexivity. }
  destruct (Hgen fields [("symbol", JStr symbol)] Hnd)
    as (Hh & Hn & Hf & Hl).
  - eauto.
  - repeat constructor. intros [].
  - repeat constructor.
  - split; [exact Hh|]. split; [exact Hn|]. split; [exact Hf|].
    intros k. rewrite Hl. cbn [lookup]. rewrite (String.eqb_sym k "symbol").
    reflexivity.
Qed.

(** The trending loop raises on the first element that is no dict and
    on nothing else. *)
Lemma trending_spec :
  forall symbol items rows,
    trending strptime symbol items rows
    = if forallb (fun item => match item with JObj _ => true | _ => false end)
                 items
      then Return (rows
                   ++ flat_map (fun item =>
                                  match item with
                                  | JObj fields =>
                                      if keep strptime item
                                      then [trending_row symbol fields] else []
                                  | _ => []
                                  end) items)%list
      else Raise AttributeError.
Proof.
  intros symbol items; induction items as [|item items IH]; intros rows;
    cbn [trending forallb flat_map].
  - rewrite app_nil_r. reflexivity.
  - destruct item as [| | | | | |fields];
      try (cbn [keep negb andb]; reflexivity).
    cbn [andb]. destruct (keep strptime (JObj fields)); cbn [negb].
    + rewrite IH. destruct (forallb _ items); [|reflexivity].
      rewrite <- app_assoc. reflexivity.
    + apply IH.
Qed.

Lemma keep_spec :
  forall item,
    keep strptime item = false
    <-> exists fields s d,
          item = JObj fields
          /\ lookup "date" fields = Some (JStr s)
          /\ s <> ""
          /\ strptime s = Some d
          /\ d < START_DATE.
Proof.
  intros item. split.
  - intros H. unfold keep in H.
    destruct item as [| | | | | |fields]; try discriminate H.
    unfold get in H. cbn [OHLCV.getitem] in H.
    destruct (lookup "date" fields) as [v|] eqn:Hl; [|discriminate H].
    destruct (truthy v) eqn:Ht; [|discriminate H].
    cbn [bind] in H. unfold parse_date in H.
    destruct v as [| | | |s| |]; try discriminate H.
    destruct (strptime s) as [d|] eqn:Hd; [|discriminate H].
    apply Z.leb_gt in H. exists fields, s, d.
    split; [reflexivity|]. split; [exact Hl|]. split; [|split; assumption].
    intros ->. discriminate Ht.
  - intros (fields & s & d & -> & Hl & Hs & Hd & Hlt).
    unfold keep, get. cbn [OHLCV.getitem]. rewrite Hl. cbn [truthy].
    destruct (s =? "")%string eqn:E; [apply String.eqb_eq in E; contradiction|].
    cbn [negb bind parse_date]. rewrite Hd. apply Z.leb_gt. exact Hlt.
Qed.

Lemma estimate_keeps :
  forall out_key other_key symbol item r,
    estimate strptime out_key other_key symbol item = Some r ->
    exists fields s d,
      item = JObj fields
      /\ lookup "symbol" r = Some (JStr symbol)
      /\ lookup "fiscalDateEnding" r = Some (JStr s)
      /\ lookup "fiscalDateEnding" fields = Some (JStr s)
      /\ strptime s = Some d
      /\ START_DATE <= d.
Proof.
  intros out_key other_key symbol item r H. unfold estimate in H.
  destruct item as [| | | | | |fields]; try discriminate H.
  cbn [Macro.item_get bind] in H. unfold parse_date, get in H.
  destruct (lookup "fiscalDateEnding" fields) as [v|] eqn:Hl; [|discriminate H].
  destruct v as [| | | |s| |]; try discriminate H.
  destruct (strptime s) as [d|] eqn:Hd; [|discriminate H].
  destruct (d <? START_DATE) eqn:Hlt; [discriminate H|].
  injection H as <-. apply Z.ltb_ge in Hlt.
  exists fields, s, d. repeat split; auto.
Qed.

Lemma gather_spec :
  forall dict_of items rows,
    gather dict_of items rows
    = (rows ++ flat_map (fun item => match dict_of item with
                                     | Some r => [r]
                                     | None => []
                                     end) items)%list.
Proof.
  intros dict_of items; induction items as [|item items IH]; intros rows;
    cbn [gather flat_map].
  - symmetry. apply app_nil_r.
  - destruct (dict_of item) as [r|].
    + rewrite IH, <- app_assoc. reflexivity.
    + apply IH.
Qed.

End Estimates.

(** X20.  [fetch_estimates] keeps what it cannot date.  A row of the
    two quarterly lists is made only for a dict whose ["fiscalDateEnding"]
    is a string that reads as a date on or after 2023-01-01.  An element
    of the trending list is dropped only when its ["date"] is a string
    that is not empty, reads as a date and lies before 2023-01-01: an
    element without a date, or with one that does not read, is kept.  Its
    row holds the fields of the element that are strings, numbers or
    null, under [symbol] first, and the symbol asked for gives way to a
    field ["symbol"] of the element itself.  An element of the trending
    list that is no dict makes the function raise [AttributeError],
    whereas the quarterly loops pass over such an element.  The
    [RuntimeError] for an unknown shape is raised only when both quarterly
    lists came out empty and the body has no ["estimates"]. *)
Theorem estimates_keep_what_they_cannot_date :
  forall strptime symbol,
    (forall out_key other_key item r,
        estimate strptime out_key other_key symbol item = Some r ->
        exists fields s d,
          item = JObj fields
          /\ lookup "symbol" r = Some (JStr symbol)
          /\ lookup "fiscalDateEnding" r = Some (JStr s)
          /\ lookup "fiscalDateEnding" fields = Some (JStr s)
          /\ strptime s = Some d
          /\ START_DATE <= d)
    /\ (forall item,
           keep strptime item = false
           <-> exists fields s d,
                 item = JObj fields
                 /\ lookup "date" fields = Some (JStr s)
                 /\ s <> ""
                 /\ strptime s = Some d
                 /\ d < START_DATE)
    /\ (forall items,
           (forall rows, trending strptime symbol items [] = Return rows ->
                         rows
                         = flat_map (fun item =>
                                       match item with
                                       | JObj fields =>
                                           if keep strptime item
                                           then [trending_row symbol fields]
                                           else []
                                       | _ => []
                                       end) items)
           /\ ((exists item, In item items
                             /\ forall fields, item <> JObj fields)
               <-> trending strptime symbol items [] = Raise AttributeError))
    /\ (forall fields,
           NoDup (map fst fields) ->
           (exists v rest, trending_row symbol fields = ("symbol", v) :: rest)
           /\ NoDup (map fst (trending_row symbol fields))
           /\ Forall (fun kv => primitive (snd kv) = true)
                     (trending_row symbol fields)
           /\ forall k,
                lookup k (trending_row symbol fields)
                = match lookup k fields with
                  | Some v =>
                      if primitive v then Some v
                      else if (k =? "symbol")%string then Some (JStr symbol)
                           else None
                  | None =>
                      if (k =? "symbol")%string then Some (JStr symbol)
                      else None
                  end)
    /\ (forall data message,
           estimates strptime symbol data = NoKnownShape message ->
           exists fields eps_items rev_items,
             data = JObj fields
             /\ lookup "estimates" fields = None
             /\ listed "quarterlyEarningsEstimates" fields = Return eps_items
             /\ listed "quarterlyRevenueEstimates" fields = Return rev_items
             /\ (forall item, In item eps_items ->
                              estimate strptime "estimatedEPS" "estimated_eps"
                                symbol item = None)
             /\ (forall item, In item rev_items ->
                              estimate strptime "revenueEstimate"
                                "revenue_estimate" symbol item = None)).
Proof.
  intros strptime symbol.
  split; [intros out_key other_key item r H;
          exact (estimate_keeps strptime _ _ _ _ _ H)|].
  split; [apply keep_spec|].
  split; [|split; [intros fields Hnd; apply trending_row_spec; exact Hnd|]].
  - intros items. rewrite trending_spec. cbn [app].
    destruct (forallb (fun item => match item with
                                   | JObj _ => true
                                   | _ => false
                                   end) items) eqn:Hall.
    + split; [intros rows H; injection H as <-; reflexivity|].
      split; [|discriminate].
      intros (item & Hin & Hnot). exfalso.
      rewrite forallb_forall in Hall. specialize (Hall item Hin).
      destruct item as [| | | | | |fields]; try discriminate Hall.
      exact (Hnot fields eq_refl).
    + split; [discriminate|]. split; [reflexivity|]. intros _.
      assert (Hex : exists item,
                 In item items
                 /\ match item with JObj _ => true | _ => false end = false).
      { clear - Hall. induction items as [|item items IH];
          [discriminate Hall|].
        cbn [forallb] in Hall. apply andb_false_iff in Hall.
        destruct Hall as [H|H].
        - exists item. split; [left; reflexivity|exact H].
        - destruct (IH H) as (x & Hx & Hd).
          exists x. split; [right; exact Hx|exact Hd]. }
      destruct Hex as (item & Hin & Hd). exists item. split; [exact Hin|].
      intros fields ->. discriminate Hd.
  - intros data message H. unfold estimates in H.
    destruct data as [| | | | | |fields]; try discriminate H.
    destruct (listed "quarterlyEarningsEstimates" fields) as [eps_items|]
      eqn:Heps; [|discriminate H].
    destruct (listed "quarterlyRevenueEstimates" fields) as [rev_items|]
      eqn:Hrev; [|discriminate H].
    destruct (bind (listed "estimates" fields)
                   (fun items => trending strptime symbol items []))
      as [trending_rows|]; [|discriminate H].
    rewrite !gather_spec in H. cbn [app] in H.
    destruct (flat_map _ eps_items) as [|r1 l1] eqn:E1; [|discriminate H].
    destruct (flat_map _ rev_items) as [|r2 l2] eqn:E2; [|discriminate H].
    unfold has_key in H.
    destruct (lookup "estimates" fields) eqn:Hest; [discriminate H|].
    exists fields, eps_items, rev_items.
    split; [reflexivity|]. split; [exact Hest|]. split; [exact Heps|].
    split; [exact Hrev|].
    assert (Hnone : forall (f : json -> option row) (items : list json),
               flat_map (fun item => match f item with
                                     | Some r => [r]
                                     | None => []
                                     end) items = [] ->
               forall item, In item items -> f item = None).
    { clear. intros f items; induction items as [|x items IH]; intros H item Hin;
        [destruct Hin|].
      cbn [flat_map] in H. destruct (f x) as [r|] eqn:Hx; [discriminate H|].
      destruct Hin as [<-|Hin]; [exact Hx|exact (IH H item Hin)]. }
    split; [exact (Hnone _ _ E1)|exact (Hnone _ _ E2)].
Qed.

(** X20 at work: the element of 2022 is dropped, the one whose date
    does not read is kept, with its own symbol and without its list. *)
Lemma estimates_keep_what_they_cannot_date_witness :
  trending Scenario.iso_date "NVDA" Examples.trending_items []
  = Return [[("symbol", JStr "NVDA.X"); ("date", JStr "n/a");
             ("eps_estimate_average", JStr "1.2")]]
  /\ keep Scenario.iso_date Examples.undated_estimate = true.
Proof.
  split; [vm_compute; reflexivity|].
  destruct (estimates_keep_what_they_cannot_date Scenario.iso_date "NVDA")
    as (_ & Hkeep & _).
  destruct (keep Scenario.iso_date Examples.undated_estimate) eqn:E;
    [reflexivity|].
  apply Hkeep in E. destruct E as (fields & s & d & Hitem & Hl & _ & Hd & _).
  injection Hitem as <-. vm_compute in Hl. injection Hl as <-.
  vm_compute in Hd. discriminate Hd.
Defined.

End EarningsFacts.

(** ** The requests of a tweets crawl *)

Module TweetsLogFacts.

Import Tweets TweetsLog PageErrors.

Lemma crawl_log_spec :
  forall w user_id todo page cursor all_tweets,
    let run := crawl_log w user_id todo page cursor all_tweets in
    fst run = crawl w user_id todo page cursor all_tweets
    /\ (List.length (snd run) <= todo)%nat
    /\ map fst (snd run)
       = map (fun i => page + Z.of_nat i) (seq 0 (List.length (snd run)))
    /\ (forall request rest, snd run = request :: rest -> snd request = cursor)
    /\ chained w user_id (snd run)
    /\ fst run = (all_tweets ++ flat_map (brought w user_id) (snd run))%list
    /\ (forall request,
           In request (removelast (snd run)) ->
           handed_on w user_id request <> None).
Proof.
  intros w user_id todo; induction todo as [|todo IH];
    intros page cursor all_tweets; cbn [crawl_log crawl].
  - cbn. rewrite app_nil_r. repeat split; auto; try lia; try discriminate.
  - pose proof (try_page_shape w user_id page cursor all_tweets) as Hshape.
    destruct (try_page w user_id page cursor []) as [[tweets next]|e] eqn:Hpage.
    + rewrite Hshape. destruct (truthy next) eqn:Hnext; cbn [negb].
      * specialize (IH (page + 1) next (all_tweets ++ tweets)%list).
        destruct (crawl_log w user_id todo (page + 1) next
                    (all_tweets ++ tweets)%list) as [result sent] eqn:Hrest.
        cbn [fst snd] in IH |- *.
        destruct IH as (Hres & Hlen & Hpages & Hfirst & Hchain & Hall & Hmid).
        split; [exact Hres|]. split; [cbn; lia|]. split; [|split; [|split; [|split]]].
        -- cbn [List.length seq map fst]. rewrite Z.add_0_r. f_equal.
           rewrite Hpages, <- seq_shift, map_map. apply map_ext. intros i. lia.
        -- intros request rest H. injection H as <- _. reflexivity.
        -- destruct sent as [|nxt sent']; [exact I|]. cbn [chained].
           split; [|exact Hchain].
           unfold handed_on. cbn [fst snd]. rewrite Hpage, Hnext.
           rewrite (Hfirst nxt sent' eq_refl). reflexivity.
        -- rewrite Hall. cbn [flat_map]. unfold brought at 2. cbn [fst snd].
           rewrite Hpage, <- app_assoc. reflexivity.
        -- intros request Hin. destruct sent as [|nxt sent']; [destruct Hin|].
           cbn [removelast] in Hin. destruct Hin as [<-|Hin].
           ++ unfold handed_on. cbn [fst snd]. rewrite Hpage, Hnext. discriminate.
           ++ apply Hmid. exact Hin.
      * cbn [fst snd List.length seq map flat_map removelast]. rewrite Z.add_0_r.
        unfold brought. cbn [fst snd]. rewrite Hpage, app_nil_r.
        repeat split; auto; try lia;
          try (intros request rest H; injection H as <- _; reflexivity);
          try (intros request []).
    + rewrite Hshape. cbn [fst snd List.length seq map flat_map removelast].
      rewrite Z.add_0_r. unfold brought. cbn [fst snd]. rewrite Hpage, !app_nil_r.
      repeat split; auto; try lia;
        try (intros request rest H; injection H as <- _; reflexivity);
        try (intros request []).
Qed.

(** X17.  The requests of [fetch_user_tweets].  It sends at most
    [max_pages] requests (none when [max_pages] is not positive),
    numbered 1, 2, ...; the first carries no cursor and each of the
    others the [next_cursor_str] of the page before it, which was not
    empty; and the list it returns is made of the tweets of the pages
    these requests brought, in their order, a request whose page raised
    bringing nothing. *)
Theorem crawl_requests_are_chained_by_the_cursor :
  forall w user_id max_pages,
    let run := fetch_user_tweets_log w user_id max_pages in
    fst run = fetch_user_tweets w user_id max_pages
    /\ (List.length (snd run) <= Z.to_nat max_pages)%nat
    /\ map fst (snd run)
       = map (fun i => 1 + Z.of_nat i) (seq 0 (List.length (snd run)))
    /\ (forall request rest, snd run = request :: rest -> snd request = JNull)
    /\ chained w user_id (snd run)
    /\ (forall request,
           In request (removelast (snd run)) ->
           handed_on w user_id request <> None)
    /\ fetch_user_tweets w user_id max_pages
       = flat_map (brought w user_id) (snd run).
Proof.
  intros w user_id max_pages run. subst run.
  unfold fetch_user_tweets_log, fetch_user_tweets.
  destruct (crawl_log_spec w user_id (Z.to_nat max_pages) 1 JNull [])
    as (Hres & Hlen & Hpages & Hfirst & Hchain & Hall & Hmid).
  repeat split; auto.
  rewrite <- Hres, Hall. reflexivity.
Qed.

End TweetsLogFacts.

(** ** The transcript files *)

Module TranscriptFacts.

Import SeekingAlpha Transcripts.

Lemma present_put :
  forall name content dir n,
    present n dir = true -> n <> name ->
    present n (put name content dir) = true
    /\ put name content dir n = dir n.
Proof.
  intros name content dir n Hp Hne. unfold present, put in *.
  destruct (n =? name)%string eqn:E; [apply String.eqb_eq in E; contradiction|].
  split; [exact Hp|reflexivity].
Qed.

(** Fewer files are missing once a file has been touched that was
    missing. *)
Lemma missing_after_put :
  forall name content dir rows,
    present name dir = false ->
    (forall n, present n dir = true ->
               present n (put name content dir) = true
               /\ put name content dir n = dir n)
    /\ incl (filter (missing (put name content dir)) rows)
            (filter (missing dir) rows)
    /\ (List.length (filter (missing (put name content dir)) rows)
        <= List.length (filter (missing dir) rows))%nat.
Proof.
  intros name content dir rows Hp.
  assert (Hdir1 : forall n, present n dir = true ->
                            present n (put name content dir) = true
                            /\ put name content dir n = dir n).
  { intros n Hn. apply present_put; [exact Hn|].
    intros ->. rewrite Hn in Hp. discriminate Hp. }
  assert (Hmiss : forall r, missing (put name content dir) r = true ->
                            missing dir r = true).
  { intros r. unfold missing. destruct (fname r) as [n|]; [|auto].
    destruct (present n dir) eqn:Hn; [|reflexivity].
    destruct (Hdir1 n Hn) as (-> & _). auto. }
  split; [exact Hdir1|]. split.
  - intros r Hr. apply filter_In in Hr. destruct Hr as (Hr & Hm).
    apply filter_In. split; [exact Hr|apply Hmiss; exact Hm].
  - induction rows as [|r l IHl]; cbn [filter]; [lia|].
    destruct (missing (put name content dir) r) eqn:E1.
    + rewrite (Hmiss r E1). cbn. lia.
    + destruct (missing dir r); cbn; lia.
Qed.

(** The loop leaves the files that are there and not empty as they
    are, and asks for no more URLs than there are rows without a file,
    whether it returns or raises. *)
Lemma download_keeps :
  forall d fetch rows dir result dir' asked,
    download d fetch rows dir = (result, dir', asked) ->
    (forall n, present n dir = true -> dir' n = dir n)
    /\ (List.length asked <= List.length (filter (missing dir) rows))%nat
    /\ incl asked (map url (filter (missing dir) rows)).
Proof.
  intros d fetch rows; induction rows as [|row rows IH];
    intros dir result dir' asked H; cbn [download] in H.
  - injection H as <- <- <-. repeat split; auto. intros x [].
  - cbn [filter].
    assert (Hrow : missing dir row
                   = match fname row with
                     | Return name => negb (present name dir)
                     | Raise _ => false
                     end) by reflexivity.
    rewrite Hrow. clear Hrow.
    destruct (fname row) as [name|e] eqn:Hname.
    2:{ injection H as <- <- <-. repeat split; auto; [cbn; lia|intros x []]. }
    destruct (present name dir) eqn:Hp; cbn [negb].
    + exact (IH _ _ _ _ H).
    + destruct (fetch (url row)) as [text|e] eqn:Hfetch.
      * destruct (write_fails d name text) as [[e content]|] eqn:Hw.
        -- injection H as <- <- <-.
           destruct (missing_after_put name content dir rows Hp)
             as (Hdir1 & _ & _).
           split; [|split].
           ++ intros n Hn. apply (Hdir1 n Hn).
           ++ cbn. lia.
           ++ intros x [<-|[]]. left. reflexivity.
        -- destruct (download d fetch rows (write_text name text dir))
             as [[result2 dir2] asked2] eqn:Hrest.
           injection H as <- <- <-.
           destruct (IH _ _ _ _ Hrest) as (Hkeep & Hlen & Hincl).
           destruct (missing_after_put name (Some text) dir rows Hp)
             as (Hdir1 & Hsub & Hcount).
           split; [|split].
           ++ intros n Hn. destruct (Hdir1 n Hn) as (Hn1 & <-).
              apply Hkeep. exact Hn1.
           ++ cbn [List.length]. unfold write_text in Hlen. lia.
           ++ intros x [<-|Hx]; [left; reflexivity|]. right.
              apply Hincl in Hx. apply in_map_iff in Hx.
              destruct Hx as (r & <- & Hr). apply in_map. apply Hsub.
              exact Hr.
      * destruct (download d fetch rows dir)
          as [[result2 dir2] asked2] eqn:Hrest.
        injection H as <- <- <-.
        destruct (IH _ _ _ _ Hrest) as (Hkeep & Hlen & Hincl).
        split; [exact Hkeep|]. split; [cbn [List.length]; lia|].
        intros x [<-|Hx]; [left; reflexivity|]. right. exact (Hincl x Hx).
Qed.

(** A loop that returns has found a name for every row. *)
Lemma download_names :
  forall d fetch rows dir dir' asked,
    download d fetch rows dir = (Return tt, dir', asked) ->
    forall row, In row rows -> exists name, fname row = Return name.
Proof.
  intros d fetch rows; induction rows as [|row rows IH];
    intros dir dir' asked H r Hr; [destruct Hr|].
  cbn [download] in H.
  destruct (fname row) as [name|e] eqn:Hname; [|discriminate H].
  destruct Hr as [<-|Hr]; [eauto|].
  destruct (present name dir); [exact (IH _ _ _ H r Hr)|].
  destruct (fetch (url row)) as [text|e].
  - destruct (write_fails d name text) as [[e content]|]; [discriminate H|].
    destruct (download d fetch rows (write_text name text dir))
      as [[result2 dir2] asked2] eqn:Hrest.
    injection H as -> <- <-. exact (IH _ _ _ Hrest r Hr).
  - destruct (download d fetch rows dir) as [[result2 dir2] asked2] eqn:Hrest.
    injection H as -> <- <-. exact (IH _ _ _ Hrest r Hr).
Qed.

(** After a loop that returns, every row that was served a text that
    is not empty has its file. *)
Lemma download_fills :
  forall d fetch rows dir dir' asked,
    (forall row, In row rows ->
                 exists text, fetch (url row) = Return text /\ text <> "") ->
    download d fetch rows dir = (Return tt, dir', asked) ->
    forall row, In row rows -> missing dir' row = false.
Proof.
  intros d fetch rows; induction rows as [|row rows IH];
    intros dir dir' asked Hserved H r Hr; [destruct Hr|].
  cbn [download] in H.
  destruct (fname row) as [name|e] eqn:Hname; [|discriminate H].
  assert (Hrest : forall r, In r rows ->
                            exists text, fetch (url r) = Return text /\ text <> "")
    by (intros r' Hr'; apply Hserved; right; exact Hr').
  destruct (present name dir) eqn:Hp.
  - destruct Hr as [<-|Hr]; [|exact (IH _ _ _ Hrest H r Hr)].
    destruct (download_keeps _ _ _ _ _ _ _ H) as (Hkeep & _).
    unfold missing. rewrite Hname. unfold present in *.
    rewrite (Hkeep name Hp). destruct (dir name) as [text|]; [|discriminate Hp].
    rewrite Hp. reflexivity.
  - destruct (Hserved row (or_introl eq_refl)) as (text & Hfetch & Htext).
    rewrite Hfetch in H.
    destruct (write_fails d name text) as [[e content]|]; [discriminate H|].
    destruct (download d fetch rows (write_text name text dir))
      as [[result2 dir2] asked2] eqn:Hdl.
    injection H as -> <- <-.
    destruct Hr as [<-|Hr]; [|exact (IH _ _ _ Hrest Hdl r Hr)].
    destruct (download_keeps _ _ _ _ _ _ _ Hdl) as (Hkeep & _).
    assert (Hnow : present name (write_text name text dir) = true).
    { unfold present, write_text, put. rewrite String.eqb_refl.
      destruct (text =? "")%string eqn:E; [|reflexivity].
      apply String.eqb_eq in E. contradiction. }
    unfold missing. rewrite Hname. unfold present in *.
    rewrite (Hkeep name Hnow).
    destruct (write_text name text dir name); [|discriminate Hnow].
    rewrite Hnow. reflexivity.
Qed.

(** With every file in place the loop asks for nothing and writes
    nothing, whatever the site and the disk would do. *)
Lemma download_nothing_missing :
  forall d fetch rows dir,
    (forall row, In row rows -> exists name, fname row = Return name) ->
    (forall row, In row rows -> missing dir row = false) ->
    download d fetch rows dir = (Return tt, dir, []).
Proof.
  intros d fetch rows; induction rows as [|row rows IH]; intros dir Hnames Hnone;
    cbn [download]; [reflexivity|].
  destruct (Hnames row (or_introl eq_refl)) as (name & Hname).
  pose proof (Hnone row (or_introl eq_refl)) as Hrow.
  unfold missing in Hrow. rewrite Hname in Hrow |- *.
  destruct (present name dir); [|discriminate Hrow].
  apply IH; intros r Hr; [apply Hnames|apply Hnone]; right; exact Hr.
Qed.

(** What makes the loop raise: a row without a date, or a file that
    could not be written. *)
Lemma download_raises :
  forall d fetch rows dir e dir' asked,
    download d fetch rows dir = (Raise e, dir', asked) ->
    (exists row, In row rows /\ fname row = Raise e)
    \/ exists row name text content,
         In row rows /\ fname row = Return name
         /\ fetch (url row) = Return text
         /\ write_fails d name text = Some (e, content).
Proof.
  intros d fetch rows; induction rows as [|row rows IH];
    intros dir e dir' asked H; cbn [download] in H; [discriminate H|].
  assert (Hlater :
    forall dir0 r0 d0 a0,
      download d fetch rows dir0 = (r0, d0, a0) -> r0 = Raise e ->
      (exists row0, In row0 (row :: rows) /\ fname row0 = Raise e)
      \/ exists row0 name text content,
           In row0 (row :: rows) /\ fname row0 = Return name
           /\ fetch (url row0) = Return text
           /\ write_fails d name text = Some (e, content)).
  { intros dir0 r0 d0 a0 Hrun ->.
    destruct (IH _ _ _ _ Hrun)
      as [(row0 & Hin & Hf)|(row0 & name & text & content & Hin & Hrest)].
    - left. exists row0. split; [right; exact Hin|exact Hf].
    - right. exists row0, name, text, content. split; [right; exact Hin|].
      exact Hrest. }
  destruct (fname row) as [name|e0] eqn:Hname.
  2:{ injection H as <- _ _. left. exists row.
      split; [left; reflexivity|exact Hname]. }
  destruct (present name dir).
  { exact (Hlater _ _ _ _ H eq_refl). }
  destruct (fetch (url row)) as [text|e0] eqn:Hfetch.
  - destruct (write_fails d name text) as [[e0 content]|] eqn:Hw.
    + injection H as <- _ _. right. exists row, name, text, content.
      split; [left; reflexivity|]. repeat split; assumption.
    + destruct (download d fetch rows (write_text name text dir))
        as [[result2 dir2] asked2] eqn:Hrest.
      injection H as -> _ _. exact (Hlater _ _ _ _ Hrest eq_refl).
  - destruct (download d fetch rows dir) as [[result2 dir2] asked2] eqn:Hrest.
    injection H as -> _ _. exact (Hlater _ _ _ _ Hrest eq_refl).
Qed.

(** X18.  The download loop of [main] does not fetch again what it has.
    A file that is in the output directory and is not empty is left as it
    is, and the loop asks for at most as many URLs as there are rows
    whose file is missing or empty; all of them URLs of such rows.  When
    every transcript is served with a text that is not empty, a second
    run over the same rows asks for nothing and changes nothing, whatever
    the site would answer then and whatever the disk would do. *)
Theorem download_does_not_fetch_again :
  forall d fetch rows dir dir' asked,
    download d fetch rows dir = (Return tt, dir', asked) ->
    (forall name, present name dir = true -> dir' name = dir name)
    /\ (List.length asked <= List.length (filter (missing dir) rows))%nat
    /\ incl asked (map url (filter (missing dir) rows))
    /\ ((forall row, In row rows ->
                     exists text, fetch (url row) = Return text /\ text <> "") ->
        forall d' fetch', download d' fetch' rows dir' = (Return tt, dir', [])).
Proof.
  intros d fetch rows dir dir' asked H.
  destruct (download_keeps _ _ _ _ _ _ _ H) as (Hkeep & Hlen & Hincl).
  split; [exact Hkeep|]. split; [exact Hlen|]. split; [exact Hincl|].
  intros Hserved d' fetch'. apply download_nothing_missing.
  - exact (download_names _ _ _ _ _ _ H).
  - exact (download_fills _ _ _ _ _ _ Hserved H).
Qed.

(** X18 at work: the file of the first transcript is there, the site
    fails on the second; one URL is asked for and the directory is as it
    was. *)
Lemma download_does_not_fetch_again_witness :
  download Examples.sound_disk Examples.site Examples.calls
    Examples.directory_with_one_file
  = (Return tt, Examples.directory_with_one_file, ["/article/4715382"])
  /\ (List.length ["/article/4715382"]
      <= List.length (filter (missing Examples.directory_with_one_file)
                             Examples.calls))%nat.
Proof.
  assert (Hrun : download Examples.sound_disk Examples.site Examples.calls
                   Examples.directory_with_one_file
                 = (Return tt, Examples.directory_with_one_file,
                    ["/article/4715382"]))
    by (vm_compute; reflexivity).
  split; [exact Hrun|].
  destruct (download_does_not_fetch_again _ _ _ _ _ _ Hrun) as (_ & Hlen & _).
  exact Hlen.
Defined.

(** The rows of a listing have a date, so each has a file name. *)
Lemma listing_rows :
  forall to_datetime get_soup tk max_pages rows,
    fst (list_earnings_call_transcripts_for_ticker to_datetime get_soup tk
           max_pages) = Return rows ->
    Forall (fun r =>
              ticker r = tk
              /\ contains "Earnings Call Transcript" (title r) = true
              /\ url r <> ""
              /\ in_range (date r) = true) rows.
Proof.
  intros to_datetime get_soup tk max_pages rows H.
  unfold list_earnings_call_transcripts_for_ticker in H.
  destruct (pages to_datetime get_soup tk (Z.to_nat max_pages) 1 [])
    as [result fetched] eqn:Hrun.
  cbn [fst] in H. subst result.
  destruct (CrawlFacts.pages_any to_datetime _ _ _ _ _ _ _ Hrun)
    as (_ & _ & Hrows & _).
  apply Forall_forall. intros r Hr. apply (Hrows rows eq_refl) in Hr.
  destruct Hr as [[]|(p & arts & art & _ & _ & _ & Hd & Hrange)].
  destruct (CrawlFacts.dated_shape to_datetime tk art r Hd) as (Ht & Hc & Hu).
  repeat split; assumption.
Qed.

Lemma in_range_has_name :
  forall r, in_range (date r) = true -> exists name, fname r = Return name.
Proof.
  intros r H. unfold fname. destruct (date r) as [|t|w].
  - discriminate H.
  - cbn. eauto.
  - discriminate H.
Qed.

(** X22.  [main] downloads only transcripts of the window.  When it
    raises, the exception is that of making the output directory, of the
    listing of NVDA, of the listing of KO after it, of writing the
    metadata file, or of writing the file of a transcript that was
    served: reading the dates of the rows cannot make it raise, and on a
    disk that takes every write it raises exactly when a listing does.
    When it returns, the metadata file holds the rows of NVDA followed by
    those of KO (no file when there is no row).  Whether it returns or
    raises, the files that were there and not empty are as they were, and
    every URL it has asked for belongs to a row of one of the two tickers
    whose title has "Earnings Call Transcript", whose date lies in the
    window and whose file was missing or empty. *)
Theorem main_downloads_only_the_transcripts_in_range :
  forall to_datetime get_soup d fetch dir,
    let listing := fun tk =>
      fst (list_earnings_call_transcripts_for_ticker to_datetime
             (get_soup tk) tk 10) in
    let run := Transcripts.main to_datetime get_soup d fetch dir in
    let result := fst (fst (fst run)) in
    let meta := snd (fst (fst run)) in
    let dir' := snd (fst run) in
    let asked := snd run in
    (forall e,
        result = Raise e ->
        mkdir d = Raise e
        \/ listing "NVDA" = Raise e
        \/ ((exists rows, listing "NVDA" = Return rows)
            /\ listing "KO" = Raise e)
        \/ (exists nvda ko,
               listing "NVDA" = Return nvda /\ listing "KO" = Return ko
               /\ (to_csv d (nvda ++ ko) = Raise e
                   \/ exists row name text content,
                        In row (nvda ++ ko) /\ fname row = Return name
                        /\ fetch (url row) = Return text
                        /\ write_fails d name text = Some (e, content))))
    /\ (mkdir d = Return tt ->
        (forall rows, to_csv d rows = Return tt) ->
        (forall name text, write_fails d name text = None) ->
        forall e,
          result = Raise e
          <-> listing "NVDA" = Raise e
              \/ (exists rows, listing "NVDA" = Return rows)
                 /\ listing "KO" = Raise e)
    /\ (result = Return tt ->
        exists nvda ko,
          listing "NVDA" = Return nvda
          /\ listing "KO" = Return ko
          /\ meta = match (nvda ++ ko)%list with
                    | [] => None
                    | rows => Some rows
                    end)
    /\ (forall name, present name dir = true -> dir' name = dir name)
    /\ (forall x,
           In x asked ->
           exists nvda ko r,
             listing "NVDA" = Return nvda /\ listing "KO" = Return ko
             /\ In r (nvda ++ ko) /\ url r = x
             /\ (ticker r = "NVDA" \/ ticker r = "KO")
             /\ contains "Earnings Call Transcript" (title r) = true
             /\ in_range (date r) = true
             /\ missing dir r = true).
Proof.
  intros to_datetime get_soup d fetch dir listing run result meta dir' asked.
  subst result meta dir' asked run.
  unfold Transcripts.main. fold (listing "NVDA") (listing "KO").
  pose proof (listing_rows to_datetime (get_soup "NVDA") "NVDA" 10) as Hn.
  pose proof (listing_rows to_datetime (get_soup "KO") "KO" 10) as Hk.
  fold (listing "NVDA") in Hn. fold (listing "KO") in Hk.
  destruct (mkdir d) as [[]|e0] eqn:Hmk.
  2:{ cbn [fst snd]. split; [|split; [|split; [|split]]].
      - intros e He. injection He as <-. left. reflexivity.
      - intros Hok. discriminate Hok.
      - intros H. discriminate H.
      - reflexivity.
      - intros x []. }
  destruct (listing "NVDA") as [nvda|e1].
  2:{ cbn [fst snd]. split; [|split; [|split; [|split]]].
      - intros e He. injection He as <-. right. left. reflexivity.
      - intros _ _ _ e. split.
        + intros He. injection He as <-. left. reflexivity.
        + intros [He|((rows & Hr) & _)]; [|discriminate Hr].
          injection He as <-. reflexivity.
      - intros H. discriminate H.
      - reflexivity.
      - intros x []. }
  destruct (listing "KO") as [ko|e2].
  2:{ cbn [fst snd]. split; [|split; [|split; [|split]]].
      - intros e He. injection He as <-. right. right. left.
        split; [eauto|reflexivity].
      - intros _ _ _ e. split.
        + intros He. injection He as <-. right. split; [eauto|reflexivity].
        + intros [He|(_ & He)]; [discriminate He|].
          injection He as <-. reflexivity.
      - intros H. discriminate H.
      - reflexivity.
      - intros x []. }
  specialize (Hn nvda eq_refl). specialize (Hk ko eq_refl).
  assert (Hall : Forall (fun r =>
                           (ticker r = "NVDA" \/ ticker r = "KO")
                           /\ contains "Earnings Call Transcript" (title r) = true
                           /\ in_range (date r) = true) (nvda ++ ko)).
  { apply Forall_app. split; eapply Forall_impl; try eassumption;
      intros r (Ht & Hc & _ & Hr); repeat split; auto. }
  rewrite Forall_forall in Hall.
  assert (Hnames : forall r e, In r (nvda ++ ko) -> fname r <> Raise e).
  { intros r e Hr Hf.
    destruct (in_range_has_name r (proj2 (proj2 (Hall r Hr)))) as (name & Hname).
    rewrite Hname in Hf. discriminate Hf. }
  destruct (nvda ++ ko)%list as [|r0 rows] eqn:Hrows.
  { cbn [fst snd]. split; [|split; [|split; [|split]]].
    - intros e He. discriminate He.
    - intros _ _ _ e. split; [discriminate|].
      intros [He|(_ & He)]; discriminate He.
    - intros _. exists nvda, ko. rewrite Hrows. repeat split.
    - reflexivity.
    - intros x []. }
  destruct (to_csv d (r0 :: rows)) as [[]|e3] eqn:Hcsv.
  2:{ cbn [fst snd]. split; [|split; [|split; [|split]]].
      - intros e He. injection He as <-. right. right. right.
        exists nvda, ko. rewrite Hrows. split; [reflexivity|].
        split; [reflexivity|]. left. exact Hcsv.
      - intros _ Hok. rewrite Hok in Hcsv. discriminate Hcsv.
      - intros H. discriminate H.
      - reflexivity.
      - intros x []. }
  destruct (download d fetch (r0 :: rows) dir) as [[res dir1] asked1] eqn:Hdl.
  cbn [fst snd].
  destruct (download_keeps _ _ _ _ _ _ _ Hdl) as (Hkeep & _ & Hincl).
  split; [|split; [|split; [|split]]].
  - intros e He. subst res. right. right. right. exists nvda, ko.
    rewrite Hrows. split; [reflexivity|]. split; [reflexivity|]. right.
    destruct (download_raises _ _ _ _ _ _ _ Hdl) as [(row & Hin & Hf)|H].
    + destruct (Hnames row e Hin Hf).
    + exact H.
  - intros _ _ Hwrites e. split.
    + intros He. subst res. exfalso.
      destruct (download_raises _ _ _ _ _ _ _ Hdl)
        as [(row & Hin & Hf)|(row & name & text & content & _ & _ & _ & Hw)].
      * destruct (Hnames row e Hin Hf).
      * rewrite Hwrites in Hw. discriminate Hw.
    + intros [He|(_ & He)]; discriminate He.
  - intros _. exists nvda, ko. rewrite Hrows. repeat split.
  - exact Hkeep.
  - intros x Hx. apply Hincl in Hx. apply in_map_iff in Hx.
    destruct Hx as (r & Hurl & Hr). apply filter_In in Hr.
    destruct Hr as (Hr & Hmiss). exists nvda, ko, r.
    destruct (Hall r Hr) as (Ht & Hc & Hrange). rewrite Hrows.
    repeat split; assumption.
Qed.

(** [main] on a disk that is full: the listing has one call, its text is
    served, writing it raises, and the empty file stays behind. *)
Example full_disk_ends_main :
  let run := Transcripts.main Scenario.sa_to_datetime
               (fun _ => Scenario.sa_listing) Examples.full_disk
               (fun _ => Return "Operator: Good afternoon.") (fun _ => None) in
  fst (fst (fst run)) = Raise OSError
  /\ snd (fst run) "NVDA_2024-11-20_earnings_call.txt" = Some ""
  /\ snd run = ["/article/4739005"].
Proof. vm_compute. repeat split. Qed.

End TranscriptFacts.

(** ** Numbers written and read back *)

Module NumberFacts.

Import Literals.

Lemma uint_all_digits :
  forall d, all_digits (NilEmpty.string_of_uint d) = true.
Proof. induction d; cbn; auto. Qed.

(** Reading the digits of a number, with the digits before them in the
    accumulator. *)
Lemma digits_after :
  forall d acc,
    digits (NilEmpty.string_of_uint d) (Z.pos acc) true
    = Some (Z.pos (Pos.of_uint_acc d acc)).
Proof.
  induction d; intros acc; cbn [NilEmpty.string_of_uint digits Pos.of_uint_acc];
    [reflexivity|..];
    match goal with
    | |- context [is_digit ?c] =>
        change (is_digit c) with true; cbv iota;
        let v := eval vm_compute in (digit_value c) in
        change (digit_value c) with v
    end;
    rewrite <- IHd; f_equal; lia.
Qed.

Lemma digits_of_uint :
  forall d after,
    d <> Decimal.Nil \/ after = true ->
    digits (NilEmpty.string_of_uint d) 0 after
    = Some (Z.of_N (Pos.of_uint d)).
Proof.
  induction d; intros after Hne;
    cbn [NilEmpty.string_of_uint digits Pos.of_uint].
  - destruct Hne as [Hne| ->]; [contradiction|reflexivity].
  - change (is_digit "0") with true. cbv iota.
    change (10 * 0 + digit_value "0") with 0. apply IHd. right; reflexivity.
  - change (is_digit "1") with true. cbv iota.
    change (10 * 0 + digit_value "1") with (Z.pos 1). apply digits_after.
  - change (is_digit "2") with true. cbv iota.
    change (10 * 0 + digit_value "2") with (Z.pos 2). apply digits_after.
  - change (is_digit "3") with true. cbv iota.
    change (10 * 0 + digit_value "3") with (Z.pos 3). apply digits_after.
  - change (is_digit "4") with true. cbv iota.
    change (10 * 0 + digit_value "4") with (Z.pos 4). apply digits_after.
  - change (is_digit "5") with true. cbv iota.
    change (10 * 0 + digit_value "5") with (Z.pos 5). apply digits_after.
  - change (is_digit "6") with true. cbv iota.
    change (10 * 0 + digit_value "6") with (Z.pos 6). apply digits_after.
  - change (is_digit "7") with true. cbv iota.
    change (10 * 0 + digit_value "7") with (Z.pos 7). apply digits_after.
  - change (is_digit "8") with true. cbv iota.
    change (10 * 0 + digit_value "8") with (Z.pos 8). apply digits_after.
  - change (is_digit "9") with true. cbv iota.
    change (10 * 0 + digit_value "9") with (Z.pos 9). apply digits_after.
Qed.

Lemma to_uint_not_nil : forall p, Pos.to_uint p <> Decimal.Nil.
Proof.
  intros p H. pose proof (Unsigned.of_to p) as Hof. rewrite H in Hof.
  discriminate Hof.
Qed.

Lemma uint_string_not_empty :
  forall d, d <> Decimal.Nil -> NilEmpty.string_of_uint d <> "".
Proof. intros d Hne. destruct d; [contradiction|discriminate ..]. Qed.

(** [int] of a string of digits reads its digits. *)
Lemma int_of_string_digits :
  forall s, ascii_isdigit s = true -> ascii_int s = digits s 0 false.
Proof.
  intros s H. destruct s as [|c s]; [discriminate H|].
  unfold ascii_isdigit in H. pose proof H as Hall.
  cbn [all_digits] in H. apply andb_true_iff in H. destruct H as (Hc & Hs).
  unfold ascii_int, strip.
  assert (Hl : lstrip (String c s) = String c s).
  { cbn [lstrip]. rewrite (digit_not_space c Hc). reflexivity. }
  rewrite Hl, (rstrip_digits _ Hall).
  destruct c as [[] [] [] [] [] [] [] []]; try discriminate Hc; reflexivity.
Qed.

Lemma int_of_string_minus :
  forall s,
    ascii_isdigit s = true ->
    ascii_int (String "-" s) = option_map Z.opp (digits s 0 false).
Proof.
  intros s H. destruct s as [|c s]; [discriminate H|].
  unfold ascii_isdigit in H. unfold ascii_int, strip.
  change (lstrip (String "-" (String c s))) with (String "-" (String c s)).
  change (rstrip (String "-" (String c s)))
    with (match rstrip (String c s) with
          | EmptyString =>
              if is_space "-" then EmptyString else String "-" EmptyString
          | String c' s' => String "-" (String c' s')
          end).
  rewrite (rstrip_digits _ H). reflexivity.
Qed.

Lemma isdigit_uint :
  forall d, d <> Decimal.Nil -> ascii_isdigit (NilEmpty.string_of_uint d) = true.
Proof.
  intros d Hne. pose proof (uint_all_digits d) as Hall.
  pose proof (uint_string_not_empty d Hne) as Hs.
  unfold ascii_isdigit. destruct (NilEmpty.string_of_uint d); [contradiction|exact Hall].
Qed.

(** [int(str(n))] is [n]. *)
Lemma int_of_str :
  forall n, ascii_int (NilEmpty.string_of_int (Z.to_int n)) = Some n.
Proof.
  intros [|p|p]; cbn [Z.to_int NilEmpty.string_of_int].
  - reflexivity.
  - rewrite int_of_string_digits by (apply isdigit_uint, to_uint_not_nil).
    rewrite digits_of_uint by (left; apply to_uint_not_nil).
    rewrite Unsigned.of_to. reflexivity.
  - rewrite int_of_string_minus by (apply isdigit_uint, to_uint_not_nil).
    rewrite digits_of_uint by (left; apply to_uint_not_nil).
    rewrite Unsigned.of_to. reflexivity.
Qed.

(** The text [str] makes of an int is ASCII. *)
Lemma digits_are_ascii :
  forall s, all_digits s = true -> all_ascii s = true.
Proof.
  induction s as [|c s IH]; intros H; [reflexivity|].
  cbn [all_digits] in H. apply andb_true_iff in H. destruct H as (Hc & Hs).
  cbn [all_ascii]. rewrite (IH Hs), andb_true_r.
  unfold is_digit in Hc. unfold is_ascii.
  apply andb_true_iff in Hc. destruct Hc as (_ & Hc).
  apply Nat.leb_le in Hc. apply Nat.ltb_lt. lia.
Qed.

Lemma str_of_int_ascii :
  forall n, all_ascii (NilEmpty.string_of_int (Z.to_int n)) = true.
Proof.
  intros [|p|p]; cbn [Z.to_int NilEmpty.string_of_int].
  - reflexivity.
  - apply digits_are_ascii, uint_all_digits.
  - cbn [all_ascii]. rewrite (digits_are_ascii _ (uint_all_digits _)).
    reflexivity.
Qed.

(** What [str] returns for an int, [int] reads back. *)
Lemma int_of_str_of_int :
  forall u n text, str_of_int n = Some text -> int_of_string u text = Some n.
Proof.
  intros u n text H. unfold str_of_int in H. cbv zeta in H.
  destruct (count_digits (NilEmpty.string_of_int (Z.to_int n))
            <=? max_str_digits) eqn:Hc; [|discriminate H].
  injection H as <-. unfold int_of_string.
  rewrite str_of_int_ascii, Hc. apply int_of_str.
Qed.

(** X21.  A number is read back as it was written.  Whenever [str(n)]
    returns, that is for an int of at most 4300 digits, [int] reads the
    text back as [n], so the filter reads a timestamp that the service
    sends as a number like the same timestamp sent as a string of digits.
    A value sent as such a number, or as its text, is kept when it is not
    negative, and becomes [None] when it is negative, because
    [str(n).isdigit()] is false for a text with a minus sign. *)
Theorem a_number_is_read_back_as_it_was_written :
  forall repr u n text,
    Fng.str repr (JInt n) = Return text ->
    int_of_string u text = Some n
    /\ Fng.read_timestamp repr u (JInt n) = Some n
    /\ Fng.read_timestamp repr u (JStr text) = Some n
    /\ Fng.normalized_value repr u (JInt n)
       = Return (if 0 <=? n then Some n else None)
    /\ Fng.normalized_value repr u (JStr text)
       = Return (if 0 <=? n then Some n else None).
Proof.
  intros repr u n text Hstr.
  assert (Htext : str_of_int n = Some text).
  { cbn [Fng.str] in Hstr. destruct (str_of_int n); [|discriminate Hstr].
    injection Hstr as <-. reflexivity. }
  pose proof (int_of_str_of_int u n text Htext) as Hint.
  assert (Hdigit : isdigit u text = (0 <=? n)).
  { unfold str_of_int in Htext. cbv zeta in Htext.
    destruct (count_digits (NilEmpty.string_of_int (Z.to_int n))
              <=? max_str_digits); [|discriminate Htext].
    injection Htext as <-. unfold isdigit. rewrite str_of_int_ascii.
    destruct n as [|p|p]; cbn [Z.to_int NilEmpty.string_of_int].
    - reflexivity.
    - apply isdigit_uint, to_uint_not_nil.
    - reflexivity. }
  split; [exact Hint|].
  unfold Fng.read_timestamp, Fng.normalized_value.
  cbn [Fng.is_int_or_str]. rewrite Hstr. cbn [Fng.str bind Fng.int].
  rewrite Hint, Hdigit.
  repeat split; destruct (0 <=? n); reflexivity.
Qed.

(** X21 at work: midnight of 1 January 2024. *)
Lemma a_number_is_read_back_as_it_was_written_witness :
  Fng.read_timestamp Scenario.opaque_repr Scenario.ascii_only (JInt 1704067200)
  = Fng.read_timestamp Scenario.opaque_repr Scenario.ascii_only
      (JStr "1704067200").
Proof.
  destruct (a_number_is_read_back_as_it_was_written Scenario.opaque_repr
              Scenario.ascii_only 1704067200 "1704067200")
    as (_ & Hnumber & Htext & _); [vm_compute; reflexivity|].
  rewrite Hnumber, Htext. reflexivity.
Defined.

End NumberFacts.
(* ================================================================== *)
(** ** fred_data_fetch.py: what [main] leaves on disk                  *)
(* ================================================================== *)

Module FredFacts.

Import Fred.

(** The loop over any list of series. *)
Lemma loop_spec :
  forall w start end_ rs re series written r out,
    loop w start end_ rs re series written = (r, out) ->
    exists done,
      out = (written ++ done)%list
      /\ (List.length done <= List.length series)%nat
      /\ map fst done
         = firstn (List.length done)
             (map (fun s => filename (fst s) start end_) series)
      /\ (forall i path data,
             nth_error done i = Some (path, data) ->
             exists name id,
               nth_error series i = Some (name, id)
               /\ fetch_series w id start end_ rs re = Return data
               /\ json_dump w path data = Return tt)
      /\ (r = Return tt
          <-> List.length done = List.length series
              /\ forall f, In f done -> printed_rows (snd f) = Return tt)
      /\ (forall e,
             r = Raise e ->
             (exists path data,
                 nth_error done (List.length done - 1) = Some (path, data)
                 /\ done <> []
                 /\ printed_rows data = Raise e)
             \/ (forall f, In f done -> printed_rows (snd f) = Return tt)
                /\ exists name id,
                     nth_error series (List.length done) = Some (name, id)
                     /\ match fetch_series w id start end_ rs re with
                        | Raise e' => e' = e
                        | Return data =>
                            json_dump w (filename name start end_) data = Raise e
                        end).
Proof.
  intros w start end_ rs re series.
  induction series as [|[name id] rest IH]; intros written r out Hrun;
    cbn [loop] in Hrun.
  - injection Hrun as <- <-. exists []. rewrite app_nil_r.
    split; [reflexivity|]. split; [cbn; lia|]. split; [reflexivity|].
    split; [intros [|i] path data Hi; discriminate Hi|].
    split; [split; [intros _; split; [reflexivity|intros f []]|reflexivity]|].
    intros e He. discriminate He.
  - destruct (fetch_series w id start end_ rs re) as [payload|e1] eqn:Hfetch.
    2:{ injection Hrun as <- <-. exists []. rewrite app_nil_r.
        split; [reflexivity|]. split; [cbn; lia|]. split; [reflexivity|].
        split; [intros [|i] path data Hi; discriminate Hi|].
        split; [split; [intros H; discriminate H|intros [H _]; discriminate H]|].
        intros e He. injection He as <-. right. split; [intros f []|].
        exists name, id. cbn. rewrite Hfetch. auto. }
    destruct (json_dump w (filename name start end_) payload) as [[]|e2] eqn:Hdump.
    2:{ injection Hrun as <- <-. exists []. rewrite app_nil_r.
        split; [reflexivity|]. split; [cbn; lia|]. split; [reflexivity|].
        split; [intros [|i] path data Hi; discriminate Hi|].
        split; [split; [intros H; discriminate H|intros [H _]; discriminate H]|].
        intros e He. injection He as <-. right. split; [intros f []|].
        exists name, id. cbn. rewrite Hfetch. auto. }
    destruct (printed_rows payload) as [[]|e3] eqn:Hrows.
    2:{ injection Hrun as <- <-. exists [(filename name start end_, payload)].
        split; [reflexivity|]. split; [cbn; lia|]. split; [reflexivity|].
        split.
        { intros [|[|i]] path data Hi; try discriminate Hi.
          injection Hi as <- <-. exists name, id. auto. }
        split.
        { split; [intros H; discriminate H|].
          intros [_ H]. specialize (H _ (or_introl eq_refl)). cbn in H.
          rewrite Hrows in H. discriminate H. }
        intros e He. injection He as <-. left.
        exists (filename name start end_), payload.
        split; [reflexivity|]. split; [discriminate|exact Hrows]. }
    destruct (IH _ _ _ Hrun) as (done & -> & Hlen & Hnames & Hfrom & Hret & Hraise).
    exists ((filename name start end_, payload) :: done).
    split; [rewrite <- app_assoc; reflexivity|].
    split; [cbn; lia|].
    split; [cbn [map fst List.length firstn]; rewrite Hnames at 1; reflexivity|].
    split.
    { intros [|i] path data Hi.
      - injection Hi as <- <-. exists name, id. auto.
      - apply (Hfrom i path data Hi). }
    split.
    { rewrite Hret. cbn [List.length]. split.
      - intros [Hl Hall]. split; [lia|].
        intros f [<-|Hf]; [exact Hrows|auto].
      - intros [Hl Hall]. split; [lia|]. intros f Hf. apply Hall. right; exact Hf. }
    intros e He. destruct (Hraise e He) as [(path & data & Hlast & Hne & Hbad)|[Hall Hnext]].
    + left. exists path, data. split; [|split; [discriminate|exact Hbad]].
      cbn [List.length]. destruct done as [|d done']; [contradiction Hne; reflexivity|].
      cbn [List.length] in *.
      replace (S (S (List.length done')) - 1)%nat with (S (S (List.length done') - 1))%nat by lia.
      exact Hlast.
    + right. split; [intros f [<-|Hf]; [exact Hrows|auto]|]. exact Hnext.
Qed.

(** X23.  What [main] of the FRED script leaves on disk.  The files it
    writes are those of the first [n] of its three series (dollar index,
    overnight rate, market volatility), in that order, each holding the
    document the server sent for that series.  It returns exactly when it
    has written all three and each is a dict whose "observations", when
    there, have a length.  When it raises, either the last file written
    holds a document whose rows could not be counted (not a dict, or
    "observations" without a length): that file stays on disk; or the
    fetch or the write of the next series raised, and that file is not
    among the files completed.  No later series is saved. *)
Theorem fred_main_keeps_the_file_it_cannot_count :
  forall w start end_ rs re,
    let run := Fred.main w start end_ rs re in
    let written := snd run in
    exists n,
      (n <= 3)%nat
      /\ List.length written = n
      /\ map fst written
         = firstn n (map (fun s => filename (fst s) start end_) SERIES_IDS)
      /\ (forall i path data,
             nth_error written i = Some (path, data) ->
             exists name id,
               nth_error SERIES_IDS i = Some (name, id)
               /\ fetch_series w id start end_ rs re = Return data
               /\ json_dump w path data = Return tt)
      /\ (fst run = Return tt
          <-> n = 3%nat
              /\ forall f, In f written -> printed_rows (snd f) = Return tt)
      /\ (forall e,
             fst run = Raise e ->
             (exists path data,
                 nth_error written (n - 1) = Some (path, data)
                 /\ (0 < n)%nat
                 /\ printed_rows data = Raise e)
             \/ (forall f, In f written -> printed_rows (snd f) = Return tt)
                /\ exists name id,
                     nth_error SERIES_IDS n = Some (name, id)
                     /\ match fetch_series w id start end_ rs re with
                        | Raise e' => e' = e
                        | Return data =>
                            json_dump w (filename name start end_) data = Raise e
                        end).
Proof.
  intros w start end_ rs re run written. subst written run.
  unfold Fred.main.
  replace (SeekingAlpha.contains "your_api_key_here" API_KEY) with false
    by (vm_compute; reflexivity).
  destruct (loop w start end_ rs re SERIES_IDS []) as [r out] eqn:Hrun.
  destruct (loop_spec _ _ _ _ _ _ _ _ _ Hrun)
    as (done & -> & Hlen & Hnames & Hfrom & Hret & Hraise).
  cbn [app fst snd]. exists (List.length done).
  split; [exact Hlen|]. split; [reflexivity|]. split; [exact Hnames|].
  split; [exact Hfrom|]. split; [exact Hret|].
  intros e He. destruct (Hraise e He) as [(path & data & Hlast & Hne & Hbad)|H].
  - left. exists path, data. split; [exact Hlast|]. split; [|exact Hbad].
    destruct done; [contradiction Hne; reflexivity|cbn; lia].
  - right. exact H.
Qed.

End FredFacts.

